(** * Synaptics DSX firmware updater

    A shallow embedding of the reflash engine of the Synaptics DSX touch
    controller driver (the firmware-update source file of the driver):
    the go/no-go decision, the size checks, the partition-table
    comparison, the TDAT record validation, the descriptor-table scan,
    the F34 erase sequence, the completion wait, the F35 recovery chunk
    writer and the exported update entry point.

    The driver keeps its state in one heap-allocated handle ([fwu]) and
    talks to the controller through the register transport of the core
    driver.  Here the handle is a record threaded through a small state
    monad, and the controller is an oracle that answers every bus
    transaction from the history of the transactions issued so far; the
    history itself is the observable trace of the driver. *)

From Stdlib Require Import ZArith List Bool Lia.
Import ListNotations.
Local Open Scope Z_scope.

(** ** Machine integers

    C integers are modelled as [Z]; the conversions to the unsigned
    types of the source are written out where the source narrows. *)

Definition u8 (x : Z) : Z := x mod 2 ^ 8.
Definition u16 (x : Z) : Z := x mod 2 ^ 16.
Definition u32 (x : Z) : Z := x mod 2 ^ 32.

(** ** Memory

    A [const unsigned char *] is the function from an index to the byte
    stored there; [None] is the NULL pointer.  Nothing bounds the index:
    like the C code, a model function may read past the size that comes
    with a pointer, and what it finds there is whatever the function
    says. *)

Definition buffer := Z -> Z.
Definition pointer := option buffer.

Definition rd (p : buffer) (i : Z) : Z := u8 (p i).
Definition ptr_add (p : buffer) (k : Z) : buffer := fun i => p (k + i).

Definition buf_of_list (l : list Z) : buffer :=
  fun i => if i <? 0 then 0 else nth (Z.to_nat i) l 0.

(** The [n] bytes found at offset [off]. *)
Definition slice (p : buffer) (off : Z) (n : nat) : list Z :=
  map (fun i => rd p (off + Z.of_nat i)) (seq 0 n).

(** ** Enumerations of the source *)

Definition BL_V5 : Z := 5.
Definition BL_V6 : Z := 6.
Definition BL_V7 : Z := 7.
Definition BL_V8 : Z := 8.

Definition F34_V0 : Z := 0.
Definition F34_V1 : Z := 1.
Definition F34_V2 : Z := 2.

Inductive flash_area := NONE | UI_FIRMWARE | UI_CONFIG.

Inductive config_area :=
| UI_CONFIG_AREA | PM_CONFIG_AREA | BL_CONFIG_AREA | DP_CONFIG_AREA
| FLASH_CONFIG_AREA.

(** [enum v7_status] *)
Definition BAD_PARTITION_TABLE : Z := 8.

(** [enum v7_partition_id] *)
Definition BOOTLOADER_PARTITION : Z := 1.
Definition DEVICE_CONFIG_PARTITION : Z := 2.
Definition FLASH_CONFIG_PARTITION : Z := 3.
Definition MANUFACTURING_BLOCK_PARTITION : Z := 4.
Definition GUEST_SERIALIZATION_PARTITION : Z := 5.
Definition GLOBAL_PARAMETERS_PARTITION : Z := 6.
Definition CORE_CODE_PARTITION : Z := 7.
Definition CORE_CONFIG_PARTITION : Z := 8.
Definition GUEST_CODE_PARTITION : Z := 9.
Definition DISPLAY_CONFIG_PARTITION : Z := 10.

(** [enum v7_flash_command] *)
Definition CMD_V7_IDLE : Z := 0.
Definition CMD_V7_ENTER_BL : Z := 1.
Definition CMD_V7_READ : Z := 2.
Definition CMD_V7_WRITE : Z := 3.
Definition CMD_V7_ERASE : Z := 4.
Definition CMD_V7_ERASE_AP : Z := 5.
Definition CMD_V7_SENSOR_ID : Z := 6.

(** [enum v5v6_flash_command] *)
Definition CMD_V5V6_IDLE : Z := 0.
Definition CMD_V5V6_WRITE_FW : Z := 2.
Definition CMD_V5V6_ERASE_ALL : Z := 3.
Definition CMD_V5V6_WRITE_LOCKDOWN : Z := 4.
Definition CMD_V5V6_READ_CONFIG : Z := 5.
Definition CMD_V5V6_WRITE_CONFIG : Z := 6.
Definition CMD_V5V6_ERASE_UI_CONFIG : Z := 7.
Definition CMD_V5V6_ERASE_BL_CONFIG : Z := 9.
Definition CMD_V5V6_ERASE_DISP_CONFIG : Z := 10.
Definition CMD_V5V6_ERASE_GUEST_CODE : Z := 11.
Definition CMD_V5V6_WRITE_GUEST_CODE : Z := 12.
Definition CMD_V5V6_ENABLE_FLASH_PROG : Z := 15.

(** [enum flash_command]: the version-independent commands *)
Inductive flash_command :=
| CMD_IDLE | CMD_WRITE_FW | CMD_WRITE_CONFIG | CMD_WRITE_LOCKDOWN
| CMD_WRITE_GUEST_CODE | CMD_READ_CONFIG | CMD_ERASE_ALL
| CMD_ERASE_UI_FIRMWARE | CMD_ERASE_UI_CONFIG | CMD_ERASE_BL_CONFIG
| CMD_ERASE_DISP_CONFIG | CMD_ERASE_FLASH_CONFIG | CMD_ERASE_GUEST_CODE
| CMD_ENABLE_FLASH_PROG.

(** The value of an enumerator. *)
Definition flash_command_code (cmd : flash_command) : Z :=
  match cmd with
  | CMD_IDLE => 0 | CMD_WRITE_FW => 1 | CMD_WRITE_CONFIG => 2
  | CMD_WRITE_LOCKDOWN => 3 | CMD_WRITE_GUEST_CODE => 4
  | CMD_READ_CONFIG => 5 | CMD_ERASE_ALL => 6 | CMD_ERASE_UI_FIRMWARE => 7
  | CMD_ERASE_UI_CONFIG => 8 | CMD_ERASE_BL_CONFIG => 9
  | CMD_ERASE_DISP_CONFIG => 10 | CMD_ERASE_FLASH_CONFIG => 11
  | CMD_ERASE_GUEST_CODE => 12 | CMD_ENABLE_FLASH_PROG => 13
  end.

(** [enum f35_flash_command] *)
Definition CMD_F35_WRITE_CHUNK : Z := 2.
Definition CMD_F35_ERASE_ALL : Z := 3.
Definition CMD_F35_RESET : Z := 16.

(** Constants of the source file *)
Definition V5V6_CONFIG_ID_SIZE : Z := 4.
Definition V7_CONFIG_ID_SIZE : Z := 32.
Definition F35_ERROR_CODE_OFFSET : Z := 0.
Definition F35_CHUNK_NUM_LSB_OFFSET : Z := 0.
Definition F35_CHUNK_DATA_OFFSET : Z := 2.
Definition F35_CHUNK_COMMAND_OFFSET : Z := 18.
Definition F35_CHUNK_SIZE : Z := 16.
Definition ENABLE_WAIT_MS : Z := 1 * 1000.
Definition WRITE_WAIT_MS : Z := 3 * 1000.
Definition ERASE_WAIT_MS : Z := 5 * 1000.

(** ** Declarations of the driver header

    The source includes the header of the core driver, which is not part
    of the sources at hand.  What the update engine takes from it (and
    from the kernel's errno table) is a parameter of the development. *)

Record synaptics_rmi4_fn_desc := {
  query_base_addr : Z;
  cmd_base_addr : Z;
  ctrl_base_addr : Z;
  data_base_addr : Z;
  intr_src_count : Z;
  fn_version : Z;
  fn_number : Z
}.

Record dsx_header := {
  PDT_START : Z;
  PDT_END : Z;
  PDT_ENTRY_SIZE : Z;
  SYNAPTICS_RMI4_F01 : Z;
  SYNAPTICS_RMI4_F34 : Z;
  SYNAPTICS_RMI4_F35 : Z;
  MASK_3BIT : Z;
  MASK_4BIT : Z;
  MASK_5BIT : Z;
  MASK_6BIT : Z;
  MASK_7BIT : Z;
  EINVAL : Z;
  ENODEV : Z;
  ETIMEDOUT : Z;
  SYNAPTICS_RMI4_BUILD_ID_SIZE : Z;
  (** [sizeof(struct synaptics_rmi4_fn_desc)] and the layout of the
      descriptor in the bytes of one table entry *)
  sizeof_fn_desc : Z;
  fn_desc_of_bytes : list Z -> synaptics_rmi4_fn_desc;
  (** [batohui(&dest, src, size)]: the value stored in [dest] *)
  batohui : buffer -> Z -> Z;
  (** [secure_memcpy(dest, dest_size, src, src_size, count)]: the return
      value and the bytes of [dest] afterwards *)
  secure_memcpy : list Z -> Z -> pointer -> Z -> Z -> Z * list Z
}.

(** ** The data of the update engine

    The structures of the source, with the fields the modelled functions
    use.  Field names are those of the source, except where two
    structures share a name: the fields of [struct block_count],
    [struct physical_address] and [struct register_offset] carry the
    prefixes [blk_], [phy_] and [off_], the copies inside
    [struct image_metadata] the prefix [img_], and [fwu->config_area] is
    [config_area_sel] (its type has the name of the enumeration). *)

Record block_data := { size : Z; data : pointer }.

Record block_count := {
  blk_ui_firmware : Z;
  blk_ui_config : Z;
  blk_dp_config : Z;
  blk_fl_config : Z;
  blk_pm_config : Z;
  blk_bl_config : Z;
  blk_lockdown : Z;
  blk_guest_code : Z
}.

Record physical_address := {
  phy_ui_firmware : Z;
  phy_ui_config : Z;
  phy_dp_config : Z;
  phy_guest_code : Z
}.

Record register_offset := {
  off_flash_status : Z;
  off_partition_id : Z;
  off_block_number : Z;
  off_transfer_length : Z;
  off_flash_cmd : Z;
  off_payload : Z
}.

(** The bits of [struct f34_v5v6_flash_properties] the engine tests. *)
Record f34_v5v6_flash_properties := {
  has_pm_config : bool;
  has_bl_config : bool;
  has_disp_config : bool
}.

Record image_metadata := {
  contains_firmware_id : bool;
  contains_bootloader : bool;
  contains_disp_config : bool;
  contains_guest_code : bool;
  contains_flash_config : bool;
  firmware_id : Z;
  img_bl_version : Z;
  ui_firmware : block_data;
  ui_config : block_data;
  dp_config : block_data;
  fl_config : block_data;
  bl_config : block_data;
  guest_code : block_data;
  lockdown : block_data;
  img_blkcount : block_count;
  img_phyaddr : physical_address
}.

(** The fields of [struct synaptics_rmi4_data] the engine uses. *)
Record synaptics_rmi4_data := {
  f01_query_base_addr : Z;
  f01_ctrl_base_addr : Z;
  f01_data_base_addr : Z;
  f01_cmd_base_addr : Z;
  build_id : list Z
}.

Record synaptics_rmi4_fwu_handle := {
  bl_version : Z;
  initialized : bool;
  in_bl_mode : bool;
  in_ub_mode : bool;
  force_update : bool;
  has_guest_code : bool;
  new_partition_table : bool;
  intr_mask : Z;
  command : Z;
  bootloader_id : Z * Z;
  config_id : list Z;
  flash_status : Z;
  partitions : Z;
  block_size : Z;
  config_area_sel : config_area;
  image : pointer;
  image_size : Z;
  img : image_metadata;
  off : register_offset;
  blkcount : block_count;
  phyaddr : physical_address;
  flash_properties : f34_v5v6_flash_properties;
  f34_fd : synaptics_rmi4_fn_desc;
  f35_fd : synaptics_rmi4_fn_desc;
  rmi4_data : synaptics_rmi4_data
}.

(** Field updates ([fwu->field = v]). *)

Definition set_bl_version v (h : synaptics_rmi4_fwu_handle) :=
  Build_synaptics_rmi4_fwu_handle
    v (initialized h) (in_bl_mode h) (in_ub_mode h) (force_update h)
    (has_guest_code h) (new_partition_table h) (intr_mask h) (command h)
    (bootloader_id h) (config_id h) (flash_status h) (partitions h)
    (block_size h) (config_area_sel h) (image h) (image_size h) (img h)
    (off h) (blkcount h) (phyaddr h) (flash_properties h) (f34_fd h)
    (f35_fd h) (rmi4_data h).

Definition set_initialized v (h : synaptics_rmi4_fwu_handle) :=
  Build_synaptics_rmi4_fwu_handle
    (bl_version h) v (in_bl_mode h) (in_ub_mode h) (force_update h)
    (has_guest_code h) (new_partition_table h) (intr_mask h) (command h)
    (bootloader_id h) (config_id h) (flash_status h) (partitions h)
    (block_size h) (config_area_sel h) (image h) (image_size h) (img h)
    (off h) (blkcount h) (phyaddr h) (flash_properties h) (f34_fd h)
    (f35_fd h) (rmi4_data h).

Definition set_in_bl_mode v (h : synaptics_rmi4_fwu_handle) :=
  Build_synaptics_rmi4_fwu_handle
    (bl_version h) (initialized h) v (in_ub_mode h) (force_update h)
    (has_guest_code h) (new_partition_table h) (intr_mask h) (command h)
    (bootloader_id h) (config_id h) (flash_status h) (partitions h)
    (block_size h) (config_area_sel h) (image h) (image_size h) (img h)
    (off h) (blkcount h) (phyaddr h) (flash_properties h) (f34_fd h)
    (f35_fd h) (rmi4_data h).

Definition set_in_ub_mode v (h : synaptics_rmi4_fwu_handle) :=
  Build_synaptics_rmi4_fwu_handle
    (bl_version h) (initialized h) (in_bl_mode h) v (force_update h)
    (has_guest_code h) (new_partition_table h) (intr_mask h) (command h)
    (bootloader_id h) (config_id h) (flash_status h) (partitions h)
    (block_size h) (config_area_sel h) (image h) (image_size h) (img h)
    (off h) (blkcount h) (phyaddr h) (flash_properties h) (f34_fd h)
    (f35_fd h) (rmi4_data h).

Definition set_force_update v (h : synaptics_rmi4_fwu_handle) :=
  Build_synaptics_rmi4_fwu_handle
    (bl_version h) (initialized h) (in_bl_mode h) (in_ub_mode h) v
    (has_guest_code h) (new_partition_table h) (intr_mask h) (command h)
    (bootloader_id h) (config_id h) (flash_status h) (partitions h)
    (block_size h) (config_area_sel h) (image h) (image_size h) (img h)
    (off h) (blkcount h) (phyaddr h) (flash_properties h) (f34_fd h)
    (f35_fd h) (rmi4_data h).

Definition set_has_guest_code v (h : synaptics_rmi4_fwu_handle) :=
  Build_synaptics_rmi4_fwu_handle
    (bl_version h) (initialized h) (in_bl_mode h) (in_ub_mode h)
    (force_update h) v (new_partition_table h) (intr_mask h) (command h)
    (bootloader_id h) (config_id h) (flash_status h) (partitions h)
    (block_size h) (config_area_sel h) (image h) (image_size h) (img h)
    (off h) (blkcount h) (phyaddr h) (flash_properties h) (f34_fd h)
    (f35_fd h) (rmi4_data h).

Definition set_new_partition_table v (h : synaptics_rmi4_fwu_handle) :=
  Build_synaptics_rmi4_fwu_handle
    (bl_version h) (initialized h) (in_bl_mode h) (in_ub_mode h)
    (force_update h) (has_guest_code h) v (intr_mask h) (command h)
    (bootloader_id h) (config_id h) (flash_status h) (partitions h)
    (block_size h) (config_area_sel h) (image h) (image_size h) (img h)
    (off h) (blkcount h) (phyaddr h) (flash_properties h) (f34_fd h)
    (f35_fd h) (rmi4_data h).

Definition set_intr_mask v (h : synaptics_rmi4_fwu_handle) :=
  Build_synaptics_rmi4_fwu_handle
    (bl_version h) (initialized h) (in_bl_mode h) (in_ub_mode h)
    (force_update h) (has_guest_code h) (new_partition_table h) v
    (command h) (bootloader_id h) (config_id h) (flash_status h)
    (partitions h) (block_size h) (config_area_sel h) (image h)
    (image_size h) (img h) (off h) (blkcount h) (phyaddr h)
    (flash_properties h) (f34_fd h) (f35_fd h) (rmi4_data h).

Definition set_command v (h : synaptics_rmi4_fwu_handle) :=
  Build_synaptics_rmi4_fwu_handle
    (bl_version h) (initialized h) (in_bl_mode h) (in_ub_mode h)
    (force_update h) (has_guest_code h) (new_partition_table h)
    (intr_mask h) v (bootloader_id h) (config_id h) (flash_status h)
    (partitions h) (block_size h) (config_area_sel h) (image h)
    (image_size h) (img h) (off h) (blkcount h) (phyaddr h)
    (flash_properties h) (f34_fd h) (f35_fd h) (rmi4_data h).

Definition set_bootloader_id v (h : synaptics_rmi4_fwu_handle) :=
  Build_synaptics_rmi4_fwu_handle
    (bl_version h) (initialized h) (in_bl_mode h) (in_ub_mode h)
    (force_update h) (has_guest_code h) (new_partition_table h)
    (intr_mask h) (command h) v (config_id h) (flash_status h)
    (partitions h) (block_size h) (config_area_sel h) (image h)
    (image_size h) (img h) (off h) (blkcount h) (phyaddr h)
    (flash_properties h) (f34_fd h) (f35_fd h) (rmi4_data h).

Definition set_config_id v (h : synaptics_rmi4_fwu_handle) :=
  Build_synaptics_rmi4_fwu_handle
    (bl_version h) (initialized h) (in_bl_mode h) (in_ub_mode h)
    (force_update h) (has_guest_code h) (new_partition_table h)
    (intr_mask h) (command h) (bootloader_id h) v (flash_status h)
    (partitions h) (block_size h) (config_area_sel h) (image h)
    (image_size h) (img h) (off h) (blkcount h) (phyaddr h)
    (flash_properties h) (f34_fd h) (f35_fd h) (rmi4_data h).

Definition set_flash_status v (h : synaptics_rmi4_fwu_handle) :=
  Build_synaptics_rmi4_fwu_handle
    (bl_version h) (initialized h) (in_bl_mode h) (in_ub_mode h)
    (force_update h) (has_guest_code h) (new_partition_table h)
    (intr_mask h) (command h) (bootloader_id h) (config_id h) v
    (partitions h) (block_size h) (config_area_sel h) (image h)
    (image_size h) (img h) (off h) (blkcount h) (phyaddr h)
    (flash_properties h) (f34_fd h) (f35_fd h) (rmi4_data h).

Definition set_partitions v (h : synaptics_rmi4_fwu_handle) :=
  Build_synaptics_rmi4_fwu_handle
    (bl_version h) (initialized h) (in_bl_mode h) (in_ub_mode h)
    (force_update h) (has_guest_code h) (new_partition_table h)
    (intr_mask h) (command h) (bootloader_id h) (config_id h)
    (flash_status h) v (block_size h) (config_area_sel h) (image h)
    (image_size h) (img h) (off h) (blkcount h) (phyaddr h)
    (flash_properties h) (f34_fd h) (f35_fd h) (rmi4_data h).

Definition set_block_size v (h : synaptics_rmi4_fwu_handle) :=
  Build_synaptics_rmi4_fwu_handle
    (bl_version h) (initialized h) (in_bl_mode h) (in_ub_mode h)
    (force_update h) (has_guest_code h) (new_partition_table h)
    (intr_mask h) (command h) (bootloader_id h) (config_id h)
    (flash_status h) (partitions h) v (config_area_sel h) (image h)
    (image_size h) (img h) (off h) (blkcount h) (phyaddr h)
    (flash_properties h) (f34_fd h) (f35_fd h) (rmi4_data h).

Definition set_config_area v (h : synaptics_rmi4_fwu_handle) :=
  Build_synaptics_rmi4_fwu_handle
    (bl_version h) (initialized h) (in_bl_mode h) (in_ub_mode h)
    (force_update h) (has_guest_code h) (new_partition_table h)
    (intr_mask h) (command h) (bootloader_id h) (config_id h)
    (flash_status h) (partitions h) (block_size h) v (image h)
    (image_size h) (img h) (off h) (blkcount h) (phyaddr h)
    (flash_properties h) (f34_fd h) (f35_fd h) (rmi4_data h).

Definition set_image v (h : synaptics_rmi4_fwu_handle) :=
  Build_synaptics_rmi4_fwu_handle
    (bl_version h) (initialized h) (in_bl_mode h) (in_ub_mode h)
    (force_update h) (has_guest_code h) (new_partition_table h)
    (intr_mask h) (command h) (bootloader_id h) (config_id h)
    (flash_status h) (partitions h) (block_size h) (config_area_sel h) v
    (image_size h) (img h) (off h) (blkcount h) (phyaddr h)
    (flash_properties h) (f34_fd h) (f35_fd h) (rmi4_data h).

Definition set_image_size v (h : synaptics_rmi4_fwu_handle) :=
  Build_synaptics_rmi4_fwu_handle
    (bl_version h) (initialized h) (in_bl_mode h) (in_ub_mode h)
    (force_update h) (has_guest_code h) (new_partition_table h)
    (intr_mask h) (command h) (bootloader_id h) (config_id h)
    (flash_status h) (partitions h) (block_size h) (config_area_sel h)
    (image h) v (img h) (off h) (blkcount h) (phyaddr h)
    (flash_properties h) (f34_fd h) (f35_fd h) (rmi4_data h).

Definition set_img v (h : synaptics_rmi4_fwu_handle) :=
  Build_synaptics_rmi4_fwu_handle
    (bl_version h) (initialized h) (in_bl_mode h) (in_ub_mode h)
    (force_update h) (has_guest_code h) (new_partition_table h)
    (intr_mask h) (command h) (bootloader_id h) (config_id h)
    (flash_status h) (partitions h) (block_size h) (config_area_sel h)
    (image h) (image_size h) v (off h) (blkcount h) (phyaddr h)
    (flash_properties h) (f34_fd h) (f35_fd h) (rmi4_data h).

Definition set_off v (h : synaptics_rmi4_fwu_handle) :=
  Build_synaptics_rmi4_fwu_handle
    (bl_version h) (initialized h) (in_bl_mode h) (in_ub_mode h)
    (force_update h) (has_guest_code h) (new_partition_table h)
    (intr_mask h) (command h) (bootloader_id h) (config_id h)
    (flash_status h) (partitions h) (block_size h) (config_area_sel h)
    (image h) (image_size h) (img h) v (blkcount h) (phyaddr h)
    (flash_properties h) (f34_fd h) (f35_fd h) (rmi4_data h).

Definition set_blkcount v (h : synaptics_rmi4_fwu_handle) :=
  Build_synaptics_rmi4_fwu_handle
    (bl_version h) (initialized h) (in_bl_mode h) (in_ub_mode h)
    (force_update h) (has_guest_code h) (new_partition_table h)
    (intr_mask h) (command h) (bootloader_id h) (config_id h)
    (flash_status h) (partitions h) (block_size h) (config_area_sel h)
    (image h) (image_size h) (img h) (off h) v (phyaddr h)
    (flash_properties h) (f34_fd h) (f35_fd h) (rmi4_data h).

Definition set_phyaddr v (h : synaptics_rmi4_fwu_handle) :=
  Build_synaptics_rmi4_fwu_handle
    (bl_version h) (initialized h) (in_bl_mode h) (in_ub_mode h)
    (force_update h) (has_guest_code h) (new_partition_table h)
    (intr_mask h) (command h) (bootloader_id h) (config_id h)
    (flash_status h) (partitions h) (block_size h) (config_area_sel h)
    (image h) (image_size h) (img h) (off h) (blkcount h) v
    (flash_properties h) (f34_fd h) (f35_fd h) (rmi4_data h).

Definition set_flash_properties v (h : synaptics_rmi4_fwu_handle) :=
  Build_synaptics_rmi4_fwu_handle
    (bl_version h) (initialized h) (in_bl_mode h) (in_ub_mode h)
    (force_update h) (has_guest_code h) (new_partition_table h)
    (intr_mask h) (command h) (bootloader_id h) (config_id h)
    (flash_status h) (partitions h) (block_size h) (config_area_sel h)
    (image h) (image_size h) (img h) (off h) (blkcount h) (phyaddr h) v
    (f34_fd h) (f35_fd h) (rmi4_data h).

Definition set_f34_fd v (h : synaptics_rmi4_fwu_handle) :=
  Build_synaptics_rmi4_fwu_handle
    (bl_version h) (initialized h) (in_bl_mode h) (in_ub_mode h)
    (force_update h) (has_guest_code h) (new_partition_table h)
    (intr_mask h) (command h) (bootloader_id h) (config_id h)
    (flash_status h) (partitions h) (block_size h) (config_area_sel h)
    (image h) (image_size h) (img h) (off h) (blkcount h) (phyaddr h)
    (flash_properties h) v (f35_fd h) (rmi4_data h).

Definition set_f35_fd v (h : synaptics_rmi4_fwu_handle) :=
  Build_synaptics_rmi4_fwu_handle
    (bl_version h) (initialized h) (in_bl_mode h) (in_ub_mode h)
    (force_update h) (has_guest_code h) (new_partition_table h)
    (intr_mask h) (command h) (bootloader_id h) (config_id h)
    (flash_status h) (partitions h) (block_size h) (config_area_sel h)
    (image h) (image_size h) (img h) (off h) (blkcount h) (phyaddr h)
    (flash_properties h) (f34_fd h) v (rmi4_data h).

Definition set_rmi4_data v (h : synaptics_rmi4_fwu_handle) :=
  Build_synaptics_rmi4_fwu_handle
    (bl_version h) (initialized h) (in_bl_mode h) (in_ub_mode h)
    (force_update h) (has_guest_code h) (new_partition_table h)
    (intr_mask h) (command h) (bootloader_id h) (config_id h)
    (flash_status h) (partitions h) (block_size h) (config_area_sel h)
    (image h) (image_size h) (img h) (off h) (blkcount h) (phyaddr h)
    (flash_properties h) (f34_fd h) (f35_fd h) v.

(** Field updates of [fwu->img]. *)

Definition set_contains_firmware_id v (m : image_metadata) :=
  Build_image_metadata
    v (contains_bootloader m) (contains_disp_config m)
    (contains_guest_code m) (contains_flash_config m) (firmware_id m)
    (img_bl_version m) (ui_firmware m) (ui_config m) (dp_config m)
    (fl_config m) (bl_config m) (guest_code m) (lockdown m)
    (img_blkcount m) (img_phyaddr m).

Definition set_contains_bootloader v (m : image_metadata) :=
  Build_image_metadata
    (contains_firmware_id m) v (contains_disp_config m)
    (contains_guest_code m) (contains_flash_config m) (firmware_id m)
    (img_bl_version m) (ui_firmware m) (ui_config m) (dp_config m)
    (fl_config m) (bl_config m) (guest_code m) (lockdown m)
    (img_blkcount m) (img_phyaddr m).

Definition set_contains_disp_config v (m : image_metadata) :=
  Build_image_metadata
    (contains_firmware_id m) (contains_bootloader m) v
    (contains_guest_code m) (contains_flash_config m) (firmware_id m)
    (img_bl_version m) (ui_firmware m) (ui_config m) (dp_config m)
    (fl_config m) (bl_config m) (guest_code m) (lockdown m)
    (img_blkcount m) (img_phyaddr m).

Definition set_contains_guest_code v (m : image_metadata) :=
  Build_image_metadata
    (contains_firmware_id m) (contains_bootloader m)
    (contains_disp_config m) v (contains_flash_config m) (firmware_id m)
    (img_bl_version m) (ui_firmware m) (ui_config m) (dp_config m)
    (fl_config m) (bl_config m) (guest_code m) (lockdown m)
    (img_blkcount m) (img_phyaddr m).

Definition set_contains_flash_config v (m : image_metadata) :=
  Build_image_metadata
    (contains_firmware_id m) (contains_bootloader m)
    (contains_disp_config m) (contains_guest_code m) v (firmware_id m)
    (img_bl_version m) (ui_firmware m) (ui_config m) (dp_config m)
    (fl_config m) (bl_config m) (guest_code m) (lockdown m)
    (img_blkcount m) (img_phyaddr m).

Definition set_firmware_id v (m : image_metadata) :=
  Build_image_metadata
    (contains_firmware_id m) (contains_bootloader m)
    (contains_disp_config m) (contains_guest_code m)
    (contains_flash_config m) v (img_bl_version m) (ui_firmware m)
    (ui_config m) (dp_config m) (fl_config m) (bl_config m) (guest_code m)
    (lockdown m) (img_blkcount m) (img_phyaddr m).

Definition set_img_bl_version v (m : image_metadata) :=
  Build_image_metadata
    (contains_firmware_id m) (contains_bootloader m)
    (contains_disp_config m) (contains_guest_code m)
    (contains_flash_config m) (firmware_id m) v (ui_firmware m)
    (ui_config m) (dp_config m) (fl_config m) (bl_config m) (guest_code m)
    (lockdown m) (img_blkcount m) (img_phyaddr m).

Definition set_ui_firmware v (m : image_metadata) :=
  Build_image_metadata
    (contains_firmware_id m) (contains_bootloader m)
    (contains_disp_config m) (contains_guest_code m)
    (contains_flash_config m) (firmware_id m) (img_bl_version m) v
    (ui_config m) (dp_config m) (fl_config m) (bl_config m) (guest_code m)
    (lockdown m) (img_blkcount m) (img_phyaddr m).

Definition set_ui_config v (m : image_metadata) :=
  Build_image_metadata
    (contains_firmware_id m) (contains_bootloader m)
    (contains_disp_config m) (contains_guest_code m)
    (contains_flash_config m) (firmware_id m) (img_bl_version m)
    (ui_firmware m) v (dp_config m) (fl_config m) (bl_config m)
    (guest_code m) (lockdown m) (img_blkcount m) (img_phyaddr m).

Definition set_dp_config v (m : image_metadata) :=
  Build_image_metadata
    (contains_firmware_id m) (contains_bootloader m)
    (contains_disp_config m) (contains_guest_code m)
    (contains_flash_config m) (firmware_id m) (img_bl_version m)
    (ui_firmware m) (ui_config m) v (fl_config m) (bl_config m)
    (guest_code m) (lockdown m) (img_blkcount m) (img_phyaddr m).

Definition set_fl_config v (m : image_metadata) :=
  Build_image_metadata
    (contains_firmware_id m) (contains_bootloader m)
    (contains_disp_config m) (contains_guest_code m)
    (contains_flash_config m) (firmware_id m) (img_bl_version m)
    (ui_firmware m) (ui_config m) (dp_config m) v (bl_config m)
    (guest_code m) (lockdown m) (img_blkcount m) (img_phyaddr m).

Definition set_bl_config v (m : image_metadata) :=
  Build_image_metadata
    (contains_firmware_id m) (contains_bootloader m)
    (contains_disp_config m) (contains_guest_code m)
    (contains_flash_config m) (firmware_id m) (img_bl_version m)
    (ui_firmware m) (ui_config m) (dp_config m) (fl_config m) v
    (guest_code m) (lockdown m) (img_blkcount m) (img_phyaddr m).

Definition set_guest_code v (m : image_metadata) :=
  Build_image_metadata
    (contains_firmware_id m) (contains_bootloader m)
    (contains_disp_config m) (contains_guest_code m)
    (contains_flash_config m) (firmware_id m) (img_bl_version m)
    (ui_firmware m) (ui_config m) (dp_config m) (fl_config m) (bl_config m)
    v (lockdown m) (img_blkcount m) (img_phyaddr m).

Definition set_lockdown v (m : image_metadata) :=
  Build_image_metadata
    (contains_firmware_id m) (contains_bootloader m)
    (contains_disp_config m) (contains_guest_code m)
    (contains_flash_config m) (firmware_id m) (img_bl_version m)
    (ui_firmware m) (ui_config m) (dp_config m) (fl_config m) (bl_config m)
    (guest_code m) v (img_blkcount m) (img_phyaddr m).

Definition set_img_blkcount v (m : image_metadata) :=
  Build_image_metadata
    (contains_firmware_id m) (contains_bootloader m)
    (contains_disp_config m) (contains_guest_code m)
    (contains_flash_config m) (firmware_id m) (img_bl_version m)
    (ui_firmware m) (ui_config m) (dp_config m) (fl_config m) (bl_config m)
    (guest_code m) (lockdown m) v (img_phyaddr m).

Definition set_img_phyaddr v (m : image_metadata) :=
  Build_image_metadata
    (contains_firmware_id m) (contains_bootloader m)
    (contains_disp_config m) (contains_guest_code m)
    (contains_flash_config m) (firmware_id m) (img_bl_version m)
    (ui_firmware m) (ui_config m) (dp_config m) (fl_config m) (bl_config m)
    (guest_code m) (lockdown m) (img_blkcount m) v.

(** ** The controller and the driver monad

    [synaptics_rmi4_reg_read], [synaptics_rmi4_reg_write] and the
    completion semaphore are the interface to the outside.  Every use is
    recorded, in order, in the trace; the controller answers from the
    trace so far. *)

Inductive event :=
| RegRead (addr len : Z)
| RegWrite (addr : Z) (bytes : list Z)
| DownTimeout (ms : Z).

Record controller := {
  (** return value of the read and the bytes delivered *)
  read_reply : list event -> Z -> Z -> Z * list Z;
  (** return value of the write *)
  write_reply : list event -> Z -> list Z -> Z;
  (** return value of [down_timeout]: 0 when the interrupt came in time *)
  sema_reply : list event -> Z -> Z
}.

Record world := { fwu : synaptics_rmi4_fwu_handle; log : list event }.

(** A call returns a value and the next state, or it does not return:
    the kernel faults ([Oops]: a NULL dereference, a division by zero),
    or the loop bound of the model is used up ([Fuel]). *)
Inductive outcome (S A : Type) : Type :=
| Ret (a : A) (s : S)
| Oops
| Fuel.
Arguments Ret {S A} a s.
Arguments Oops {S A}.
Arguments Fuel {S A}.

Definition M (A : Type) : Type := world -> outcome world A.

Definition ret {A} (a : A) : M A := fun w => Ret a w.

Definition bind {A B} (c : M A) (k : A -> M B) : M B :=
  fun w => match c w with
           | Ret a w' => k a w'
           | Oops => Oops
           | Fuel => Fuel
           end.

Notation "x <- c1 ;; c2" := (bind c1 (fun x => c2))
  (at level 61, c1 at next level, right associativity).
Notation "' pat <- c1 ;; c2" := (bind c1 (fun x => let 'pat := x in c2))
  (at level 61, pat pattern, c1 at next level, right associativity).
Notation "c1 ;;; c2" := (bind c1 (fun _ => c2))
  (at level 61, right associativity).

Definition get_fwu : M synaptics_rmi4_fwu_handle := fun w => Ret (fwu w) w.

Definition update (f : synaptics_rmi4_fwu_handle -> synaptics_rmi4_fwu_handle)
  : M unit :=
  fun w => Ret tt {| fwu := f (fwu w); log := log w |}.

(** [x |> f] is [f x]: a chain of field updates reads left to right. *)
Notation "x |> f" := (f x) (at level 45, left associativity, only parsing).

Definition oops {A} : M A := fun _ => Oops.
Definition out_of_fuel {A} : M A := fun _ => Fuel.

(** A read fills a buffer of [len] bytes. *)
Definition fit (len : Z) (bytes : list Z) : list Z :=
  map u8 (firstn (Z.to_nat len) (bytes ++ repeat 0 (Z.to_nat len))).

(** Code that touches no state runs in the same monad over [unit]. *)
Definition pure (A : Type) : Type := outcome unit A.

Definition lift {A} (r : pure A) : M A :=
  fun w => match r with
           | Ret a _ => Ret a w
           | Oops => Oops
           | Fuel => Fuel
           end.

Section Driver.

Variable hdr : dsx_header.
Variable dev : controller.

(** [fwu_start_reflash], the orchestration behind the exported entry
    point, is left open: whatever it does to the handle and on the bus. *)
Variable fwu_start_reflash : M Z.

Definition synaptics_rmi4_reg_read (addr len : Z) : M (Z * list Z) :=
  fun w =>
    let '(retval, bytes) := read_reply dev (log w) addr len in
    Ret (retval, fit len bytes)
        {| fwu := fwu w; log := log w ++ [RegRead addr len] |}.

Definition synaptics_rmi4_reg_write (addr : Z) (bytes : list Z) : M Z :=
  fun w =>
    Ret (write_reply dev (log w) addr bytes)
        {| fwu := fwu w; log := log w ++ [RegWrite addr bytes] |}.

Definition down_timeout (ms : Z) : M Z :=
  fun w =>
    Ret (sema_reply dev (log w) ms)
        {| fwu := fwu w; log := log w ++ [DownTimeout ms] |}.

(** ** Partition tables *)

(** [fwu_compare_partition_tables] *)
Definition fwu_compare_partition_tables (h : synaptics_rmi4_fwu_handle)
  : synaptics_rmi4_fwu_handle :=
  if negb (phy_ui_firmware (phyaddr h) =? phy_ui_firmware (img_phyaddr (img h)))
  then set_new_partition_table true h
  else if negb (phy_ui_config (phyaddr h) =? phy_ui_config (img_phyaddr (img h)))
  then set_new_partition_table true h
  else if has_disp_config (flash_properties h)
          && negb (phy_dp_config (phyaddr h) =? phy_dp_config (img_phyaddr (img h)))
  then set_new_partition_table true h
  else if has_disp_config (flash_properties h)
          && negb (phy_dp_config (phyaddr h) =? phy_dp_config (img_phyaddr (img h)))
  then set_new_partition_table true h
  else if has_guest_code h
          && negb (phy_guest_code (phyaddr h) =? phy_guest_code (img_phyaddr (img h)))
  then set_new_partition_table true h
  else set_new_partition_table false h.

(** One entry of the table: [struct partition_table] overlaid on the
    eight bytes at [index]; [partition_id] is the low five bits of the
    first byte. *)
Definition parse_partition_entry (partition_table : buffer)
    (acc : block_count * physical_address) (ii : Z)
  : block_count * physical_address :=
  let '(blk, phy) := acc in
  let index := u8 (ii * 8 + 2) in
  let partition_length :=
    Z.lor (Z.shiftl (rd partition_table (index + 3)) 8)
          (rd partition_table (index + 2)) in
  let physical_address :=
    Z.lor (Z.shiftl (rd partition_table (index + 5)) 8)
          (rd partition_table (index + 4)) in
  let partition_id := Z.land (rd partition_table index) 31 in
  if partition_id =? CORE_CODE_PARTITION then
    (Build_block_count partition_length (blk_ui_config blk) (blk_dp_config blk)
       (blk_fl_config blk) (blk_pm_config blk) (blk_bl_config blk)
       (blk_lockdown blk) (blk_guest_code blk),
     Build_physical_address physical_address (phy_ui_config phy)
       (phy_dp_config phy) (phy_guest_code phy))
  else if partition_id =? CORE_CONFIG_PARTITION then
    (Build_block_count (blk_ui_firmware blk) partition_length (blk_dp_config blk)
       (blk_fl_config blk) (blk_pm_config blk) (blk_bl_config blk)
       (blk_lockdown blk) (blk_guest_code blk),
     Build_physical_address (phy_ui_firmware phy) physical_address
       (phy_dp_config phy) (phy_guest_code phy))
  else if partition_id =? DISPLAY_CONFIG_PARTITION then
    (Build_block_count (blk_ui_firmware blk) (blk_ui_config blk) partition_length
       (blk_fl_config blk) (blk_pm_config blk) (blk_bl_config blk)
       (blk_lockdown blk) (blk_guest_code blk),
     Build_physical_address (phy_ui_firmware phy) (phy_ui_config phy)
       physical_address (phy_guest_code phy))
  else if partition_id =? FLASH_CONFIG_PARTITION then
    (Build_block_count (blk_ui_firmware blk) (blk_ui_config blk) (blk_dp_config blk)
       partition_length (blk_pm_config blk) (blk_bl_config blk)
       (blk_lockdown blk) (blk_guest_code blk), phy)
  else if partition_id =? GUEST_CODE_PARTITION then
    (Build_block_count (blk_ui_firmware blk) (blk_ui_config blk) (blk_dp_config blk)
       (blk_fl_config blk) (blk_pm_config blk) (blk_bl_config blk)
       (blk_lockdown blk) partition_length,
     Build_physical_address (phy_ui_firmware phy) (phy_ui_config phy)
       (phy_dp_config phy) physical_address)
  else if partition_id =? GUEST_SERIALIZATION_PARTITION then
    (Build_block_count (blk_ui_firmware blk) (blk_ui_config blk) (blk_dp_config blk)
       (blk_fl_config blk) partition_length (blk_bl_config blk)
       (blk_lockdown blk) (blk_guest_code blk), phy)
  else if partition_id =? GLOBAL_PARAMETERS_PARTITION then
    (Build_block_count (blk_ui_firmware blk) (blk_ui_config blk) (blk_dp_config blk)
       (blk_fl_config blk) (blk_pm_config blk) partition_length
       (blk_lockdown blk) (blk_guest_code blk), phy)
  else if partition_id =? DEVICE_CONFIG_PARTITION then
    (Build_block_count (blk_ui_firmware blk) (blk_ui_config blk) (blk_dp_config blk)
       (blk_fl_config blk) (blk_pm_config blk) (blk_bl_config blk)
       partition_length (blk_guest_code blk), phy)
  else (blk, phy).

(** [fwu_parse_partition_table]: the entries [0 .. fwu->partitions - 1],
    in order. *)
Definition fwu_parse_partition_table (h : synaptics_rmi4_fwu_handle)
    (partition_table : buffer) (blk : block_count) (phy : physical_address)
  : block_count * physical_address :=
  fold_left (parse_partition_entry partition_table)
    (map Z.of_nat (seq 0 (Z.to_nat (partitions h)))) (blk, phy).

(** ** Size validation *)

(** [fwu_check_ui_firmware_size]; [None] is the division by a zero block
    size. *)
Definition fwu_check_ui_firmware_size (h : synaptics_rmi4_fwu_handle)
  : option Z :=
  if block_size h =? 0 then None
  else
    let block_count := u16 (size (ui_firmware (img h)) / block_size h) in
    if negb (block_count =? blk_ui_firmware (blkcount h))
    then Some (- EINVAL hdr)
    else Some 0.

(** ** Flash status and the completion wait *)

(** [fwu_read_interrupt_status]: the F01 interrupt status register, or
    the error of the read. *)
Definition fwu_read_interrupt_status : M Z :=
  h <- get_fwu ;;
  ' (retval, interrupt_status) <-
    synaptics_rmi4_reg_read (f01_data_base_addr (rmi4_data h) + 1) 1 ;;
  if retval <? 0 then ret retval
  else ret (nth 0 interrupt_status 0).

(** [fwu_read_flash_status] *)
Definition fwu_read_flash_status : M Z :=
  h <- get_fwu ;;
  ' (retval, buf) <-
    synaptics_rmi4_reg_read
      (data_base_addr (f34_fd h) + off_flash_status (off h)) 1 ;;
  if retval <? 0 then ret retval
  else
    let status := nth 0 buf 0 in
    update (set_in_bl_mode (negb (Z.shiftr status 7 =? 0))) ;;;
    update (set_flash_status
              (if bl_version h =? BL_V5
               then Z.land (Z.shiftr status 4) (MASK_3BIT hdr)
               else if bl_version h =? BL_V6
               then Z.land status (MASK_3BIT hdr)
               else Z.land status (MASK_5BIT hdr))) ;;;
    if bl_version h <=? BL_V6 then
      ' (retval, buf) <-
        synaptics_rmi4_reg_read
          (data_base_addr (f34_fd h) + off_flash_cmd (off h)) 1 ;;
      if retval <? 0 then ret retval
      else
        let command := nth 0 buf 0 in
        update (set_command
                  (if bl_version h =? BL_V5
                   then Z.land command (MASK_4BIT hdr)
                   else if bl_version h =? BL_V6
                   then Z.land command (MASK_6BIT hdr)
                   else command)) ;;;
        ret 0
    else
      (* struct f34_v7_data_1_5: eight bytes, [command] is the sixth *)
      ' (retval, data15) <-
        synaptics_rmi4_reg_read
          (data_base_addr (f34_fd h) + off_partition_id (off h)) 8 ;;
      if retval <? 0 then ret retval
      else
        h' <- get_fwu ;;
        (if flash_status h' =? BAD_PARTITION_TABLE
         then update (set_flash_status 0)
         else ret tt) ;;;
        update (set_command (nth 5 data15 0)) ;;;
        ret 0.

(** [fwu_wait_for_idle].  The value computed from the semaphore is bound
    to [retval] and then replaced by the interrupt status, as in the
    source. *)
Definition fwu_wait_for_idle (timeout_ms : Z) : M Z :=
  retval <- down_timeout timeout_ms ;;
  let retval := if negb (retval =? 0) then - ETIMEDOUT hdr else retval in
  retval <- fwu_read_interrupt_status ;;
  fwu_read_flash_status ;;;
  h <- get_fwu ;;
  if (command h =? flash_command_code CMD_IDLE) && (flash_status h =? 0)
  then ret 0
  else ret retval.

(** ** Flash commands *)

(** The partition and the command that
    [fwu_write_f34_v7_command_single_transaction] puts in the zeroed
    [struct f34_v7_data_1_5]. *)
Definition v7_single_transaction (cmd : flash_command) : Z * Z :=
  match cmd with
  | CMD_ERASE_ALL => (CORE_CODE_PARTITION, CMD_V7_ERASE_AP)
  | CMD_ERASE_UI_FIRMWARE => (CORE_CODE_PARTITION, CMD_V7_ERASE)
  | CMD_ERASE_BL_CONFIG => (GLOBAL_PARAMETERS_PARTITION, CMD_V7_ERASE)
  | CMD_ERASE_UI_CONFIG => (CORE_CONFIG_PARTITION, CMD_V7_ERASE)
  | CMD_ERASE_DISP_CONFIG => (DISPLAY_CONFIG_PARTITION, CMD_V7_ERASE)
  | CMD_ERASE_FLASH_CONFIG => (FLASH_CONFIG_PARTITION, CMD_V7_ERASE)
  | CMD_ERASE_GUEST_CODE => (GUEST_CODE_PARTITION, CMD_V7_ERASE)
  | CMD_ENABLE_FLASH_PROG => (BOOTLOADER_PARTITION, CMD_V7_ENTER_BL)
  | _ => (0, 0)
  end.

(** The eight bytes of [data_1_5.data]: partition id (low five bits of
    the first byte), block offset, transfer length, command, payload. *)
Definition data_1_5_bytes (partition_id command payload_0 payload_1 : Z)
  : list Z :=
  [Z.land partition_id 31; 0; 0; 0; 0; command; payload_0; payload_1].

(** [fwu_write_f34_v7_command_single_transaction] *)
Definition fwu_write_f34_v7_command_single_transaction (cmd : flash_command)
  : M Z :=
  h <- get_fwu ;;
  let base := data_base_addr (f34_fd h) in
  let '(partition_id, command) := v7_single_transaction cmd in
  retval <- synaptics_rmi4_reg_write (base + off_partition_id (off h))
              (data_1_5_bytes partition_id command
                 (fst (bootloader_id h)) (snd (bootloader_id h))) ;;
  if retval <? 0 then ret retval else ret 0.

(** The command code of [fwu_write_f34_v7_command]; [None] is the
    [default] label. *)
Definition v7_command (cmd : flash_command) : option Z :=
  match cmd with
  | CMD_WRITE_FW | CMD_WRITE_CONFIG | CMD_WRITE_GUEST_CODE => Some CMD_V7_WRITE
  | CMD_READ_CONFIG => Some CMD_V7_READ
  | CMD_ERASE_ALL => Some CMD_V7_ERASE_AP
  | CMD_ERASE_UI_FIRMWARE | CMD_ERASE_BL_CONFIG | CMD_ERASE_UI_CONFIG
  | CMD_ERASE_DISP_CONFIG | CMD_ERASE_FLASH_CONFIG | CMD_ERASE_GUEST_CODE =>
      Some CMD_V7_ERASE
  | CMD_ENABLE_FLASH_PROG => Some CMD_V7_ENTER_BL
  | _ => None
  end.

Definition v7_is_single_transaction (cmd : flash_command) : bool :=
  match cmd with
  | CMD_ERASE_ALL | CMD_ERASE_UI_FIRMWARE | CMD_ERASE_BL_CONFIG
  | CMD_ERASE_UI_CONFIG | CMD_ERASE_DISP_CONFIG | CMD_ERASE_FLASH_CONFIG
  | CMD_ERASE_GUEST_CODE | CMD_ENABLE_FLASH_PROG => true
  | _ => false
  end.

(** [fwu_write_f34_v7_command] *)
Definition fwu_write_f34_v7_command (cmd : flash_command) : M Z :=
  h <- get_fwu ;;
  let base := data_base_addr (f34_fd h) in
  match v7_command cmd with
  | None => ret (- EINVAL hdr)
  | Some command =>
      update (set_command command) ;;;
      if v7_is_single_transaction cmd then
        retval <- fwu_write_f34_v7_command_single_transaction cmd ;;
        if retval <? 0 then ret retval else ret 0
      else
        retval <- synaptics_rmi4_reg_write (base + off_flash_cmd (off h))
                    [command] ;;
        if retval <? 0 then ret retval else ret 0
  end.

(** The command code of [fwu_write_f34_v5v6_command]. *)
Definition v5v6_command (cmd : flash_command) : option Z :=
  match cmd with
  | CMD_IDLE => Some CMD_V5V6_IDLE
  | CMD_WRITE_FW => Some CMD_V5V6_WRITE_FW
  | CMD_WRITE_CONFIG => Some CMD_V5V6_WRITE_CONFIG
  | CMD_WRITE_LOCKDOWN => Some CMD_V5V6_WRITE_LOCKDOWN
  | CMD_WRITE_GUEST_CODE => Some CMD_V5V6_WRITE_GUEST_CODE
  | CMD_READ_CONFIG => Some CMD_V5V6_READ_CONFIG
  | CMD_ERASE_ALL => Some CMD_V5V6_ERASE_ALL
  | CMD_ERASE_UI_CONFIG => Some CMD_V5V6_ERASE_UI_CONFIG
  | CMD_ERASE_DISP_CONFIG => Some CMD_V5V6_ERASE_DISP_CONFIG
  | CMD_ERASE_GUEST_CODE => Some CMD_V5V6_ERASE_GUEST_CODE
  | CMD_ENABLE_FLASH_PROG => Some CMD_V5V6_ENABLE_FLASH_PROG
  | _ => None
  end.

Definition v5v6_sends_bootloader_id (cmd : flash_command) : bool :=
  match cmd with
  | CMD_ERASE_ALL | CMD_ERASE_UI_CONFIG | CMD_ERASE_DISP_CONFIG
  | CMD_ERASE_GUEST_CODE | CMD_ENABLE_FLASH_PROG => true
  | _ => false
  end.

(** [fwu_write_f34_v5v6_command] *)
Definition fwu_write_f34_v5v6_command (cmd : flash_command) : M Z :=
  h <- get_fwu ;;
  let base := data_base_addr (f34_fd h) in
  match v5v6_command cmd with
  | None => ret (- EINVAL hdr)
  | Some command =>
      retval <-
        (if v5v6_sends_bootloader_id cmd then
           synaptics_rmi4_reg_write (base + off_payload (off h))
             [fst (bootloader_id h); snd (bootloader_id h)]
         else ret 0) ;;
      if retval <? 0 then ret retval
      else
        update (set_command command) ;;;
        retval <- synaptics_rmi4_reg_write (base + off_flash_cmd (off h))
                    [command] ;;
        if retval <? 0 then ret retval else ret 0
  end.

(** [fwu_write_f34_command] *)
Definition fwu_write_f34_command (cmd : flash_command) : M Z :=
  h <- get_fwu ;;
  if bl_version h >=? BL_V7 then fwu_write_f34_v7_command cmd
  else fwu_write_f34_v5v6_command cmd.

(** ** Erasing *)

(** [fwu_erase_configuration] *)
Definition fwu_erase_configuration : M Z :=
  h <- get_fwu ;;
  retval <-
    match config_area_sel h with
    | UI_CONFIG_AREA => fwu_write_f34_command CMD_ERASE_UI_CONFIG
    | DP_CONFIG_AREA => fwu_write_f34_command CMD_ERASE_DISP_CONFIG
    | BL_CONFIG_AREA => fwu_write_f34_command CMD_ERASE_BL_CONFIG
    | _ => ret 0
    end ;;
  if retval <? 0 then ret retval
  else
    retval <- fwu_wait_for_idle ERASE_WAIT_MS ;;
    if retval <? 0 then ret retval else ret retval.

(** [fwu_erase_guest_code] *)
Definition fwu_erase_guest_code : M Z :=
  retval <- fwu_write_f34_command CMD_ERASE_GUEST_CODE ;;
  if retval <? 0 then ret retval
  else
    retval <- fwu_wait_for_idle ERASE_WAIT_MS ;;
    if retval <? 0 then ret retval else ret 0.

(** The common tail of [fwu_erase_all]: display configuration and guest
    code. *)
Definition fwu_erase_all_tail : M Z :=
  h <- get_fwu ;;
  retval <-
    (if has_disp_config (flash_properties h) then
       update (set_config_area DP_CONFIG_AREA) ;;;
       fwu_erase_configuration
     else ret 0) ;;
  if retval <? 0 then ret retval
  else
    h <- get_fwu ;;
    if new_partition_table h && has_guest_code h then
      retval <- fwu_erase_guest_code ;;
      if retval <? 0 then ret retval else ret 0
    else ret 0.

(** [fwu_erase_all] *)
Definition fwu_erase_all : M Z :=
  h <- get_fwu ;;
  if bl_version h =? BL_V7 then
    retval <- fwu_write_f34_command CMD_ERASE_UI_FIRMWARE ;;
    if retval <? 0 then ret retval
    else
      retval <- fwu_wait_for_idle ERASE_WAIT_MS ;;
      if retval <? 0 then ret retval
      else
        update (set_config_area UI_CONFIG_AREA) ;;;
        retval <- fwu_erase_configuration ;;
        if retval <? 0 then ret retval
        else fwu_erase_all_tail
  else
    retval <- fwu_write_f34_command CMD_ERASE_ALL ;;
    if retval <? 0 then ret retval
    else
      retval <- fwu_wait_for_idle ERASE_WAIT_MS ;;
      h <- get_fwu ;;
      if negb ((bl_version h =? BL_V8)
               && (flash_status h =? BAD_PARTITION_TABLE))
         && (retval <? 0)
      then ret retval
      else if bl_version h =? BL_V8 then ret 0
      else fwu_erase_all_tail.

(** ** The go/no-go decision *)

(** The value of an [unsigned int] whose four bytes are, in address
    order, [b0 .. b3]: the targets of this driver are little-endian. *)
Definition uint_of_bytes (b0 b1 b2 b3 : Z) : Z :=
  u8 b0 + u8 b1 * 2 ^ 8 + u8 b2 * 2 ^ 16 + u8 b3 * 2 ^ 24.

(** [fwu_get_device_firmware_id]: the value left behind [dev_id]. *)
Definition fwu_get_device_firmware_id (h : synaptics_rmi4_fwu_handle) : Z :=
  let rmi := build_id (rmi4_data h) in
  uint_of_bytes 0 (nth 0 rmi 0) (nth 1 rmi 0) (nth 2 rmi 0).

(** [fwu_get_image_firmware_id]: the return value and what was stored
    behind [fw_id], if anything. *)
Definition fwu_get_image_firmware_id (h : synaptics_rmi4_fwu_handle)
  : Z * option Z :=
  if contains_firmware_id (img h) then (0, Some (firmware_id (img h)))
  else (- EINVAL hdr, None).

Definition config_id_size_of (h : synaptics_rmi4_fwu_handle) : Z :=
  if bl_version h >=? BL_V7 then V7_CONFIG_ID_SIZE else V5V6_CONFIG_ID_SIZE.

(** [fwu_get_device_config_id]: the read lands in the first bytes of
    [fwu->config_id]. *)
Definition fwu_get_device_config_id : M Z :=
  h <- get_fwu ;;
  let config_id_size := config_id_size_of h in
  ' (retval, bytes) <-
    synaptics_rmi4_reg_read (ctrl_base_addr (f34_fd h)) config_id_size ;;
  if retval <? 0 then ret retval
  else
    update (set_config_id
              (bytes ++ skipn (Z.to_nat config_id_size) (config_id h))) ;;;
    ret 0.

(** The comparison loop of [fwu_go_nogo], from index [ii] for [n] more
    bytes. *)
Fixpoint compare_config_id (image_config : buffer) (config_id : list Z)
    (ii : Z) (n : nat) : flash_area :=
  match n with
  | O => NONE
  | S n' =>
      if rd image_config ii >? nth (Z.to_nat ii) config_id 0 then UI_CONFIG
      else if rd image_config ii <? nth (Z.to_nat ii) config_id 0 then NONE
      else compare_config_id image_config config_id (ii + 1) n'
  end.

(** [fwu_go_nogo] *)
Definition fwu_go_nogo : M flash_area :=
  h <- get_fwu ;;
  if force_update h then ret UI_FIRMWARE
  else if in_bl_mode h then ret UI_FIRMWARE
  else
    let device_fw_id := fwu_get_device_firmware_id h in
    let '(retval, image_fw_id) := fwu_get_image_firmware_id h in
    if retval <? 0 then ret NONE
    else
      match image_fw_id with
      | None => oops (* the local was never written *)
      | Some image_fw_id =>
          if negb (image_fw_id =? device_fw_id) then ret UI_FIRMWARE
          else
            retval <- fwu_get_device_config_id ;;
            if retval <? 0 then ret NONE
            else
              h <- get_fwu ;;
              match data (ui_config (img h)) with
              | None => oops
              | Some image_config =>
                  ret (compare_config_id image_config (config_id h) 0
                         (Z.to_nat (config_id_size_of h)))
              end
      end.

(** ** The descriptor-table scan *)

(** [fwu_recovery_check_status] *)
Definition fwu_recovery_check_status : M Z :=
  h <- get_fwu ;;
  let base := data_base_addr (f35_fd h) in
  ' (retval, buf) <-
    synaptics_rmi4_reg_read (base + F35_ERROR_CODE_OFFSET) 1 ;;
  if retval <? 0 then ret retval
  else
    let status := Z.land (nth 0 buf 0) (MASK_7BIT hdr) in
    if negb (status =? 0) then ret (- EINVAL hdr) else ret 0.

(** The mask loop of the F34 case: bits [intr_off .. intr_off + intr_src - 1]
    of an [unsigned char]. *)
Definition f34_intr_mask (intr_off intr_src : Z) : Z :=
  fold_left (fun mask ii => u8 (Z.lor mask (Z.shiftl 1 ii)))
    (map (fun k => intr_off + Z.of_nat k) (seq 0 (Z.to_nat intr_src))) 0.

(** What the [switch] on the function number does with one descriptor:
    [inl] is a [return] out of the scan, [inr] carries the three flags. *)
Definition scan_pdt_entry (rmi_fd : synaptics_rmi4_fn_desc) (intr_count : Z)
    (found : bool * bool * bool) : M (Z + bool * bool * bool) :=
  let '(f01found, f34found, f35found) := found in
  if fn_number rmi_fd =? SYNAPTICS_RMI4_F01 hdr then
    update (fun h =>
      set_rmi4_data
        (Build_synaptics_rmi4_data (query_base_addr rmi_fd)
           (ctrl_base_addr rmi_fd) (data_base_addr rmi_fd)
           (cmd_base_addr rmi_fd) (build_id (rmi4_data h))) h) ;;;
    ret (inr (true, f34found, f35found))
  else if fn_number rmi_fd =? SYNAPTICS_RMI4_F34 hdr then
    update (fun h =>
      set_f34_fd
        (Build_synaptics_rmi4_fn_desc (query_base_addr rmi_fd)
           (cmd_base_addr (f34_fd h)) (ctrl_base_addr rmi_fd)
           (data_base_addr rmi_fd) (intr_src_count (f34_fd h))
           (fn_version (f34_fd h)) (fn_number (f34_fd h))) h) ;;;
    if fn_version rmi_fd =? F34_V0 then
      update (set_bl_version BL_V5) ;;;
      update (set_intr_mask
                (f34_intr_mask (intr_count mod 8) (intr_src_count rmi_fd))) ;;;
      ret (inr (f01found, true, f35found))
    else if fn_version rmi_fd =? F34_V1 then
      update (set_bl_version BL_V6) ;;;
      update (set_intr_mask
                (f34_intr_mask (intr_count mod 8) (intr_src_count rmi_fd))) ;;;
      ret (inr (f01found, true, f35found))
    else if fn_version rmi_fd =? F34_V2 then
      update (set_bl_version BL_V7) ;;;
      update (set_intr_mask
                (f34_intr_mask (intr_count mod 8) (intr_src_count rmi_fd))) ;;;
      ret (inr (f01found, true, f35found))
    else ret (inl (- EINVAL hdr))
  else if fn_number rmi_fd =? SYNAPTICS_RMI4_F35 hdr then
    update (fun h =>
      set_f35_fd
        (Build_synaptics_rmi4_fn_desc (query_base_addr rmi_fd)
           (cmd_base_addr (f35_fd h)) (ctrl_base_addr rmi_fd)
           (data_base_addr rmi_fd) (intr_src_count (f35_fd h))
           (fn_version (f35_fd h)) (fn_number (f35_fd h))) h) ;;;
    ret (inr (f01found, f34found, true))
  else ret (inr found).

(** The [for] loop of [fwu_scan_pdt] from address [addr] on. *)
Fixpoint scan_pdt_loop (fuel : nat) (addr intr_count : Z)
    (found : bool * bool * bool) : M (Z + bool * bool * bool) :=
  match fuel with
  | O => out_of_fuel
  | S fuel' =>
      if addr >? PDT_END hdr then
        ' (retval, bytes) <-
          synaptics_rmi4_reg_read addr (sizeof_fn_desc hdr) ;;
        if retval <? 0 then ret (inl retval)
        else
          let rmi_fd := fn_desc_of_bytes hdr bytes in
          if negb (fn_number rmi_fd =? 0) then
            r <- scan_pdt_entry rmi_fd intr_count found ;;
            match r with
            | inl retval => ret (inl retval)
            | inr found' =>
                scan_pdt_loop fuel' (u16 (addr - PDT_ENTRY_SIZE hdr))
                  (u8 (intr_count + intr_src_count rmi_fd)) found'
            end
          else ret (inr found)
      else ret (inr found)
  end.

(** [fwu_scan_pdt] *)
Definition fwu_scan_pdt : M Z :=
  update (set_in_ub_mode false) ;;;
  r <- scan_pdt_loop (S (Z.to_nat (u16 (PDT_START hdr))))
         (u16 (PDT_START hdr)) 0 (false, false, false) ;;
  match r with
  | inl retval => ret retval
  | inr (f01found, f34found, f35found) =>
      if negb f01found || negb f34found then
        if negb f35found then ret (- EINVAL hdr)
        else
          update (set_in_ub_mode true) ;;;
          fwu_recovery_check_status ;;;
          ret 0
      else ret 0
  end.

(** ** The TDAT image format *)

(** The 24-bit record length at [offset + 1 .. offset + 3]; the index is
    computed in [unsigned int]. *)
Definition tdat_record_length (data : buffer) (offset : Z) : Z :=
  Z.lor (Z.lor (Z.shiftl (rd data (u32 (offset + 3))) 16)
               (Z.shiftl (rd data (u32 (offset + 2))) 8))
        (rd data (u32 (offset + 1))).

(** The first loop of [fwu_parse_tdat_image]: [inl] is the [return]
    inside the loop, [inr] the offset at which the loop ends. *)
Fixpoint tdat_check_records (fuel : nat) (data : pointer)
    (fw_size offset : Z) : pure (Z + Z) :=
  match fuel with
  | O => Fuel
  | S fuel' =>
      if offset <? fw_size then
        match data with
        | None => Oops
        | Some p =>
            let length := tdat_record_length p offset in
            if u32 (offset + length + 4) >? fw_size
            then Ret (inl (- EINVAL hdr)) tt
            else tdat_check_records fuel' data fw_size
                   (u32 (offset + (length + 4)))
        end
      else Ret (inr offset) tt
  end.

(** The validation pass: the first loop and the alignment test after
    it. *)
Definition tdat_validate (data : pointer) (fw_size : Z) : pure Z :=
  match tdat_check_records (S (Z.to_nat fw_size)) data fw_size 1 with
  | Ret (inl retval) _ => Ret retval tt
  | Ret (inr offset) _ =>
      if negb (offset =? fw_size) then Ret (- EINVAL hdr) tt else Ret 0 tt
  | Oops => Oops
  | Fuel => Fuel
  end.

(** [fwu_tdat_config_set]: the values left behind [image] and
    [image_size]. *)
Fixpoint fwu_tdat_config_set (fuel : nat) (data : buffer) (size offset : Z)
    (image : pointer) (image_size : Z) : pure (pointer * Z) :=
  match fuel with
  | O => Fuel
  | S fuel' =>
      if offset <? size then
        let id := Z.lor (Z.shiftl (rd data (u32 (offset + 1))) 8)
                        (rd data offset) in
        let length := Z.lor (Z.shiftl (rd data (u32 (offset + 4))) 8)
                            (rd data (u32 (offset + 3))) in
        if u16 id =? 1 then
          fwu_tdat_config_set fuel' data size (u32 (offset + (length + 5)))
            (Some (ptr_add data (u32 (offset + 5)))) length
        else
          fwu_tdat_config_set fuel' data size (u32 (offset + (length + 5)))
            image image_size
      else Ret (image, image_size) tt
  end.

(** [fwu_tdat_section_offset] on the block that [image] and
    [image_size] point to. *)
Definition fwu_tdat_section_offset (bd : block_data) : pure block_data :=
  match data bd with
  | None => Oops
  | Some p =>
      let offset := rd p 0 + 1 in
      Ret {| size := u32 (size bd - offset);
             data := Some (ptr_add p offset) |} tt
  end.

(** The body of the [switch] in the second loop. *)
Definition tdat_extract_record (id length : Z) (section : buffer) : M unit :=
  if id =? 1 then
    h <- get_fwu ;;
    ' (image, image_size) <-
      lift (fwu_tdat_config_set (S (Z.to_nat length)) section length 0
              (data (ui_config (img h))) (size (ui_config (img h)))) ;;
    bd <- lift (fwu_tdat_section_offset
                  {| size := image_size; data := image |}) ;;
    update (fun h => set_img (set_ui_config bd (img h)) h)
  else if id =? 2 then
    update (fun h => set_img (set_contains_firmware_id true (img h)) h) ;;;
    update (fun h =>
      set_img (set_firmware_id
                 (batohui hdr (ptr_add section 1)
                    (SYNAPTICS_RMI4_BUILD_ID_SIZE hdr)) (img h)) h) ;;;
    bd <- lift (fwu_tdat_section_offset
                  {| size := length; data := Some section |}) ;;
    update (fun h => set_img (set_ui_firmware bd (img h)) h)
  else ret tt.

(** The second loop of [fwu_parse_tdat_image]. *)
Fixpoint tdat_extract (fuel : nat) (data : pointer) (fw_size offset : Z)
  : M unit :=
  match fuel with
  | O => out_of_fuel
  | S fuel' =>
      if offset <? fw_size then
        match data with
        | None => oops
        | Some p =>
            let id := rd p offset in
            let length := tdat_record_length p offset in
            let section := ptr_add p (u32 (offset + 4)) in
            tdat_extract_record id length section ;;;
            tdat_extract fuel' data fw_size (u32 (offset + (length + 4)))
        end
      else ret tt
  end.

(** [fwu_parse_tdat_image] *)
Definition fwu_parse_tdat_image : M Z :=
  h <- get_fwu ;;
  let data := image h in
  let fw_size := image_size h in
  update (fun h =>
    set_img (set_lockdown {| size := size (lockdown (img h)); data := None |}
               (set_contains_flash_config false
                  (set_contains_guest_code false
                     (set_contains_disp_config false
                        (set_contains_bootloader false
                           (set_contains_firmware_id false (img h))))))) h) ;;;
  retval <- lift (tdat_validate data fw_size) ;;
  if negb (retval =? 0) then ret retval
  else
    tdat_extract (S (Z.to_nat fw_size)) data fw_size 1 ;;;
    ret 0.

(** ** Recovery: the chunk writer *)

(** The [for] loop of [fwu_recovery_write_chunk], [n] iterations from
    chunk number [chunk]; [Some retval] is the [return] inside the
    loop. *)
Fixpoint recovery_write_chunks (n : nat) (base chunk chunk_total chunk_spare : Z)
    (chunk_ptr : pointer) (bytes_written : Z) (buf : list Z)
  : M (option Z) :=
  match n with
  | O => ret None
  | S n' =>
      h <- get_fwu ;;
      let chunk_size :=
        if negb (chunk_spare =? 0) && (chunk =? chunk_total - 1)
        then chunk_spare else F35_CHUNK_SIZE in
      let buf := repeat 0 (Z.to_nat F35_CHUNK_SIZE)
                 ++ skipn (Z.to_nat F35_CHUNK_SIZE) buf in
      let buf :=
        snd (secure_memcpy hdr buf (F35_CHUNK_SIZE + 1) chunk_ptr
               (u32 (image_size h - bytes_written)) chunk_size) in
      retval <- synaptics_rmi4_reg_write (base + F35_CHUNK_DATA_OFFSET) buf ;;
      if retval <? 0 then ret (Some retval)
      else
        match chunk_ptr with
        | None => oops (* arithmetic on the NULL pointer *)
        | Some p =>
            recovery_write_chunks n' base (chunk + 1) chunk_total chunk_spare
              (Some (ptr_add p chunk_size)) (u16 (bytes_written + chunk_size))
              buf
        end
  end.

(** [fwu_recovery_write_chunk] *)
Definition fwu_recovery_write_chunk : M Z :=
  h <- get_fwu ;;
  let base := ctrl_base_addr (f35_fd h) in
  retval <- synaptics_rmi4_reg_write (base + F35_CHUNK_NUM_LSB_OFFSET) [0; 0] ;;
  if retval <? 0 then ret retval
  else
    let buf := repeat 0 (Z.to_nat F35_CHUNK_SIZE) ++ [CMD_F35_WRITE_CHUNK] in
    let chunk_total := u16 (image_size h / F35_CHUNK_SIZE) in
    let chunk_spare := u8 (image_size h mod F35_CHUNK_SIZE) in
    let chunk_total :=
      if negb (chunk_spare =? 0) then u16 (chunk_total + 1) else chunk_total in
    r <- recovery_write_chunks (Z.to_nat chunk_total) base 0 chunk_total
           chunk_spare (image h) 0 buf ;;
    match r with
    | Some retval => ret retval
    | None =>
        retval <- fwu_recovery_check_status ;;
        if retval <? 0 then ret retval else ret 0
    end.

(** ** The exported entry point *)

(** [synaptics_fw_updater], on the global handle pointer and the bus
    trace. *)
Definition synaptics_fw_updater (fw_data : pointer)
    (st : option synaptics_rmi4_fwu_handle * list event)
  : outcome (option synaptics_rmi4_fwu_handle * list event) Z :=
  match fst st with
  | None => Ret (- ENODEV hdr) st
  | Some h =>
      if negb (initialized h) then Ret (- ENODEV hdr) st
      else if in_ub_mode h then Ret (- ENODEV hdr) st
      else
        match fwu_start_reflash
                {| fwu := set_image fw_data h; log := snd st |} with
        | Ret retval w => Ret retval (Some (set_image None (fwu w)), log w)
        | Oops => Oops
        | Fuel => Fuel
        end
  end.

End Driver.

(** ** Areas of the partition table

    The areas whose physical address the engine tracks, and when the
    controller has them: firmware and UI configuration always, display
    configuration and guest code when the controller reports them. *)

Inductive flash_region :=
| REGION_UI_FIRMWARE | REGION_UI_CONFIG | REGION_DP_CONFIG | REGION_GUEST_CODE.

Definition region_present (h : synaptics_rmi4_fwu_handle) (r : flash_region)
  : bool :=
  match r with
  | REGION_UI_FIRMWARE | REGION_UI_CONFIG => true
  | REGION_DP_CONFIG => has_disp_config (flash_properties h)
  | REGION_GUEST_CODE => has_guest_code h
  end.

Definition region_phyaddr (p : physical_address) (r : flash_region) : Z :=
  match r with
  | REGION_UI_FIRMWARE => phy_ui_firmware p
  | REGION_UI_CONFIG => phy_ui_config p
  | REGION_DP_CONFIG => phy_dp_config p
  | REGION_GUEST_CODE => phy_guest_code p
  end.

(** ** Instances for the worked examples

    The header parameters with the values of the RMI4 register map and
    of the kernel's errno table, a zeroed handle (as [kzalloc] leaves
    it), and controllers that answer from a register file. *)

Definition rmi4_fn_desc_of_bytes (b : list Z) : synaptics_rmi4_fn_desc :=
  {| query_base_addr := nth 0 b 0;
     cmd_base_addr := nth 1 b 0;
     ctrl_base_addr := nth 2 b 0;
     data_base_addr := nth 3 b 0;
     intr_src_count := Z.land (nth 4 b 0) 7;
     fn_version := Z.land (Z.shiftr (nth 4 b 0) 5) 3;
     fn_number := nth 5 b 0 |}.

Definition le_bytes_value (src : buffer) (size : Z) : Z :=
  fold_right (fun i acc => rd src (Z.of_nat i) + 2 ^ 8 * acc) 0
    (seq 0 (Z.to_nat size)).

Definition bounded_memcpy (dest : list Z) (dest_size : Z) (src : pointer)
    (src_size count : Z) : Z * list Z :=
  match src with
  | None => (-22, dest)
  | Some p =>
      if (count >? dest_size) || (count >? src_size) then (-22, dest)
      else (0, slice p 0 (Z.to_nat count) ++ skipn (Z.to_nat count) dest)
  end.

Definition rmi4_header : dsx_header :=
  {| PDT_START := 0xE9;
     PDT_END := 0xD0;
     PDT_ENTRY_SIZE := 6;
     SYNAPTICS_RMI4_F01 := 0x01;
     SYNAPTICS_RMI4_F34 := 0x34;
     SYNAPTICS_RMI4_F35 := 0x35;
     MASK_3BIT := 0x07;
     MASK_4BIT := 0x0F;
     MASK_5BIT := 0x1F;
     MASK_6BIT := 0x3F;
     MASK_7BIT := 0x7F;
     EINVAL := 22;
     ENODEV := 19;
     ETIMEDOUT := 110;
     SYNAPTICS_RMI4_BUILD_ID_SIZE := 3;
     sizeof_fn_desc := 6;
     fn_desc_of_bytes := rmi4_fn_desc_of_bytes;
     batohui := le_bytes_value;
     secure_memcpy := bounded_memcpy |}.

Definition fn_desc_zero : synaptics_rmi4_fn_desc :=
  Build_synaptics_rmi4_fn_desc 0 0 0 0 0 0 0.

Definition block_data_zero : block_data := {| size := 0; data := None |}.

Definition img_zero : image_metadata :=
  Build_image_metadata false false false false false 0 0
    block_data_zero block_data_zero block_data_zero block_data_zero
    block_data_zero block_data_zero block_data_zero
    (Build_block_count 0 0 0 0 0 0 0 0) (Build_physical_address 0 0 0 0).

Definition fwu_zero : synaptics_rmi4_fwu_handle :=
  Build_synaptics_rmi4_fwu_handle 0 false false false false false false
    0 0 (0, 0) (repeat 0 32) 0 0 0 UI_CONFIG_AREA None 0 img_zero
    (Build_register_offset 0 0 0 0 0 0)
    (Build_block_count 0 0 0 0 0 0 0 0) (Build_physical_address 0 0 0 0)
    (Build_f34_v5v6_flash_properties false false false)
    fn_desc_zero fn_desc_zero
    (Build_synaptics_rmi4_data 0 0 0 0 [0; 0; 0]).

(** A controller whose registers hold [regs addr] from address [addr]
    on, that accepts every write, and whose interrupt arrives in time
    unless [timeout] is set. *)
Definition register_file (regs : Z -> list Z) (timeout : bool) : controller :=
  {| read_reply := fun _ addr _ => (0, regs addr);
     write_reply := fun _ _ _ => 0;
     sema_reply := fun _ _ => if timeout then -62 else 0 |}.

(** The register writes of a trace. *)
Definition writes_of (l : list event) : list event :=
  filter (fun e => match e with RegWrite _ _ => true | _ => false end) l.

(** What a call returned, and the state it left. *)
Definition returned {S A} (o : outcome S A) : option A :=
  match o with Ret a _ => Some a | _ => None end.

Definition state_after {S A} (o : outcome S A) : option S :=
  match o with Ret _ s => Some s | _ => None end.

(** ** Lexicographic order of byte strings

    The order the decision table of the update is stated in: the first
    position at which two strings of the same length differ decides. *)
Fixpoint lex_compare (a b : list Z) : comparison :=
  match a, b with
  | x :: a', y :: b' =>
      match x ?= y with
      | Eq => lex_compare a' b'
      | c => c
      end
  | _, _ => Eq
  end.

(** The decision for equal build identifiers: a configuration update
    when the identifier of the image is strictly greater, none when it
    is equal or lesser. *)
Definition config_decision (image_id device_id : list Z) : flash_area :=
  match lex_compare image_id device_id with
  | Gt => UI_CONFIG
  | _ => NONE
  end.

(** The handle of the decision examples: a legacy (version 6)
    controller with build identifier 0x1000 and an image with build
    identifier [image_fw_id] and the configuration bytes [image_cfg]. *)
Definition go_nogo_example (image_fw_id : Z) (image_cfg : list Z)
  : synaptics_rmi4_fwu_handle :=
  fwu_zero
  |> set_bl_version BL_V6
  |> set_rmi4_data (Build_synaptics_rmi4_data 0 0 0 0 [0x10; 0; 0])
  |> set_img (img_zero
              |> set_contains_firmware_id true
              |> set_firmware_id image_fw_id
              |> set_ui_config {| size := 64;
                                  data := Some (buf_of_list image_cfg) |}).

(** A partitioned-protocol handle on a register map with F01 data at
    0x20 and F34 data at 0x10, the flash status at offset 0 and the
    bytes of [struct f34_v7_data_1_5] from offset 1. *)
Definition v7_example (version : Z) : synaptics_rmi4_fwu_handle :=
  fwu_zero
  |> set_bl_version version
  |> set_off (Build_register_offset 0 1 2 3 4 5)
  |> set_f34_fd (Build_synaptics_rmi4_fn_desc 0 0 0 0x10 1 2 0x34)
  |> set_rmi4_data (Build_synaptics_rmi4_data 0 0 0x20 0 [0x10; 0; 0]).

(** A controller that is still erasing: the interrupt never comes, the
    interrupt status register (0x21) reads 0, the flash status (0x10)
    reads "bootloader mode, status 0", and the command register still
    holds the erase command (4) for the core code partition (7). *)
Definition busy_registers (addr : Z) : list Z :=
  if addr =? 0x21 then [0]
  else if addr =? 0x10 then [0x80]
  else if addr =? 0x11 then [7; 0; 0; 0; 0; 4; 0; 0]
  else [].

(** ** The erase sequence, as a trace

    The register writes of the area erases: a single-transaction erase
    of one partition on the partitioned protocol, the bootloader
    identifier followed by the command on the legacy protocol. *)

Definition v7_transaction (h : synaptics_rmi4_fwu_handle)
    (partition command : Z) : event :=
  RegWrite (data_base_addr (f34_fd h) + off_partition_id (off h))
    (data_1_5_bytes partition command
       (fst (bootloader_id h)) (snd (bootloader_id h))).

Definition v5v6_transaction (h : synaptics_rmi4_fwu_handle) (command : Z)
  : list event :=
  [RegWrite (data_base_addr (f34_fd h) + off_payload (off h))
     [fst (bootloader_id h); snd (bootloader_id h)];
   RegWrite (data_base_addr (f34_fd h) + off_flash_cmd (off h)) [command]].

(** The erases that follow on both protocols: the display configuration
    when the controller has one, the guest code when it has one and the
    partition table is new. *)
Definition v7_optional_erases (h : synaptics_rmi4_fwu_handle) : list event :=
  (if has_disp_config (flash_properties h)
   then [v7_transaction h DISPLAY_CONFIG_PARTITION CMD_V7_ERASE] else [])
  ++ (if new_partition_table h && has_guest_code h
      then [v7_transaction h GUEST_CODE_PARTITION CMD_V7_ERASE] else []).

Definition v5v6_optional_erases (h : synaptics_rmi4_fwu_handle) : list event :=
  (if has_disp_config (flash_properties h)
   then v5v6_transaction h CMD_V5V6_ERASE_DISP_CONFIG else [])
  ++ (if new_partition_table h && has_guest_code h
      then v5v6_transaction h CMD_V5V6_ERASE_GUEST_CODE else []).

(** A controller on which no bus transaction fails. *)
Definition cooperative (dev : controller) : Prop :=
  (forall l addr len, 0 <= fst (read_reply dev l addr len)) /\
  (forall l addr bytes, 0 <= write_reply dev l addr bytes).

(** The fields that fix the register map and the erase plan; the status
    reads of the engine leave them alone. *)
Definition same_setup (h h' : synaptics_rmi4_fwu_handle) : Prop :=
  bl_version h' = bl_version h /\
  off h' = off h /\
  f34_fd h' = f34_fd h /\
  bootloader_id h' = bootloader_id h /\
  flash_properties h' = flash_properties h /\
  new_partition_table h' = new_partition_table h /\
  has_guest_code h' = has_guest_code h /\
  rmi4_data h' = rmi4_data h.

(** The register writes of one erase command on either protocol. *)
Definition erase_events (h : synaptics_rmi4_fwu_handle) (cmd : flash_command)
  : list event :=
  if bl_version h >=? BL_V7 then
    [v7_transaction h (fst (v7_single_transaction cmd))
       (snd (v7_single_transaction cmd))]
  else
    match v5v6_command cmd with
    | Some command => v5v6_transaction h command
    | None => []
    end.

Definition optional_erases (h : synaptics_rmi4_fwu_handle) : list event :=
  (if has_disp_config (flash_properties h)
   then erase_events h CMD_ERASE_DISP_CONFIG else [])
  ++ (if new_partition_table h && has_guest_code h
      then erase_events h CMD_ERASE_GUEST_CODE else []).

(** The erase commands both protocols know. *)
Definition common_erase (cmd : flash_command) : bool :=
  match cmd with
  | CMD_ERASE_ALL | CMD_ERASE_UI_CONFIG | CMD_ERASE_DISP_CONFIG
  | CMD_ERASE_GUEST_CODE => true
  | _ => false
  end.

(** A reflash that would write to the bus, to watch the entry point. *)
Definition noisy_reflash (dev : controller) : M Z :=
  synaptics_rmi4_reg_write dev 0x11 [7; 0; 0; 0; 0; 5; 0; 0].

(** ** Chunks of a recovery image

    The image cut into pieces of [F35_CHUNK_SIZE] bytes: piece [i] holds
    the bytes from [16 * i] up to, but not including, [16 * i + 16], as
    far as the image reaches; there are [ceil (n / 16)] pieces. *)

Definition image_chunk (image_bytes : list Z) (i : nat) : list Z :=
  firstn 16 (skipn (16 * i) image_bytes).

Definition split_chunks (image_bytes : list Z) : list (list Z) :=
  map (image_chunk image_bytes) (seq 0 ((length image_bytes + 15) / 16)).

(** A chunk as it goes out: padded with zeros to sixteen bytes and
    followed by the command byte, in one register write. *)
Definition pad_chunk (c : list Z) : list Z := c ++ repeat 0 (16 - length c).

Definition chunk_write (base : Z) (c : list Z) : event :=
  RegWrite (base + F35_CHUNK_DATA_OFFSET) (pad_chunk c ++ [CMD_F35_WRITE_CHUNK]).

(** What the engine relies on from [secure_memcpy]: a copy of [count]
    bytes that fits both sizes puts the first [count] bytes of the
    source over those of the destination. *)
Definition memcpy_copies (hdr : dsx_header) : Prop :=
  forall dest src src_size count,
    0 <= count <= Z.of_nat (length dest) -> count <= src_size ->
    snd (secure_memcpy hdr dest (Z.of_nat (length dest)) (Some src) src_size count)
    = slice src 0 (Z.to_nat count) ++ skipn (Z.to_nat count) dest.

(** A recovery handle: F35 control registers at 0x40, F35 data at 0x50. *)
Definition recovery_example (image_bytes : list Z)
  : synaptics_rmi4_fwu_handle :=
  fwu_zero
  |> set_in_ub_mode true
  |> set_f35_fd (Build_synaptics_rmi4_fn_desc 0 0 0x40 0x50 0 0 0x35)
  |> set_image (Some (buf_of_list image_bytes))
  |> set_image_size (Z.of_nat (length image_bytes)).

(** The 33-byte image of the chunking example: bytes 1, 2, ..., 33. *)
Definition image_33 : list Z := map Z.of_nat (seq 1 33).

(** ** TDAT record streams

    A record is an identifier byte, the length of its payload in three
    bytes, least significant first, and the payload. *)

Definition le24 (n : Z) : list Z :=
  [n mod 256; (n / 256) mod 256; (n / 65536) mod 256].

Definition encode_record (r : Z * list Z) : list Z :=
  fst r :: le24 (Z.of_nat (length (snd r))) ++ snd r.

Definition record_ok (r : Z * list Z) : Prop :=
  0 <= fst r < 256 /\ Z.of_nat (length (snd r)) < 2 ^ 24 /\
  Forall (fun b => 0 <= b < 256) (snd r).

(** [bytes] is exactly a sequence of records: every byte belongs to one
    record, so the sum of the payload lengths plus four bytes of header
    each is the length of [bytes]. *)
Definition records_tile (bytes : list Z) : Prop :=
  exists recs, Forall record_ok recs /\ bytes = flat_map encode_record recs.

(** The layout the parser accepts: the format byte first, then records
    to the end of the buffer. *)
Definition tdat_layout (bytes : list Z) : Prop :=
  exists tag rest, bytes = tag :: rest /\ records_tile rest.

(** What the parser has done to the handle before it validates. *)
Definition tdat_reset (h : synaptics_rmi4_fwu_handle)
  : synaptics_rmi4_fwu_handle :=
  set_img (set_lockdown {| size := size (lockdown (img h)); data := None |}
             (set_contains_flash_config false
                (set_contains_guest_code false
                   (set_contains_disp_config false
                      (set_contains_bootloader false
                         (set_contains_firmware_id false (img h))))))) h.

(** ** The descriptor table, as the scan sees it

    Entry [k] of the table lies [k] entries below [PDT_START].  The scan
    reaches entry [k] when its address is still above [PDT_END] and no
    entry before it is the terminator (function number 0); a function is
    found when an entry the scan reaches carries its number. *)

Definition pdt_addr (hdr : dsx_header) (k : nat) : Z :=
  PDT_START hdr - Z.of_nat k * PDT_ENTRY_SIZE hdr.

Definition pdt_reached (hdr : dsx_header)
    (entry : Z -> synaptics_rmi4_fn_desc) (k : nat) : Prop :=
  PDT_END hdr < pdt_addr hdr k /\
  forall j, (j < k)%nat -> fn_number (entry (pdt_addr hdr j)) <> 0.

Definition pdt_found (hdr : dsx_header)
    (entry : Z -> synaptics_rmi4_fn_desc) (fn : Z) : Prop :=
  exists k, pdt_reached hdr entry k /\
            fn_number (entry (pdt_addr hdr k)) = fn.

(** The controller serves the table [entry]: a read of one descriptor
    at any address succeeds and delivers the descriptor stored there. *)
Definition serves_pdt (hdr : dsx_header) (dev : controller)
    (entry : Z -> synaptics_rmi4_fn_desc) : Prop :=
  forall l a,
    0 <= fst (read_reply dev l a (sizeof_fn_desc hdr)) /\
    fn_desc_of_bytes hdr
      (fit (sizeof_fn_desc hdr) (snd (read_reply dev l a (sizeof_fn_desc hdr))))
    = entry a.

(** What the scan needs from the header: a table that the 16-bit address
    walks downwards without wrapping, three distinct function numbers,
    none of them the terminator, and a positive errno. *)
Definition header_sane (hdr : dsx_header) : Prop :=
  0 < PDT_ENTRY_SIZE hdr <= PDT_END hdr + 1 /\
  0 <= PDT_END hdr /\ 0 <= PDT_START hdr < 2 ^ 16 /\
  SYNAPTICS_RMI4_F35 hdr <> 0 /\
  SYNAPTICS_RMI4_F35 hdr <> SYNAPTICS_RMI4_F01 hdr /\
  SYNAPTICS_RMI4_F35 hdr <> SYNAPTICS_RMI4_F34 hdr /\
  0 < EINVAL hdr.

(** A table with the recovery function (F35) alone, and an empty one. *)
Definition f35_only_table (addr : Z) : list Z :=
  if addr =? 0xE9 then [0; 0; 0x40; 0x50; 0; 0x35] else [].

Definition empty_table (addr : Z) : list Z := [].

(** The handle of the size example: a controller that reports 100
    blocks of 16 bytes for the UI firmware, and an image whose firmware
    block has [firmware_size] bytes. *)
Definition size_example (firmware_size : Z) : synaptics_rmi4_fwu_handle :=
  fwu_zero
  |> set_block_size 16
  |> set_blkcount (Build_block_count 100 0 0 0 0 0 0 0)
  |> set_img (set_ui_firmware {| size := firmware_size; data := None |}
                img_zero).

(** * The write path, the image headers and the remaining checks

    The functions of the engine around the ones above: the decoders of
    the image headers, the other size checks, the block writers of both
    protocols and the functions built on them, the entry into flash
    programming and the bootloader-mode query of the core driver. *)

(** ** Pointers that may be NULL

    A transfer of [n] bytes from a pointer reads nothing when [n] is
    zero, so it is harmless on NULL; any other read of NULL faults. *)

Definition bytes_from (p : pointer) (n : Z) : option (list Z) :=
  match p with
  | Some b => Some (slice b 0 (Z.to_nat n))
  | None => if n <=? 0 then Some [] else None
  end.

(** [p + k]; NULL is only ever advanced by the length of a transfer
    that has just been read from it, which is zero. *)
Definition ptr_advance (p : pointer) (k : Z) : pointer :=
  match p with
  | Some b => Some (ptr_add b k)
  | None => None
  end.

(** [a[i] = v] on an array held as a list. *)
Definition store (l : list Z) (i : nat) (v : Z) : list Z :=
  firstn i l ++ match skipn i l with
                | [] => []
                | _ :: rest => v :: rest
                end.

(** The value of an enumerator of [enum config_area]. *)
Definition config_area_code (a : config_area) : Z :=
  match a with
  | UI_CONFIG_AREA => 0
  | PM_CONFIG_AREA => 1
  | BL_CONFIG_AREA => 2
  | DP_CONFIG_AREA => 3
  | FLASH_CONFIG_AREA => 4
  end.

(** [enum container_id] *)
Definition UI_CONTAINER : Z := 1.
Definition UI_CONFIG_CONTAINER : Z := 2.
Definition BL_CONTAINER : Z := 3.
Definition BL_CONFIG_CONTAINER : Z := 5.
Definition BL_LOCKDOWN_INFO_CONTAINER : Z := 6.
Definition GUEST_CODE_CONTAINER : Z := 8.
Definition GENERAL_INFORMATION_CONTAINER : Z := 13.
Definition DEVICE_CONFIG_CONTAINER : Z := 14.
Definition FLASH_CONFIG_CONTAINER : Z := 15.
Definition GLOBAL_PARAMETERS_CONTAINER : Z := 17.
Definition CORE_CODE_CONTAINER : Z := 18.
Definition CORE_CONFIG_CONTAINER : Z := 19.
Definition DISPLAY_CONFIG_CONTAINER : Z := 20.

Definition IMAGE_HEADER_VERSION_05 : Z := 0x05.
Definition IMAGE_HEADER_VERSION_06 : Z := 0x06.
Definition IMAGE_HEADER_VERSION_10 : Z := 0x10.
Definition IMAGE_AREA_OFFSET : Z := 0x100.
Definition LOCKDOWN_SIZE : Z := 0x50.

(** ** Little-endian words *)

(** [le_to_uint]: the sum is taken in [unsigned int]. *)
Definition le_to_uint (ptr : buffer) : Z :=
  u32 (rd ptr 0 + rd ptr 1 * 0x100 + rd ptr 2 * 0x10000
       + rd ptr 3 * 0x1000000).

(** ** The image headers

    [struct image_metadata] has, besides the fields of [image_metadata]
    above, the checksum, the bootloader size, the offset of the display
    configuration, the two product identifiers and the bootloader block.
    The header parsers fill them in; no other function of the engine
    reads them, so they live in a record of their own that the parsers
    thread next to the metadata. *)

Record image_info := {
  meta : image_metadata;
  checksum : Z;
  bootloader_size : Z;
  disp_config_offset : Z;
  product_id : list Z;
  cstmr_product_id : list Z;
  bootloader : block_data
}.

Definition set_meta v (i : image_info) :=
  Build_image_info v (checksum i) (bootloader_size i) (disp_config_offset i)
    (product_id i) (cstmr_product_id i) (bootloader i).

Definition set_checksum v (i : image_info) :=
  Build_image_info (meta i) v (bootloader_size i) (disp_config_offset i)
    (product_id i) (cstmr_product_id i) (bootloader i).

Definition set_bootloader_size v (i : image_info) :=
  Build_image_info (meta i) (checksum i) v (disp_config_offset i)
    (product_id i) (cstmr_product_id i) (bootloader i).

Definition set_disp_config_offset v (i : image_info) :=
  Build_image_info (meta i) (checksum i) (bootloader_size i) v
    (product_id i) (cstmr_product_id i) (bootloader i).

Definition set_product_id v (i : image_info) :=
  Build_image_info (meta i) (checksum i) (bootloader_size i)
    (disp_config_offset i) v (cstmr_product_id i) (bootloader i).

Definition set_cstmr_product_id v (i : image_info) :=
  Build_image_info (meta i) (checksum i) (bootloader_size i)
    (disp_config_offset i) (product_id i) v (bootloader i).

Definition set_bootloader v (i : image_info) :=
  Build_image_info (meta i) (checksum i) (bootloader_size i)
    (disp_config_offset i) (product_id i) (cstmr_product_id i) v.

(** An update of the metadata inside. *)
Definition on_meta (f : image_metadata -> image_metadata) (i : image_info) :=
  set_meta (f (meta i)) i.

(** The fields of [struct container_descriptor] the parsers read: the
    identifier at bytes 4 and 5, the content length at 24 and the
    content address at 28. *)
Definition container_id_at (image : buffer) (addr : Z) : Z :=
  Z.lor (rd image (addr + 4)) (Z.shiftl (rd image (addr + 5)) 8).

Definition content_length_at (image : buffer) (addr : Z) : Z :=
  le_to_uint (ptr_add image (addr + 24)).

Definition content_address_at (image : buffer) (addr : Z) : Z :=
  le_to_uint (ptr_add image (addr + 28)).

(** One turn of the loop of [fwu_parse_image_header_10_bl_container]. *)
Definition bl_container_entry (image : buffer) (bl : buffer) (ii : Z)
    (i : image_info) : image_info :=
  let addr := le_to_uint (ptr_add bl (ii * 4)) in
  let container_id := container_id_at image addr in
  let content := Some (ptr_add image (content_address_at image addr)) in
  let length := content_length_at image addr in
  if (container_id =? BL_CONFIG_CONTAINER)
     || (container_id =? GLOBAL_PARAMETERS_CONTAINER) then
    on_meta (set_bl_config {| size := length; data := content |}) i
  else if (container_id =? BL_LOCKDOWN_INFO_CONTAINER)
          || (container_id =? DEVICE_CONFIG_CONTAINER) then
    on_meta (set_lockdown {| size := length; data := content |}) i
  else i.

(** The loop of [fwu_parse_image_header_10_bl_container] from [ii] on;
    the counter is an [unsigned char], and the test is [ii <= n]. *)
Fixpoint bl_container_loop (fuel : nat) (image : buffer) (bl : pointer)
    (num_of_containers ii : Z) (i : image_info) : pure image_info :=
  match fuel with
  | O => Fuel
  | S fuel' =>
      if ii <=? num_of_containers then
        match bl with
        | None => Oops
        | Some b =>
            bl_container_loop fuel' image bl num_of_containers (u8 (ii + 1))
              (bl_container_entry image b ii i)
        end
      else Ret i tt
  end.

(** [fwu_parse_image_header_10_bl_container]; a loop that ends does so
    within 255 turns. *)
Definition fwu_parse_image_header_10_bl_container (image : buffer)
    (i : image_info) : pure image_info :=
  let num_of_containers := u8 (u32 (size (bootloader i) - 4) / 4) in
  bl_container_loop 256 image (data (bootloader i)) num_of_containers 1 i.

(** One turn of the loop of [fwu_parse_image_header_10], for the
    descriptor at [addr]. *)
Definition container_entry (image : buffer) (addr : Z) (i : image_info)
  : pure image_info :=
  let container_id := container_id_at image addr in
  let content_addr := content_address_at image addr in
  let content := Some (ptr_add image content_addr) in
  let length := content_length_at image addr in
  if (container_id =? UI_CONTAINER) || (container_id =? CORE_CODE_CONTAINER) then
    Ret (on_meta (set_ui_firmware {| size := length; data := content |}) i) tt
  else if (container_id =? UI_CONFIG_CONTAINER)
          || (container_id =? CORE_CONFIG_CONTAINER) then
    Ret (on_meta (set_ui_config {| size := length; data := content |}) i) tt
  else if container_id =? BL_CONTAINER then
    fwu_parse_image_header_10_bl_container image
      (set_bootloader {| size := length; data := content |}
         (on_meta (set_img_bl_version (rd image content_addr)) i))
  else if container_id =? GUEST_CODE_CONTAINER then
    Ret (on_meta (fun m => set_guest_code {| size := length; data := content |}
                             (set_contains_guest_code true m)) i) tt
  else if container_id =? DISPLAY_CONFIG_CONTAINER then
    Ret (on_meta (fun m => set_dp_config {| size := length; data := content |}
                             (set_contains_disp_config true m)) i) tt
  else if container_id =? FLASH_CONFIG_CONTAINER then
    Ret (on_meta (fun m => set_fl_config {| size := length; data := content |}
                             (set_contains_flash_config true m)) i) tt
  else if container_id =? GENERAL_INFORMATION_CONTAINER then
    Ret (on_meta (fun m => set_firmware_id
                             (le_to_uint (ptr_add image (content_addr + 4)))
                             (set_contains_firmware_id true m)) i) tt
  else Ret i tt.

(** The loop of [fwu_parse_image_header_10]: [n] more descriptors, the
    address of the next one at [offset]. *)
Fixpoint container_loop (n : nat) (image : buffer) (offset : Z)
    (i : image_info) : pure image_info :=
  match n with
  | O => Ret i tt
  | S n' =>
      let addr := le_to_uint (ptr_add image offset) in
      match container_entry image addr i with
      | Ret i' _ => container_loop n' image (u32 (offset + 4)) i'
      | Oops => Oops
      | Fuel => Fuel
      end
  end.

(** [fwu_parse_image_header_10]: the header holds the checksum at byte 0
    and the address of the top-level container at byte 12. *)
Definition fwu_parse_image_header_10 (image : pointer) (i : image_info)
  : pure image_info :=
  match image with
  | None => Oops
  | Some image =>
      let i := set_checksum (le_to_uint image) i in
      let top := le_to_uint (ptr_add image 12) in
      let offset := content_address_at image top in
      let num_of_containers := u8 (content_length_at image top / 4) in
      container_loop (Z.to_nat num_of_containers) image offset i
  end.

Section Engine.

Variable hdr : dsx_header.
Variable dev : controller.

(** More of the absent headers: the byte mask and the length of the
    product identifier of the core driver, and the page size of the
    kernel. *)
Variable MASK_8BIT : Z.
Variable PRODUCT_ID_SIZE : Z.
Variable PAGE_SIZE : Z.

(** [fwu->payload_length]: the queries of the partitioned protocol set
    it; the functions below only read it. *)
Variable payload_length : Z.

(** Functions left open: the two writers of the partition table and the
    F34 queries. *)
Variable fwu_write_partition_table_v7 : M Z.
Variable fwu_write_partition_table_v8 : M Z.
Variable fwu_read_f34_queries : M Z.

(** [fwu_parse_image_header_05_06].  The offsets are those the source
    notes next to the fields of [struct image_header_05_06]; the option
    bits are the low bits of byte 6, in the order of declaration. *)
Definition fwu_parse_image_header_05_06 (image : pointer) (i : image_info)
  : pure image_info :=
  match image with
  | None => Oops
  | Some image =>
      let options_firmware_id := Z.testbit (rd image 6) 0 in
      let options_bootloader := Z.testbit (rd image 6) 1 in
      let options_tddi := Z.testbit (rd image 6) 3 in
      let i := set_checksum (le_to_uint image) i in
      let i := on_meta (set_img_bl_version (rd image 7)) i in
      let i := on_meta (set_contains_bootloader options_bootloader) i in
      let i := if contains_bootloader (meta i)
               then set_bootloader_size (le_to_uint (ptr_add image 0x24)) i
               else i in
      let i := on_meta (fun m =>
                 set_ui_firmware {| size := le_to_uint (ptr_add image 8);
                                    data := data (ui_firmware m) |} m) i in
      let i :=
        if negb (size (ui_firmware (meta i)) =? 0) then
          let i := on_meta (fun m =>
                     set_ui_firmware
                       {| size := size (ui_firmware m);
                          data := Some (ptr_add image IMAGE_AREA_OFFSET) |} m) i in
          if contains_bootloader (meta i) then
            on_meta (fun m =>
              set_ui_firmware
                {| size := size (ui_firmware m);
                   data := ptr_advance (data (ui_firmware m))
                             (bootloader_size i) |} m) i
          else i
        else i in
      let i :=
        if (img_bl_version (meta i) =? BL_V6) && options_tddi then
          on_meta (fun m =>
            set_ui_firmware
              {| size := size (ui_firmware m);
                 data := Some (ptr_add image IMAGE_AREA_OFFSET) |} m) i
        else i in
      let i := on_meta (fun m =>
                 set_ui_config {| size := le_to_uint (ptr_add image 12);
                                  data := data (ui_config m) |} m) i in
      let i :=
        if negb (size (ui_config (meta i)) =? 0) then
          on_meta (fun m =>
            set_ui_config
              {| size := size (ui_config m);
                 data := ptr_advance (data (ui_firmware m))
                           (size (ui_firmware m)) |} m) i
        else i in
      let i := on_meta (fun m =>
                 set_contains_disp_config
                   (contains_bootloader m || options_tddi) m) i in
      let i :=
        if contains_disp_config (meta i) then
          let i := set_disp_config_offset (le_to_uint (ptr_add image 0x40)) i in
          on_meta (set_dp_config
                     {| size := le_to_uint (ptr_add image 0x44);
                        data := Some (ptr_add image (disp_config_offset i)) |}) i
        else
          set_cstmr_product_id
            (store (snd (secure_memcpy hdr (cstmr_product_id i)
                           (PRODUCT_ID_SIZE + 1) (Some (ptr_add image 0x40))
                           PRODUCT_ID_SIZE PRODUCT_ID_SIZE))
                   (Z.to_nat PRODUCT_ID_SIZE) 0) i in
      let i := on_meta (set_contains_firmware_id options_firmware_id) i in
      let i := if contains_firmware_id (meta i)
               then on_meta (set_firmware_id (le_to_uint (ptr_add image 0x50))) i
               else i in
      let i := set_product_id
                 (store (snd (secure_memcpy hdr (product_id i)
                                (PRODUCT_ID_SIZE + 1) (Some (ptr_add image 0x10))
                                PRODUCT_ID_SIZE PRODUCT_ID_SIZE))
                        (Z.to_nat PRODUCT_ID_SIZE) 0) i in
      Ret (on_meta (set_lockdown
                      {| size := LOCKDOWN_SIZE;
                         data := Some (ptr_add image
                                         (IMAGE_AREA_OFFSET - LOCKDOWN_SIZE)) |}) i)
          tt
  end.

(** [fwu->img] after [memset]. *)
Definition image_info_zero : image_info :=
  {| meta := img_zero;
     checksum := 0;
     bootloader_size := 0;
     disp_config_offset := 0;
     product_id := repeat 0 (Z.to_nat (PRODUCT_ID_SIZE + 1));
     cstmr_product_id := repeat 0 (Z.to_nat (PRODUCT_ID_SIZE + 1));
     bootloader := block_data_zero |}.

(** The [switch] of [fwu_parse_image_info] on the header version, byte 7
    of the image; [None] is its [default] label. *)
Definition parse_image_header (image : buffer) : pure (option image_info) :=
  let major_header_version := rd image 7 in
  if major_header_version =? IMAGE_HEADER_VERSION_10 then
    match fwu_parse_image_header_10 (Some image) image_info_zero with
    | Ret i _ => Ret (Some i) tt
    | Oops => Oops
    | Fuel => Fuel
    end
  else if (major_header_version =? IMAGE_HEADER_VERSION_05)
          || (major_header_version =? IMAGE_HEADER_VERSION_06) then
    match fwu_parse_image_header_05_06 (Some image) image_info_zero with
    | Ret i _ => Ret (Some i) tt
    | Oops => Oops
    | Fuel => Fuel
    end
  else Ret None tt.

(** [fwu_parse_image_info] *)
Definition fwu_parse_image_info : M Z :=
  h <- get_fwu ;;
  match image h with
  | None => oops
  | Some image =>
      update (set_img img_zero) ;;;
      parsed <- lift (parse_image_header image) ;;
      match parsed with
      | None => ret (- EINVAL hdr)
      | Some i =>
          update (set_img (meta i)) ;;;
          h <- get_fwu ;;
          if bl_version h >=? BL_V7 then
            if negb (contains_flash_config (img h)) then ret (- EINVAL hdr)
            else
              match data (fl_config (img h)) with
              | None =>
                  (* the table is read only when there are entries *)
                  if partitions h <=? 0 then
                    update fwu_compare_partition_tables ;;; ret 0
                  else oops
              | Some partition_table =>
                  let '(blk, phy) :=
                    fwu_parse_partition_table h partition_table
                      (img_blkcount (img h)) (img_phyaddr (img h)) in
                  update (fun h =>
                    set_img (set_img_phyaddr phy
                               (set_img_blkcount blk (img h))) h) ;;;
                  update fwu_compare_partition_tables ;;;
                  ret 0
              end
          else
            update (set_new_partition_table false) ;;;
            ret 0
      end
  end.

(** ** The other size checks

    As [fwu_check_ui_firmware_size]: [None] is the division by a zero
    block size. *)

(** [fwu_check_ui_configuration_size] *)
Definition fwu_check_ui_configuration_size (h : synaptics_rmi4_fwu_handle)
  : option Z :=
  if block_size h =? 0 then None
  else
    let block_count := u16 (size (ui_config (img h)) / block_size h) in
    if negb (block_count =? blk_ui_config (blkcount h))
    then Some (- EINVAL hdr)
    else Some 0.

(** [fwu_check_dp_configuration_size] *)
Definition fwu_check_dp_configuration_size (h : synaptics_rmi4_fwu_handle)
  : option Z :=
  if block_size h =? 0 then None
  else
    let block_count := u16 (size (dp_config (img h)) / block_size h) in
    if negb (block_count =? blk_dp_config (blkcount h))
    then Some (- EINVAL hdr)
    else Some 0.

(** [fwu_check_bl_configuration_size] *)
Definition fwu_check_bl_configuration_size (h : synaptics_rmi4_fwu_handle)
  : option Z :=
  if block_size h =? 0 then None
  else
    let block_count := u16 (size (bl_config (img h)) / block_size h) in
    if negb (block_count =? blk_bl_config (blkcount h))
    then Some (- EINVAL hdr)
    else Some 0.

(** [fwu_check_guest_code_size] *)
Definition fwu_check_guest_code_size (h : synaptics_rmi4_fwu_handle)
  : option Z :=
  if block_size h =? 0 then None
  else
    let block_count := u16 (size (guest_code (img h)) / block_size h) in
    if negb (block_count =? blk_guest_code (blkcount h))
    then Some (- EINVAL hdr)
    else Some 0.

(** A check inside the driver monad. *)
Definition checked (check : synaptics_rmi4_fwu_handle -> option Z) : M Z :=
  h <- get_fwu ;;
  match check h with
  | None => oops
  | Some retval => ret retval
  end.

(** ** The interrupt enable check *)

(** [fwu_check_intr_en]: [retval] starts as the return value of the
    read and becomes 1 at every byte of the driver's mask that is not
    inside the byte of the controller.  The function never compares
    [size] with the length of its local array: the read stores [size]
    bytes from the start of [intr_en], and the loop reads the same
    [size] bytes back. *)
Definition fwu_check_intr_en (drv_intr_en : buffer) (size : Z) : M Z :=
  h <- get_fwu ;;
  let addr := u8 (f01_ctrl_base_addr (rmi4_data h) + 1) in
  ' (retval, intr_en) <- synaptics_rmi4_reg_read dev addr size ;;
  if retval <? 0 then ret retval
  else
    ret (fold_left
           (fun retval i =>
              if negb (rd drv_intr_en (Z.of_nat i)
                       =? Z.land (rd drv_intr_en (Z.of_nat i))
                                 (nth i intr_en 0))
              then 1 else retval)
           (seq 0 (Z.to_nat size)) retval).

(** ** The bootloader-mode query of the core driver *)

(** [synaptics_rmi4_fwu_flash_status], on the global handle pointer and
    the bus trace. *)
Definition synaptics_rmi4_fwu_flash_status
    (st : option synaptics_rmi4_fwu_handle * list event)
  : outcome (option synaptics_rmi4_fwu_handle * list event) Z :=
  match fst st with
  | None => Ret (- EINVAL hdr) st
  | Some h =>
      match (' (retval, status) <-
               synaptics_rmi4_reg_read dev
                 (data_base_addr (f34_fd h) + off_flash_status (off h)) 1 ;;
             if retval <? 0 then ret retval
             else ret (Z.shiftr (nth 0 status 0) 7))
              {| fwu := h; log := snd st |} with
      | Ret istatus w => Ret istatus (Some (fwu w), log w)
      | Oops => Oops
      | Fuel => Fuel
      end
  end.

(** [synaptics_rmi4_fwu_attn] *)
Definition synaptics_rmi4_fwu_attn (intr_mask_arg : Z)
    (st : option synaptics_rmi4_fwu_handle * list event)
  : outcome (option synaptics_rmi4_fwu_handle * list event) unit :=
  match fst st with
  | None => Ret tt st
  | Some h =>
      if negb (Z.land (intr_mask h) intr_mask_arg =? 0) then
        match fwu_read_flash_status hdr dev {| fwu := h; log := snd st |} with
        | Ret _ w => Ret tt (Some (fwu w), log w)
        | Oops => Oops
        | Fuel => Fuel
        end
      else Ret tt st
  end.

(** ** Partition identifiers *)

(** The partition of [fwu_write_f34_v7_partition_id]; [None] is the
    [default] label. *)
Definition v7_partition (h : synaptics_rmi4_fwu_handle) (cmd : flash_command)
  : option Z :=
  match cmd with
  | CMD_WRITE_FW => Some CORE_CODE_PARTITION
  | CMD_WRITE_CONFIG | CMD_READ_CONFIG =>
      Some match config_area_sel h with
           | UI_CONFIG_AREA => CORE_CONFIG_PARTITION
           | DP_CONFIG_AREA => DISPLAY_CONFIG_PARTITION
           | PM_CONFIG_AREA => GUEST_SERIALIZATION_PARTITION
           | BL_CONFIG_AREA => GLOBAL_PARAMETERS_PARTITION
           | FLASH_CONFIG_AREA => FLASH_CONFIG_PARTITION
           end
  | CMD_WRITE_GUEST_CODE => Some GUEST_CODE_PARTITION
  | CMD_ERASE_ALL => Some CORE_CODE_PARTITION
  | CMD_ERASE_BL_CONFIG => Some GLOBAL_PARAMETERS_PARTITION
  | CMD_ERASE_UI_CONFIG => Some CORE_CONFIG_PARTITION
  | CMD_ERASE_DISP_CONFIG => Some DISPLAY_CONFIG_PARTITION
  | CMD_ERASE_FLASH_CONFIG => Some FLASH_CONFIG_PARTITION
  | CMD_ERASE_GUEST_CODE => Some GUEST_CODE_PARTITION
  | CMD_ENABLE_FLASH_PROG => Some BOOTLOADER_PARTITION
  | _ => None
  end.

(** [fwu_write_f34_v7_partition_id] *)
Definition fwu_write_f34_v7_partition_id (cmd : flash_command) : M Z :=
  h <- get_fwu ;;
  let base := data_base_addr (f34_fd h) in
  match v7_partition h cmd with
  | None => ret (- EINVAL hdr)
  | Some partition =>
      retval <- synaptics_rmi4_reg_write dev (base + off_partition_id (off h))
                  [partition] ;;
      if retval <? 0 then ret retval else ret 0
  end.

(** [fwu_write_f34_partition_id] *)
Definition fwu_write_f34_partition_id (cmd : flash_command) : M Z :=
  h <- get_fwu ;;
  if bl_version h >=? BL_V7 then fwu_write_f34_v7_partition_id cmd
  else ret 0.

(** ** Writing blocks *)

(** The transfer limit of [fwu_write_f34_v7_blocks]: the division is by
    the block size of the handle, and [None] is the division by zero. *)
Definition v7_max_transfer (h : synaptics_rmi4_fwu_handle) : option Z :=
  if block_size h =? 0 then None
  else if payload_length >? PAGE_SIZE / block_size h
  then Some (u16 (PAGE_SIZE / block_size h))
  else Some (u16 payload_length).

(** The test [if (remaining / max_transfer)] at the head of the loop
    asks only whether the quotient of two [unsigned short] is non-zero,
    that is, whether [max_transfer] is at most [remaining].  With a
    [max_transfer] of zero the quotient has no value and the test comes
    to the same comparison: the branch is taken, and the transfer has
    no blocks. *)
Definition quotient_nonzero (remaining max_transfer : Z) : bool :=
  max_transfer <=? remaining.

(** The [do ... while] loop of [fwu_write_f34_v7_blocks]. *)
Fixpoint v7_write_transfers (fuel : nat) (base : Z) (cmd : flash_command)
    (max_transfer : Z) (block_ptr : pointer) (remaining : Z) : M Z :=
  match fuel with
  | O => out_of_fuel
  | S fuel' =>
      let transfer :=
        if quotient_nonzero remaining max_transfer then max_transfer
        else remaining in
      let length :=
        [u8 (Z.land transfer MASK_8BIT); u8 (Z.shiftr transfer 8)] in
      h <- get_fwu ;;
      retval <- synaptics_rmi4_reg_write dev
                  (base + off_transfer_length (off h)) length ;;
      if retval <? 0 then ret retval
      else
        retval <- fwu_write_f34_command hdr dev cmd ;;
        if retval <? 0 then ret retval
        else
          h <- get_fwu ;;
          match bytes_from block_ptr (transfer * block_size h) with
          | None => oops
          | Some bytes =>
              retval <- synaptics_rmi4_reg_write dev
                          (base + off_payload (off h)) bytes ;;
              if retval <? 0 then ret retval
              else
                retval <- fwu_wait_for_idle hdr dev WRITE_WAIT_MS ;;
                if retval <? 0 then ret retval
                else
                  h <- get_fwu ;;
                  let block_ptr :=
                    ptr_advance block_ptr (transfer * block_size h) in
                  let remaining := u16 (remaining - transfer) in
                  if negb (remaining =? 0) then
                    v7_write_transfers fuel' base cmd max_transfer
                      block_ptr remaining
                  else ret 0
          end
  end.

(** [fwu_write_f34_v7_blocks]; with a [max_transfer] that is not zero
    the loop ends within [block_cnt] turns, or one. *)
Definition fwu_write_f34_v7_blocks (block_ptr : pointer) (block_cnt : Z)
    (command : flash_command) : M Z :=
  h <- get_fwu ;;
  let base := data_base_addr (f34_fd h) in
  let remaining := u16 block_cnt in
  retval <- fwu_write_f34_partition_id command ;;
  if retval <? 0 then ret retval
  else
    h <- get_fwu ;;
    retval <- synaptics_rmi4_reg_write dev (base + off_block_number (off h))
                [0; 0] ;;
    if retval <? 0 then ret retval
    else
      h <- get_fwu ;;
      match v7_max_transfer h with
      | None => oops
      | Some max_transfer =>
          v7_write_transfers (S (Z.to_nat remaining)) base command
            max_transfer block_ptr remaining
      end.

(** The [for] loop of [fwu_write_f34_v5v6_blocks], [n] more blocks. *)
Fixpoint v5v6_write_blocks (n : nat) (base : Z) (cmd : flash_command)
    (block_ptr : pointer) : M Z :=
  match n with
  | O => ret 0
  | S n' =>
      h <- get_fwu ;;
      match bytes_from block_ptr (block_size h) with
      | None => oops
      | Some bytes =>
          retval <- synaptics_rmi4_reg_write dev (base + off_payload (off h))
                      bytes ;;
          if retval <? 0 then ret retval
          else
            retval <- fwu_write_f34_command hdr dev cmd ;;
            if retval <? 0 then ret retval
            else
              retval <- fwu_wait_for_idle hdr dev WRITE_WAIT_MS ;;
              if retval <? 0 then ret retval
              else
                h <- get_fwu ;;
                v5v6_write_blocks n' base cmd
                  (ptr_advance block_ptr (block_size h))
      end
  end.

(** [fwu_write_f34_v5v6_blocks]: the configuration area goes out in the
    top bits of the block number. *)
Definition fwu_write_f34_v5v6_blocks (block_ptr : pointer) (block_cnt : Z)
    (command : flash_command) : M Z :=
  h <- get_fwu ;;
  let base := data_base_addr (f34_fd h) in
  let block_number :=
    [0; u8 (Z.lor 0 (Z.shiftl (config_area_code (config_area_sel h)) 5))] in
  retval <- synaptics_rmi4_reg_write dev (base + off_block_number (off h))
              block_number ;;
  if retval <? 0 then ret retval
  else v5v6_write_blocks (Z.to_nat (u16 block_cnt)) base command block_ptr.

(** [fwu_write_f34_blocks] *)
Definition fwu_write_f34_blocks (block_ptr : pointer) (block_cnt : Z)
    (cmd : flash_command) : M Z :=
  h <- get_fwu ;;
  if bl_version h >=? BL_V7 then fwu_write_f34_v7_blocks block_ptr block_cnt cmd
  else fwu_write_f34_v5v6_blocks block_ptr block_cnt cmd.

(** [fwu_write_firmware] *)
Definition fwu_write_firmware : M Z :=
  h <- get_fwu ;;
  if block_size h =? 0 then oops
  else
    let firmware_block_count :=
      u16 (size (ui_firmware (img h)) / block_size h) in
    fwu_write_f34_blocks (data (ui_firmware (img h))) firmware_block_count
      CMD_WRITE_FW.

(** [fwu_write_configuration], on the values of [fwu->config_data] and
    [fwu->config_block_count]. *)
Definition fwu_write_configuration (config_data : pointer)
    (config_block_count : Z) : M Z :=
  fwu_write_f34_blocks config_data config_block_count CMD_WRITE_CONFIG.

(** [fwu_write_ui_configuration]: [fwu->config_size] is an
    [unsigned short]. *)
Definition fwu_write_ui_configuration : M Z :=
  update (set_config_area UI_CONFIG_AREA) ;;;
  h <- get_fwu ;;
  let config_data := data (ui_config (img h)) in
  let config_size := u16 (size (ui_config (img h))) in
  if block_size h =? 0 then oops
  else
    let config_block_count := u16 (config_size / block_size h) in
    fwu_write_configuration config_data config_block_count.

(** [fwu_write_dp_configuration] *)
Definition fwu_write_dp_configuration : M Z :=
  update (set_config_area DP_CONFIG_AREA) ;;;
  h <- get_fwu ;;
  let config_data := data (dp_config (img h)) in
  let config_size := u16 (size (dp_config (img h))) in
  if block_size h =? 0 then oops
  else
    let config_block_count := u16 (config_size / block_size h) in
    fwu_write_configuration config_data config_block_count.

(** [fwu_write_guest_code] *)
Definition fwu_write_guest_code : M Z :=
  h <- get_fwu ;;
  if block_size h =? 0 then oops
  else
    let guest_code_block_count :=
      u16 (size (guest_code (img h)) / block_size h) in
    retval <- fwu_write_f34_blocks (data (guest_code (img h)))
                guest_code_block_count CMD_WRITE_GUEST_CODE ;;
    if retval <? 0 then ret retval else ret 0.

(** [fwu_write_lockdown] *)
Definition fwu_write_lockdown : M Z :=
  h <- get_fwu ;;
  if block_size h =? 0 then oops
  else
    let lockdown_block_count :=
      u16 (size (lockdown (img h)) / block_size h) in
    fwu_write_f34_blocks (data (lockdown (img h))) lockdown_block_count
      CMD_WRITE_LOCKDOWN.

(** ** The reflash *)

(** The size checks at the head of [fwu_do_reflash]. *)
Definition do_reflash_checks : M Z :=
  h <- get_fwu ;;
  if negb (new_partition_table h) then
    retval <- checked (fwu_check_ui_firmware_size hdr) ;;
    if retval <? 0 then ret retval
    else
      retval <- checked fwu_check_ui_configuration_size ;;
      if retval <? 0 then ret retval
      else
        h <- get_fwu ;;
        retval <-
          (if has_disp_config (flash_properties h)
              && contains_disp_config (img h)
           then checked fwu_check_dp_configuration_size
           else ret retval) ;;
        if retval <? 0 then ret retval
        else
          h <- get_fwu ;;
          if has_guest_code h && contains_guest_code (img h)
          then checked fwu_check_guest_code_size
          else ret retval
  else if bl_version h =? BL_V7 then
    checked fwu_check_bl_configuration_size
  else ret 0.

(** The writes at the tail of [fwu_do_reflash], from the firmware on. *)
Definition do_reflash_writes : M Z :=
  retval <- fwu_write_firmware ;;
  if retval <? 0 then ret retval
  else
    update (set_config_area UI_CONFIG_AREA) ;;;
    retval <- fwu_write_ui_configuration ;;
    if retval <? 0 then ret retval
    else
      h <- get_fwu ;;
      retval <-
        (if has_disp_config (flash_properties h) && contains_disp_config (img h)
         then fwu_write_dp_configuration
         else ret retval) ;;
      if retval <? 0 then ret retval
      else
        h <- get_fwu ;;
        if new_partition_table h
           && (has_guest_code h && contains_guest_code (img h))
        then
          retval <- fwu_write_guest_code ;;
          if retval <? 0 then ret retval else ret retval
        else ret retval.

(** [fwu_do_reflash] *)
Definition fwu_do_reflash : M Z :=
  retval <- do_reflash_checks ;;
  if retval <? 0 then ret retval
  else
    retval <- fwu_erase_all hdr dev ;;
    if retval <? 0 then ret retval
    else
      h <- get_fwu ;;
      retval <-
        (if (bl_version h =? BL_V7) && new_partition_table h
         then fwu_write_partition_table_v7
         else if bl_version h =? BL_V8
         then fwu_write_partition_table_v8
         else ret retval) ;;
      if retval <? 0 then ret retval
      else do_reflash_writes.

(** ** Entering flash programming *)

(** [fwu_enter_flash_prog].  The device control byte goes back with
    [nosleep] (bit 2) set and [sleep_mode] (bits 0 and 1) cleared; the
    sleep at the end leaves no trace. *)
Definition fwu_enter_flash_prog : M Z :=
  retval <- fwu_read_flash_status hdr dev ;;
  if retval <? 0 then ret retval
  else
    h <- get_fwu ;;
    if in_bl_mode h then ret 0
    else
      retval <- fwu_write_f34_command hdr dev CMD_ENABLE_FLASH_PROG ;;
      if retval <? 0 then ret retval
      else
        retval <- fwu_wait_for_idle hdr dev ENABLE_WAIT_MS ;;
        if retval <? 0 then ret retval
        else
          h <- get_fwu ;;
          if negb (in_bl_mode h) then ret (- EINVAL hdr)
          else
            retval <- fwu_scan_pdt hdr dev ;;
            if retval <? 0 then ret retval
            else
              h <- get_fwu ;;
              fwu_check_intr_en (buf_of_list [intr_mask h]) 1 ;;;
              retval <- fwu_read_f34_queries ;;
              if retval <? 0 then ret retval
              else
                h <- get_fwu ;;
                ' (retval, f01_device_control) <-
                  synaptics_rmi4_reg_read dev
                    (f01_ctrl_base_addr (rmi4_data h)) 1 ;;
                if retval <? 0 then ret retval
                else
                  h <- get_fwu ;;
                  retval <- synaptics_rmi4_reg_write dev
                              (f01_ctrl_base_addr (rmi4_data h))
                              [Z.lor (Z.land (nth 0 f01_device_control 0) 248)
                                     4] ;;
                  if retval <? 0 then ret retval else ret retval.

(** ** The TDAT format tag *)

(** [fwu_tdat_image_format] *)
Definition fwu_tdat_image_format (fw_image : buffer) : bool :=
  rd fw_image 0 =? 0x31.

(** ** Recovery commands *)

(** [fwu_recovery_erase_all]; the sleep between the command and the
    status read leaves no trace. *)
Definition fwu_recovery_erase_all : M Z :=
  h <- get_fwu ;;
  let base := ctrl_base_addr (f35_fd h) in
  retval <- synaptics_rmi4_reg_write dev (base + F35_CHUNK_COMMAND_OFFSET)
              [CMD_F35_ERASE_ALL] ;;
  if retval <? 0 then ret retval
  else
    retval <- fwu_recovery_check_status hdr dev ;;
    if retval <? 0 then ret retval else ret 0.

(** [fwu_recovery_reset] *)
Definition fwu_recovery_reset : M Z :=
  h <- get_fwu ;;
  let base := ctrl_base_addr (f35_fd h) in
  retval <- synaptics_rmi4_reg_write dev (base + F35_CHUNK_COMMAND_OFFSET)
              [CMD_F35_RESET] ;;
  if retval <? 0 then ret retval else ret 0.

End Engine.

(** ** Notions for the statements below *)

(** [c] started in [w] returns, with a result and a state that satisfy
    [Q]. *)
Definition runs {A} (c : M A) (w : world) (Q : A -> world -> Prop) : Prop :=
  match c w with
  | Ret a w' => Q a w'
  | _ => False
  end.

(** [h'] is [h] up to the three fields a status read refreshes. *)
Definition status_fields_only (h h' : synaptics_rmi4_fwu_handle) : Prop :=
  h' = h |> set_in_bl_mode (in_bl_mode h')
         |> set_flash_status (flash_status h')
         |> set_command (command h').

(** The four bytes of an [unsigned int], least significant first. *)
Definition uint_bytes (n : Z) : list Z :=
  [n mod 256; (n / 2 ^ 8) mod 256; (n / 2 ^ 16) mod 256; (n / 2 ^ 24) mod 256].

(** *** Entries of a partition table

    Entry [k] is the eight bytes from byte [8k + 2] on: the partition
    identifier in the low five bits of the first byte, the length in
    blocks in bytes 2 and 3 and the physical address in bytes 4 and 5,
    both least significant byte first. *)

Definition entry_id (t : buffer) (k : nat) : Z :=
  rd t (8 * Z.of_nat k + 2) mod 32.

Definition entry_length (t : buffer) (k : nat) : Z :=
  rd t (8 * Z.of_nat k + 4) + 256 * rd t (8 * Z.of_nat k + 5).

Definition entry_address (t : buffer) (k : nat) : Z :=
  rd t (8 * Z.of_nat k + 6) + 256 * rd t (8 * Z.of_nat k + 7).

(** The last of the first [n] entries that carries the identifier. *)
Fixpoint last_entry (t : buffer) (n : nat) (id : Z) : option nat :=
  match n with
  | O => None
  | S n' => if entry_id t n' =? id then Some n' else last_entry t n' id
  end.

(** The areas the engine keeps a block count for, with their partition
    identifier; four of them have a tracked physical address. *)
Inductive table_area :=
| AREA_CORE_CODE | AREA_CORE_CONFIG | AREA_DISPLAY_CONFIG | AREA_FLASH_CONFIG
| AREA_GUEST_CODE | AREA_GUEST_SERIALIZATION | AREA_GLOBAL_PARAMETERS
| AREA_DEVICE_CONFIG.

Definition area_partition (a : table_area) : Z :=
  match a with
  | AREA_CORE_CODE => CORE_CODE_PARTITION
  | AREA_CORE_CONFIG => CORE_CONFIG_PARTITION
  | AREA_DISPLAY_CONFIG => DISPLAY_CONFIG_PARTITION
  | AREA_FLASH_CONFIG => FLASH_CONFIG_PARTITION
  | AREA_GUEST_CODE => GUEST_CODE_PARTITION
  | AREA_GUEST_SERIALIZATION => GUEST_SERIALIZATION_PARTITION
  | AREA_GLOBAL_PARAMETERS => GLOBAL_PARAMETERS_PARTITION
  | AREA_DEVICE_CONFIG => DEVICE_CONFIG_PARTITION
  end.

Definition area_blkcount (b : block_count) (a : table_area) : Z :=
  match a with
  | AREA_CORE_CODE => blk_ui_firmware b
  | AREA_CORE_CONFIG => blk_ui_config b
  | AREA_DISPLAY_CONFIG => blk_dp_config b
  | AREA_FLASH_CONFIG => blk_fl_config b
  | AREA_GUEST_CODE => blk_guest_code b
  | AREA_GUEST_SERIALIZATION => blk_pm_config b
  | AREA_GLOBAL_PARAMETERS => blk_bl_config b
  | AREA_DEVICE_CONFIG => blk_lockdown b
  end.

Definition area_phyaddr (p : physical_address) (a : table_area) : option Z :=
  match a with
  | AREA_CORE_CODE => Some (phy_ui_firmware p)
  | AREA_CORE_CONFIG => Some (phy_ui_config p)
  | AREA_DISPLAY_CONFIG => Some (phy_dp_config p)
  | AREA_GUEST_CODE => Some (phy_guest_code p)
  | _ => None
  end.

(** A length of [sz] bytes holds [count] whole blocks of [bs] bytes, up
    to a multiple of 2^16 blocks: the trailing bytes that do not fill a
    block are not counted. *)
Definition whole_blocks (sz bs count : Z) : Prop :=
  exists k, 0 <= k /\
    (count + 2 ^ 16 * k) * bs <= sz < (count + 2 ^ 16 * k + 1) * bs.

(** A check that counts whole blocks: it answers 0 or -EINVAL, and 0
    exactly when the length holds [count] whole blocks. *)
Definition counts_whole_blocks (einval : Z) (r : option Z) (sz bs count : Z)
  : Prop :=
  (r = Some 0 \/ r = Some (- einval)) /\
  (r = Some 0 <-> whole_blocks sz bs count).

(** The handle of the area size examples: blocks of 16 bytes, a
    controller that reports [count] blocks for every area and an image
    whose areas all have [sz] bytes. *)
Definition area_size_example (sz count : Z) : synaptics_rmi4_fwu_handle :=
  fwu_zero
  |> set_block_size 16
  |> set_blkcount (Build_block_count count count count count count count
                     count count)
  |> set_img (img_zero
              |> set_ui_config {| size := sz; data := None |}
              |> set_dp_config {| size := sz; data := None |}
              |> set_bl_config {| size := sz; data := None |}
              |> set_guest_code {| size := sz; data := None |}).

(** *** The write sequence, as a trace

    The code of a command that goes out as a single byte in the command
    register: on the partitioned protocols the commands that are not a
    single transaction, on the legacy protocols the commands that do not
    send the bootloader identifier first. *)
Definition wire_command (h : synaptics_rmi4_fwu_handle) (cmd : flash_command)
  : option Z :=
  if bl_version h >=? BL_V7 then
    if v7_is_single_transaction cmd then None else v7_command cmd
  else
    if v5v6_sends_bootloader_id cmd then None else v5v6_command cmd.

(** Legacy protocols: the block number with the configuration area in
    its top bits, then block [k] of the data followed by the command,
    for every block in turn. *)
Definition v5v6_block_writes (h : synaptics_rmi4_fwu_handle) (p : buffer)
    (code : Z) (k : nat) : list event :=
  [RegWrite (data_base_addr (f34_fd h) + off_payload (off h))
     (slice p (Z.of_nat k * block_size h) (Z.to_nat (block_size h)));
   RegWrite (data_base_addr (f34_fd h) + off_flash_cmd (off h)) [code]].

Definition v5v6_blocks_trace (h : synaptics_rmi4_fwu_handle) (p : buffer)
    (code : Z) (cnt : nat) : list event :=
  RegWrite (data_base_addr (f34_fd h) + off_block_number (off h))
    [0; 32 * config_area_code (config_area_sel h)]
  :: flat_map (v5v6_block_writes h p code) (seq 0 cnt).

(** Partitioned protocols: the blocks go out in transfers of [max]
    blocks, the last one shorter when [max] does not divide the count;
    a count of zero still makes one, empty, transfer. *)
Definition transfer_plan (max cnt : Z) : list Z :=
  if cnt =? 0 then [0]
  else repeat max (Z.to_nat (cnt / max))
       ++ (if cnt mod max =? 0 then [] else [cnt mod max]).

(** One transfer of [t] blocks that starts at block [start]: its
    length, the command, the data. *)
Definition v7_transfer_writes (h : synaptics_rmi4_fwu_handle) (mask : Z)
    (p : buffer) (code start t : Z) : list event :=
  [RegWrite (data_base_addr (f34_fd h) + off_transfer_length (off h))
     [u8 (Z.land t mask); u8 (Z.shiftr t 8)];
   RegWrite (data_base_addr (f34_fd h) + off_flash_cmd (off h)) [code];
   RegWrite (data_base_addr (f34_fd h) + off_payload (off h))
     (slice p (start * block_size h) (Z.to_nat (t * block_size h)))].

Fixpoint v7_plan_writes (h : synaptics_rmi4_fwu_handle) (mask : Z)
    (p : buffer) (code start : Z) (plan : list Z) : list event :=
  match plan with
  | [] => []
  | t :: plan' =>
      v7_transfer_writes h mask p code start t
      ++ v7_plan_writes h mask p code (start + t) plan'
  end.

Definition v7_blocks_trace (h : synaptics_rmi4_fwu_handle) (mask : Z)
    (p : buffer) (partition code max cnt : Z) : list event :=
  RegWrite (data_base_addr (f34_fd h) + off_partition_id (off h)) [partition]
  :: RegWrite (data_base_addr (f34_fd h) + off_block_number (off h)) [0; 0]
  :: v7_plan_writes h mask p code 0 (transfer_plan max cnt).

(** What a writer has put on the bus when it returns [r] from [w] in
    [w']: a part of [plan] from its start, all of it unless [r]
    reports a failure. *)
Definition wrote (plan : list event) (w : world) (r : Z) (w' : world) : Prop :=
  exists rest,
    writes_of (log w) ++ plan = writes_of (log w') ++ rest /\
    (0 <= r -> rest = []).

(** A legacy (version 6) handle on a register map with F01 data at 0x20
    and F34 data at 0x10: blocks of two bytes, the block number at
    offset 0, the block data at offset 1, the command at offset 2 and
    the status at offset 3. *)
Definition legacy_example : synaptics_rmi4_fwu_handle :=
  fwu_zero
  |> set_bl_version BL_V6
  |> set_block_size 2
  |> set_off (Build_register_offset 3 0 0 0 2 1)
  |> set_f34_fd (Build_synaptics_rmi4_fn_desc 0 0 0 0x10 1 1 0x34)
  |> set_rmi4_data (Build_synaptics_rmi4_data 0 0 0x20 0 [0x10; 0; 0]).

(** A controller with empty registers that accepts every write. *)
Definition quiet_controller : controller := register_file (fun _ => []) false.

(** Every bit of the mask [x] is a bit of [y]. *)
Definition mask_within (x y : Z) : Prop :=
  forall n, 0 <= n -> Z.testbit x n = true -> Z.testbit y n = true.

(** The register writes of the command that enters flash programming:
    a single transaction on the partitioned protocols, the bootloader
    identifier and the command on the legacy ones. *)
Definition enable_events (h : synaptics_rmi4_fwu_handle) : list event :=
  erase_events h CMD_ENABLE_FLASH_PROG.

(** A controller whose flash status register at [addr] never shows
    bootloader mode (bit 7). *)
Definition never_in_bootloader (dev : controller) (addr : Z) : Prop :=
  forall l, nth 0 (fit 1 (snd (read_reply dev l addr 1))) 0 < 128.

(** The commands that go out as a transaction of their own: a single
    write of the whole command block on the partitioned protocols, the
    bootloader identifier followed by the command on the legacy ones. *)
Definition transaction_command (h : synaptics_rmi4_fwu_handle)
    (cmd : flash_command) : bool :=
  if bl_version h >=? BL_V7 then v7_is_single_transaction cmd
  else v5v6_sends_bootloader_id cmd.

(** The block counts of the image, as [fwu_do_reflash] compares them
    with the counts of the device when the partition table stays: the
    firmware and the configuration always, the display configuration
    and the guest code when both sides have them. *)
Definition reflash_sizes_match (h : synaptics_rmi4_fwu_handle) : bool :=
  (u16 (size (ui_firmware (img h)) / block_size h)
   =? blk_ui_firmware (blkcount h))
  && (u16 (size (ui_config (img h)) / block_size h)
      =? blk_ui_config (blkcount h))
  && (negb (has_disp_config (flash_properties h)
            && contains_disp_config (img h))
      || (u16 (size (dp_config (img h)) / block_size h)
          =? blk_dp_config (blkcount h)))
  && (negb (has_guest_code h && contains_guest_code (img h))
      || (u16 (size (guest_code (img h)) / block_size h)
          =? blk_guest_code (blkcount h))).

(** [i'] is [i] up to the bootloader configuration and the lockdown
    area of the metadata. *)
Definition bl_areas_only (i i' : image_info) : Prop :=
  i' = on_meta (fun m => set_lockdown (lockdown (meta i'))
                           (set_bl_config (bl_config (meta i')) m)) i.

(** [h'] is [h] up to the configuration area selected and the three
    status fields. *)
Definition area_and_status_only (h h' : synaptics_rmi4_fwu_handle) : Prop :=
  h' = h |> set_config_area (config_area_sel h')
         |> set_in_bl_mode (in_bl_mode h')
         |> set_flash_status (flash_status h')
         |> set_command (command h').

(** The configuration area that the erase phase of a legacy controller
    leaves selected: the display configuration when the controller has
    one, else the area selected before. *)
Definition area_after_erase (h : synaptics_rmi4_fwu_handle) : config_area :=
  if has_disp_config (flash_properties h) then DP_CONFIG_AREA
  else config_area_sel h.

(** The register writes of a whole reflash on a legacy controller that
    keeps its partition table: the erase of everything, the erase of the
    display configuration when the controller has one, then the blocks
    of the firmware, of the configuration, and of the display
    configuration when both the controller and the image have one.  The
    firmware blocks go out under the area the erase phase left selected;
    the counts of the configurations are taken from sizes cut to 16
    bits. *)
Definition legacy_reflash_trace (h : synaptics_rmi4_fwu_handle)
    (fw cfg dp : buffer) : list event :=
  erase_events h CMD_ERASE_ALL
  ++ (if has_disp_config (flash_properties h)
      then erase_events h CMD_ERASE_DISP_CONFIG else [])
  ++ v5v6_blocks_trace (set_config_area (area_after_erase h) h) fw
       CMD_V5V6_WRITE_FW
       (Z.to_nat (u16 (size (ui_firmware (img h)) / block_size h)))
  ++ v5v6_blocks_trace (set_config_area UI_CONFIG_AREA h) cfg
       CMD_V5V6_WRITE_CONFIG
       (Z.to_nat (u16 (u16 (size (ui_config (img h))) / block_size h)))
  ++ (if has_disp_config (flash_properties h) && contains_disp_config (img h)
      then v5v6_blocks_trace (set_config_area DP_CONFIG_AREA h) dp
             CMD_V5V6_WRITE_CONFIG
             (Z.to_nat (u16 (u16 (size (dp_config (img h))) / block_size h)))
      else []).

(** [legacy_example] with an image of two blocks of firmware and one
    block of configuration, on a controller that counts the same. *)
Definition reflash_example : synaptics_rmi4_fwu_handle :=
  legacy_example
  |> set_blkcount (Build_block_count 2 1 0 0 0 0 0 0)
  |> set_img (img_zero
              |> set_ui_firmware
                   {| size := 4; data := Some (buf_of_list [1; 2; 3; 4]) |}
              |> set_ui_config
                   {| size := 2; data := Some (buf_of_list [5; 6]) |}).

(** *** The descriptors of the top-level container

    The top-level container lists the addresses of its descriptors, four
    bytes each, from [offset] on; the offset is an [unsigned int]. *)

(** The last index below [n] at which [f] holds. *)
Fixpoint last_index (f : nat -> bool) (n : nat) : option nat :=
  match n with
  | O => None
  | S n' => if f n' then Some n' else last_index f n'
  end.

(** The address of descriptor [k]. *)
Definition container_entry_addr (image : buffer) (offset : Z) (k : nat) : Z :=
  le_to_uint (ptr_add image (u32 (offset + 4 * Z.of_nat k))).

(** The last of the first [n] descriptors that carries the identifier. *)
Definition last_container (image : buffer) (offset : Z) (n : nat) (id : Z)
  : option nat :=
  last_index
    (fun k => container_id_at image (container_entry_addr image offset k) =? id)
    n.

(** The block a descriptor stands for: its content in the image. *)
Definition container_block (image : buffer) (addr : Z) : block_data :=
  {| size := content_length_at image addr;
     data := Some (ptr_add image (content_address_at image addr)) |}.

(** A version 0x10 image of 84 bytes: the top-level container at 16
    lists one descriptor, at 52, of a flash configuration container
    whose (empty) content is at 84. *)
Definition header_10_example : list Z :=
  [0; 0; 0; 0; 0; 0; 0; 0x10; 0; 0; 0; 0; 16; 0; 0; 0]
  ++ repeat 0 24 ++ [4; 0; 0; 0; 48; 0; 0; 0]
  ++ [52; 0; 0; 0]
  ++ [0; 0; 0; 0; FLASH_CONFIG_CONTAINER; 0] ++ repeat 0 18
  ++ [0; 0; 0; 0; 84; 0; 0; 0].

(** *** The two tables of a comparison

    The controller's table goes through [fwu_parse_partition_table] into
    [fwu->blkcount] and [fwu->phyaddr] (in
    [fwu_read_f34_v7_queries]), the image's into [fwu->img.blkcount] and
    [fwu->img.phyaddr] (in [fwu_parse_image_info]); both parses walk
    [fwu->partitions] entries. *)

(** The partition of a compared area. *)
Definition region_partition (r : flash_region) : Z :=
  match r with
  | REGION_UI_FIRMWARE => CORE_CODE_PARTITION
  | REGION_UI_CONFIG => CORE_CONFIG_PARTITION
  | REGION_DP_CONFIG => DISPLAY_CONFIG_PARTITION
  | REGION_GUEST_CODE => GUEST_CODE_PARTITION
  end.

(** The handle once both tables have been parsed. *)
Definition tables_parsed (h : synaptics_rmi4_fwu_handle)
    (device_table image_table : buffer) : synaptics_rmi4_fwu_handle :=
  let dev :=
    fwu_parse_partition_table h device_table (blkcount h) (phyaddr h) in
  let im :=
    fwu_parse_partition_table h image_table (img_blkcount (img h))
      (img_phyaddr (img h)) in
  h |> set_blkcount (fst dev)
    |> set_phyaddr (snd dev)
    |> set_img (set_img_phyaddr (snd im) (set_img_blkcount (fst im) (img h))).

(** The physical address a table gives a compared area: that of the
    last of its entries that names the partition of the area, or the
    address held [before] when no entry does. *)
Definition table_address (h : synaptics_rmi4_fwu_handle) (t : buffer)
    (before : physical_address) (r : flash_region) : Z :=
  match last_entry t (Z.to_nat (partitions h)) (region_partition r) with
  | Some k => entry_address t k
  | None => region_phyaddr before r
  end.

(** Two tables of three entries on a controller with display
    configuration and guest code: core code and core configuration are
    the same in both, the flash configuration (partition 3) has 4 blocks
    at 0x0010 in the one and 6 blocks at 0x0020 in the other. *)
Definition three_partitions : synaptics_rmi4_fwu_handle :=
  fwu_zero
  |> set_partitions 3
  |> set_has_guest_code true
  |> set_flash_properties (Build_f34_v5v6_flash_properties false false true).

Definition device_table_example : buffer :=
  buf_of_list [0; 0; 7; 0; 0x64; 0; 0x40; 0; 0; 0;
                     8; 0; 8; 0; 0x80; 0; 0; 0;
                     3; 0; 4; 0; 0x10; 0; 0; 0].

Definition image_table_example : buffer :=
  buf_of_list [0; 0; 7; 0; 0x64; 0; 0x40; 0; 0; 0;
                     8; 0; 8; 0; 0x80; 0; 0; 0;
                     3; 0; 6; 0; 0x20; 0; 0; 0].

(** [c] started in [w] does not return within the turns it was given. *)
Definition stalls {A} (c : M A) (w : world) : Prop := c w = Fuel.

(** * Properties *)

(** ** Arithmetic of the machine integers *)

Lemma u8_small x : 0 <= x < 2 ^ 8 -> u8 x = x.
Proof. intros; unfold u8; apply Z.mod_small; lia. Qed.

Lemma u16_small x : 0 <= x < 2 ^ 16 -> u16 x = x.
Proof. intros; unfold u16; apply Z.mod_small; lia. Qed.

Lemma u32_small x : 0 <= x < 2 ^ 32 -> u32 x = x.
Proof. intros; unfold u32; apply Z.mod_small; lia. Qed.

Lemma u8_range x : 0 <= u8 x < 2 ^ 8.
Proof. unfold u8; apply Z.mod_pos_bound; lia. Qed.

Lemma rd_range p i : 0 <= rd p i < 256.
Proof. unfold rd; pose proof (u8_range (p i)); lia. Qed.

(** ** Size validation *)

(** The quotient test of [fwu_check_ui_firmware_size] in terms of the
    image length: [size] passes against [count] blocks of [bs] bytes
    exactly when it lies in a window of [bs] bytes that starts at a
    block count congruent to [count] modulo 2^16. *)
Lemma quotient_window (sz bs count : Z) :
  0 < bs -> 0 <= sz -> 0 <= count < 2 ^ 16 ->
  (u16 (sz / bs) = count <->
   exists k, 0 <= k /\
     (count + 2 ^ 16 * k) * bs <= sz < (count + 2 ^ 16 * k + 1) * bs).
Proof.
  intros Hbs Hsz Hc. unfold u16. split.
  - intros H. exists (sz / bs / 2 ^ 16).
    pose proof (Z.div_mod (sz / bs) (2 ^ 16) ltac:(lia)) as E.
    pose proof (Z.div_mod sz bs ltac:(lia)) as E2.
    pose proof (Z.mod_pos_bound sz bs Hbs).
    assert (0 <= sz / bs) by (apply Z.div_pos; lia).
    assert (0 <= sz / bs / 2 ^ 16) by (apply Z.div_pos; lia).
    rewrite H in E. split; [lia|]. nia.
  - intros (k & Hk & Hlo & Hhi).
    assert (sz / bs = count + 2 ^ 16 * k) as ->.
    { symmetry. apply Z.div_unique with (r := sz - (count + 2 ^ 16 * k) * bs); lia. }
    replace (count + 2 ^ 16 * k) with (count + k * 2 ^ 16) by lia.
    rewrite Z.mod_add by lia. apply Z.mod_small; lia.
Qed.

(** The check on a handle in general: it returns 0 or -EINVAL, and 0
    exactly for the lengths in the window of the block count. *)
Lemma fwu_check_ui_firmware_size_rule :
  forall (hdr : dsx_header) (h : synaptics_rmi4_fwu_handle),
    0 < EINVAL hdr ->
    0 < block_size h ->
    0 <= size (ui_firmware (img h)) ->
    0 <= blk_ui_firmware (blkcount h) < 2 ^ 16 ->
    (fwu_check_ui_firmware_size hdr h = Some 0 \/
     fwu_check_ui_firmware_size hdr h = Some (- EINVAL hdr)) /\
    (fwu_check_ui_firmware_size hdr h = Some 0 <->
     exists k, 0 <= k /\
       (blk_ui_firmware (blkcount h) + 2 ^ 16 * k) * block_size h
         <= size (ui_firmware (img h))
         < (blk_ui_firmware (blkcount h) + 2 ^ 16 * k + 1) * block_size h).
Proof.
  intros hdr h HE Hbs Hsz Hc.
  pose proof (quotient_window _ _ _ Hbs Hsz Hc) as W.
  unfold fwu_check_ui_firmware_size.
  destruct (block_size h =? 0) eqn:E0; [lia|].
  destruct (u16 (size (ui_firmware (img h)) / block_size h)
            =? blk_ui_firmware (blkcount h)) eqn:E; cbn [negb].
  - apply Z.eqb_eq in E. split; [now left|]. split; [intros _; now apply W|reflexivity].
  - apply Z.eqb_neq in E. split; [now right|]. split.
    + intros H; inversion H; lia.
    + intros H; apply W in H; contradiction.
Qed.

(** C2 (amended): [fwu_check_ui_firmware_size] compares block counts, not
    lengths.  For a non-zero block size it returns 0 exactly when the
    integer quotient of the firmware length by the block size, as a
    16-bit count, equals the block count of the controller, that is when
    the length lies in [count*bs, count*bs + bs - 1] (up to a multiple of
    2^16 blocks), and -EINVAL otherwise.  Against 100 blocks of 16 bytes
    a firmware block of 1600 bytes passes, one of 1584 bytes fails, and
    one of 1601 bytes passes: bytes after the last whole block do not
    make the check fail. *)
Theorem fwu_check_ui_firmware_size_window :
  (forall (hdr : dsx_header) (h : synaptics_rmi4_fwu_handle),
     0 < EINVAL hdr ->
     0 < block_size h ->
     0 <= size (ui_firmware (img h)) ->
     0 <= blk_ui_firmware (blkcount h) < 2 ^ 16 ->
     (fwu_check_ui_firmware_size hdr h = Some 0 \/
      fwu_check_ui_firmware_size hdr h = Some (- EINVAL hdr)) /\
     (fwu_check_ui_firmware_size hdr h = Some 0 <->
      exists k, 0 <= k /\
        (blk_ui_firmware (blkcount h) + 2 ^ 16 * k) * block_size h
          <= size (ui_firmware (img h))
          < (blk_ui_firmware (blkcount h) + 2 ^ 16 * k + 1) * block_size h)) /\
  fwu_check_ui_firmware_size rmi4_header (size_example 1600) = Some 0 /\
  fwu_check_ui_firmware_size rmi4_header (size_example 1584)
  = Some (- EINVAL rmi4_header) /\
  fwu_check_ui_firmware_size rmi4_header (size_example 1601) = Some 0.
Proof.
  split; [exact fwu_check_ui_firmware_size_rule | repeat split].
Qed.

(** C2, as stated, fails: against 100 blocks of 16 bytes a firmware block
    of 1601 bytes passes the check. *)
Lemma size_example_1601_passes :
  blk_ui_firmware (blkcount (size_example 1601)) = 100 /\
  block_size (size_example 1601) = 16 /\
  size (ui_firmware (img (size_example 1601))) = 1601 /\
  fwu_check_ui_firmware_size rmi4_header (size_example 1601) = Some 0.
Proof. repeat split. Qed.

Lemma fwu_check_ui_firmware_size_window_witness :
  fwu_check_ui_firmware_size rmi4_header (size_example 1615) = Some 0.
Proof.
  apply (proj2 (proj1 fwu_check_ui_firmware_size_window rmi4_header
    (size_example 1615)
    ltac:(reflexivity) ltac:(reflexivity) ltac:(cbn; lia) ltac:(cbn; lia))).
  exists 0. cbn. lia.
Defined.

(** ** Partition tables *)

Lemma compare_sets_only_the_flag h :
  fwu_compare_partition_tables h = set_new_partition_table true h \/
  fwu_compare_partition_tables h = set_new_partition_table false h.
Proof.
  unfold fwu_compare_partition_tables.
  repeat match goal with
         | |- context [if ?b then _ else _] => destruct b
         end; auto.
Qed.

(** [fwu_compare_partition_tables] sets the flag as soon as one area
    that is present differs in its physical address. *)
Lemma compare_flag_set h r :
  region_present h r = true ->
  region_phyaddr (phyaddr h) r <> region_phyaddr (img_phyaddr (img h)) r ->
  new_partition_table (fwu_compare_partition_tables h) = true.
Proof.
  intros Hp Hne. unfold fwu_compare_partition_tables.
  destruct (phy_ui_firmware (phyaddr h)
            =? phy_ui_firmware (img_phyaddr (img h))) eqn:E1;
    cbn [negb]; [|reflexivity].
  destruct (phy_ui_config (phyaddr h)
            =? phy_ui_config (img_phyaddr (img h))) eqn:E2;
    cbn [negb]; [|reflexivity].
  destruct (has_disp_config (flash_properties h)) eqn:Ed; cbn [andb].
  + destruct (phy_dp_config (phyaddr h)
              =? phy_dp_config (img_phyaddr (img h))) eqn:E3;
      cbn [negb]; [|reflexivity].
    destruct (has_guest_code h) eqn:Eg; cbn [andb].
    * destruct (phy_guest_code (phyaddr h)
                =? phy_guest_code (img_phyaddr (img h))) eqn:E4;
        cbn [negb]; [|reflexivity].
      apply Z.eqb_eq in E1, E2, E3, E4. destruct r; cbn in Hne; congruence.
    * apply Z.eqb_eq in E1, E2, E3.
      destruct r; cbn in Hne, Hp; congruence.
  + destruct (has_guest_code h) eqn:Eg; cbn [andb].
    * destruct (phy_guest_code (phyaddr h)
                =? phy_guest_code (img_phyaddr (img h))) eqn:E4;
        cbn [negb]; [|reflexivity].
      apply Z.eqb_eq in E1, E2, E4.
      destruct r; cbn in Hne, Hp; congruence.
    * apply Z.eqb_eq in E1, E2. destruct r; cbn in Hne, Hp; congruence.
Qed.

(** It clears the flag exactly when the areas that are present all have
    the same physical address on both sides; it looks at nothing else. *)
Lemma compare_flag_addresses h :
  new_partition_table (fwu_compare_partition_tables h) = false <->
  (forall r, region_present h r = true ->
     region_phyaddr (phyaddr h) r = region_phyaddr (img_phyaddr (img h)) r).
Proof.
  split.
  - intros Hflag r Hp.
    destruct (Z.eq_dec (region_phyaddr (phyaddr h) r)
                (region_phyaddr (img_phyaddr (img h)) r)) as [E | N];
      [exact E|].
    rewrite (compare_flag_set h r Hp N) in Hflag. discriminate.
  - intros Hsame.
    pose proof (Hsame REGION_UI_FIRMWARE eq_refl) as H1.
    pose proof (Hsame REGION_UI_CONFIG eq_refl) as H2.
    pose proof (Hsame REGION_DP_CONFIG) as H3.
    pose proof (Hsame REGION_GUEST_CODE) as H4.
    cbn in H1, H2, H3, H4. unfold fwu_compare_partition_tables.
    rewrite H1, H2, !Z.eqb_refl. cbn [negb].
    destruct (has_disp_config (flash_properties h)).
    + rewrite (H3 eq_refl), Z.eqb_refl. cbn [negb andb].
      destruct (has_guest_code h); [|reflexivity].
      rewrite (H4 eq_refl), Z.eqb_refl. reflexivity.
    + cbn [andb]. destruct (has_guest_code h); [|reflexivity].
      rewrite (H4 eq_refl), Z.eqb_refl. reflexivity.
Qed.

(** The comparison looks at addresses only: two tables that differ in a
    block count alone leave the flag clear. *)
Lemma compare_ignores_block_counts :
  new_partition_table
    (fwu_compare_partition_tables
       (set_blkcount (Build_block_count 100 8 0 0 0 0 0 0) fwu_zero
        |> set_img (set_img_blkcount (Build_block_count 120 8 0 0 0 0 0 0)
                      img_zero))) = false.
Proof. reflexivity. Qed.

(** Parsing a table of two entries: core code (partition 7) of 0x0064
    blocks at 0x0010 and core configuration (partition 8) of 8 blocks at
    0x0080. *)
Lemma parse_partition_table_example :
  fwu_parse_partition_table (set_partitions 2 fwu_zero)
    (buf_of_list [0; 0; 7; 0; 0x64; 0; 0x10; 0; 0; 0;
                        8; 0; 8; 0; 0x80; 0; 0; 0])
    (Build_block_count 0 0 0 0 0 0 0 0) (Build_physical_address 0 0 0 0)
  = (Build_block_count 0x64 8 0 0 0 0 0 0, Build_physical_address 0x10 0x80 0 0).
Proof. reflexivity. Qed.

(** ** The go/no-go decision *)

Lemma slice_S p off n :
  slice p off (S n) = rd p off :: slice p (off + 1) n.
Proof.
  unfold slice. cbn [seq map]. f_equal.
  - f_equal. lia.
  - rewrite <- seq_shift, map_map. apply map_ext. intros i. f_equal. lia.
Qed.

Lemma slice_length p off n : length (slice p off n) = n.
Proof. unfold slice. now rewrite length_map, length_seq. Qed.

Lemma fit_length len bytes : 0 <= len -> length (fit len bytes) = Z.to_nat len.
Proof.
  intros H. unfold fit. rewrite length_map, length_firstn, length_app, repeat_length.
  lia.
Qed.

(** The loop of the source computes the lexicographic comparison of the
    next [n] bytes of the image configuration with the [n] bytes of
    [fwu->config_id] from the same index. *)
Lemma compare_config_id_lex p cfg n : forall k,
  (k + n <= length cfg)%nat ->
  compare_config_id p cfg (Z.of_nat k) n
  = config_decision (slice p (Z.of_nat k) n) (firstn n (skipn k cfg)).
Proof.
  induction n as [|n IH]; intros k Hlen; [reflexivity|].
  cbn [compare_config_id]. rewrite slice_S, Nat2Z.id.
  assert (Hk : (k < length cfg)%nat) by lia.
  destruct (skipn k cfg) as [|y rest] eqn:Es.
  { apply (f_equal (@length Z)) in Es. rewrite length_skipn in Es. cbn in Es. lia. }
  assert (Hy : nth k cfg 0 = y).
  { rewrite <- (firstn_skipn k cfg) at 1. rewrite app_nth2; rewrite length_firstn;
      [|lia]. rewrite Es. replace (k - Nat.min k (length cfg))%nat with 0%nat by lia.
    reflexivity. }
  assert (Hrest : skipn (S k) cfg = rest).
  { replace (S k) with (1 + k)%nat by lia. rewrite <- skipn_skipn, Es. reflexivity. }
  rewrite Hy. cbn [firstn]. unfold config_decision. cbn [lex_compare].
  destruct (Z.compare_spec (rd p (Z.of_nat k)) y) as [E|E|E].
  - destruct (rd p (Z.of_nat k) >? y) eqn:G; [lia|].
    destruct (rd p (Z.of_nat k) <? y) eqn:L; [lia|].
    replace (Z.of_nat k + 1) with (Z.of_nat (S k)) by lia.
    rewrite IH by lia. rewrite Hrest. reflexivity.
  - destruct (rd p (Z.of_nat k) >? y) eqn:G; [lia|].
    destruct (rd p (Z.of_nat k) <? y) eqn:L; [reflexivity|lia].
  - destruct (rd p (Z.of_nat k) >? y) eqn:G; [reflexivity|lia].
Qed.

(** The rule of the decision, on any handle. *)
Lemma fwu_go_nogo_rule :
  forall (hdr : dsx_header) (dev : controller) (w : world),
    force_update (fwu w) = false ->
    in_bl_mode (fwu w) = false ->
    contains_firmware_id (img (fwu w)) = true ->
    (firmware_id (img (fwu w)) <> fwu_get_device_firmware_id (fwu w) ->
     fwu_go_nogo hdr dev w = Ret UI_FIRMWARE w) /\
    (firmware_id (img (fwu w)) = fwu_get_device_firmware_id (fwu w) ->
     forall (image_config : buffer) (retval : Z) (bytes : list Z),
       data (ui_config (img (fwu w))) = Some image_config ->
       read_reply dev (log w) (ctrl_base_addr (f34_fd (fwu w)))
         (config_id_size_of (fwu w)) = (retval, bytes) ->
       0 <= retval ->
       returned (fwu_go_nogo hdr dev w)
       = Some (config_decision
                 (slice image_config 0 (Z.to_nat (config_id_size_of (fwu w))))
                 (fit (config_id_size_of (fwu w)) bytes))).
Proof.
  intros hdr dev [h l] Hf Hb Hc. cbn [fwu log] in *.
  unfold fwu_go_nogo, bind, get_fwu, fwu_get_image_firmware_id.
  cbn [fwu log]. rewrite Hf, Hb, Hc. cbn [Z.ltb Z.compare]. split.
  - intros Hne. apply Z.eqb_neq in Hne. rewrite Hne. reflexivity.
  - intros He p retval bytes Hp Hread Hret. rewrite He, Z.eqb_refl. cbn [negb].
    unfold fwu_get_device_config_id, bind, get_fwu, synaptics_rmi4_reg_read,
      update, ret. cbn [fwu log]. rewrite Hread.
    destruct (retval <? 0) eqn:E; [lia|]. cbn [fwu log Z.ltb Z.compare].
    cbn [img set_config_id]. rewrite Hp. cbn [returned]. f_equal.
    assert (Hn : 0 <= config_id_size_of h)
      by (unfold config_id_size_of; destruct (_ >=? _); cbv; discriminate).
    set (cfg := fit (config_id_size_of h) bytes ++ _).
    change (config_id_size_of (set_config_id cfg h)) with (config_id_size_of h).
    change (config_id (set_config_id cfg h)) with cfg. subst cfg.
    rewrite (compare_config_id_lex _ _ _ 0%nat).
    + cbn [skipn Z.of_nat]. f_equal.
      rewrite firstn_app, fit_length by lia.
      rewrite Nat.sub_diag. cbn [firstn]. rewrite app_nil_r.
      apply firstn_all2. rewrite fit_length; lia.
    + rewrite length_app, fit_length by lia. lia.
Qed.

(** When the read of the configuration identifier fails, the decision
    is [NONE]: the error is not passed on. *)
Lemma fwu_go_nogo_read_failure hdr dev w retval bytes :
  force_update (fwu w) = false ->
  in_bl_mode (fwu w) = false ->
  contains_firmware_id (img (fwu w)) = true ->
  firmware_id (img (fwu w)) = fwu_get_device_firmware_id (fwu w) ->
  read_reply dev (log w) (ctrl_base_addr (f34_fd (fwu w)))
    (config_id_size_of (fwu w)) = (retval, bytes) ->
  retval < 0 ->
  fwu_go_nogo hdr dev w
  = Ret NONE {| fwu := fwu w;
                log := log w ++ [RegRead (ctrl_base_addr (f34_fd (fwu w)))
                                   (config_id_size_of (fwu w))] |}.
Proof.
  destruct w as [h l]. cbn [fwu log]. intros Hf Hb Hc He Hread Hret.
  unfold fwu_go_nogo, bind, get_fwu, fwu_get_image_firmware_id.
  cbn [fwu log]. rewrite Hf, Hb, Hc. cbn [Z.ltb Z.compare].
  rewrite He, Z.eqb_refl. cbn [negb].
  unfold fwu_get_device_config_id, bind, get_fwu, synaptics_rmi4_reg_read, ret.
  cbn [fwu log]. rewrite Hread.
  destruct (retval <? 0) eqn:E; [|lia]. rewrite E. reflexivity.
Qed.



(** C9: an image that carries no build identifier is never flashed by an
    update that is not forced on a controller that is not in bootloader
    mode: the decision is [NONE], taken without any bus traffic. *)
Theorem fwu_go_nogo_no_image_id :
  forall (hdr : dsx_header) (dev : controller) (w : world),
    0 < EINVAL hdr ->
    force_update (fwu w) = false ->
    in_bl_mode (fwu w) = false ->
    contains_firmware_id (img (fwu w)) = false ->
    fwu_go_nogo hdr dev w = Ret NONE w.
Proof.
  intros hdr dev [h l] HE Hf Hb Hc. cbn [fwu log] in *.
  unfold fwu_go_nogo, bind, get_fwu, fwu_get_image_firmware_id.
  cbn [fwu log]. rewrite Hf, Hb, Hc.
  destruct (- EINVAL hdr <? 0) eqn:E; [reflexivity|lia].
Qed.

Lemma fwu_go_nogo_no_image_id_witness :
  fwu_go_nogo rmi4_header (register_file (fun _ => [1; 2; 3; 4]) false)
    {| fwu := go_nogo_example 0x1001 [9; 9; 9; 9]
              |> (fun h => set_img (set_contains_firmware_id false (img h)) h);
       log := [] |}
  = Ret NONE
      {| fwu := go_nogo_example 0x1001 [9; 9; 9; 9]
                |> (fun h => set_img (set_contains_firmware_id false (img h)) h);
         log := [] |}.
Proof.
  apply fwu_go_nogo_no_image_id; [cbn; lia | reflexivity ..].
Defined.

(** ** The completion wait *)

(** Evaluation of the driver monad on a symbolic state. *)
Ltac munfold :=
  unfold bind, ret, get_fwu, update, synaptics_rmi4_reg_read,
    synaptics_rmi4_reg_write, down_timeout; cbn [fwu log].

(** The value of the semaphore never reaches the caller: two controllers
    that differ only in when the interrupt arrives give the same result
    and the same state. *)
Lemma fwu_wait_for_idle_ignores_semaphore hdr rr wr s1 s2 ms w :
  fwu_wait_for_idle hdr (Build_controller rr wr s1) ms w
  = fwu_wait_for_idle hdr (Build_controller rr wr s2) ms w.
Proof. reflexivity. Qed.

(** Whatever the semaphore said, the wait returns 0 when the status read
    afterwards shows an idle command register and a zero flash status,
    and the interrupt status otherwise. *)
Lemma fwu_wait_for_idle_result hdr dev ms w r w1 r2 w2 :
  fwu_read_interrupt_status dev
    {| fwu := fwu w; log := log w ++ [DownTimeout ms] |} = Ret r w1 ->
  fwu_read_flash_status hdr dev w1 = Ret r2 w2 ->
  fwu_wait_for_idle hdr dev ms w
  = Ret (if (command (fwu w2) =? 0) && (flash_status (fwu w2) =? 0)
         then 0 else r) w2.
Proof.
  intros H1 H2. unfold fwu_wait_for_idle, bind at 1, down_timeout.
  cbv zeta. unfold bind at 1. rewrite H1. unfold bind at 1. rewrite H2.
  unfold bind, get_fwu, ret. cbn [flash_command_code].
  destruct (_ && _); reflexivity.
Qed.

(** C8 (the defect): on [v7_example] with the controller still busy
    erasing, the interrupt does not arrive within the timeout and the
    status read afterwards shows a command register that is not idle
    (erase, 4); the wait nevertheless returns 0, which every caller
    takes for success: the -ETIMEDOUT computed from the semaphore is
    overwritten by the interrupt status before it is returned. *)
Theorem fwu_wait_for_idle_timeout_lost :
  sema_reply (register_file busy_registers true) [] ERASE_WAIT_MS <> 0 /\
  match fwu_wait_for_idle rmi4_header (register_file busy_registers true)
          ERASE_WAIT_MS {| fwu := v7_example BL_V7; log := [] |} with
  | Ret retval w =>
      retval = 0 /\ command (fwu w) = CMD_V7_ERASE /\ flash_status (fwu w) = 0
      /\ log w = [DownTimeout ERASE_WAIT_MS; RegRead 0x21 1;
                  RegRead 0x10 1; RegRead 0x11 8]
  | _ => False
  end.
Proof. split; [discriminate|]. cbv. repeat split. Qed.

(** ** The exported entry point *)

(** C10: [synaptics_fw_updater] returns -ENODEV and leaves the handle
    (with its image pointer) and the bus trace as they were when there
    is no handle, when the handle is not initialized, or when the
    controller is in microloader mode; this holds whatever
    [fwu_start_reflash] would do, so no reflash is started. *)
Theorem synaptics_fw_updater_rejects :
  forall (hdr : dsx_header) (fwu_start_reflash : M Z) (fw_data : pointer)
         (st : option synaptics_rmi4_fwu_handle * list event),
    (fst st = None \/
     exists h, fst st = Some h /\
               (initialized h = false \/ in_ub_mode h = true)) ->
    synaptics_fw_updater hdr fwu_start_reflash fw_data st
    = Ret (- ENODEV hdr) st.
Proof.
  intros hdr start fw_data [g l] [Hnone | (h & Hsome & Hguard)];
    cbn [fst] in *; subst g; unfold synaptics_fw_updater; cbn [fst snd].
  - reflexivity.
  - destruct Hguard as [Hi | Hu].
    + rewrite Hi. reflexivity.
    + rewrite Hu. destruct (initialized h); reflexivity.
Qed.

Lemma synaptics_fw_updater_rejects_witness :
  synaptics_fw_updater rmi4_header
    (noisy_reflash (register_file (fun _ => []) false))
    (Some (buf_of_list [0x31]))
    (Some (fwu_zero |> set_initialized true |> set_in_ub_mode true), [])
  = Ret (- ENODEV rmi4_header)
      (Some (fwu_zero |> set_initialized true |> set_in_ub_mode true), []).
Proof.
  apply synaptics_fw_updater_rejects. right. eexists. split; [reflexivity|].
  right. reflexivity.
Defined.

(** Past the three guards the entry point does start the reflash, on the
    handle with [image] set to the caller's data, and clears the pointer
    afterwards. *)
Lemma synaptics_fw_updater_accepts hdr start fw_data h l :
  initialized h = true -> in_ub_mode h = false ->
  synaptics_fw_updater hdr start fw_data (Some h, l)
  = match start {| fwu := set_image fw_data h; log := l |} with
    | Ret retval w => Ret retval (Some (set_image None (fwu w)), log w)
    | Oops => Oops
    | Fuel => Fuel
    end.
Proof.
  intros Hi Hu. unfold synaptics_fw_updater. cbn [fst snd].
  rewrite Hi, Hu. reflexivity.
Qed.

(** ** The erase sequence *)

Lemma coop_read dev l addr len :
  cooperative dev ->
  exists r bytes, read_reply dev l addr len = (r, bytes) /\ (r <? 0) = false.
Proof.
  intros [Hr _]. specialize (Hr l addr len).
  destruct (read_reply dev l addr len) as [r bytes]. exists r, bytes.
  cbn in Hr. split; [reflexivity|lia].
Qed.

Lemma coop_write dev l addr bytes :
  cooperative dev -> (write_reply dev l addr bytes <? 0) = false.
Proof. intros [_ Hw]. specialize (Hw l addr bytes). lia. Qed.

Lemma writes_of_app l1 l2 : writes_of (l1 ++ l2) = writes_of l1 ++ writes_of l2.
Proof. apply filter_app. Qed.

Lemma fit_bytes len bytes : Forall (fun x => 0 <= x < 256) (fit len bytes).
Proof.
  unfold fit. apply Forall_map, Forall_forall. intros x _. apply u8_range.
Qed.

Lemma fit_nth_nonneg len bytes k : 0 <= nth k (fit len bytes) 0.
Proof.
  destruct (Nat.lt_ge_cases k (length (fit len bytes))) as [H|H].
  - pose proof (fit_bytes len bytes) as F. rewrite Forall_forall in F.
    apply (F (nth k (fit len bytes) 0)), nth_In, H.
  - rewrite nth_overflow by lia. lia.
Qed.

Lemma same_setup_refl h : same_setup h h.
Proof. repeat split. Qed.

Lemma same_setup_trans h1 h2 h3 :
  same_setup h1 h2 -> same_setup h2 h3 -> same_setup h1 h3.
Proof.
  unfold same_setup. intros (A1 & A2 & A3 & A4 & A5 & A6 & A7 & A8)
    (B1 & B2 & B3 & B4 & B5 & B6 & B7 & B8).
  repeat split; congruence.
Qed.

Lemma erase_events_same h h' cmd :
  same_setup h h' -> erase_events h' cmd = erase_events h cmd.
Proof.
  intros (A1 & A2 & A3 & A4 & _). unfold erase_events, v7_transaction,
    v5v6_transaction. rewrite A1, A2, A3, A4. reflexivity.
Qed.

Lemma optional_erases_same h h' :
  same_setup h h' -> optional_erases h' = optional_erases h.
Proof.
  intros H. unfold optional_erases. rewrite !(erase_events_same _ _ _ H).
  destruct H as (_ & _ & _ & _ & A5 & A6 & A7 & _). rewrite A5, A6, A7.
  reflexivity.
Qed.

(** A status read leaves the setup alone and writes nothing. *)
Lemma fwu_read_flash_status_frame hdr dev w :
  cooperative dev ->
  exists w', fwu_read_flash_status hdr dev w = Ret 0 w' /\
             writes_of (log w') = writes_of (log w) /\
             same_setup (fwu w) (fwu w').
Proof.
  intros Hc. destruct w as [h l]. unfold fwu_read_flash_status. munfold.
  destruct (coop_read dev l (data_base_addr (f34_fd h) + off_flash_status (off h))
              1 Hc) as (r & bytes & -> & ->).
  cbn [fwu log]. destruct (bl_version h <=? BL_V6); cbn [fwu log].
  - destruct (coop_read dev (l ++ [RegRead (data_base_addr (f34_fd h)
                                              + off_flash_status (off h)) 1])
                (data_base_addr (f34_fd h) + off_flash_cmd (off h)) 1 Hc)
      as (r2 & bytes2 & -> & ->).
    cbn [fwu log]. eexists. split; [reflexivity|]. cbn [fwu log]. split.
    + rewrite !writes_of_app. cbn. now rewrite !app_nil_r.
    + repeat split.
  - destruct (coop_read dev (l ++ [RegRead (data_base_addr (f34_fd h)
                                              + off_flash_status (off h)) 1])
                (data_base_addr (f34_fd h) + off_partition_id (off h)) 8 Hc)
      as (r2 & bytes2 & -> & ->).
    cbn [fwu log flash_status set_flash_status set_in_bl_mode].
    destruct (_ =? BAD_PARTITION_TABLE);
      (eexists; split; [reflexivity|]; cbn [fwu log]; split;
       [rewrite !writes_of_app; cbn; now rewrite !app_nil_r | repeat split]).
Qed.

(** On a cooperative controller the wait returns a value that no caller
    takes for a failure, leaves the setup alone and writes nothing. *)
Lemma fwu_wait_for_idle_frame hdr dev ms w :
  cooperative dev ->
  exists r w', fwu_wait_for_idle hdr dev ms w = Ret r w' /\
               (r <? 0) = false /\
               writes_of (log w') = writes_of (log w) /\
               same_setup (fwu w) (fwu w').
Proof.
  intros Hc. destruct w as [h l].
  pose (w0 := {| fwu := h; log := l ++ [DownTimeout ms] |}).
  destruct (coop_read dev (l ++ [DownTimeout ms])
              (f01_data_base_addr (rmi4_data h) + 1) 1 Hc)
    as (r & bytes & Hr & Hneg).
  pose (w1 := {| fwu := h;
                 log := (l ++ [DownTimeout ms])
                        ++ [RegRead (f01_data_base_addr (rmi4_data h) + 1) 1] |}).
  assert (H1 : fwu_read_interrupt_status dev w0 = Ret (nth 0 (fit 1 bytes) 0) w1).
  { unfold fwu_read_interrupt_status, w0. munfold. rewrite Hr, Hneg.
    reflexivity. }
  destruct (fwu_read_flash_status_frame hdr dev w1 Hc) as (w2 & H2 & Hw & Hs).
  rewrite (fwu_wait_for_idle_result hdr dev ms {| fwu := h; log := l |}
             _ _ _ _ H1 H2).
  eexists _, w2. split; [reflexivity|]. split; [|split].
  - pose proof (fit_nth_nonneg 1 bytes 0). destruct (_ && _); lia.
  - rewrite Hw. unfold w1, w0. cbn [log]. rewrite !writes_of_app. cbn.
    now rewrite !app_nil_r.
  - exact Hs.
Qed.

(** Running [c] first and [k] on its result. *)
Lemma bind_ret_eq {A B} (c : M A) (k : A -> M B) w a w1 :
  c w = Ret a w1 -> bind c k w = k a w1.
Proof. intros H. unfold bind. now rewrite H. Qed.

(** One erase command: the transaction of the protocol in use, and
    nothing else, goes out on the bus. *)
Lemma fwu_write_f34_command_erase hdr dev cmd w :
  cooperative dev ->
  (if bl_version (fwu w) >=? BL_V7 then v7_is_single_transaction cmd
   else common_erase cmd) = true ->
  exists w', fwu_write_f34_command hdr dev cmd w = Ret 0 w' /\
             writes_of (log w') = writes_of (log w) ++ erase_events (fwu w) cmd /\
             same_setup (fwu w) (fwu w').
Proof.
  intros Hc Hcmd. destruct w as [h l]. cbn [fwu log] in *.
  unfold fwu_write_f34_command, erase_events. munfold.
  destruct (bl_version h >=? BL_V7) eqn:E.
  - destruct cmd; try discriminate Hcmd;
      unfold fwu_write_f34_v7_command,
        fwu_write_f34_v7_command_single_transaction; munfold;
      cbn [v7_command v7_is_single_transaction v7_single_transaction fwu log];
      rewrite coop_write by assumption; cbn [fwu log];
      (eexists; split; [reflexivity|]; cbn [fwu log]; split;
       [rewrite writes_of_app; reflexivity | repeat split]).
  - destruct cmd; try discriminate Hcmd;
      unfold fwu_write_f34_v5v6_command; munfold;
      cbn [v5v6_command v5v6_sends_bootloader_id fwu log];
      rewrite coop_write by assumption; cbn [fwu log];
      rewrite coop_write by assumption; cbn [fwu log];
      (eexists; split; [reflexivity|]; cbn [fwu log]; split;
       [rewrite !writes_of_app, <- app_assoc; reflexivity | repeat split]).
Qed.

Lemma fwu_erase_configuration_spec hdr dev w cmd :
  cooperative dev ->
  (config_area_sel (fwu w) = UI_CONFIG_AREA /\ cmd = CMD_ERASE_UI_CONFIG \/
   config_area_sel (fwu w) = DP_CONFIG_AREA /\ cmd = CMD_ERASE_DISP_CONFIG) ->
  exists r w', fwu_erase_configuration hdr dev w = Ret r w' /\
               (r <? 0) = false /\
               writes_of (log w') = writes_of (log w) ++ erase_events (fwu w) cmd /\
               same_setup (fwu w) (fwu w').
Proof.
  intros Hc Hsel.
  assert (Hcmd : (if bl_version (fwu w) >=? BL_V7
                  then v7_is_single_transaction cmd else common_erase cmd) = true).
  { destruct Hsel as [[_ ->] | [_ ->]]; destruct (_ >=? _); reflexivity. }
  destruct (fwu_write_f34_command_erase hdr dev cmd w Hc Hcmd)
    as (w1 & H1 & Hw1 & Hs1).
  destruct (fwu_wait_for_idle_frame hdr dev ERASE_WAIT_MS w1 Hc)
    as (r & w2 & H2 & Hr & Hw2 & Hs2).
  exists r, w2. split; [|split; [exact Hr | split]].
  - unfold fwu_erase_configuration. unfold bind at 1, get_fwu.
    assert (Hsw : match config_area_sel (fwu w) with
                  | UI_CONFIG_AREA => fwu_write_f34_command hdr dev CMD_ERASE_UI_CONFIG
                  | DP_CONFIG_AREA => fwu_write_f34_command hdr dev CMD_ERASE_DISP_CONFIG
                  | BL_CONFIG_AREA => fwu_write_f34_command hdr dev CMD_ERASE_BL_CONFIG
                  | _ => ret 0
                  end = fwu_write_f34_command hdr dev cmd).
    { destruct Hsel as [[-> ->] | [-> ->]]; reflexivity. }
    rewrite Hsw. rewrite (bind_ret_eq _ _ _ _ _ H1). cbn [Z.ltb Z.compare].
    rewrite (bind_ret_eq _ _ _ _ _ H2). rewrite Hr. reflexivity.
  - now rewrite Hw2, Hw1.
  - eapply same_setup_trans; eassumption.
Qed.

Lemma fwu_erase_guest_code_spec hdr dev w :
  cooperative dev ->
  exists w', fwu_erase_guest_code hdr dev w = Ret 0 w' /\
             writes_of (log w')
             = writes_of (log w) ++ erase_events (fwu w) CMD_ERASE_GUEST_CODE /\
             same_setup (fwu w) (fwu w').
Proof.
  intros Hc.
  assert (Hcmd : (if bl_version (fwu w) >=? BL_V7
                  then v7_is_single_transaction CMD_ERASE_GUEST_CODE
                  else common_erase CMD_ERASE_GUEST_CODE) = true)
    by (destruct (_ >=? _); reflexivity).
  destruct (fwu_write_f34_command_erase hdr dev _ w Hc Hcmd)
    as (w1 & H1 & Hw1 & Hs1).
  destruct (fwu_wait_for_idle_frame hdr dev ERASE_WAIT_MS w1 Hc)
    as (r & w2 & H2 & Hr & Hw2 & Hs2).
  exists w2. split; [|split].
  - unfold fwu_erase_guest_code. rewrite (bind_ret_eq _ _ _ _ _ H1).
    cbn [Z.ltb Z.compare]. rewrite (bind_ret_eq _ _ _ _ _ H2). rewrite Hr.
    reflexivity.
  - now rewrite Hw2, Hw1.
  - eapply same_setup_trans; eassumption.
Qed.

Lemma fwu_erase_all_tail_spec hdr dev w :
  cooperative dev ->
  exists w', fwu_erase_all_tail hdr dev w = Ret 0 w' /\
             writes_of (log w') = writes_of (log w) ++ optional_erases (fwu w) /\
             same_setup (fwu w) (fwu w').
Proof.
  intros Hc. destruct w as [h l]. unfold fwu_erase_all_tail, optional_erases.
  unfold bind at 1, get_fwu. cbn [fwu log].
  assert (Hdisp : exists r w1,
    (if has_disp_config (flash_properties h)
     then update (set_config_area DP_CONFIG_AREA) ;;; fwu_erase_configuration hdr dev
     else ret 0) {| fwu := h; log := l |} = Ret r w1 /\
    (r <? 0) = false /\
    writes_of (log w1)
    = writes_of l ++ (if has_disp_config (flash_properties h)
                      then erase_events h CMD_ERASE_DISP_CONFIG else []) /\
    same_setup h (fwu w1)).
  { destruct (has_disp_config (flash_properties h)).
    - unfold bind at 1, update. cbn [fwu log].
      destruct (fwu_erase_configuration_spec hdr dev
                  {| fwu := set_config_area DP_CONFIG_AREA h; log := l |}
                  CMD_ERASE_DISP_CONFIG Hc)
        as (r & w1 & H1 & Hr & Hw & Hs); [right; split; reflexivity|].
      exists r, w1. repeat split; try assumption; apply Hs.
    - exists 0, {| fwu := h; log := l |}. cbn [log fwu].
      rewrite app_nil_r. repeat split. }
  destruct Hdisp as (r & w1 & H1 & Hr & Hw1 & Hs1).
  rewrite (bind_ret_eq _ _ _ _ _ H1), Hr. unfold bind at 1, get_fwu.
  destruct Hs1 as (A1 & A2 & A3 & A4 & A5 & A6 & A7 & A8).
  rewrite A6, A7.
  destruct (new_partition_table h && has_guest_code h).
  - destruct (fwu_erase_guest_code_spec hdr dev w1 Hc) as (w2 & H2 & Hw2 & Hs2).
    rewrite (bind_ret_eq _ _ _ _ _ H2). cbn [Z.ltb Z.compare].
    exists w2. split; [reflexivity|]. split.
    + rewrite Hw2, Hw1, <- app_assoc. f_equal. f_equal.
      apply erase_events_same. repeat split; assumption.
    + eapply same_setup_trans; [|exact Hs2]. repeat split; assumption.
  - exists w1. split; [reflexivity|]. split.
    + rewrite Hw1, app_nil_r. reflexivity.
    + repeat split; assumption.
Qed.

(** The whole erase phase, for every protocol version. *)
Lemma fwu_erase_all_spec hdr dev w :
  cooperative dev ->
  exists w', fwu_erase_all hdr dev w = Ret 0 w' /\
    writes_of (log w')
    = writes_of (log w)
      ++ (if bl_version (fwu w) =? BL_V7 then
            erase_events (fwu w) CMD_ERASE_UI_FIRMWARE
            ++ erase_events (fwu w) CMD_ERASE_UI_CONFIG
            ++ optional_erases (fwu w)
          else if bl_version (fwu w) =? BL_V8 then
            erase_events (fwu w) CMD_ERASE_ALL
          else
            erase_events (fwu w) CMD_ERASE_ALL ++ optional_erases (fwu w)).
Proof.
  intros Hc. destruct w as [h l]. unfold fwu_erase_all.
  unfold bind at 1, get_fwu. cbn [fwu log].
  destruct (bl_version h =? BL_V7) eqn:E7.
  - apply Z.eqb_eq in E7.
    assert (Hcmd : (if bl_version (fwu {| fwu := h; log := l |}) >=? BL_V7
                    then v7_is_single_transaction CMD_ERASE_UI_FIRMWARE
                    else common_erase CMD_ERASE_UI_FIRMWARE) = true)
      by (cbn [fwu]; rewrite E7; reflexivity).
    destruct (fwu_write_f34_command_erase hdr dev _ _ Hc Hcmd)
      as (w1 & H1 & Hw1 & Hs1).
    destruct (fwu_wait_for_idle_frame hdr dev ERASE_WAIT_MS w1 Hc)
      as (r & w2 & H2 & Hr & Hw2 & Hs2).
    destruct (fwu_erase_configuration_spec hdr dev
                {| fwu := set_config_area UI_CONFIG_AREA (fwu w2); log := log w2 |}
                CMD_ERASE_UI_CONFIG Hc)
      as (r3 & w3 & H3 & Hr3 & Hw3 & Hs3); [left; split; reflexivity|].
    destruct (fwu_erase_all_tail_spec hdr dev w3 Hc) as (w4 & H4 & Hw4 & Hs4).
    cbn [fwu log] in *.
    assert (Hs02 : same_setup h (fwu w2))
      by (eapply same_setup_trans; eassumption).
    assert (Hs03 : same_setup h (fwu w3)).
    { eapply same_setup_trans; [exact Hs02|].
      eapply same_setup_trans; [|exact Hs3]. repeat split. }
    exists w4. split.
    + rewrite (bind_ret_eq _ _ _ _ _ H1). cbn [Z.ltb Z.compare].
      rewrite (bind_ret_eq _ _ _ _ _ H2), Hr.
      unfold bind at 1, update. rewrite (bind_ret_eq _ _ _ _ _ H3), Hr3.
      exact H4.
    + rewrite Hw4, Hw3, Hw2, Hw1, <- !app_assoc. f_equal. f_equal.
      rewrite (optional_erases_same _ _ Hs03). f_equal.
      transitivity (erase_events (fwu w2) CMD_ERASE_UI_CONFIG).
      * apply erase_events_same. repeat split.
      * apply erase_events_same. exact Hs02.
  - assert (Hcmd : (if bl_version (fwu {| fwu := h; log := l |}) >=? BL_V7
                    then v7_is_single_transaction CMD_ERASE_ALL
                    else common_erase CMD_ERASE_ALL) = true)
      by (destruct (_ >=? _); reflexivity).
    destruct (fwu_write_f34_command_erase hdr dev _ _ Hc Hcmd)
      as (w1 & H1 & Hw1 & Hs1).
    destruct (fwu_wait_for_idle_frame hdr dev ERASE_WAIT_MS w1 Hc)
      as (r & w2 & H2 & Hr & Hw2 & Hs2).
    destruct (fwu_erase_all_tail_spec hdr dev w2 Hc) as (w3 & H3 & Hw3 & Hs3).
    cbn [fwu log] in *.
    assert (Hs02 : same_setup h (fwu w2))
      by (eapply same_setup_trans; eassumption).
    rewrite (bind_ret_eq _ _ _ _ _ H1). cbn [Z.ltb Z.compare].
    rewrite (bind_ret_eq _ _ _ _ _ H2). unfold bind at 1, get_fwu.
    rewrite Hr, andb_false_r. destruct Hs02 as (A1 & _). rewrite A1.
    destruct (bl_version h =? BL_V8).
    + exists w2. split; [reflexivity|]. now rewrite Hw2, Hw1.
    + exists w3. split; [exact H3|].
      rewrite Hw3, Hw2, Hw1, <- app_assoc. f_equal. f_equal.
      apply optional_erases_same. eapply same_setup_trans; eassumption.
Qed.

Lemma register_file_cooperative regs timeout :
  cooperative (register_file regs timeout).
Proof. split; intros; cbn; lia. Qed.

(** C3 (amended): on a bus on which no transaction fails,
    [fwu_erase_all] returns 0 and its register writes are, for protocol
    version 7, the erase of the core code partition and the erase of the
    core configuration partition, as two transactions; for version 8 one
    erase-all transaction and nothing else; for versions 5 and 6 the
    bootloader identifier and one erase-all command.  On versions 5, 6
    and 7 the erase of the display configuration follows when the
    controller has one, and the erase of the guest code when it has one
    and the partition table is new. *)
Theorem fwu_erase_all_commands :
  forall (hdr : dsx_header) (dev : controller) (w : world),
    cooperative dev ->
    exists w', fwu_erase_all hdr dev w = Ret 0 w' /\
      (bl_version (fwu w) = BL_V7 ->
       writes_of (log w')
       = writes_of (log w)
         ++ [v7_transaction (fwu w) CORE_CODE_PARTITION CMD_V7_ERASE;
             v7_transaction (fwu w) CORE_CONFIG_PARTITION CMD_V7_ERASE]
         ++ v7_optional_erases (fwu w)) /\
      (bl_version (fwu w) = BL_V8 ->
       writes_of (log w')
       = writes_of (log w)
         ++ [v7_transaction (fwu w) CORE_CODE_PARTITION CMD_V7_ERASE_AP]) /\
      (bl_version (fwu w) = BL_V5 \/ bl_version (fwu w) = BL_V6 ->
       writes_of (log w')
       = writes_of (log w)
         ++ v5v6_transaction (fwu w) CMD_V5V6_ERASE_ALL
         ++ v5v6_optional_erases (fwu w)).
Proof.
  intros hdr dev w Hc.
  destruct (fwu_erase_all_spec hdr dev w Hc) as (w' & H & Hw).
  exists w'. split; [exact H|]. rewrite Hw. clear H Hw.
  unfold erase_events, optional_erases, v7_optional_erases,
    v5v6_optional_erases, erase_events.
  split; [|split].
  - intros ->. reflexivity.
  - intros ->. reflexivity.
  - intros [-> | ->]; reflexivity.
Qed.

Lemma fwu_erase_all_commands_witness :
  exists w',
    fwu_erase_all rmi4_header (register_file (fun _ => []) false)
      {| fwu := v7_example BL_V7; log := [] |} = Ret 0 w' /\
    writes_of (log w')
    = [v7_transaction (v7_example BL_V7) CORE_CODE_PARTITION CMD_V7_ERASE;
       v7_transaction (v7_example BL_V7) CORE_CONFIG_PARTITION CMD_V7_ERASE].
Proof.
  destruct (fwu_erase_all_commands rmi4_header (register_file (fun _ => []) false)
              {| fwu := v7_example BL_V7; log := [] |}
              (register_file_cooperative _ _)) as (w' & H & H7 & _).
  exists w'. split; [exact H|]. rewrite (H7 eq_refl). reflexivity.
Defined.

(** C3, as stated, fails for protocol version 8: the erase phase is a
    single erase-all transaction on the core code partition (command 5),
    with no area erase (command 4) of the firmware or of the UI
    configuration. *)
Lemma fwu_erase_all_v8_single_command :
  option_map (fun w => writes_of (log w))
    (state_after
       (fwu_erase_all rmi4_header (register_file (fun _ => []) false)
          {| fwu := v7_example BL_V8; log := [] |}))
  = Some [v7_transaction (v7_example BL_V8) CORE_CODE_PARTITION CMD_V7_ERASE_AP]
  /\ v7_transaction (v7_example BL_V8) CORE_CODE_PARTITION CMD_V7_ERASE_AP
     = RegWrite 0x11 [7; 0; 0; 0; 0; 5; 0; 0].
Proof. split; reflexivity. Qed.

Lemma fwu_erase_all_v6_example :
  option_map (fun w => writes_of (log w))
    (state_after
       (fwu_erase_all rmi4_header (register_file (fun _ => []) false)
          {| fwu := v7_example BL_V6; log := [] |}))
  = Some [RegWrite 0x15 [0; 0]; RegWrite 0x14 [3]].
Proof. reflexivity. Qed.

(** ** Slices of a buffer *)

Lemma slice_0 p off : slice p off 0 = [].
Proof. reflexivity. Qed.

Lemma slice_ext p q k n :
  (forall i, q i = p (k + i)) -> slice q 0 n = slice p k n.
Proof.
  intros H. unfold slice. apply map_ext. intros i. unfold rd.
  rewrite H. reflexivity.
Qed.

Lemma slice_firstn p b : forall off n,
  firstn b (slice p off n) = slice p off (Nat.min b n).
Proof.
  induction b as [|b IH]; intros off [|n]; try reflexivity.
  cbn [Nat.min]. rewrite !slice_S. cbn [firstn]. now rewrite IH.
Qed.

Lemma slice_skipn p a : forall off n,
  skipn a (slice p off n) = slice p (off + Z.of_nat a) (n - a).
Proof.
  induction a as [|a IH]; intros off n.
  - cbn [skipn]. rewrite Nat.sub_0_r. f_equal. lia.
  - destruct n as [|n]; [reflexivity|].
    rewrite slice_S. cbn [skipn Nat.sub]. rewrite IH. f_equal. lia.
Qed.

Lemma slice_app p a : forall off b,
  slice p off (a + b) = slice p off a ++ slice p (off + Z.of_nat a) b.
Proof.
  induction a as [|a IH]; intros off b.
  - cbn [Nat.add slice_0 app]. rewrite slice_0. cbn [app]. f_equal. lia.
  - cbn [Nat.add]. rewrite !slice_S, IH. cbn [app]. do 3 f_equal. lia.
Qed.

Lemma firstn_add {A} a b : forall l : list A,
  firstn (a + b) l = firstn a l ++ firstn b (skipn a l).
Proof.
  induction a as [|a IH]; intros l; [reflexivity|].
  destruct l as [|x l]; cbn [Nat.add firstn skipn app].
  - now rewrite firstn_nil.
  - now rewrite IH.
Qed.

(** ** Chunks of an image *)

Lemma split_chunks_length l :
  length (split_chunks l) = ((length l + 15) / 16)%nat.
Proof. unfold split_chunks. now rewrite length_map, length_seq. Qed.

Lemma image_chunk_length l i :
  length (image_chunk l i) = Nat.min 16 (length l - 16 * i).
Proof. unfold image_chunk. now rewrite length_firstn, length_skipn. Qed.

Lemma concat_image_chunks l m :
  concat (map (image_chunk l) (seq 0 m)) = firstn (16 * m) l.
Proof.
  induction m as [|m IH]; [reflexivity|].
  rewrite seq_S, map_app, concat_app, IH. cbn [map concat Nat.add].
  rewrite app_nil_r. unfold image_chunk.
  replace (16 * S m)%nat with (16 * m + 16)%nat by lia.
  now rewrite firstn_add.
Qed.

(** The pieces, in order, are the image. *)
Lemma split_chunks_concat l : concat (split_chunks l) = l.
Proof.
  unfold split_chunks. rewrite concat_image_chunks. apply firstn_all2.
  pose proof (Nat.div_mod_eq (length l + 15) 16).
  pose proof (Nat.mod_upper_bound (length l + 15) 16). lia.
Qed.

(** Every piece but the last has sixteen bytes; the last has between one
    and sixteen. *)
Lemma split_chunks_sizes l i :
  (i < length (split_chunks l))%nat ->
  (0 < length (nth i (split_chunks l) []) <= 16)%nat /\
  (S i < length (split_chunks l) ->
   length (nth i (split_chunks l) []) = 16)%nat.
Proof.
  rewrite split_chunks_length. intros Hi. unfold split_chunks.
  rewrite (nth_indep _ [] (image_chunk l 0))
    by (rewrite length_map, length_seq; exact Hi).
  rewrite map_nth, seq_nth by exact Hi. cbn [Nat.add].
  rewrite image_chunk_length.
  pose proof (Nat.div_mod_eq (length l + 15) 16).
  pose proof (Nat.mod_upper_bound (length l + 15) 16). lia.
Qed.

Lemma pad_chunk_length c : (length c <= 16)%nat -> length (pad_chunk c) = 16%nat.
Proof. intros H. unfold pad_chunk. rewrite length_app, repeat_length. lia. Qed.

Lemma image_chunk_slice p n i :
  image_chunk (slice p 0 n) i
  = slice p (16 * Z.of_nat i) (Nat.min 16 (n - 16 * i)).
Proof.
  unfold image_chunk. rewrite slice_skipn, slice_firstn. f_equal. lia.
Qed.


(** ** Recovery: the chunk writer *)

Lemma skipn_zero_buf m :
  (m <= 16)%nat ->
  skipn m (repeat 0 16 ++ [CMD_F35_WRITE_CHUNK])
  = repeat 0 (16 - m) ++ [CMD_F35_WRITE_CHUNK].
Proof.
  intros H. replace 16%nat with (m + (16 - m))%nat at 1 by lia.
  rewrite repeat_app, <- app_assoc, skipn_app, repeat_length, Nat.sub_diag.
  rewrite skipn_all2 by (rewrite repeat_length; lia). reflexivity.
Qed.

(** The chunk size chosen by the loop is what is left of the image, at
    most sixteen bytes. *)
Lemma chunk_size_min N k :
  0 <= N -> 0 <= k < (N + 15) / 16 ->
  (if negb (u8 (N mod 16) =? 0) && (k =? (N + 15) / 16 - 1)
   then u8 (N mod 16) else F35_CHUNK_SIZE)
  = Z.min 16 (N - 16 * k) /\
  (k < (N + 15) / 16 - 1 -> Z.min 16 (N - 16 * k) = 16) /\
  0 < Z.min 16 (N - 16 * k).
Proof.
  intros HN Hk.
  pose proof (Z.div_mod N 16 ltac:(lia)) as E.
  pose proof (Z.mod_pos_bound N 16 ltac:(lia)) as B.
  pose proof (Z.div_mod (N + 15) 16 ltac:(lia)) as E2.
  pose proof (Z.mod_pos_bound (N + 15) 16 ltac:(lia)) as B2.
  rewrite u8_small by lia. unfold F35_CHUNK_SIZE.
  destruct (N mod 16 =? 0) eqn:E0; destruct (k =? (N + 15) / 16 - 1) eqn:E1;
    cbn [negb andb]; lia.
Qed.

(** The loop sends the pieces [k, k + n) of the image and leaves the
    handle alone. *)
Lemma recovery_write_chunks_spec hdr dev p N base :
  memcpy_copies hdr -> cooperative dev -> 0 <= N < 2 ^ 32 ->
  forall n k q bw x w,
    image_size (fwu w) = N ->
    Z.of_nat n + Z.of_nat k = (N + 15) / 16 ->
    ((0 < n)%nat ->
     (forall i, q i = p (16 * Z.of_nat k + i)) /\ 0 <= bw <= 16 * Z.of_nat k) ->
    length x = 16%nat ->
    exists w',
      recovery_write_chunks hdr dev n base (Z.of_nat k) ((N + 15) / 16)
        (u8 (N mod 16)) (Some q) bw (x ++ [CMD_F35_WRITE_CHUNK]) w
      = Ret None w' /\
      fwu w' = fwu w /\
      writes_of (log w')
      = writes_of (log w)
        ++ map (fun i => chunk_write base
                           (slice p (16 * Z.of_nat i)
                              (Nat.min 16 (Z.to_nat N - 16 * i))))
             (seq k n).
Proof.
  intros Hm Hc HN. induction n as [|n IH]; intros k q bw x w Hsz Htot Hinv Hx.
  - exists w. cbn. rewrite app_nil_r. auto.
  - destruct (Hinv ltac:(lia)) as [Hq Hbw]. clear Hinv.
    destruct w as [h l]. cbn [fwu log] in *.
    destruct (chunk_size_min N (Z.of_nat k) ltac:(lia) ltac:(lia))
      as (Hcs & Hfull & Hpos).
    cbn [recovery_write_chunks]. unfold bind at 1, get_fwu. cbn [fwu log].
    rewrite Hsz, Hcs. set (c := Z.min 16 (N - 16 * Z.of_nat k)) in *.
    assert (Hskip : skipn (Z.to_nat F35_CHUNK_SIZE) (x ++ [CMD_F35_WRITE_CHUNK])
                    = [CMD_F35_WRITE_CHUNK]).
    { change (Z.to_nat F35_CHUNK_SIZE) with 16%nat.
      rewrite skipn_app, Hx, Nat.sub_diag, skipn_all2 by lia. reflexivity. }
    rewrite Hskip. change (Z.to_nat F35_CHUNK_SIZE) with 16%nat.
    assert (Hu32 : u32 (N - bw) = N - bw) by (apply u32_small; lia).
    change (F35_CHUNK_SIZE + 1)
      with (Z.of_nat (length (repeat 0 16 ++ [CMD_F35_WRITE_CHUNK]))).
    rewrite Hu32, Hm;
      [|rewrite length_app, repeat_length; cbn [length]; lia | lia].
    rewrite skipn_zero_buf by lia.
    rewrite (slice_ext p q (16 * Z.of_nat k)) by exact Hq.
    unfold bind at 1, synaptics_rmi4_reg_write. cbn [fwu log].
    rewrite coop_write by assumption.
    assert (Hcn : Z.to_nat c = Nat.min 16 (Z.to_nat N - 16 * k)) by lia.
    set (piece := slice p (16 * Z.of_nat k) (Z.to_nat c)).
    assert (Hpl : length piece = Z.to_nat c) by apply slice_length.
    destruct (IH (S k) (ptr_add q c) (u16 (bw + c))
                (piece ++ repeat 0 (16 - Z.to_nat c))
                {| fwu := h;
                   log := l ++ [RegWrite (base + F35_CHUNK_DATA_OFFSET)
                                  (piece ++ repeat 0 (16 - Z.to_nat c)
                                         ++ [CMD_F35_WRITE_CHUNK])] |})
      as (w' & Hrun & Hfw & Hlog).
    + exact Hsz.
    + lia.
    + intros Hn. assert (c = 16) as Hc16 by (apply Hfull; lia). split.
      * intros i. unfold ptr_add. rewrite Hq, Hc16. f_equal. lia.
      * unfold u16. pose proof (Z.mod_pos_bound (bw + c) (2 ^ 16) ltac:(lia)).
        pose proof (Z.mod_le (bw + c) (2 ^ 16) ltac:(lia) ltac:(lia)). lia.
    + rewrite length_app, repeat_length, Hpl. lia.
    + exists w'. split; [|split].
      * replace (Z.of_nat k + 1) with (Z.of_nat (S k)) by lia.
        rewrite <- app_assoc in Hrun. exact Hrun.
      * exact Hfw.
      * rewrite Hlog. cbn [log seq map]. rewrite writes_of_app, <- app_assoc.
        f_equal. cbn [writes_of filter app]. f_equal.
        unfold chunk_write, pad_chunk. rewrite <- Hcn. fold piece.
        rewrite Hpl, <- app_assoc. reflexivity.
Qed.

Lemma fwu_recovery_check_status_frame hdr dev w :
  cooperative dev ->
  exists r w', fwu_recovery_check_status hdr dev w = Ret r w' /\
               writes_of (log w') = writes_of (log w).
Proof.
  intros Hc. destruct w as [h l]. unfold fwu_recovery_check_status. munfold.
  destruct (coop_read dev l (data_base_addr (f35_fd h) + F35_ERROR_CODE_OFFSET)
              1 Hc) as (r & bytes & -> & ->).
  cbn [fwu log].
  destruct (negb _); (eexists _, _; split; [reflexivity|]; cbn [log];
    rewrite writes_of_app; cbn; now rewrite app_nil_r).
Qed.

(** The chunk writer on any handle: the trace, and the shape of the
    pieces. *)
Lemma fwu_recovery_write_chunk_rule :
  forall (hdr : dsx_header) (dev : controller) (w : world) (p : buffer),
    memcpy_copies hdr ->
    cooperative dev ->
    image (fwu w) = Some p ->
    0 <= image_size (fwu w) <= 65535 * 16 ->
    let base := ctrl_base_addr (f35_fd (fwu w)) in
    let image_bytes := slice p 0 (Z.to_nat (image_size (fwu w))) in
    (exists r w',
       fwu_recovery_write_chunk hdr dev w = Ret r w' /\
       writes_of (log w')
       = writes_of (log w)
         ++ RegWrite (base + F35_CHUNK_NUM_LSB_OFFSET) [0; 0]
            :: map (chunk_write base) (split_chunks image_bytes)) /\
    Z.of_nat (length (split_chunks image_bytes))
    = (image_size (fwu w) + 15) / 16 /\
    concat (split_chunks image_bytes) = image_bytes /\
    (forall i, (i < length (split_chunks image_bytes))%nat ->
       (0 < length (nth i (split_chunks image_bytes) []) <= 16)%nat /\
       (S i < length (split_chunks image_bytes) ->
        length (nth i (split_chunks image_bytes) []) = 16)%nat /\
       length (pad_chunk (nth i (split_chunks image_bytes) [])) = 16%nat).
Proof.
  intros hdr dev [h l] p Hm Hc Hp HN base image_bytes. cbn [fwu log] in *.
  set (N := image_size h) in *.
  assert (Hlen : Z.of_nat (length (split_chunks image_bytes)) = (N + 15) / 16).
  { rewrite split_chunks_length. unfold image_bytes. rewrite slice_length.
    rewrite Nat2Z.inj_div, Nat2Z.inj_add, Z2Nat.id by lia. reflexivity. }
  split; [|split; [exact Hlen | split; [apply split_chunks_concat|]]].
  - pose proof (Z.div_mod N 16 ltac:(lia)) as E.
    pose proof (Z.mod_pos_bound N 16 ltac:(lia)) as B.
    pose proof (Z.div_mod (N + 15) 16 ltac:(lia)) as E2.
    pose proof (Z.mod_pos_bound (N + 15) 16 ltac:(lia)) as B2.
    assert (Htotal :
      (if negb (u8 (N mod F35_CHUNK_SIZE) =? 0)
       then u16 (u16 (N / F35_CHUNK_SIZE) + 1)
       else u16 (N / F35_CHUNK_SIZE)) = (N + 15) / 16).
    { unfold F35_CHUNK_SIZE. rewrite u8_small by lia.
      rewrite (u16_small (N / 16)) by lia.
      destruct (N mod 16 =? 0) eqn:E0; cbn [negb];
        [lia | rewrite u16_small by lia; lia]. }
    unfold fwu_recovery_write_chunk. unfold bind at 1, get_fwu. cbn [fwu log].
    unfold bind at 1, synaptics_rmi4_reg_write. cbn [fwu log].
    rewrite coop_write by assumption. fold N. rewrite Htotal, Hp.
    destruct (recovery_write_chunks_spec hdr dev p N
                (ctrl_base_addr (f35_fd h)) Hm Hc ltac:(lia)
                (Z.to_nat ((N + 15) / 16)) 0%nat p 0
                (repeat 0 (Z.to_nat F35_CHUNK_SIZE))
                {| fwu := h;
                   log := l ++ [RegWrite (ctrl_base_addr (f35_fd h)
                                          + F35_CHUNK_NUM_LSB_OFFSET) [0; 0]] |})
      as (w1 & Hrun & Hfw & Hlog).
    + reflexivity.
    + lia.
    + intros _. split; [intros i; f_equal; lia | lia].
    + reflexivity.
    + cbn [Z.of_nat log fwu] in Hrun, Hlog, Hfw.
      change (N mod F35_CHUNK_SIZE) with (N mod 16).
      rewrite (bind_ret_eq _ _ _ _ _ Hrun).
      destruct (fwu_recovery_check_status_frame hdr dev w1 Hc)
        as (r & w2 & Hst & Hw2).
      rewrite (bind_ret_eq _ _ _ _ _ Hst).
      exists (if r <? 0 then r else 0), w2. split.
      * destruct (r <? 0); reflexivity.
      * rewrite Hw2, Hlog. cbn [log]. rewrite writes_of_app, <- app_assoc.
        f_equal. cbn [writes_of filter app]. f_equal. fold base.
        unfold split_chunks, image_bytes. rewrite slice_length, map_map.
        replace ((Z.to_nat N + 15) / 16)%nat with (Z.to_nat ((N + 15) / 16)).
        2:{ apply Nat2Z.inj. rewrite Nat2Z.inj_div, Nat2Z.inj_add, !Z2Nat.id; lia. }
        apply map_ext. intros i. now rewrite image_chunk_slice.
  - intros i Hi. destruct (split_chunks_sizes _ _ Hi) as [H1 H2].
    split; [exact H1 | split; [exact H2 | apply pad_chunk_length; lia]].
Qed.

(** C7 (amended): for an image of at most 65535 chunks
    ([n <= 1048560] bytes), on a bus on which no transaction fails,
    [fwu_recovery_write_chunk] writes the chunk number 0 and then one
    register write per chunk of the image: the image is cut into
    [ceil (n / 16)] pieces of sixteen bytes, the last possibly shorter,
    and each piece goes out padded with zeros to sixteen bytes and
    followed by the write-chunk command byte.  A 33-byte image is cut
    into three pieces of 16, 16 and 1 bytes, and the third goes out as
    its byte, fifteen zeros and the command. *)
Theorem fwu_recovery_write_chunk_chunks :
  (forall (hdr : dsx_header) (dev : controller) (w : world) (p : buffer),
    memcpy_copies hdr ->
    cooperative dev ->
    image (fwu w) = Some p ->
    0 <= image_size (fwu w) <= 65535 * 16 ->
    let base := ctrl_base_addr (f35_fd (fwu w)) in
    let image_bytes := slice p 0 (Z.to_nat (image_size (fwu w))) in
    (exists r w',
       fwu_recovery_write_chunk hdr dev w = Ret r w' /\
       writes_of (log w')
       = writes_of (log w)
         ++ RegWrite (base + F35_CHUNK_NUM_LSB_OFFSET) [0; 0]
            :: map (chunk_write base) (split_chunks image_bytes)) /\
    Z.of_nat (length (split_chunks image_bytes))
    = (image_size (fwu w) + 15) / 16 /\
    concat (split_chunks image_bytes) = image_bytes /\
    (forall i, (i < length (split_chunks image_bytes))%nat ->
       (0 < length (nth i (split_chunks image_bytes) []) <= 16)%nat /\
       (S i < length (split_chunks image_bytes) ->
        length (nth i (split_chunks image_bytes) []) = 16)%nat /\
       length (pad_chunk (nth i (split_chunks image_bytes) [])) = 16%nat)) /\
  map (@length Z) (split_chunks image_33) = [16; 16; 1]%nat /\
  option_map (fun w => writes_of (log w))
    (state_after
       (fwu_recovery_write_chunk rmi4_header (register_file (fun _ => []) false)
          {| fwu := recovery_example image_33; log := [] |}))
  = Some [RegWrite 0x40 [0; 0];
          RegWrite 0x42 [1; 2; 3; 4; 5; 6; 7; 8; 9; 10; 11; 12; 13; 14; 15; 16;
                         CMD_F35_WRITE_CHUNK];
          RegWrite 0x42 [17; 18; 19; 20; 21; 22; 23; 24; 25; 26; 27; 28; 29;
                         30; 31; 32; CMD_F35_WRITE_CHUNK];
          RegWrite 0x42 [33; 0; 0; 0; 0; 0; 0; 0; 0; 0; 0; 0; 0; 0; 0; 0;
                         CMD_F35_WRITE_CHUNK]].
Proof.
  split; [exact fwu_recovery_write_chunk_rule | split; reflexivity].
Qed.


Lemma bounded_memcpy_copies : memcpy_copies rmi4_header.
Proof.
  intros dest src src_size count Hd Hs. cbn [secure_memcpy rmi4_header].
  unfold bounded_memcpy.
  destruct (count >? Z.of_nat (length dest)) eqn:E1; [lia|].
  destruct (count >? src_size) eqn:E2; [lia|]. reflexivity.
Qed.

Lemma fwu_recovery_write_chunk_chunks_witness :
  exists r w',
    fwu_recovery_write_chunk rmi4_header (register_file (fun _ => []) false)
      {| fwu := recovery_example image_33; log := [] |} = Ret r w' /\
    writes_of (log w')
    = [RegWrite 0x40 [0; 0];
       RegWrite 0x42 [1; 2; 3; 4; 5; 6; 7; 8; 9; 10; 11; 12; 13; 14; 15; 16; 2];
       RegWrite 0x42 [17; 18; 19; 20; 21; 22; 23; 24; 25; 26; 27; 28; 29; 30;
                      31; 32; 2];
       RegWrite 0x42 [33; 0; 0; 0; 0; 0; 0; 0; 0; 0; 0; 0; 0; 0; 0; 0; 2]].
Proof.
  destruct (proj1 fwu_recovery_write_chunk_chunks rmi4_header
              (register_file (fun _ => []) false)
              {| fwu := recovery_example image_33; log := [] |}
              (buf_of_list image_33) bounded_memcpy_copies
              (register_file_cooperative _ _) eq_refl
              ltac:(cbn; lia)) as [(r & w' & H & Hw) _].
  exists r, w'. split; [exact H|]. rewrite Hw. reflexivity.
Defined.

(** C7, as stated, fails for large images: an image of 2^20 bytes has
    65536 chunks, the 16-bit chunk count of the writer wraps to 0, and no
    chunk is written at all. *)
Lemma fwu_recovery_write_chunk_wraps :
  (1048576 + 15) / 16 = 65536 /\
  option_map (fun w => writes_of (log w))
    (state_after
       (fwu_recovery_write_chunk rmi4_header (register_file (fun _ => []) false)
          {| fwu := recovery_example [] |> set_image (Some (fun _ => 0x5A))
                    |> set_image_size 1048576;
             log := [] |}))
  = Some [RegWrite 0x40 [0; 0]].
Proof. split; reflexivity. Qed.

(** ** TDAT validation *)

Lemma lor_shiftl_add hi lo k :
  0 <= k -> 0 <= lo < 2 ^ k -> Z.lor (Z.shiftl hi k) lo = hi * 2 ^ k + lo.
Proof.
  intros Hk Hlo. rewrite Z.shiftl_mul_pow2 by lia.
  assert (H0 : Z.land (hi * 2 ^ k) lo = 0).
  { apply Z.bits_inj'. intros m Hm. rewrite Z.land_spec, Z.bits_0.
    destruct (Z.lt_ge_cases m k).
    - rewrite Z.mul_pow2_bits_low by lia. reflexivity.
    - rewrite <- (Z.mod_small lo (2 ^ k)) by lia.
      rewrite Z.mod_pow2_bits_high by lia. apply andb_false_r. }
  rewrite <- Z.lxor_lor by exact H0. now rewrite Z.add_nocarry_lxor.
Qed.

(** The record length read by the parser is the little-endian value of
    the three bytes after the identifier. *)
Lemma tdat_record_length_value data o :
  0 <= o -> o + 3 < 2 ^ 32 ->
  tdat_record_length data o
  = rd data (o + 1) + rd data (o + 2) * 256 + rd data (o + 3) * 65536 /\
  0 <= tdat_record_length data o < 2 ^ 24.
Proof.
  intros Ho Hb. unfold tdat_record_length.
  rewrite !u32_small by lia.
  pose proof (rd_range data (o + 1)). pose proof (rd_range data (o + 2)).
  pose proof (rd_range data (o + 3)).
  rewrite (Z.shiftl_mul_pow2 (rd data (o + 2)) 8) by lia.
  rewrite (lor_shiftl_add (rd data (o + 3)) (rd data (o + 2) * 2 ^ 8) 16) by lia.
  replace (rd data (o + 3) * 2 ^ 16 + rd data (o + 2) * 2 ^ 8)
    with (Z.shiftl (rd data (o + 3) * 2 ^ 8 + rd data (o + 2)) 8)
    by (rewrite Z.shiftl_mul_pow2; lia).
  rewrite lor_shiftl_add by lia. lia.
Qed.

Lemma le24_bytes b1 b2 b3 :
  0 <= b1 < 256 -> 0 <= b2 < 256 -> 0 <= b3 < 256 ->
  le24 (b1 + b2 * 256 + b3 * 65536) = [b1; b2; b3].
Proof.
  intros H1 H2 H3. unfold le24. repeat f_equal;
    Z.to_euclidean_division_equations; lia.
Qed.

Lemma app_inj_length {A} (a a' b b' : list A) :
  length a = length a' -> a ++ b = a' ++ b' -> a = a' /\ b = b'.
Proof.
  revert a'. induction a as [|x a IH]; intros [|y a'] Hl H;
    try discriminate Hl.
  - auto.
  - cbn in H. injection H as -> H. injection Hl as Hl.
    destruct (IH _ Hl H) as [-> ->]. auto.
Qed.

Lemma slice_bytes p off n : Forall (fun b => 0 <= b < 256) (slice p off n).
Proof.
  unfold slice. apply Forall_map, Forall_forall. intros i _. apply rd_range.
Qed.

(** A tiling that starts at [o] begins with a record whose length is the
    one the parser reads, and goes on with a tiling after that record. *)
Lemma tile_head data n o r rs :
  0 <= o < n -> n + 3 < 2 ^ 32 ->
  Forall record_ok (r :: rs) ->
  slice data o (Z.to_nat (n - o)) = flat_map encode_record (r :: rs) ->
  tdat_record_length data o = Z.of_nat (length (snd r)) /\
  o + Z.of_nat (length (snd r)) + 4 <= n /\
  slice data (o + Z.of_nat (length (snd r)) + 4)
        (Z.to_nat (n - (o + Z.of_nat (length (snd r)) + 4)))
  = flat_map encode_record rs.
Proof.
  intros Ho Hn Hok Heq. inversion Hok as [|? ? (Hid & HL & Hpl) Hrs]; subst.
  cbn [flat_map] in Heq. unfold encode_record at 1 in Heq.
  set (L := Z.of_nat (length (snd r))) in *.
  assert (Hlen : Z.of_nat (Z.to_nat (n - o))
                 = 4 + L + Z.of_nat (length (flat_map encode_record rs))).
  { apply (f_equal (@length Z)) in Heq. rewrite slice_length in Heq.
    cbn [length app le24] in Heq. rewrite !length_app in Heq. cbn [length] in Heq.
    unfold L. lia. }
  assert (Hm : Z.to_nat (n - o)
               = (4 + (length (snd r) + Z.to_nat (n - (o + L + 4))))%nat)
    by (unfold L in *; lia).
  rewrite Hm in Heq. cbn [Nat.add] in Heq. rewrite !slice_S in Heq.
  unfold le24 in Heq. cbn [app] in Heq.
  injection Heq as _ H1 H2 H3 Htail.
  replace (o + 1 + 1) with (o + 2) in * by lia.
  replace (o + 2 + 1) with (o + 3) in * by lia.
  replace (o + 3 + 1) with (o + 4) in * by lia.
  destruct (tdat_record_length_value data o ltac:(lia) ltac:(lia)) as [Hv _].
  rewrite slice_app in Htail.
  destruct (app_inj_length _ _ _ _ (slice_length _ _ _) Htail) as [_ Hrest].
  split; [|split].
  - rewrite Hv, H1, H2, H3. Z.to_euclidean_division_equations; lia.
  - lia.
  - rewrite <- Hrest. f_equal. unfold L. lia.
Qed.

(** A record read by the parser in front of a tiling gives a tiling. *)
Lemma tile_cons data n o :
  0 <= o < n -> n + 3 < 2 ^ 32 ->
  o + tdat_record_length data o + 4 <= n ->
  records_tile (slice data (o + tdat_record_length data o + 4)
                  (Z.to_nat (n - (o + tdat_record_length data o + 4)))) ->
  records_tile (slice data o (Z.to_nat (n - o))).
Proof.
  intros Ho Hn Hfit (rs & Hok & Heq).
  destruct (tdat_record_length_value data o ltac:(lia) ltac:(lia)) as [Hv Hb].
  set (len := tdat_record_length data o) in *.
  exists ((rd data o, slice data (o + 4) (Z.to_nat len)) :: rs). split.
  - constructor; [|exact Hok]. unfold record_ok. cbn [fst snd].
    rewrite slice_length. split; [apply rd_range|].
    split; [lia | apply slice_bytes].
  - cbn [flat_map]. unfold encode_record at 1. cbn [fst snd].
    rewrite slice_length, Z2Nat.id by lia. rewrite <- Heq.
    replace (Z.to_nat (n - o))
      with (4 + (Z.to_nat len + Z.to_nat (n - (o + len + 4))))%nat by lia.
    cbn [Nat.add]. rewrite !slice_S, slice_app.
    replace (o + 1 + 1) with (o + 2) by lia.
    replace (o + 2 + 1) with (o + 3) by lia.
    replace (o + 3 + 1) with (o + 4) by lia.
    rewrite Hv, le24_bytes by apply rd_range. cbn [app].
    do 5 f_equal. f_equal. lia.
Qed.

(** The first loop decides whether records tile the rest of the buffer:
    it ends at the size of the buffer when they do and returns -EINVAL
    when they do not. *)
Lemma tdat_check_records_decides hdr data n :
  n + 2 ^ 24 + 4 <= 2 ^ 32 ->
  forall fuel o, 0 <= o <= n -> (Z.to_nat (n - o) < fuel)%nat ->
    (tdat_check_records hdr fuel (Some data) n o = Ret (inr n) tt /\
     records_tile (slice data o (Z.to_nat (n - o)))) \/
    (tdat_check_records hdr fuel (Some data) n o = Ret (inl (- EINVAL hdr)) tt /\
     ~ records_tile (slice data o (Z.to_nat (n - o)))).
Proof.
  intros Hn. induction fuel as [|fuel IH]; intros o Ho Hf; [lia|].
  cbn [tdat_check_records]. destruct (o <? n) eqn:Elt.
  - apply Z.ltb_lt in Elt.
    destruct (tdat_record_length_value data o ltac:(lia) ltac:(lia)) as [_ Hb].
    set (len := tdat_record_length data o) in *.
    rewrite !u32_small by lia.
    assert (Hnonempty : forall recs,
              slice data o (Z.to_nat (n - o)) = flat_map encode_record recs ->
              recs <> []).
    { intros recs Heq ->. apply (f_equal (@length Z)) in Heq.
      rewrite slice_length in Heq. cbn in Heq. lia. }
    destruct (o + len + 4 >? n) eqn:Egt.
    + right. split; [reflexivity|]. intros (recs & Hok & Heq).
      destruct recs as [|r rs]; [now apply (Hnonempty [] Heq)|].
      destruct (tile_head data n o r rs ltac:(lia) ltac:(lia) Hok Heq)
        as (HL & Hfit & _).
      fold len in HL. lia.
    + replace (o + (len + 4)) with (o + len + 4) by lia.
      destruct (IH (o + len + 4) ltac:(lia) ltac:(lia)) as [[Hrun Ht] | [Hrun Ht]].
      * left. split; [exact Hrun|].
        apply tile_cons; try lia. exact Ht.
      * right. split; [exact Hrun|]. intros (recs & Hok & Heq). apply Ht.
        destruct recs as [|r rs]; [now destruct (Hnonempty [] Heq)|].
        destruct (tile_head data n o r rs ltac:(lia) ltac:(lia) Hok Heq)
          as (HL & Hfit & Hrest).
        fold len in HL. rewrite <- HL in Hrest.
        exists rs. split; [now inversion Hok | exact Hrest].
  - apply Z.ltb_ge in Elt. assert (o = n) as -> by lia. left.
    split; [reflexivity|]. exists []. split; [constructor|].
    rewrite Z.sub_diag. reflexivity.
Qed.

Lemma tdat_layout_tail data n :
  0 <= n ->
  (tdat_layout (slice data 0 (Z.to_nat n)) <->
   1 <= n /\ records_tile (slice data 1 (Z.to_nat (n - 1)))).
Proof.
  intros Hn. split.
  - intros (tag & rest & Heq & Ht).
    destruct (Z.to_nat n) as [|m] eqn:Em; [discriminate Heq|].
    rewrite slice_S in Heq. injection Heq as _ <-.
    split; [lia|]. replace (Z.to_nat (n - 1)) with m by lia. exact Ht.
  - intros [H1 Ht]. replace (Z.to_nat n) with (S (Z.to_nat (n - 1))) by lia.
    rewrite slice_S. eexists _, _. split; [reflexivity | exact Ht].
Qed.

(** The validation pass accepts exactly the buffers that are laid out
    as a format byte followed by records to the end. *)
Lemma tdat_validate_decides hdr data n :
  0 <= n -> n + 2 ^ 24 + 4 <= 2 ^ 32 ->
  (tdat_validate hdr (Some data) n = Ret 0 tt /\
   tdat_layout (slice data 0 (Z.to_nat n))) \/
  (tdat_validate hdr (Some data) n = Ret (- EINVAL hdr) tt /\
   ~ tdat_layout (slice data 0 (Z.to_nat n))).
Proof.
  intros Hn Hb. unfold tdat_validate. rewrite tdat_layout_tail by exact Hn.
  destruct (Z.eq_dec n 0) as [-> | Hn0].
  - right. split; [reflexivity | lia].
  - destruct (tdat_check_records_decides hdr data n Hb (S (Z.to_nat n)) 1
                ltac:(lia) ltac:(lia)) as [[-> Ht] | [-> Ht]].
    + left. rewrite Z.eqb_refl. split; [reflexivity|]. split; [lia | exact Ht].
    + right. split; [reflexivity|]. intros [_ H]. exact (Ht H).
Qed.

(** C5 (amended): for a buffer short enough for the 32-bit offsets of
    the parser, the validation pass of [fwu_parse_tdat_image] accepts
    exactly when the records tile the buffer after its first byte, the
    format tag (so that one plus the sum of the record lengths plus four
    each is the buffer length); otherwise the parse returns -EINVAL
    before the extraction loop, having only cleared the content flags
    and the lockdown pointer; and the extraction loop runs only after
    the validation has accepted. *)
Theorem fwu_parse_tdat_image_validation :
  forall (hdr : dsx_header) (w : world) (data : buffer),
    0 < EINVAL hdr ->
    image (fwu w) = Some data ->
    0 <= image_size (fwu w) ->
    image_size (fwu w) + 2 ^ 24 + 4 <= 2 ^ 32 ->
    let fw_size := image_size (fwu w) in
    let bytes := slice data 0 (Z.to_nat fw_size) in
    (tdat_validate hdr (Some data) fw_size = Ret 0 tt <-> tdat_layout bytes) /\
    (~ tdat_layout bytes ->
     tdat_validate hdr (Some data) fw_size = Ret (- EINVAL hdr) tt /\
     fwu_parse_tdat_image hdr w
     = Ret (- EINVAL hdr) {| fwu := tdat_reset (fwu w); log := log w |}) /\
    (tdat_layout bytes ->
     fwu_parse_tdat_image hdr w
     = (tdat_extract hdr (S (Z.to_nat fw_size)) (Some data) fw_size 1 ;;; ret 0)
         {| fwu := tdat_reset (fwu w); log := log w |}).
Proof.
  intros hdr [h l] data HE Himg Hn Hb fw_size bytes. cbn [fwu log] in *.
  assert (Hparse : forall r,
    tdat_validate hdr (Some data) fw_size = Ret r tt ->
    fwu_parse_tdat_image hdr {| fwu := h; log := l |}
    = (if negb (r =? 0) then ret r
       else tdat_extract hdr (S (Z.to_nat fw_size)) (Some data) fw_size 1 ;;;
            ret 0) {| fwu := tdat_reset h; log := l |}).
  { intros r Hr. unfold fwu_parse_tdat_image. unfold bind at 1, get_fwu.
    cbn [fwu log]. unfold bind at 1, update. cbn [fwu log].
    rewrite Himg. fold fw_size. unfold bind at 1, lift. rewrite Hr.
    reflexivity. }
  destruct (tdat_validate_decides hdr data fw_size Hn Hb) as [[Hv Ht] | [Hv Ht]].
  - split; [|split].
    + split; auto.
    + intros H. contradiction.
    + intros _. rewrite (Hparse _ Hv). reflexivity.
  - split; [|split].
    + split; [|intros H; contradiction].
      rewrite Hv. intros H. injection H as H. lia.
    + intros _. split; [exact Hv|]. rewrite (Hparse _ Hv).
      destruct (- EINVAL hdr =? 0) eqn:E; [lia|]. reflexivity.
    + intros H. contradiction.
Qed.

(** A one-record image: tag, then record 2 with the payload [7]. *)
Lemma fwu_parse_tdat_image_validation_witness :
  tdat_validate rmi4_header (Some (buf_of_list [0x31; 2; 1; 0; 0; 7])) 6
  = Ret 0 tt.
Proof.
  apply (proj1 (fwu_parse_tdat_image_validation rmi4_header
                  {| fwu := fwu_zero
                            |> set_image (Some (buf_of_list [0x31; 2; 1; 0; 0; 7]))
                            |> set_image_size 6;
                     log := [] |}
                  (buf_of_list [0x31; 2; 1; 0; 0; 7])
                  ltac:(cbn; lia) eq_refl ltac:(cbn; lia) ltac:(cbn; lia))).
  exists 0x31, [2; 1; 0; 0; 7]. split; [reflexivity|].
  exists [(2, [7])]. split; [|reflexivity].
  repeat constructor; cbn; lia.
Defined.

(** C5, as stated, fails in both directions.  The four bytes
    [0x31, 0, 0, 0] are one record (identifier 0x31, length 0) that
    tiles the buffer exactly, and the parser rejects them; the single
    byte [0x31] is accepted although no record stream has length 1. *)
Lemma tdat_validate_skips_first_byte :
  (records_tile [0x31; 0; 0; 0] /\
   tdat_validate rmi4_header (Some (buf_of_list [0x31; 0; 0; 0])) 4
   = Ret (- EINVAL rmi4_header) tt) /\
  (~ records_tile [0x31] /\
   tdat_validate rmi4_header (Some (buf_of_list [0x31])) 1 = Ret 0 tt).
Proof.
  split; split; try reflexivity.
  - exists [(0x31, [])]. split; [|reflexivity]. repeat constructor; cbn; lia.
  - intros (recs & _ & Heq). destruct recs as [|r rs]; [discriminate|].
    apply (f_equal (@length Z)) in Heq. cbn in Heq.
    rewrite length_app in Heq. cbn in Heq. lia.
Qed.

(** ** The descriptor-table scan *)

Section Scan.

Variable hdr : dsx_header.
Variable dev : controller.
Variable entry : Z -> synaptics_rmi4_fn_desc.

Hypothesis Hsane : header_sane hdr.
Hypothesis Hserve : serves_pdt hdr dev entry.
Hypothesis Hno01 : ~ pdt_found hdr entry (SYNAPTICS_RMI4_F01 hdr).
Hypothesis Hno34 : ~ pdt_found hdr entry (SYNAPTICS_RMI4_F34 hdr).

Lemma pdt_addr_S k : pdt_addr hdr (S k) = pdt_addr hdr k - PDT_ENTRY_SIZE hdr.
Proof. unfold pdt_addr. lia. Qed.

Lemma pdt_addr_mono j k :
  (j <= k)%nat -> pdt_addr hdr k <= pdt_addr hdr j.
Proof.
  destruct Hsane as (Hs & _). intros H. unfold pdt_addr.
  apply Z.sub_le_mono_l, Z.mul_le_mono_nonneg_r; lia.
Qed.

(** With neither F01 nor F34 in the table, the loop ends without a
    [return], with only the F35 flag possibly set, and that flag tells
    whether F35 is found. *)
Lemma scan_pdt_loop_spec :
  forall fuel k intr_count f35found w,
    (Z.to_nat (PDT_START hdr) < fuel + k)%nat ->
    0 <= pdt_addr hdr k ->
    (forall j, (j < k)%nat ->
       PDT_END hdr < pdt_addr hdr j /\ fn_number (entry (pdt_addr hdr j)) <> 0) ->
    (f35found = true <->
     exists j, (j < k)%nat /\
               fn_number (entry (pdt_addr hdr j)) = SYNAPTICS_RMI4_F35 hdr) ->
    exists f35found' w',
      scan_pdt_loop hdr dev fuel (pdt_addr hdr k) intr_count
        (false, false, f35found) w
      = Ret (inr (false, false, f35found')) w' /\
      (f35found' = true <-> pdt_found hdr entry (SYNAPTICS_RMI4_F35 hdr)).
Proof.
  destruct Hsane as (Hsize & Hend & Hstart & H35z & H3501 & H3534 & HE).
  induction fuel as [|fuel IH]; intros k intr f35 w Hfuel Haddr Hprev Hflag.
  { exfalso. pose proof (pdt_addr_mono 0 k ltac:(lia)) as Hm.
    destruct k as [|k]; [lia|].
    destruct (Hprev k ltac:(lia)) as [Hk _].
    unfold pdt_addr in *. nia. }
  assert (Hreach : PDT_END hdr < pdt_addr hdr k -> pdt_reached hdr entry k).
  { intros Hk. split; [exact Hk|]. intros j Hj. apply (Hprev j Hj). }
  assert (Hdone : forall b,
            (b = true <-> exists j, (j < k)%nat /\
               fn_number (entry (pdt_addr hdr j)) = SYNAPTICS_RMI4_F35 hdr) ->
            (forall k', pdt_reached hdr entry k' ->
               fn_number (entry (pdt_addr hdr k')) = SYNAPTICS_RMI4_F35 hdr ->
               (k' < k)%nat) ->
            (b = true <-> pdt_found hdr entry (SYNAPTICS_RMI4_F35 hdr))).
  { intros b Hb Hlt. rewrite Hb. split.
    - intros (j & Hj & Hfn). exists j. split; [|exact Hfn]. split.
      + apply (Hprev j Hj).
      + intros i Hi. apply (Hprev i). lia.
    - intros (k' & Hr & Hfn). exists k'. split; [exact (Hlt k' Hr Hfn) | exact Hfn]. }
  cbn [scan_pdt_loop]. destruct (pdt_addr hdr k >? PDT_END hdr) eqn:Egt.
  - apply Z.gtb_lt in Egt. unfold bind at 1, synaptics_rmi4_reg_read.
    destruct (Hserve (log w) (pdt_addr hdr k)) as [Hr Hentry].
    destruct (read_reply dev (log w) (pdt_addr hdr k) (sizeof_fn_desc hdr))
      as [r bytes]. cbn [fst snd] in Hr, Hentry.
    destruct (r <? 0) eqn:Er; [lia|]. rewrite Hentry.
    set (w1 := {| fwu := fwu w; log := _ |}).
    destruct (fn_number (entry (pdt_addr hdr k)) =? 0) eqn:Ez; cbn [negb].
    + apply Z.eqb_eq in Ez. exists f35, w1. split; [reflexivity|].
      apply Hdone; [exact Hflag|]. intros k' [_ Hnz] Hfn.
      destruct (Nat.lt_ge_cases k' k) as [|Hge]; [assumption|].
      destruct (Nat.eq_dec k' k) as [-> | Hne]; [congruence|].
      exfalso. apply (Hnz k ltac:(lia)). exact Ez.
    + apply Z.eqb_neq in Ez. unfold scan_pdt_entry.
      destruct (fn_number (entry (pdt_addr hdr k)) =? SYNAPTICS_RMI4_F01 hdr)
        eqn:E01.
      { exfalso. apply Hno01. exists k. apply Z.eqb_eq in E01. auto. }
      destruct (fn_number (entry (pdt_addr hdr k)) =? SYNAPTICS_RMI4_F34 hdr)
        eqn:E34.
      { exfalso. apply Hno34. exists k. apply Z.eqb_eq in E34. auto. }
      assert (Hnext : u16 (pdt_addr hdr k - PDT_ENTRY_SIZE hdr)
                      = pdt_addr hdr (S k)).
      { rewrite pdt_addr_S. apply u16_small.
        pose proof (pdt_addr_mono 0 k ltac:(lia)). unfold pdt_addr in *. lia. }
      assert (Hprev' : forall j, (j < S k)%nat ->
                PDT_END hdr < pdt_addr hdr j /\
                fn_number (entry (pdt_addr hdr j)) <> 0).
      { intros j Hj. destruct (Nat.eq_dec j k) as [-> | Hne]; [auto|].
        apply Hprev. lia. }
      assert (Haddr' : 0 <= pdt_addr hdr (S k)) by (rewrite pdt_addr_S; lia).
      destruct (fn_number (entry (pdt_addr hdr k)) =? SYNAPTICS_RMI4_F35 hdr)
        eqn:E35.
      * apply Z.eqb_eq in E35. unfold bind at 1. unfold bind at 1, update, ret.
        rewrite Hnext.
        apply (IH (S k) _ true _ ltac:(lia) Haddr' Hprev').
        split; [|reflexivity]. intros _. exists k. split; [lia | exact E35].
      * apply Z.eqb_neq in E35. unfold bind at 1, ret. rewrite Hnext.
        apply (IH (S k) _ f35 _ ltac:(lia) Haddr' Hprev').
        rewrite Hflag. split.
        -- intros (j & Hj & Hfn). exists j. split; [lia | exact Hfn].
        -- intros (j & Hj & Hfn). exists j. split; [|exact Hfn].
           destruct (Nat.eq_dec j k) as [-> | Hne]; [congruence | lia].
  - exists f35, w. split; [reflexivity|].
    apply Hdone; [exact Hflag|]. intros k' [Hk' _] _.
    destruct (Nat.lt_ge_cases k' k) as [|Hge]; [assumption|].
    pose proof (pdt_addr_mono k k' Hge). lia.
Qed.

(** C6: when the table holds neither F01 nor F34, the scan succeeds and
    records microloader mode if F35 is found, and fails with -EINVAL if
    F35 is not found either. *)
Theorem fwu_scan_pdt_microloader :
  forall w : world,
    (pdt_found hdr entry (SYNAPTICS_RMI4_F35 hdr) ->
     exists w', fwu_scan_pdt hdr dev w = Ret 0 w' /\
                in_ub_mode (fwu w') = true) /\
    (~ pdt_found hdr entry (SYNAPTICS_RMI4_F35 hdr) ->
     exists w', fwu_scan_pdt hdr dev w = Ret (- EINVAL hdr) w' /\
                - EINVAL hdr < 0).
Proof.
  intros w. pose proof Hsane as (Hsize & Hend & Hstart & _ & _ & _ & HE).
  set (w0 := {| fwu := set_in_ub_mode false (fwu w); log := log w |}).
  destruct (scan_pdt_loop_spec (S (Z.to_nat (u16 (PDT_START hdr)))) 0 0 false w0)
    as (f35 & w1 & Hloop & Hf35).
  - rewrite u16_small by lia. lia.
  - unfold pdt_addr. lia.
  - intros j Hj. lia.
  - split; [discriminate|]. intros (j & Hj & _). lia.
  - assert (Hrun : fwu_scan_pdt hdr dev w
                   = (if negb f35 then ret (- EINVAL hdr)
                      else update (set_in_ub_mode true) ;;;
                           fwu_recovery_check_status hdr dev ;;; ret 0) w1).
    { unfold fwu_scan_pdt. unfold bind at 1, update. fold w0.
      replace (u16 (PDT_START hdr)) with (pdt_addr hdr 0) at 2
        by (rewrite u16_small by lia; unfold pdt_addr; lia).
      rewrite (bind_ret_eq _ _ _ _ _ Hloop). reflexivity. }
    split.
    + intros Hfound. apply Hf35 in Hfound. subst f35. rewrite Hrun.
      cbn [negb]. unfold bind at 1, update.
      unfold fwu_recovery_check_status. munfold.
      destruct (read_reply dev (log w1) _ 1) as [r bytes].
      destruct (r <? 0); [eexists; split; reflexivity|].
      destruct (Z.land _ _ =? 0); eexists; split; reflexivity.
    + intros Hnot. assert (f35 = false) as ->.
      { destruct f35; [|reflexivity]. exfalso. apply Hnot, Hf35. reflexivity. }
      rewrite Hrun. cbn [negb]. exists w1. split; [reflexivity | lia].
Qed.

End Scan.

Lemma rmi4_header_sane : header_sane rmi4_header.
Proof. unfold header_sane. cbn. repeat split; lia. Qed.

Lemma fwu_scan_pdt_microloader_witness :
  exists w',
    fwu_scan_pdt rmi4_header (register_file f35_only_table false)
      {| fwu := fwu_zero; log := [] |} = Ret 0 w' /\
    in_ub_mode (fwu w') = true.
Proof.
  refine (proj1 (fwu_scan_pdt_microloader rmi4_header
                   (register_file f35_only_table false)
                   (fun a => rmi4_fn_desc_of_bytes (fit 6 (f35_only_table a)))
                   rmi4_header_sane _ _ _ {| fwu := fwu_zero; log := [] |}) _).
  - intros l a. split; [cbn; lia | reflexivity].
  - intros (k & _ & H). unfold f35_only_table in H.
    destruct (pdt_addr rmi4_header k =? 0xE9); discriminate H.
  - intros (k & _ & H). unfold f35_only_table in H.
    destruct (pdt_addr rmi4_header k =? 0xE9); discriminate H.
  - exists 0%nat. split; [split; [cbn; lia | intros j Hj; lia] | reflexivity].
Defined.

(** The two outcomes, computed: the recovery function alone gives
    microloader mode, an empty table gives -EINVAL. *)
Lemma scan_f35_only :
  match fwu_scan_pdt rmi4_header (register_file f35_only_table false)
          {| fwu := fwu_zero; log := [] |} with
  | Ret retval w =>
      retval = 0 /\ in_ub_mode (fwu w) = true /\
      ctrl_base_addr (f35_fd (fwu w)) = 0x40 /\
      log w = [RegRead 0xE9 6; RegRead 0xE3 6; RegRead 0x50 1]
  | _ => False
  end.
Proof. cbv. repeat split. Qed.

Lemma scan_empty_table :
  returned (fwu_scan_pdt rmi4_header (register_file empty_table false)
              {| fwu := fwu_zero; log := [] |}) = Some (-22).
Proof. reflexivity. Qed.

(** * The rest of the engine: properties *)

(** ** Little-endian words *)

Lemma rd_buf_of_list l i :
  (i < length l)%nat -> Forall (fun b => 0 <= b < 256) l ->
  rd (buf_of_list l) (Z.of_nat i) = nth i l 0.
Proof.
  intros Hi Hb. unfold rd, buf_of_list.
  destruct (Z.of_nat i <? 0) eqn:E; [lia|]. rewrite Nat2Z.id.
  apply u8_small. rewrite Forall_forall in Hb. apply Hb, nth_In, Hi.
Qed.

Lemma le_to_uint_value p :
  le_to_uint p = rd p 0 + rd p 1 * 2 ^ 8 + rd p 2 * 2 ^ 16 + rd p 3 * 2 ^ 24.
Proof.
  unfold le_to_uint.
  pose proof (rd_range p 0). pose proof (rd_range p 1).
  pose proof (rd_range p 2). pose proof (rd_range p 3).
  rewrite u32_small by lia. lia.
Qed.

Lemma le_to_uint_range p : 0 <= le_to_uint p < 2 ^ 32.
Proof. unfold le_to_uint, u32. apply Z.mod_pos_bound. lia. Qed.

(** X1: [le_to_uint] is the inverse of the little-endian layout of a
    32-bit word.  Decoding the four bytes of [n] gives [n] modulo 2^32,
    and the four bytes of a decoded value are the four bytes that were
    read. *)
Theorem le_to_uint_round_trip :
  forall (n : Z) (p : buffer),
    le_to_uint (buf_of_list (uint_bytes n)) = u32 n /\
    uint_bytes (le_to_uint p) = slice p 0 4.
Proof.
  intros n p. split.
  - rewrite le_to_uint_value. unfold uint_bytes.
    assert (Hb : Forall (fun b => 0 <= b < 256)
                   [n mod 256; (n / 2 ^ 8) mod 256; (n / 2 ^ 16) mod 256;
                    (n / 2 ^ 24) mod 256]).
    { repeat constructor; apply Z.mod_pos_bound; lia. }
    rewrite (rd_buf_of_list _ 0), (rd_buf_of_list _ 1), (rd_buf_of_list _ 2),
      (rd_buf_of_list _ 3) by (cbn [length]; lia || exact Hb).
    cbn [nth]. unfold u32. Z.to_euclidean_division_equations. lia.
  - rewrite le_to_uint_value. unfold uint_bytes, slice. cbn [seq map Z.of_nat].
    pose proof (rd_range p 0). pose proof (rd_range p 1).
    pose proof (rd_range p 2). pose proof (rd_range p 3).
    replace (0 + 0) with 0 by lia. replace (0 + 1) with 1 by lia.
    replace (0 + 2) with 2 by lia. replace (0 + 3) with 3 by lia.
    assert (E0 : forall a b c d x, 0 <= a < 256 -> 0 <= b < 256 ->
                 0 <= c < 256 -> 0 <= d < 256 ->
                 x = a + b * 2 ^ 8 + c * 2 ^ 16 + d * 2 ^ 24 ->
                 x mod 256 = a /\ (x / 2 ^ 8) mod 256 = b /\
                 (x / 2 ^ 16) mod 256 = c /\ (x / 2 ^ 24) mod 256 = d).
    { intros. repeat split; Z.to_euclidean_division_equations; lia. }
    destruct (E0 _ _ _ _ _ H H0 H1 H2 eq_refl) as (-> & -> & -> & ->).
    reflexivity.
Qed.

(** ** The partition table *)

Lemma land_31 x : Z.land x 31 = x mod 32.
Proof. change 31 with (Z.ones 5). rewrite Z.land_ones by lia. reflexivity. Qed.

Lemma lor_shiftl_8 hi lo :
  0 <= lo < 256 -> Z.lor (Z.shiftl hi 8) lo = lo + 256 * hi.
Proof. intros H. rewrite lor_shiftl_add by lia. lia. Qed.

(** One entry of the table, for each area: the entry sets the block
    count (and the address, where the engine tracks one) of the area it
    names and leaves every other area alone. *)
Lemma parse_partition_entry_area t blk phy (k : nat) a :
  (k < 32)%nat ->
  let r := parse_partition_entry t (blk, phy) (Z.of_nat k) in
  if entry_id t k =? area_partition a then
    area_blkcount (fst r) a = entry_length t k /\
    area_phyaddr (snd r) a
    = option_map (fun _ => entry_address t k) (area_phyaddr phy a)
  else
    area_blkcount (fst r) a = area_blkcount blk a /\
    area_phyaddr (snd r) a = area_phyaddr phy a.
Proof.
  intros Hk. unfold parse_partition_entry, entry_id, entry_length, entry_address.
  rewrite u8_small by lia.
  replace (Z.of_nat k * 8 + 2 + 3) with (8 * Z.of_nat k + 5) by lia.
  replace (Z.of_nat k * 8 + 2 + 2) with (8 * Z.of_nat k + 4) by lia.
  replace (Z.of_nat k * 8 + 2 + 5) with (8 * Z.of_nat k + 7) by lia.
  replace (Z.of_nat k * 8 + 2 + 4) with (8 * Z.of_nat k + 6) by lia.
  replace (Z.of_nat k * 8 + 2) with (8 * Z.of_nat k + 2) by lia.
  rewrite !lor_shiftl_8 by apply rd_range. rewrite land_31.
  set (id := rd t (8 * Z.of_nat k + 2) mod 32).
  set (len := rd t (8 * Z.of_nat k + 4) + 256 * rd t (8 * Z.of_nat k + 5)).
  set (addr := rd t (8 * Z.of_nat k + 6) + 256 * rd t (8 * Z.of_nat k + 7)).
  unfold CORE_CODE_PARTITION, CORE_CONFIG_PARTITION, DISPLAY_CONFIG_PARTITION,
    FLASH_CONFIG_PARTITION, GUEST_CODE_PARTITION, GUEST_SERIALIZATION_PARTITION,
    GLOBAL_PARAMETERS_PARTITION, DEVICE_CONFIG_PARTITION.
  destruct (Z.eqb_spec id 7) as [E|N7]; [rewrite E; destruct a; cbn; auto|].
  destruct (Z.eqb_spec id 8) as [E|N8]; [rewrite E; destruct a; cbn; auto|].
  destruct (Z.eqb_spec id 10) as [E|N10]; [rewrite E; destruct a; cbn; auto|].
  destruct (Z.eqb_spec id 3) as [E|N3]; [rewrite E; destruct a; cbn; auto|].
  destruct (Z.eqb_spec id 9) as [E|N9]; [rewrite E; destruct a; cbn; auto|].
  destruct (Z.eqb_spec id 5) as [E|N5]; [rewrite E; destruct a; cbn; auto|].
  destruct (Z.eqb_spec id 6) as [E|N6]; [rewrite E; destruct a; cbn; auto|].
  destruct (Z.eqb_spec id 2) as [E|N2]; [rewrite E; destruct a; cbn; auto|].
  destruct a; cbn [area_partition];
    unfold CORE_CODE_PARTITION, CORE_CONFIG_PARTITION, DISPLAY_CONFIG_PARTITION,
      FLASH_CONFIG_PARTITION, GUEST_CODE_PARTITION,
      GUEST_SERIALIZATION_PARTITION, GLOBAL_PARAMETERS_PARTITION,
      DEVICE_CONFIG_PARTITION;
    match goal with
    | |- context [id =? ?c] => destruct (Z.eqb_spec id c); [contradiction|]
    end; split; reflexivity.
Qed.

Lemma parse_partition_prefix t blk phy a : forall n : nat,
  (n <= 32)%nat ->
  let r := fold_left (parse_partition_entry t) (map Z.of_nat (seq 0 n))
             (blk, phy) in
  match last_entry t n (area_partition a) with
  | Some k =>
      area_blkcount (fst r) a = entry_length t k /\
      area_phyaddr (snd r) a
      = option_map (fun _ => entry_address t k) (area_phyaddr phy a)
  | None =>
      area_blkcount (fst r) a = area_blkcount blk a /\
      area_phyaddr (snd r) a = area_phyaddr phy a
  end.
Proof.
  induction n as [|n IH]; intros Hn; [cbn; auto|].
  specialize (IH ltac:(lia)). cbv zeta in *.
  rewrite seq_S, map_app, fold_left_app. cbn [fold_left map Nat.add last_entry].
  destruct (fold_left (parse_partition_entry t) (map Z.of_nat (seq 0 n))
              (blk, phy)) as [blk1 phy1] eqn:E.
  pose proof (parse_partition_entry_area t blk1 phy1 n a ltac:(lia)) as P.
  cbv zeta in P. cbn [fst snd] in IH.
  destruct (entry_id t n =? area_partition a).
  - destruct P as [P1 P2]. split; [exact P1|]. rewrite P2.
    destruct (last_entry t n (area_partition a)); destruct IH as [_ ->];
      destruct (area_phyaddr phy a); reflexivity.
  - destruct P as [-> ->]. exact IH.
Qed.

(** X2: [fwu_parse_partition_table] on a table of at most 32 entries:
    for every area the engine keeps a block count for, the count (and
    the physical address, for the four areas that have one) after the
    parse is that of the last entry that names the partition of the
    area; an area that no entry names keeps the values it had. *)
Theorem fwu_parse_partition_table_last_entry :
  forall (h : synaptics_rmi4_fwu_handle) (t : buffer) (blk : block_count)
         (phy : physical_address) (a : table_area),
    partitions h <= 32 ->
    let r := fwu_parse_partition_table h t blk phy in
    match last_entry t (Z.to_nat (partitions h)) (area_partition a) with
    | Some k =>
        area_blkcount (fst r) a = entry_length t k /\
        area_phyaddr (snd r) a
        = option_map (fun _ => entry_address t k) (area_phyaddr phy a)
    | None =>
        area_blkcount (fst r) a = area_blkcount blk a /\
        area_phyaddr (snd r) a = area_phyaddr phy a
    end.
Proof.
  intros h t blk phy a Hp. unfold fwu_parse_partition_table.
  apply parse_partition_prefix. lia.
Qed.

(** A table of two entries that both name the core code partition: the
    second one decides. *)
Lemma fwu_parse_partition_table_last_entry_witness :
  area_blkcount
    (fst (fwu_parse_partition_table (set_partitions 2 fwu_zero)
            (buf_of_list [0; 0; 7; 0; 5; 0; 1; 0; 0; 0; 7; 0; 9; 0; 2; 0; 0; 0])
            (Build_block_count 0 0 0 0 0 0 0 0)
            (Build_physical_address 0 0 0 0)))
    AREA_CORE_CODE = 9.
Proof.
  exact (proj1 (fwu_parse_partition_table_last_entry
                  (set_partitions 2 fwu_zero)
                  (buf_of_list [0; 0; 7; 0; 5; 0; 1; 0; 0; 0; 7; 0; 9; 0; 2; 0;
                                0; 0])
                  (Build_block_count 0 0 0 0 0 0 0 0)
                  (Build_physical_address 0 0 0 0) AREA_CORE_CODE
                  ltac:(cbn; lia))).
Defined.

(** ** The comparison of two partition tables *)

Lemma parsed_region_address h t blk phy r :
  partitions h <= 32 ->
  region_phyaddr (snd (fwu_parse_partition_table h t blk phy)) r
  = table_address h t phy r.
Proof.
  intros Hp. unfold fwu_parse_partition_table, table_address.
  assert (Hn : (Z.to_nat (partitions h) <= 32)%nat) by lia.
  destruct r;
    [pose proof (parse_partition_prefix t blk phy AREA_CORE_CODE _ Hn) as P
    |pose proof (parse_partition_prefix t blk phy AREA_CORE_CONFIG _ Hn) as P
    |pose proof (parse_partition_prefix t blk phy AREA_DISPLAY_CONFIG _ Hn) as P
    |pose proof (parse_partition_prefix t blk phy AREA_GUEST_CODE _ Hn) as P];
    cbv zeta in P; cbn [area_partition region_partition] in *;
    destruct (last_entry t _ _); destruct P as [_ P]; cbn in P;
    injection P as P; exact P.
Qed.

Lemma tables_parsed_fields h device_table image_table :
  phyaddr (tables_parsed h device_table image_table)
  = snd (fwu_parse_partition_table h device_table (blkcount h) (phyaddr h)) /\
  img_phyaddr (img (tables_parsed h device_table image_table))
  = snd (fwu_parse_partition_table h image_table (img_blkcount (img h))
           (img_phyaddr (img h))) /\
  (forall r, region_present (tables_parsed h device_table image_table) r
             = region_present h r).
Proof.
  unfold tables_parsed. cbv zeta.
  destruct (fwu_parse_partition_table h device_table _ _) as [bd pd].
  destruct (fwu_parse_partition_table h image_table _ _) as [bi pi].
  destruct h as [? ? ? ? ? ? ? ? ? ? ? ? ? ? ? ? ? m ? ? ? ? ? ? ?].
  destruct m. repeat split.
Qed.

(** C4: the comparison of the table of the controller with the table of
    the image, both as [fwu_parse_partition_table] records them over at
    most 32 entries.  [fwu_compare_partition_tables] clears
    [new_partition_table] exactly when the two tables give the same
    physical address to each of the areas it compares: the firmware
    (core code) and the configuration (core configuration) always, the
    display configuration when the controller reports one, the guest
    code when the controller has it.  It sets the flag as soon as one
    of these addresses differs.  Block counts and the other partitions
    of the tables play no part. *)
Theorem fwu_compare_partition_tables_compared_areas :
  forall (h : synaptics_rmi4_fwu_handle) (device_table image_table : buffer),
    partitions h <= 32 ->
    (new_partition_table
       (fwu_compare_partition_tables (tables_parsed h device_table image_table))
     = false <->
     (forall r, region_present h r = true ->
        table_address h device_table (phyaddr h) r
        = table_address h image_table (img_phyaddr (img h)) r)) /\
    (forall r, region_present h r = true ->
       table_address h device_table (phyaddr h) r
       <> table_address h image_table (img_phyaddr (img h)) r ->
       new_partition_table
         (fwu_compare_partition_tables
            (tables_parsed h device_table image_table)) = true).
Proof.
  intros h td ti Hp.
  destruct (tables_parsed_fields h td ti) as (Ed & Ei & Epres).
  assert (Haddr : forall r,
            region_phyaddr (phyaddr (tables_parsed h td ti)) r
            = table_address h td (phyaddr h) r /\
            region_phyaddr (img_phyaddr (img (tables_parsed h td ti))) r
            = table_address h ti (img_phyaddr (img h)) r).
  { intros r. rewrite Ed, Ei. split; apply parsed_region_address; exact Hp. }
  split.
  - rewrite compare_flag_addresses. split.
    + intros H r Hr. destruct (Haddr r) as [<- <-]. apply H.
      rewrite Epres. exact Hr.
    + intros H r Hr. destruct (Haddr r) as [-> ->]. apply H.
      rewrite <- Epres. exact Hr.
  - intros r Hr Hne. apply (compare_flag_set _ r).
    + rewrite Epres. exact Hr.
    + destruct (Haddr r) as [-> ->]. exact Hne.
Qed.

(** On [three_partitions]: the two example tables agree on the compared
    areas, and the flag is clear. *)
Lemma fwu_compare_partition_tables_compared_areas_witness :
  new_partition_table
    (fwu_compare_partition_tables
       (tables_parsed three_partitions device_table_example
          image_table_example)) = false.
Proof.
  apply (proj1 (fwu_compare_partition_tables_compared_areas three_partitions
                  device_table_example image_table_example
                  ltac:(vm_compute; discriminate))).
  intros [] _; reflexivity.
Defined.

(** C4, as stated, fails: the flash configuration is an area of both
    tables, its physical address (and its block count) differs between
    them, and the flag is clear. *)
Lemma partition_tables_differ_flag_clear :
  entry_id device_table_example 2 = FLASH_CONFIG_PARTITION /\
  entry_id image_table_example 2 = FLASH_CONFIG_PARTITION /\
  entry_address device_table_example 2 = 0x10 /\
  entry_address image_table_example 2 = 0x20 /\
  entry_length device_table_example 2 = 4 /\
  entry_length image_table_example 2 = 6 /\
  new_partition_table
    (fwu_compare_partition_tables
       (tables_parsed three_partitions device_table_example
          image_table_example)) = false.
Proof. repeat split. Qed.

(** ** The size checks of the other areas *)

Lemma check_size_window (EINVAL sz bs count : Z) :
  0 < EINVAL -> 0 < bs -> 0 <= sz -> 0 <= count < 2 ^ 16 ->
  counts_whole_blocks EINVAL
    (if bs =? 0 then None
     else if negb (u16 (sz / bs) =? count) then Some (- EINVAL) else Some 0)
    sz bs count.
Proof.
  intros HE Hbs Hsz Hc. unfold counts_whole_blocks.
  pose proof (quotient_window _ _ _ Hbs Hsz Hc) as W.
  fold (whole_blocks sz bs count) in W.
  destruct (bs =? 0) eqn:E0; [lia|].
  destruct (u16 (sz / bs) =? count) eqn:E; cbn [negb].
  - apply Z.eqb_eq in E. split; [now left|].
    split; [intros _; now apply W|reflexivity].
  - apply Z.eqb_neq in E. split; [now right|]. split.
    + intros H; inversion H; lia.
    + intros H; apply W in H; contradiction.
Qed.

(** X3: the size checks of the UI configuration, the display
    configuration, the bootloader configuration and the guest code all
    compare whole block counts.  With a positive block size each returns
    0 or -EINVAL, and 0 exactly when the length of the area in the image
    holds as many whole blocks as the controller reports for the area
    (as a 16-bit count): up to [block_size - 1] trailing bytes pass
    unnoticed.  With a block size of zero each of them divides by
    zero. *)
Theorem fwu_check_area_sizes_whole_blocks :
  forall (hdr : dsx_header) (h : synaptics_rmi4_fwu_handle),
    (block_size h = 0 ->
     fwu_check_ui_configuration_size hdr h = None /\
     fwu_check_dp_configuration_size hdr h = None /\
     fwu_check_bl_configuration_size hdr h = None /\
     fwu_check_guest_code_size hdr h = None) /\
    (0 < EINVAL hdr -> 0 < block_size h ->
     (0 <= size (ui_config (img h)) ->
      0 <= blk_ui_config (blkcount h) < 2 ^ 16 ->
      counts_whole_blocks (EINVAL hdr) (fwu_check_ui_configuration_size hdr h)
        (size (ui_config (img h))) (block_size h) (blk_ui_config (blkcount h))) /\
     (0 <= size (dp_config (img h)) ->
      0 <= blk_dp_config (blkcount h) < 2 ^ 16 ->
      counts_whole_blocks (EINVAL hdr) (fwu_check_dp_configuration_size hdr h)
        (size (dp_config (img h))) (block_size h) (blk_dp_config (blkcount h))) /\
     (0 <= size (bl_config (img h)) ->
      0 <= blk_bl_config (blkcount h) < 2 ^ 16 ->
      counts_whole_blocks (EINVAL hdr) (fwu_check_bl_configuration_size hdr h)
        (size (bl_config (img h))) (block_size h) (blk_bl_config (blkcount h))) /\
     (0 <= size (guest_code (img h)) ->
      0 <= blk_guest_code (blkcount h) < 2 ^ 16 ->
      counts_whole_blocks (EINVAL hdr) (fwu_check_guest_code_size hdr h)
        (size (guest_code (img h))) (block_size h)
        (blk_guest_code (blkcount h)))).
Proof.
  intros hdr h. split.
  - intros E. unfold fwu_check_ui_configuration_size,
      fwu_check_dp_configuration_size, fwu_check_bl_configuration_size,
      fwu_check_guest_code_size. rewrite E. repeat split.
  - intros HE Hbs. split; [|split; [|split]]; intros Hsz Hc;
      apply (check_size_window _ _ _ _ HE Hbs Hsz Hc).
Qed.

(** Against 100 blocks of 16 bytes a display configuration of 1615
    bytes passes. *)
Lemma fwu_check_area_sizes_whole_blocks_witness :
  fwu_check_dp_configuration_size rmi4_header (area_size_example 1615 100)
  = Some 0.
Proof.
  destruct (proj2 (fwu_check_area_sizes_whole_blocks rmi4_header
                     (area_size_example 1615 100))
              ltac:(cbn; lia) ltac:(cbn; lia)) as (_ & H & _).
  destruct (H ltac:(cbn; lia) ltac:(cbn; lia)) as [_ [_ W]].
  apply W. exists 0. cbn. lia.
Defined.

(** ** Running the driver monad *)

Lemma runs_ret {A} (a : A) w (Q : A -> world -> Prop) :
  Q a w -> runs (ret a) w Q.
Proof. exact (fun H => H). Qed.

Lemma runs_bind {A B} (c : M A) (k : A -> M B) w (Q : B -> world -> Prop) :
  runs c w (fun a w' => runs (k a) w' Q) -> runs (bind c k) w Q.
Proof. unfold runs, bind. destruct (c w); auto. Qed.

Lemma runs_get w (Q : synaptics_rmi4_fwu_handle -> world -> Prop) :
  Q (fwu w) w -> runs get_fwu w Q.
Proof. exact (fun H => H). Qed.

Lemma runs_update f w (Q : unit -> world -> Prop) :
  Q tt {| fwu := f (fwu w); log := log w |} -> runs (update f) w Q.
Proof. exact (fun H => H). Qed.

Lemma runs_write dev addr bytes w (Q : Z -> world -> Prop) :
  Q (write_reply dev (log w) addr bytes)
    {| fwu := fwu w; log := log w ++ [RegWrite addr bytes] |} ->
  runs (synaptics_rmi4_reg_write dev addr bytes) w Q.
Proof. exact (fun H => H). Qed.

Lemma runs_read dev addr len w (Q : Z * list Z -> world -> Prop) :
  (forall r bytes, read_reply dev (log w) addr len = (r, bytes) ->
     Q (r, fit len bytes)
       {| fwu := fwu w; log := log w ++ [RegRead addr len] |}) ->
  runs (synaptics_rmi4_reg_read dev addr len) w Q.
Proof.
  intros H. unfold runs, synaptics_rmi4_reg_read.
  destruct (read_reply dev (log w) addr len) as [r bytes] eqn:E.
  apply H. reflexivity.
Qed.

Lemma runs_down dev ms w (Q : Z -> world -> Prop) :
  Q (sema_reply dev (log w) ms)
    {| fwu := fwu w; log := log w ++ [DownTimeout ms] |} ->
  runs (down_timeout dev ms) w Q.
Proof. exact (fun H => H). Qed.

Lemma runs_weaken {A} (c : M A) w (Q Q' : A -> world -> Prop) :
  runs c w Q -> (forall a w', Q a w' -> Q' a w') -> runs c w Q'.
Proof. unfold runs. destruct (c w); auto. Qed.

Lemma runs_ex {A} (c : M A) w (Q : A -> world -> Prop) :
  runs c w Q <-> exists a w', c w = Ret a w' /\ Q a w'.
Proof.
  unfold runs. split.
  - destruct (c w) as [a w'| |]; [|contradiction..]. intros H.
    exists a, w'. auto.
  - intros (a & w' & -> & H). exact H.
Qed.

Lemma runs_eq {A} (c : M A) w a w' (Q : A -> world -> Prop) :
  c w = Ret a w' -> Q a w' -> runs c w Q.
Proof. intros E H. unfold runs. rewrite E. exact H. Qed.

(** One step of a computation. *)
Ltac mstep :=
  lazymatch goal with
  | |- runs (bind _ _) _ _ => apply runs_bind
  | |- runs get_fwu _ _ => apply runs_get
  | |- runs (update _) _ _ => apply runs_update
  | |- runs (synaptics_rmi4_reg_write _ _ _) _ _ => apply runs_write
  | |- runs (down_timeout _ _) _ _ => apply runs_down
  | |- runs (ret _) _ _ => apply runs_ret
  | |- runs (synaptics_rmi4_reg_read _ _ _) _ _ =>
      apply runs_read; cbn [fwu log]; intros ? ? ?
  end;
  cbn beta iota; cbn [fwu log].

(** The two ways of a test. *)
Ltac mcase :=
  lazymatch goal with
  | |- runs (if ?c then _ else _) _ _ => destruct c eqn:?
  end.

(** ** What the status reads change *)

Lemma status_fields_only_refl h : status_fields_only h h.
Proof. destruct h. reflexivity. Qed.

Lemma status_fields_only_trans h1 h2 h3 :
  status_fields_only h1 h2 -> status_fields_only h2 h3 ->
  status_fields_only h1 h3.
Proof.
  unfold status_fields_only. intros H12 H23. rewrite H23 at 1.
  rewrite H12 at 1. destruct h1. reflexivity.
Qed.

Lemma status_fields_only_set h b s c :
  status_fields_only h
    (h |> set_in_bl_mode b |> set_flash_status s |> set_command c).
Proof. destruct h. reflexivity. Qed.

Lemma status_fields_only_command h c : status_fields_only h (set_command c h).
Proof. destruct h. reflexivity. Qed.

Lemma status_fields_only_bl_mode h b : status_fields_only h (set_in_bl_mode b h).
Proof. destruct h. reflexivity. Qed.

Lemma status_fields_only_flash_status h s :
  status_fields_only h (set_flash_status s h).
Proof. destruct h. reflexivity. Qed.

(** Every other field stays. *)
Lemma status_fields_only_keeps h h' :
  status_fields_only h h' ->
  bl_version h' = bl_version h /\ block_size h' = block_size h /\
  off h' = off h /\ f34_fd h' = f34_fd h /\ rmi4_data h' = rmi4_data h /\
  config_area_sel h' = config_area_sel h /\ img h' = img h /\
  bootloader_id h' = bootloader_id h /\
  flash_properties h' = flash_properties h /\
  has_guest_code h' = has_guest_code h /\
  new_partition_table h' = new_partition_table h /\
  blkcount h' = blkcount h /\ f35_fd h' = f35_fd h /\
  image h' = image h /\ image_size h' = image_size h.
Proof.
  unfold status_fields_only. intros ->. repeat split.
Qed.

Lemma writes_of_read l addr len : writes_of (l ++ [RegRead addr len]) = writes_of l.
Proof. rewrite writes_of_app. cbn. apply app_nil_r. Qed.

Lemma writes_of_down l ms : writes_of (l ++ [DownTimeout ms]) = writes_of l.
Proof. rewrite writes_of_app. cbn. apply app_nil_r. Qed.

Lemma writes_of_write l addr bytes :
  writes_of (l ++ [RegWrite addr bytes]) = writes_of l ++ [RegWrite addr bytes].
Proof. rewrite writes_of_app. reflexivity. Qed.

Lemma coop_read_nonneg dev l addr len r bytes :
  cooperative dev -> read_reply dev l addr len = (r, bytes) -> (r <? 0) = false.
Proof.
  intros [Hr _] E. specialize (Hr l addr len). rewrite E in Hr. cbn in Hr. lia.
Qed.

(** A handle built from [h] by updates of the status fields. *)
Ltac sfo :=
  unfold status_fields_only; cbn [fwu];
  repeat match goal with
         | |- context [fwu ?w] => generalize (fwu w)
         end;
  intros []; reflexivity.

(** A read of the interrupt status changes nothing in the handle. *)
Lemma fwu_read_interrupt_status_effect dev w :
  runs (fwu_read_interrupt_status dev) w (fun r w' =>
    fwu w' = fwu w /\ writes_of (log w') = writes_of (log w) /\
    (cooperative dev -> 0 <= r)).
Proof.
  unfold fwu_read_interrupt_status. mstep. mstep. mstep. mstep.
  destruct (r <? 0) eqn:E; mstep; (split; [reflexivity|]);
    (split; [apply writes_of_read|]); intros Hc.
  - rewrite (coop_read_nonneg _ _ _ _ _ _ Hc H) in E. discriminate.
  - apply fit_nth_nonneg.
Qed.

(** A status read refreshes the three status fields and writes nothing;
    it cannot fail when no bus transaction does. *)
Lemma fwu_read_flash_status_effect hdr dev w :
  runs (fwu_read_flash_status hdr dev) w (fun r w' =>
    status_fields_only (fwu w) (fwu w') /\
    writes_of (log w') = writes_of (log w) /\
    (cooperative dev -> r = 0)).
Proof.
  unfold fwu_read_flash_status. mstep. mstep. mstep. mstep.
  destruct (r <? 0) eqn:E.
  { mstep. split; [apply status_fields_only_refl|].
    split; [apply writes_of_read|]. intros Hc.
    rewrite (coop_read_nonneg _ _ _ _ _ _ Hc H) in E. discriminate. }
  mstep. mstep. mstep. mstep.
  destruct (bl_version (fwu w) <=? BL_V6).
  - mstep. mstep. destruct (r0 <? 0) eqn:E0.
    + mstep. split; [sfo|].
      split; [now rewrite !writes_of_read|]. intros Hc.
      rewrite (coop_read_nonneg _ _ _ _ _ _ Hc H0) in E0. discriminate.
    + mstep. mstep. mstep. split; [sfo|].
      split; [now rewrite !writes_of_read | reflexivity].
  - mstep. mstep. destruct (r0 <? 0) eqn:E0.
    + mstep. split; [sfo|].
      split; [now rewrite !writes_of_read|]. intros Hc.
      rewrite (coop_read_nonneg _ _ _ _ _ _ Hc H0) in E0. discriminate.
    + mstep. mstep. mstep.
      cbn [flash_status set_flash_status set_in_bl_mode].
      destruct (_ =? BAD_PARTITION_TABLE); mstep; mstep; mstep; mstep;
        (split; [sfo|split; [now rewrite !writes_of_read | reflexivity]]).
Qed.

(** The completion wait likewise; on a bus without failures its result
    is never negative. *)
Lemma fwu_wait_for_idle_effect hdr dev ms w :
  runs (fwu_wait_for_idle hdr dev ms) w (fun r w' =>
    status_fields_only (fwu w) (fwu w') /\
    writes_of (log w') = writes_of (log w) /\
    (cooperative dev -> 0 <= r)).
Proof.
  unfold fwu_wait_for_idle. mstep. mstep. cbv zeta. mstep.
  eapply runs_weaken; [apply fwu_read_interrupt_status_effect|].
  cbn [fwu log]. intros r w1 (Hf1 & Hw1 & Hr1). mstep.
  eapply runs_weaken; [apply fwu_read_flash_status_effect|].
  intros r2 w2 (Hf2 & Hw2 & Hr2). mstep. mstep.
  assert (Hs : status_fields_only (fwu w) (fwu w2)) by (rewrite <- Hf1; exact Hf2).
  assert (Hw : writes_of (log w2) = writes_of (log w))
    by (rewrite Hw2, Hw1; apply writes_of_down).
  destruct (_ && _); mstep; (split; [exact Hs|]); (split; [exact Hw|]);
    intros Hc; [lia | auto].
Qed.

(** ** The flash status *)

Lemma fit_1_byte bytes : 0 <= nth 0 (fit 1 bytes) 0 < 256.
Proof.
  pose proof (fit_bytes 1 bytes) as F. rewrite Forall_forall in F.
  apply F, nth_In. rewrite fit_length; cbn; lia.
Qed.

Lemma land_mask_range a m : 0 <= a -> 0 <= m -> 0 <= Z.land a m <= m.
Proof.
  intros Ha Hm. split.
  - apply Z.land_nonneg. now left.
  - pose proof (Z.sub_land_same_l m a) as E. rewrite (Z.land_comm a m).
    assert (0 <= Z.land m (Z.lnot a)) by (apply Z.land_nonneg; now left).
    lia.
Qed.

Lemma nth_fit_range len bytes k : 0 <= nth k (fit len bytes) 0 < 256.
Proof.
  destruct (Nat.lt_ge_cases k (length (fit len bytes))) as [H|H].
  - pose proof (fit_bytes len bytes) as F. rewrite Forall_forall in F.
    apply (F (nth k (fit len bytes) 0)), nth_In, H.
  - rewrite nth_overflow by lia. lia.
Qed.

(** X4: what a completed status read leaves in the handle.  When
    [fwu_read_flash_status] does not report a bus error, the flash
    status it stored lies within the mask of the protocol in use (three
    bits on the legacy protocols, five on the partitioned ones), and on
    the partitioned protocols it is never the code of a bad partition
    table: that code is replaced by 0 before any caller can see it. *)
Theorem fwu_read_flash_status_range :
  forall (hdr : dsx_header) (dev : controller) (w : world),
    0 <= MASK_3BIT hdr -> 0 <= MASK_5BIT hdr ->
    runs (fwu_read_flash_status hdr dev) w (fun r w' =>
      0 <= r ->
      (bl_version (fwu w) = BL_V5 \/ bl_version (fwu w) = BL_V6 ->
       0 <= flash_status (fwu w') <= MASK_3BIT hdr) /\
      (BL_V6 < bl_version (fwu w) ->
       0 <= flash_status (fwu w') <= MASK_5BIT hdr /\
       flash_status (fwu w') <> BAD_PARTITION_TABLE)).
Proof.
  intros hdr dev w H3 H5.
  unfold fwu_read_flash_status. mstep. mstep. mstep. mstep.
  destruct (r <? 0) eqn:E; [mstep; lia|].
  pose proof (fit_1_byte bytes) as Hb.
  assert (Hsh : 0 <= Z.shiftr (nth 0 (fit 1 bytes) 0) 4)
    by (apply Z.shiftr_nonneg; lia).
  mstep. mstep. mstep. mstep.
  destruct (bl_version (fwu w) <=? BL_V6) eqn:E6.
  - mstep. mstep. destruct (r0 <? 0) eqn:E0; [mstep; lia|].
    mstep. mstep. mstep. intros _. split; [|unfold BL_V6 in *; lia].
    revert E6. generalize (fwu w) as h. intros h E6 Hv.
    destruct h; cbn [flash_status set_command set_flash_status set_in_bl_mode
                     bl_version] in *.
    destruct (_ =? BL_V5) eqn:E5; [|destruct (_ =? BL_V6) eqn:E66];
      try (apply land_mask_range; lia).
    unfold BL_V5, BL_V6 in *. lia.
  - mstep. mstep. destruct (r0 <? 0) eqn:E0; [mstep; lia|].
    mstep. mstep. mstep.
    cbn [flash_status set_flash_status set_in_bl_mode].
    assert (EV : (bl_version (fwu w) =? BL_V5) = false)
      by (unfold BL_V5, BL_V6 in *; lia).
    assert (EV6 : (bl_version (fwu w) =? BL_V6) = false)
      by (unfold BL_V5, BL_V6 in *; lia).
    rewrite EV, EV6.
    pose proof (land_mask_range (nth 0 (fit 1 bytes) 0) (MASK_5BIT hdr)
                  ltac:(lia) H5) as Hm.
    destruct (Z.land _ _ =? BAD_PARTITION_TABLE) eqn:EB;
      mstep; mstep; mstep; mstep; intros _;
      (split; [unfold BL_V6 in *; lia|]); intros _;
      generalize (fwu w) as h; intros h;
      destruct h; cbn [flash_status set_command set_flash_status
                       set_in_bl_mode].
    + unfold BAD_PARTITION_TABLE. lia.
    + apply Z.eqb_neq in EB. lia.
Qed.

(** On [v7_example] with a controller that reports the status byte
    0x88: bootloader mode, status 8. *)
Lemma fwu_read_flash_status_range_witness :
  runs (fwu_read_flash_status rmi4_header
          (register_file (fun addr => if addr =? 0x10 then [0x88] else []) false))
       {| fwu := v7_example BL_V7; log := [] |}
       (fun r w' =>
          0 <= r ->
          (BL_V7 = BL_V5 \/ BL_V7 = BL_V6 -> 0 <= flash_status (fwu w') <= 7) /\
          (BL_V6 < BL_V7 ->
           0 <= flash_status (fwu w') <= 31 /\
           flash_status (fwu w') <> BAD_PARTITION_TABLE)).
Proof.
  apply (fwu_read_flash_status_range rmi4_header
           (register_file (fun addr => if addr =? 0x10 then [0x88] else [])
              false)
           {| fwu := v7_example BL_V7; log := [] |}); cbn; lia.
Defined.

Lemma shiftr_7_bit b : 0 <= b < 256 -> Z.shiftr b 7 = 0 \/ Z.shiftr b 7 = 1.
Proof.
  intros H. rewrite Z.shiftr_div_pow2 by lia.
  change (2 ^ 7) with 128. Z.to_euclidean_division_equations. lia.
Qed.

(** X5: the bootloader-mode query that the engine offers to the core
    driver agrees with the status read of the engine itself.  Without a
    handle it answers -EINVAL and stays off the bus.  With one it reads
    the flash status register once, writes nothing and leaves the handle
    alone; its answer is the error of the read, or 0 or 1, and it is 1
    exactly when [fwu_read_flash_status], run in the same state, records
    bootloader mode in the handle. *)
Theorem synaptics_rmi4_fwu_flash_status_agrees :
  forall (hdr : dsx_header) (dev : controller)
         (h : synaptics_rmi4_fwu_handle) (l : list event),
    synaptics_rmi4_fwu_flash_status hdr dev (None, l)
    = Ret (- EINVAL hdr) (None, l) /\
    exists r,
      synaptics_rmi4_fwu_flash_status hdr dev (Some h, l)
      = Ret r (Some h,
               l ++ [RegRead (data_base_addr (f34_fd h)
                              + off_flash_status (off h)) 1]) /\
      (r < 0 \/ r = 0 \/ r = 1) /\
      runs (fwu_read_flash_status hdr dev) {| fwu := h; log := l |}
        (fun r' w' =>
           (r < 0 -> r' = r /\ fwu w' = h) /\
           (0 <= r -> in_bl_mode (fwu w') = (r =? 1))).
Proof.
  intros hdr dev h l. split; [reflexivity|].
  unfold synaptics_rmi4_fwu_flash_status. cbn [fst snd].
  unfold bind at 1, synaptics_rmi4_reg_read at 1. cbn [fwu log].
  unfold fwu_read_flash_status.
  destruct (read_reply dev l
              (data_base_addr (f34_fd h) + off_flash_status (off h)) 1)
    as [r bytes] eqn:E.
  pose proof (fit_1_byte bytes) as Hb.
  destruct (r <? 0) eqn:En.
  - exists r. cbn [ret fwu log]. split; [reflexivity|]. split; [lia|].
    mstep. mstep. mstep. mstep. rewrite E in H. injection H as <- <-.
    rewrite En. mstep. split; [auto|lia].
  - exists (Z.shiftr (nth 0 (fit 1 bytes) 0) 7). cbn [ret fwu log].
    split; [reflexivity|].
    destruct (shiftr_7_bit _ Hb) as [Es|Es]; (split; [lia|]);
      mstep; mstep; mstep; mstep; rewrite E in H; injection H as <- <-;
      rewrite En; mstep; mstep; mstep; mstep;
      (destruct (bl_version h <=? BL_V6);
       [ mstep; mstep; mcase; [mstep|mstep; mstep; mstep]
       | mstep; mstep; mcase;
         [mstep
         |mstep; mstep; mstep;
          destruct (flash_status _ =? BAD_PARTITION_TABLE);
          mstep; mstep; mstep; mstep] ]);
      (split; [lia|]); intros _; rewrite Es; destruct h; reflexivity.
Qed.

(** ** Writing blocks *)

(** A command that goes out as one byte: the handle records its code and
    the command register receives it; nothing else happens. *)
Lemma fwu_write_f34_command_wire hdr dev cmd code w :
  wire_command (fwu w) cmd = Some code ->
  runs (fwu_write_f34_command hdr dev cmd) w (fun r w' =>
    fwu w' = set_command code (fwu w) /\
    log w' = log w ++ [RegWrite (data_base_addr (f34_fd (fwu w))
                                 + off_flash_cmd (off (fwu w))) [code]] /\
    r <= 0 /\ (cooperative dev -> r = 0)).
Proof.
  unfold wire_command, fwu_write_f34_command. intros Hc. repeat mstep.
  destruct (bl_version (fwu w) >=? BL_V7).
  - unfold fwu_write_f34_v7_command. repeat mstep.
    destruct (v7_is_single_transaction cmd); [discriminate|].
    rewrite Hc. repeat mstep.
    mcase; mstep; (split; [reflexivity|]); (split; [reflexivity|]);
      (split; [lia|]); intros Hco;
      rewrite coop_write in * by assumption; congruence.
  - unfold fwu_write_f34_v5v6_command. repeat mstep.
    destruct (v5v6_sends_bootloader_id cmd); [discriminate|].
    rewrite Hc. repeat mstep. cbn [Z.ltb Z.compare]. repeat mstep.
    mcase; mstep; (split; [reflexivity|]); (split; [reflexivity|]);
      (split; [lia|]); intros Hco;
      rewrite coop_write in * by assumption; congruence.
Qed.

Lemma wrote_done w r : r <= 0 -> wrote [] w r w.
Proof. intros _. exists []. split; [reflexivity | reflexivity]. Qed.

Lemma wrote_step evs plan w w1 r w' :
  writes_of (log w1) = writes_of (log w) ++ evs ->
  wrote plan w1 r w' -> wrote (evs ++ plan) w r w'.
Proof.
  intros E (rest & H & Hr). exists rest. split; [|exact Hr].
  rewrite app_assoc, <- E. exact H.
Qed.

Lemma wrote_stop evs plan w r w' :
  writes_of (log w') = writes_of (log w) ++ evs -> r < 0 ->
  wrote (evs ++ plan) w r w'.
Proof.
  intros E Hr. exists plan. split; [|lia]. rewrite E, app_assoc. reflexivity.
Qed.

Lemma wire_command_kept h h' cmd :
  status_fields_only h h' -> wire_command h' cmd = wire_command h cmd.
Proof.
  intros H. destruct (status_fields_only_keeps _ _ H) as (E & _).
  unfold wire_command. now rewrite E.
Qed.

Section Blocks.

Variable hdr : dsx_header.
Variable dev : controller.

(** The loop of the legacy writer from block [k] on. *)
Lemma v5v6_write_blocks_wrote cmd code h0 p : forall n k q w,
  wire_command h0 cmd = Some code ->
  status_fields_only h0 (fwu w) ->
  (forall i, q i = p (Z.of_nat k * block_size h0 + i)) ->
  runs (v5v6_write_blocks hdr dev n (data_base_addr (f34_fd h0)) cmd (Some q)) w
    (fun r w' =>
       status_fields_only h0 (fwu w') /\ r <= 0 /\
       (cooperative dev -> r = 0) /\
       wrote (flat_map (v5v6_block_writes h0 p code) (seq k n)) w r w').
Proof.
  induction n as [|n IH]; intros k q w Hcmd Hs Hq.
  - cbn [v5v6_write_blocks]. mstep. repeat split; auto; try lia.
    apply wrote_done. lia.
  - cbn [v5v6_write_blocks seq flat_map]. repeat mstep.
    destruct (status_fields_only_keeps _ _ Hs)
      as (Ev & Ebs & Eoff & Efd & _).
    cbn [bytes_from]. rewrite Ebs, Eoff. repeat mstep.
    rewrite (slice_ext p q _ _ Hq).
    set (payload := RegWrite (data_base_addr (f34_fd h0) + off_payload (off h0))
                      (slice p (Z.of_nat k * block_size h0)
                         (Z.to_nat (block_size h0)))).
    set (command := RegWrite (data_base_addr (f34_fd h0) + off_flash_cmd (off h0))
                      [code]).
    change (v5v6_block_writes h0 p code k) with ([payload] ++ [command]).
    mcase.
    { mstep. split; [exact Hs|]. split; [lia|]. split.
      - intros Hc. rewrite coop_write in * by assumption. discriminate.
      - rewrite <- app_assoc. apply wrote_stop; [apply writes_of_write | lia]. }
    mstep. eapply runs_weaken.
    { apply fwu_write_f34_command_wire with (code := code). cbn [fwu].
      rewrite (wire_command_kept _ _ _ Hs). exact Hcmd. }
    cbn [fwu log]. intros r1 w1 (Hf1 & Hl1 & Hr1 & Hc1).
    assert (Hs1 : status_fields_only h0 (fwu w1)).
    { rewrite Hf1. eapply status_fields_only_trans;
        [exact Hs | apply status_fields_only_command]. }
    assert (Hw1 : writes_of (log w1)
                  = writes_of (log w) ++ [payload] ++ [command]).
    { rewrite Hl1, Efd, Eoff. unfold payload, command.
      rewrite !writes_of_write, <- app_assoc. reflexivity. }
    mcase.
    { mstep. split; [exact Hs1|]. split; [lia|]. split.
      - intros Hc. rewrite (Hc1 Hc) in *. discriminate.
      - apply wrote_stop; [exact Hw1 | lia]. }
    mstep. eapply runs_weaken; [apply fwu_wait_for_idle_effect|].
    intros r2 w2 (Hs2 & Hw2 & Hr2).
    assert (Hs02 : status_fields_only h0 (fwu w2))
      by (eapply status_fields_only_trans; eassumption).
    mcase.
    { mstep. split; [exact Hs02|]. split; [lia|]. split.
      - intros Hc. specialize (Hr2 Hc). lia.
      - apply wrote_stop; [now rewrite Hw2 | lia]. }
    repeat mstep.
    destruct (status_fields_only_keeps _ _ Hs02) as (_ & Ebs2 & _).
    rewrite Ebs2. cbn [ptr_advance].
    eapply runs_weaken.
    { apply (IH (S k) (ptr_add q (block_size h0)) w2 Hcmd Hs02).
      intros i. unfold ptr_add. rewrite Hq. f_equal. lia. }
    cbn beta. intros r w' (Hs' & Hr' & Hc' & Hwr).
    split; [exact Hs'|]. split; [exact Hr'|]. split; [exact Hc'|].
    apply wrote_step with (w1 := w2); [now rewrite Hw2 | exact Hwr].
Qed.

Lemma block_number_area a :
  u8 (Z.lor 0 (Z.shiftl (config_area_code a) 5)) = 32 * config_area_code a.
Proof. destruct a; reflexivity. Qed.

(** The legacy writer: frame, result and trace. *)
Lemma fwu_write_f34_v5v6_blocks_effect :
  forall (w : world) (p : buffer) (block_cnt : Z) (cmd : flash_command)
         (code : Z),
    wire_command (fwu w) cmd = Some code ->
    runs (fwu_write_f34_v5v6_blocks hdr dev (Some p) block_cnt cmd) w
      (fun r w' =>
         status_fields_only (fwu w) (fwu w') /\ r <= 0 /\
         (cooperative dev -> r = 0) /\
         wrote (v5v6_blocks_trace (fwu w) p code (Z.to_nat (u16 block_cnt)))
           w r w').
Proof.
  intros w p block_cnt cmd code Hcmd.
  unfold fwu_write_f34_v5v6_blocks, v5v6_blocks_trace. repeat mstep.
  rewrite block_number_area.
  set (number := RegWrite _ _).
  mcase.
  - mstep. split; [apply status_fields_only_refl|]. split; [lia|]. split.
    + intros Hc. rewrite coop_write in * by assumption. discriminate.
    + change (number :: ?l) with ([number] ++ l).
      apply wrote_stop; [apply writes_of_write | lia].
  - eapply runs_weaken.
    { apply (v5v6_write_blocks_wrote cmd code (fwu w) p _ 0%nat p _ Hcmd).
      - apply status_fields_only_refl.
      - intros i. reflexivity. }
    cbn [fwu log]. intros r w' (Hs & Hr & Hc & Hwr).
    split; [exact Hs|]. split; [exact Hr|]. split; [exact Hc|].
    change (number :: ?l) with ([number] ++ l).
    eapply wrote_step; [|exact Hwr]. apply writes_of_write.
Qed.

(** X6: the block writer of the legacy protocols.  For a command that
    goes out as one byte (write firmware, configuration, lockdown or
    guest code) and a block pointer that is not NULL, the writer always
    returns, changes nothing in the handle but the status fields, and
    what it has written to the bus is the planned sequence from its
    start: the block number carrying the configuration area, then block
    after block of [block_size] bytes (block [k] is the bytes from
    [k * block_size] on), each followed by the command.  It returns 0
    on a bus without failures; whenever it returns a non-negative value
    the whole sequence is out; a negative value stops the sequence at
    the transaction that failed. *)
Theorem fwu_write_f34_v5v6_blocks_wrote :
  forall (w : world) (p : buffer) (block_cnt : Z) (cmd : flash_command)
         (code : Z),
    wire_command (fwu w) cmd = Some code ->
    runs (fwu_write_f34_v5v6_blocks hdr dev (Some p) block_cnt cmd) w
      (fun r w' =>
         status_fields_only (fwu w) (fwu w') /\ r <= 0 /\
         (cooperative dev -> r = 0) /\
         wrote (v5v6_blocks_trace (fwu w) p code (Z.to_nat (u16 block_cnt)))
           w r w').
Proof. exact fwu_write_f34_v5v6_blocks_effect. Qed.

(** *** The partitioned protocols *)

Variable MASK_8BIT : Z.

(** For a divisor that is not zero the comparison is the test of the
    quotient. *)
Lemma quotient_nonzero_div rem max :
  0 < max -> 0 <= rem ->
  quotient_nonzero rem max = negb (rem / max =? 0).
Proof.
  intros Hm Hr. unfold quotient_nonzero.
  destruct (Z.le_gt_cases max rem) as [Hle | Hgt].
  - replace (max <=? rem) with true by (symmetry; apply Z.leb_le; exact Hle).
    assert (0 < rem / max) by (apply Z.div_str_pos; lia).
    destruct (rem / max =? 0) eqn:E; [lia|reflexivity].
  - replace (max <=? rem) with false by (symmetry; apply Z.leb_gt; exact Hgt).
    rewrite Z.div_small by lia. reflexivity.
Qed.

Lemma transfer_plan_step max rem :
  0 < max -> 0 <= rem ->
  transfer_plan max rem
  = (if negb (rem / max =? 0) then max else rem)
    :: (if negb (rem - (if negb (rem / max =? 0) then max else rem) =? 0)
        then transfer_plan max
               (rem - (if negb (rem / max =? 0) then max else rem))
        else []).
Proof.
  intros Hm Hr. unfold transfer_plan at 1.
  destruct (Z.eq_dec rem 0) as [-> | Hr0].
  { rewrite Z.div_0_l by lia. reflexivity. }
  destruct (rem =? 0) eqn:E0; [lia|].
  destruct (Z.lt_ge_cases rem max) as [Hlt | Hge].
  - rewrite Z.div_small, Z.mod_small by lia. cbn [Z.eqb negb Z.to_nat repeat app].
    destruct (rem =? 0) eqn:E1; [lia|]. rewrite Z.sub_diag. reflexivity.
  - assert (Hq : rem / max = (rem - max) / max + 1).
    { replace rem with ((rem - max) + 1 * max) at 1 by lia.
      rewrite Z.div_add by lia. reflexivity. }
    assert (Hmod : rem mod max = (rem - max) mod max).
    { replace rem with ((rem - max) + 1 * max) at 1 by lia.
      rewrite Z.mod_add by lia. reflexivity. }
    assert (0 <= (rem - max) / max) by (apply Z.div_pos; lia).
    destruct (rem / max =? 0) eqn:Eq; [lia|]. cbn [negb].
    rewrite Hq, Hmod.
    replace (Z.to_nat ((rem - max) / max + 1))
      with (S (Z.to_nat ((rem - max) / max))) by lia.
    cbn [repeat app]. f_equal.
    destruct (rem - max =? 0) eqn:E2.
    + apply Z.eqb_eq in E2. rewrite E2. reflexivity.
    + cbn [negb]. unfold transfer_plan. rewrite E2. reflexivity.
Qed.

(** The loop of the partitioned writer with [remaining] blocks to go,
    the next one being block [start]. *)
Lemma v7_write_transfers_wrote cmd code h0 p max :
  0 < max -> wire_command h0 cmd = Some code ->
  forall fuel remaining start q w,
    (Z.to_nat remaining < fuel)%nat -> 0 <= remaining < 2 ^ 16 ->
    status_fields_only h0 (fwu w) ->
    (forall i, q i = p (start * block_size h0 + i)) ->
    runs (v7_write_transfers hdr dev MASK_8BIT fuel (data_base_addr (f34_fd h0))
            cmd max (Some q) remaining) w
      (fun r w' =>
         status_fields_only h0 (fwu w') /\ r <= 0 /\
         (cooperative dev -> r = 0) /\
         wrote (v7_plan_writes h0 MASK_8BIT p code start
                  (transfer_plan max remaining)) w r w').
Proof.
  intros Hmax Hcmd.
  induction fuel as [|fuel IH]; intros remaining start q w Hf Hrem Hs Hq; [lia|].
  cbn [v7_write_transfers].
  rewrite (quotient_nonzero_div remaining max Hmax ltac:(lia)).
  rewrite (transfer_plan_step max remaining Hmax ltac:(lia)).
  set (t := if negb (remaining / max =? 0) then max else remaining).
  assert (Ht : 0 <= t <= remaining /\ (remaining <> 0 -> 0 < t)).
  { unfold t. destruct (remaining / max =? 0) eqn:Eq; cbn [negb]; [lia|].
    apply Z.eqb_neq in Eq.
    destruct (Z.lt_ge_cases remaining max); [|lia].
    rewrite Z.div_small in Eq by lia. lia. }
  cbn [v7_plan_writes]. repeat mstep.
  destruct (status_fields_only_keeps _ _ Hs) as (Ev & Ebs & Eoff & Efd & _).
  rewrite Eoff.
  set (len := RegWrite (data_base_addr (f34_fd h0) + off_transfer_length (off h0))
                [u8 (Z.land t MASK_8BIT); u8 (Z.shiftr t 8)]).
  set (command := RegWrite (data_base_addr (f34_fd h0) + off_flash_cmd (off h0))
                    [code]).
  set (payload := RegWrite (data_base_addr (f34_fd h0) + off_payload (off h0))
                    (slice p (start * block_size h0)
                       (Z.to_nat (t * block_size h0)))).
  change (v7_transfer_writes h0 MASK_8BIT p code start t)
    with ([len] ++ [command] ++ [payload]).
  rewrite <- !app_assoc.
  mcase.
  { mstep. split; [exact Hs|]. split; [lia|]. split.
    - intros Hc. rewrite coop_write in * by assumption. discriminate.
    - apply wrote_stop; [apply writes_of_write | lia]. }
  mstep. eapply runs_weaken.
  { apply fwu_write_f34_command_wire with (code := code). cbn [fwu].
    rewrite (wire_command_kept _ _ _ Hs). exact Hcmd. }
  cbn [fwu log]. intros r1 w1 (Hf1 & Hl1 & Hr1 & Hc1).
  assert (Hs1 : status_fields_only h0 (fwu w1)).
  { rewrite Hf1. eapply status_fields_only_trans;
      [exact Hs | apply status_fields_only_command]. }
  assert (Hw1 : writes_of (log w1) = writes_of (log w) ++ [len] ++ [command]).
  { rewrite Hl1, Efd, Eoff. unfold len, command.
    rewrite !writes_of_write, <- app_assoc. reflexivity. }
  destruct (status_fields_only_keeps _ _ Hs1) as (_ & Ebs1 & Eoff1 & _).
  mcase.
  { mstep. split; [exact Hs1|]. split; [lia|]. split.
    - intros Hc. rewrite (Hc1 Hc) in *. discriminate.
    - rewrite app_assoc. apply wrote_stop; [exact Hw1 | lia]. }
  repeat mstep. cbn [bytes_from]. rewrite Ebs1, Eoff1. repeat mstep.
  rewrite (slice_ext p q _ _ Hq). fold payload.
  assert (Hw1' : writes_of (log w1 ++ [payload])
                 = writes_of (log w) ++ [len] ++ [command] ++ [payload]).
  { unfold payload. rewrite writes_of_write, Hw1, <- !app_assoc. reflexivity. }
  mcase.
  { mstep. split; [exact Hs1|]. split; [lia|]. split.
    - intros Hc. rewrite coop_write in * by assumption. discriminate.
    - rewrite !app_assoc. apply wrote_stop; [|lia]. cbn [log].
      rewrite Hw1', !app_assoc. reflexivity. }
  mstep. eapply runs_weaken; [apply fwu_wait_for_idle_effect|].
  cbn [fwu log]. intros r2 w2 (Hs2 & Hw2 & Hr2).
  assert (Hs02 : status_fields_only h0 (fwu w2))
    by (eapply status_fields_only_trans; eassumption).
  assert (Hw02 : writes_of (log w2)
                 = writes_of (log w) ++ [len] ++ [command] ++ [payload])
    by (rewrite Hw2; exact Hw1').
  mcase.
  { mstep. split; [exact Hs02|]. split; [lia|]. split.
    - intros Hc. specialize (Hr2 Hc). lia.
    - rewrite !app_assoc. apply wrote_stop; [|lia].
      rewrite Hw02, !app_assoc. reflexivity. }
  repeat mstep.
  destruct (status_fields_only_keeps _ _ Hs02) as (_ & Ebs2 & _).
  rewrite Ebs2, u16_small by lia. cbn [ptr_advance].
  destruct (remaining - t =? 0) eqn:E0; cbn [negb].
  - mstep. split; [exact Hs02|]. split; [lia|]. split; [reflexivity|].
    exists []. split; [|reflexivity].
    rewrite Hw02. cbn [v7_plan_writes]. now rewrite !app_nil_r.
  - apply Z.eqb_neq in E0. eapply runs_weaken.
    { apply (IH (remaining - t) (start + t)
               (ptr_add q (t * block_size h0)) w2).
      - lia.
      - lia.
      - exact Hs02.
      - intros i. unfold ptr_add. rewrite Hq. f_equal. ring. }
    cbn beta. intros r w' (Hs' & Hr' & Hc' & Hwr).
    split; [exact Hs'|]. split; [exact Hr'|]. split; [exact Hc'|].
    rewrite !app_assoc. apply wrote_step with (w1 := w2); [|exact Hwr].
    rewrite Hw02, !app_assoc. reflexivity.
Qed.

Variable PAGE_SIZE : Z.
Variable payload_length : Z.

Lemma u16_range x : 0 <= u16 x < 2 ^ 16.
Proof. unfold u16. apply Z.mod_pos_bound. lia. Qed.

(** X7: the block writer of the partitioned protocols.  For a command
    that goes out as one byte (write firmware, configuration or guest
    code; read configuration), a block pointer that is not NULL and a
    positive transfer limit, the writer always returns, changes nothing
    in the handle but the status fields, and what it has written to the
    bus is the planned sequence from its start: the partition, block
    number 0, then one transfer after the other, each as its length,
    the command and the data of its blocks; a transfer has as many
    blocks as the limit allows, the last one the rest, and a count of
    zero still makes one empty transfer.  It returns 0 on a bus without
    failures; whenever it returns a non-negative value the whole
    sequence is out; a negative value stops the sequence at the
    transaction that failed. *)
Theorem fwu_write_f34_v7_blocks_wrote :
  forall (w : world) (p : buffer) (block_cnt : Z) (cmd : flash_command)
         (partition code max : Z),
    BL_V7 <= bl_version (fwu w) ->
    v7_partition (fwu w) cmd = Some partition ->
    wire_command (fwu w) cmd = Some code ->
    v7_max_transfer PAGE_SIZE payload_length (fwu w) = Some max ->
    0 < max ->
    runs (fwu_write_f34_v7_blocks hdr dev MASK_8BIT PAGE_SIZE payload_length
            (Some p) block_cnt cmd) w
      (fun r w' =>
         status_fields_only (fwu w) (fwu w') /\ r <= 0 /\
         (cooperative dev -> r = 0) /\
         wrote (v7_blocks_trace (fwu w) MASK_8BIT p partition code max
                  (u16 block_cnt)) w r w').
Proof.
  intros w p block_cnt cmd partition code max Hv Hp Hcmd Hmax Hpos.
  unfold fwu_write_f34_v7_blocks, v7_blocks_trace. repeat mstep.
  unfold fwu_write_f34_partition_id. repeat mstep.
  destruct (bl_version (fwu w) >=? BL_V7) eqn:E7; [|lia].
  unfold fwu_write_f34_v7_partition_id. repeat mstep. rewrite Hp.
  repeat mstep.
  set (part := RegWrite _ [partition]).
  set (number := RegWrite (data_base_addr (f34_fd (fwu w))
                           + off_block_number (off (fwu w))) [0; 0]).
  change (part :: number :: ?l) with ([part] ++ [number] ++ l).
  mcase.
  { mstep. cbn [Z.ltb]. mcase; [|lia]. mstep.
    split; [apply status_fields_only_refl|]. split; [lia|]. split.
    - intros Hc. rewrite coop_write in * by assumption. discriminate.
    - apply wrote_stop; [apply writes_of_write | lia]. }
  mstep. cbn [Z.ltb Z.compare]. repeat mstep. fold number.
  mcase.
  { mstep. split; [apply status_fields_only_refl|]. split; [lia|]. split.
    - intros Hc. rewrite coop_write in * by assumption. discriminate.
    - rewrite app_assoc. apply wrote_stop; [|lia]. cbn [log].
      unfold part, number. rewrite !writes_of_write, <- app_assoc.
      reflexivity. }
  repeat mstep. rewrite Hmax.
  eapply runs_weaken.
  { apply (v7_write_transfers_wrote cmd code (fwu w) p max Hpos Hcmd
             (S (Z.to_nat (u16 block_cnt))) (u16 block_cnt) 0 p).
    - lia.
    - apply u16_range.
    - apply status_fields_only_refl.
    - intros i. reflexivity. }
  cbn [fwu log]. intros r w' (Hs & Hr & Hc & Hwr).
  split; [exact Hs|]. split; [exact Hr|]. split; [exact Hc|].
  rewrite app_assoc. eapply wrote_step; [|exact Hwr]. cbn [log].
  unfold part, number. rewrite !writes_of_write, <- app_assoc. reflexivity.
Qed.

End Blocks.

(** Two blocks of two bytes on [legacy_example]. *)
Lemma fwu_write_f34_v5v6_blocks_wrote_witness :
  runs (fwu_write_f34_v5v6_blocks rmi4_header quiet_controller
          (Some (buf_of_list [1; 2; 3; 4])) 2 CMD_WRITE_FW)
       {| fwu := legacy_example; log := [] |}
       (fun r w' =>
          r = 0 /\
          writes_of (log w')
          = [RegWrite 0x10 [0; 0];
             RegWrite 0x11 [1; 2]; RegWrite 0x12 [CMD_V5V6_WRITE_FW];
             RegWrite 0x11 [3; 4]; RegWrite 0x12 [CMD_V5V6_WRITE_FW]]).
Proof.
  eapply runs_weaken.
  - apply (fwu_write_f34_v5v6_blocks_wrote rmi4_header quiet_controller
             {| fwu := legacy_example; log := [] |}
             (buf_of_list [1; 2; 3; 4]) 2 CMD_WRITE_FW CMD_V5V6_WRITE_FW).
    reflexivity.
  - cbn beta. intros r w' (_ & _ & Hc & (rest & Hw & Hr)).
    assert (E : r = 0) by (apply Hc, register_file_cooperative). subst r.
    rewrite (Hr ltac:(lia)), app_nil_r in Hw. split; [reflexivity|].
    rewrite <- Hw. reflexivity.
Defined.

(** Four blocks of two bytes on [v7_example], three blocks to a
    transfer. *)
Lemma fwu_write_f34_v7_blocks_wrote_witness :
  runs (fwu_write_f34_v7_blocks rmi4_header quiet_controller 255 4096 3
          (Some (buf_of_list [1; 2; 3; 4; 5; 6; 7; 8])) 4 CMD_WRITE_FW)
       {| fwu := set_block_size 2 (v7_example BL_V7); log := [] |}
       (fun r w' =>
          r = 0 /\
          writes_of (log w')
          = [RegWrite 0x11 [CORE_CODE_PARTITION]; RegWrite 0x12 [0; 0];
             RegWrite 0x13 [3; 0]; RegWrite 0x14 [CMD_V7_WRITE];
             RegWrite 0x15 [1; 2; 3; 4; 5; 6];
             RegWrite 0x13 [1; 0]; RegWrite 0x14 [CMD_V7_WRITE];
             RegWrite 0x15 [7; 8]]).
Proof.
  eapply runs_weaken.
  - apply (fwu_write_f34_v7_blocks_wrote rmi4_header quiet_controller 255 4096 3
             {| fwu := set_block_size 2 (v7_example BL_V7); log := [] |}
             (buf_of_list [1; 2; 3; 4; 5; 6; 7; 8]) 4 CMD_WRITE_FW
             CORE_CODE_PARTITION CMD_V7_WRITE 3);
      try reflexivity; cbn; lia.
  - cbn beta. intros r w' (_ & _ & Hc & (rest & Hw & Hr)).
    assert (E : r = 0) by (apply Hc, register_file_cooperative). subst r.
    rewrite (Hr ltac:(lia)), app_nil_r in Hw. split; [reflexivity|].
    rewrite <- Hw. reflexivity.
Defined.

(** ** The size of a transfer *)

Lemma sum_repeat x n : fold_right Z.add 0 (repeat x n) = Z.of_nat n * x.
Proof. induction n as [|n IH]; cbn [repeat fold_right]; [lia|]. rewrite IH. lia. Qed.

Lemma sum_app l1 l2 :
  fold_right Z.add 0 (l1 ++ l2) = fold_right Z.add 0 l1 + fold_right Z.add 0 l2.
Proof. induction l1 as [|x l1 IH]; cbn [app fold_right]; [lia|]. rewrite IH. lia. Qed.

(** X8: the transfer limit of the partitioned writer and the plan it
    gives.  With a positive block size the limit computed by
    [fwu_write_f34_v7_blocks] is at most the payload length of the
    controller, and a transfer of that many blocks is at most one page
    of bytes; with a positive limit the transfers of a write of [cnt]
    blocks have between 0 and the limit blocks each and [cnt] blocks
    together. *)
Theorem v7_max_transfer_limit :
  forall (PAGE_SIZE payload_length : Z) (h : synaptics_rmi4_fwu_handle)
         (max cnt : Z),
    v7_max_transfer PAGE_SIZE payload_length h = Some max ->
    0 < block_size h -> 0 <= PAGE_SIZE -> 0 <= payload_length < 2 ^ 16 ->
    0 <= max <= payload_length /\
    max * block_size h <= PAGE_SIZE /\
    (0 < max -> 0 <= cnt ->
     fold_right Z.add 0 (transfer_plan max cnt) = cnt /\
     Forall (fun t => 0 <= t <= max) (transfer_plan max cnt)).
Proof.
  intros PAGE_SIZE payload_length h max cnt Hm Hbs Hpage Hpl.
  unfold v7_max_transfer in Hm.
  destruct (block_size h =? 0) eqn:E0; [lia|].
  assert (Hq : 0 <= PAGE_SIZE / block_size h) by (apply Z.div_pos; lia).
  pose proof (Z.mul_div_le PAGE_SIZE (block_size h) Hbs) as Hle.
  assert (Hmax : 0 <= max <= payload_length /\ max <= PAGE_SIZE / block_size h).
  { destruct (payload_length >? PAGE_SIZE / block_size h) eqn:Ep;
      injection Hm as <-; rewrite u16_small by lia; lia. }
  split; [lia|]. split; [nia|].
  intros Hpos Hcnt. unfold transfer_plan.
  destruct (cnt =? 0) eqn:Ec.
  { apply Z.eqb_eq in Ec. subst cnt. split; [reflexivity|].
    constructor; [lia | constructor]. }
  pose proof (Z.div_mod cnt max ltac:(lia)) as Hdm.
  pose proof (Z.mod_pos_bound cnt max Hpos) as Hmod.
  assert (0 <= cnt / max) by (apply Z.div_pos; lia).
  split.
  - rewrite sum_app, sum_repeat, Z2Nat.id by lia.
    destruct (cnt mod max =? 0) eqn:Em; cbn [fold_right]; lia.
  - apply Forall_app. split.
    + apply Forall_forall. intros t Ht. apply repeat_spec in Ht. lia.
    + destruct (cnt mod max =? 0); repeat constructor; lia.
Qed.

Lemma v7_max_transfer_limit_witness :
  0 <= 3 <= 3 /\ 3 * 2 <= 4096 /\
  (0 < 3 -> 0 <= 4 ->
   fold_right Z.add 0 (transfer_plan 3 4) = 4 /\
   Forall (fun t => 0 <= t <= 3) (transfer_plan 3 4)).
Proof.
  apply (v7_max_transfer_limit 4096 3 (set_block_size 2 (v7_example BL_V7)) 3 4);
    try reflexivity; cbn; lia.
Defined.

Lemma stalls_bind {A B} (c : M A) (k : A -> M B) w :
  runs c w (fun a w' => stalls (k a) w') -> stalls (bind c k) w.
Proof. unfold runs, stalls, bind. destruct (c w); [auto|contradiction..]. Qed.

Ltac sstep := apply stalls_bind; cbn beta.

Section Blocks_edge.

Variable hdr : dsx_header.
Variable dev : controller.
Variable MASK_8BIT PAGE_SIZE payload_length : Z.

Hypothesis Hcoop : cooperative dev.

(** The loop with a transfer limit of zero and blocks to write: every
    turn sends a transfer of no blocks, and the count stays. *)
Lemma v7_write_transfers_stalls cmd code h0 base :
  wire_command h0 cmd = Some code ->
  forall fuel block_ptr remaining w,
    0 < remaining < 2 ^ 16 ->
    status_fields_only h0 (fwu w) ->
    stalls (v7_write_transfers hdr dev MASK_8BIT fuel base cmd 0 block_ptr
              remaining) w.
Proof.
  intros Hcmd.
  induction fuel as [|fuel IH]; intros block_ptr remaining w Hrem Hs;
    [reflexivity|].
  cbn [v7_write_transfers]. unfold quotient_nonzero.
  replace (0 <=? remaining) with true by (symmetry; apply Z.leb_le; lia).
  sstep. mstep. sstep. mstep. rewrite coop_write by assumption.
  cbn [Z.ltb Z.compare]. sstep.
  eapply runs_weaken.
  { apply fwu_write_f34_command_wire with (code := code). cbn [fwu].
    rewrite (wire_command_kept _ _ _ Hs). exact Hcmd. }
  cbn [fwu log]. intros r1 w1 (Hf1 & _ & _ & Hc1). rewrite (Hc1 Hcoop).
  cbn [Z.ltb Z.compare].
  assert (Hs1 : status_fields_only h0 (fwu w1)).
  { rewrite Hf1. eapply status_fields_only_trans;
      [exact Hs | apply status_fields_only_command]. }
  sstep. mstep. cbn [Z.mul].
  assert (Hb : bytes_from block_ptr 0 = Some []).
  { destruct block_ptr; reflexivity. }
  rewrite Hb. sstep. mstep. rewrite coop_write by assumption.
  cbn [Z.ltb Z.compare]. sstep.
  eapply runs_weaken; [apply fwu_wait_for_idle_effect|].
  cbn [fwu log]. intros r2 w2 (Hs2 & _ & Hr2). specialize (Hr2 Hcoop).
  replace (r2 <? 0) with false by (symmetry; apply Z.ltb_ge; exact Hr2).
  sstep. mstep. rewrite Z.sub_0_r, u16_small by lia.
  replace (remaining =? 0) with false by (symmetry; apply Z.eqb_neq; lia).
  cbn [negb]. apply IH; [exact Hrem|].
  eapply status_fields_only_trans; eassumption.
Qed.

(** X9: [fwu_write_f34_v7_blocks] takes both of its divisors from the
    controller and checks neither.  Once the partition and the block
    number have gone out on a bus without failures: with a block size of
    zero the writer divides by zero; with a transfer limit of zero (a
    payload length of zero, or a block larger than a page) and a block
    count that is not zero it never returns, because every transfer it
    sends has no blocks and the count of blocks to go stays what it
    was, for as many turns as the loop is given. *)
Theorem fwu_write_f34_v7_blocks_unchecked_divisors :
  forall (w : world) (block_ptr : pointer) (block_cnt : Z)
         (cmd : flash_command) (partition code : Z),
    BL_V7 <= bl_version (fwu w) ->
    v7_partition (fwu w) cmd = Some partition ->
    wire_command (fwu w) cmd = Some code ->
    0 <= PAGE_SIZE -> 0 <= block_size (fwu w) ->
    (block_size (fwu w) = 0 ->
     fwu_write_f34_v7_blocks hdr dev MASK_8BIT PAGE_SIZE payload_length
       block_ptr block_cnt cmd w = Oops) /\
    (0 < block_size (fwu w) ->
     payload_length = 0 \/
     (0 < payload_length /\ PAGE_SIZE < block_size (fwu w)) ->
     u16 block_cnt <> 0 ->
     v7_max_transfer PAGE_SIZE payload_length (fwu w) = Some 0 /\
     fwu_write_f34_v7_blocks hdr dev MASK_8BIT PAGE_SIZE payload_length
       block_ptr block_cnt cmd w = Fuel /\
     forall (fuel : nat) (ptr : pointer) (remaining : Z) (w1 : world),
       0 < remaining < 2 ^ 16 ->
       status_fields_only (fwu w) (fwu w1) ->
       v7_write_transfers hdr dev MASK_8BIT fuel
         (data_base_addr (f34_fd (fwu w))) cmd 0 ptr remaining w1 = Fuel).
Proof.
  intros w block_ptr block_cnt cmd partition code Hv Hp Hcmd Hpage Hbs.
  assert (Hhead : forall k : M Z,
              (forall w', fwu w' = fwu w ->
                 (h <- get_fwu ;;
                  match v7_max_transfer PAGE_SIZE payload_length h with
                  | None => oops
                  | Some max_transfer =>
                      v7_write_transfers hdr dev MASK_8BIT
                        (S (Z.to_nat (u16 block_cnt)))
                        (data_base_addr (f34_fd (fwu w))) cmd max_transfer
                        block_ptr (u16 block_cnt)
                  end) w' = k w') ->
              exists w', fwu w' = fwu w /\
                fwu_write_f34_v7_blocks hdr dev MASK_8BIT PAGE_SIZE
                  payload_length block_ptr block_cnt cmd w = k w').
  { intros k Hk.
    exists {| fwu := fwu w;
              log := (log w
                      ++ [RegWrite (data_base_addr (f34_fd (fwu w))
                                    + off_partition_id (off (fwu w)))
                            [partition]])
                     ++ [RegWrite (data_base_addr (f34_fd (fwu w))
                                   + off_block_number (off (fwu w))) [0; 0]] |}.
    split; [reflexivity|]. rewrite <- Hk by reflexivity.
    unfold fwu_write_f34_v7_blocks, bind at 1, get_fwu.
    unfold fwu_write_f34_partition_id, bind at 1, bind at 1, get_fwu.
    destruct (bl_version (fwu w) >=? BL_V7) eqn:E7; [|lia].
    unfold fwu_write_f34_v7_partition_id, bind at 1, get_fwu. rewrite Hp.
    unfold bind at 1, synaptics_rmi4_reg_write at 1. cbn [fwu log].
    rewrite coop_write by assumption. cbn [ret Z.ltb Z.compare].
    unfold bind at 1, get_fwu. cbn [fwu log].
    unfold bind at 1, synaptics_rmi4_reg_write at 1. cbn [fwu log].
    rewrite coop_write by assumption. reflexivity. }
  split.
  - intros H0.
    destruct (Hhead (fun _ => Oops)) as (w' & _ & ->); [|reflexivity].
    intros w' Hw'. unfold bind, get_fwu, v7_max_transfer. rewrite Hw', H0.
    reflexivity.
  - intros Hpos Hz Hcnt.
    assert (Hmax : v7_max_transfer PAGE_SIZE payload_length (fwu w) = Some 0).
    { unfold v7_max_transfer.
      replace (block_size (fwu w) =? 0) with false
        by (symmetry; apply Z.eqb_neq; lia).
      destruct Hz as [Hz | [Hz1 Hz2]].
      - subst payload_length.
        assert (0 <= PAGE_SIZE / block_size (fwu w)) by (apply Z.div_pos; lia).
        destruct (0 >? PAGE_SIZE / block_size (fwu w)) eqn:E; [lia|reflexivity].
      - rewrite Z.div_small by lia.
        destruct (payload_length >? 0) eqn:E; [reflexivity|lia]. }
    assert (Hspin : forall (fuel : nat) (ptr : pointer) (remaining : Z)
                           (w1 : world),
              0 < remaining < 2 ^ 16 ->
              status_fields_only (fwu w) (fwu w1) ->
              v7_write_transfers hdr dev MASK_8BIT fuel
                (data_base_addr (f34_fd (fwu w))) cmd 0 ptr remaining w1
              = Fuel).
    { intros fuel ptr remaining w1 Hrem Hs.
      exact (v7_write_transfers_stalls cmd code (fwu w) _ Hcmd fuel ptr
               remaining w1 Hrem Hs). }
    split; [exact Hmax|]. split; [|exact Hspin].
    destruct (Hhead (fun _ => Fuel)) as (w' & _ & E); [|exact E].
    intros w' Hw'. unfold bind, get_fwu. rewrite Hw', Hmax.
    apply Hspin.
    + pose proof (u16_range block_cnt). lia.
    + rewrite Hw'. apply status_fields_only_refl.
Qed.

End Blocks_edge.

(** One block for a controller that reports a payload length of zero. *)
Lemma fwu_write_f34_v7_blocks_unchecked_divisors_witness :
  fwu_write_f34_v7_blocks rmi4_header quiet_controller 255 4096 0
    None 1 CMD_WRITE_FW
    {| fwu := set_block_size 2 (v7_example BL_V7); log := [] |} = Fuel.
Proof.
  apply (proj2 (fwu_write_f34_v7_blocks_unchecked_divisors rmi4_header
                  quiet_controller 255 4096 0
                  (register_file_cooperative _ _)
                  {| fwu := set_block_size 2 (v7_example BL_V7); log := [] |}
                  None 1 CMD_WRITE_FW CORE_CODE_PARTITION CMD_V7_WRITE
                  ltac:(vm_compute; discriminate) eq_refl eq_refl
                  ltac:(lia) ltac:(vm_compute; discriminate))).
  - reflexivity.
  - left. reflexivity.
  - vm_compute. discriminate.
Defined.

(** ** Erasing one configuration area *)

(** X10: what [fwu_erase_configuration] does for each configuration
    area.  On the legacy protocols the bootloader configuration cannot
    be erased: the call returns -EINVAL and nothing has happened, on
    the bus or in the handle.  For the permanent and the flash
    configuration area, on every protocol, no erase command is sent at
    all: the function only waits for the controller to be idle, so that
    nothing is written to the bus. *)
Theorem fwu_erase_configuration_areas :
  forall (hdr : dsx_header) (dev : controller) (w : world),
    (0 < EINVAL hdr -> bl_version (fwu w) < BL_V7 ->
     config_area_sel (fwu w) = BL_CONFIG_AREA ->
     fwu_erase_configuration hdr dev w = Ret (- EINVAL hdr) w) /\
    (config_area_sel (fwu w) = PM_CONFIG_AREA \/
     config_area_sel (fwu w) = FLASH_CONFIG_AREA ->
     runs (fwu_erase_configuration hdr dev) w (fun r w' =>
       writes_of (log w') = writes_of (log w) /\
       status_fields_only (fwu w) (fwu w'))).
Proof.
  intros hdr dev w. split.
  - intros HE Hv Ha. unfold fwu_erase_configuration, bind at 1, get_fwu.
    rewrite Ha. unfold bind at 1, fwu_write_f34_command, bind at 1, get_fwu.
    destruct (bl_version (fwu w) >=? BL_V7) eqn:E; [lia|].
    unfold fwu_write_f34_v5v6_command, bind, get_fwu, ret.
    cbn [v5v6_command]. destruct (- EINVAL hdr <? 0) eqn:En; [|lia].
    destruct w. reflexivity.
  - intros Ha. unfold fwu_erase_configuration. repeat mstep.
    assert (E : match config_area_sel (fwu w) with
                | UI_CONFIG_AREA => fwu_write_f34_command hdr dev CMD_ERASE_UI_CONFIG
                | BL_CONFIG_AREA => fwu_write_f34_command hdr dev CMD_ERASE_BL_CONFIG
                | DP_CONFIG_AREA => fwu_write_f34_command hdr dev CMD_ERASE_DISP_CONFIG
                | _ => ret 0
                end = ret 0)
      by (destruct Ha as [-> | ->]; reflexivity).
    rewrite E. repeat mstep. cbn [Z.ltb Z.compare]. mstep.
    eapply runs_weaken; [apply fwu_wait_for_idle_effect|].
    intros r w' (Hs & Hw & _). mcase; mstep; auto.
Qed.

Lemma fwu_erase_configuration_areas_witness :
  fwu_erase_configuration rmi4_header quiet_controller
    {| fwu := set_config_area BL_CONFIG_AREA legacy_example; log := [] |}
  = Ret (- EINVAL rmi4_header)
        {| fwu := set_config_area BL_CONFIG_AREA legacy_example; log := [] |}.
Proof.
  apply (proj1 (fwu_erase_configuration_areas rmi4_header quiet_controller
                  {| fwu := set_config_area BL_CONFIG_AREA legacy_example;
                     log := [] |}));
    try reflexivity; cbn; lia.
Defined.

(** ** The interrupt enable check *)

Lemma land_same_within x y :
  (x =? Z.land x y) = true <->
  (forall n, 0 <= n -> Z.testbit x n = true -> Z.testbit y n = true).
Proof.
  rewrite Z.eqb_eq. split.
  - intros E n Hn Hx. rewrite E, Z.land_spec in Hx.
    apply andb_true_iff in Hx. apply Hx.
  - intros H. apply Z.bits_inj'. intros n Hn. rewrite Z.land_spec.
    destruct (Z.testbit x n) eqn:Ex; [|reflexivity].
    rewrite (H n Hn Ex). reflexivity.
Qed.

Lemma sticky_fold (bad : nat -> bool) : forall l a,
  fold_left (fun retval i => if bad i then 1 else retval) l a
  = if existsb bad l then 1 else a.
Proof.
  induction l as [|i l IH]; intros a; [reflexivity|].
  cbn [fold_left existsb]. rewrite IH.
  destruct (bad i); cbn [orb]; [destruct (existsb bad l)|]; reflexivity.
Qed.

(** X11: [fwu_check_intr_en], for every [size], reads [size] interrupt
    enable registers of the controller once, writes nothing and leaves
    the handle alone.  If the read fails it returns the error.
    Otherwise it returns 1 as soon as one byte of the driver's mask has
    a bit that the byte of the controller lacks; when every byte of the
    driver's mask lies within the controller's, it returns what the
    read returned (which need not be 0). *)
Theorem fwu_check_intr_en_within :
  forall (dev : controller) (drv_intr_en : buffer) (size : Z) (w : world),
    runs (fwu_check_intr_en dev drv_intr_en size) w
      (fun r w' =>
         fwu w' = fwu w /\ writes_of (log w') = writes_of (log w) /\
         let reply :=
           read_reply dev (log w)
             (u8 (f01_ctrl_base_addr (rmi4_data (fwu w)) + 1)) size in
         let intr_en := fit size (snd reply) in
         if fst reply <? 0 then r = fst reply
         else
           ((forall i, (i < Z.to_nat size)%nat ->
               mask_within (rd drv_intr_en (Z.of_nat i)) (nth i intr_en 0)) ->
            r = fst reply) /\
           ((exists i, (i < Z.to_nat size)%nat /\
               ~ mask_within (rd drv_intr_en (Z.of_nat i)) (nth i intr_en 0)) ->
            r = 1)).
Proof.
  intros dev drv size w. unfold fwu_check_intr_en. repeat mstep.
  rewrite H. cbn [fst snd].
  destruct (r <? 0) eqn:Er; mstep; (split; [reflexivity|]);
    (split; [apply writes_of_read|]); [reflexivity|].
  rewrite (sticky_fold
             (fun i => negb (rd drv (Z.of_nat i)
                             =? Z.land (rd drv (Z.of_nat i))
                                       (nth i (fit size bytes) 0)))).
  split.
  - intros Hall.
    destruct (existsb _ (seq 0 (Z.to_nat size))) eqn:Ex; [|reflexivity].
    apply existsb_exists in Ex. destruct Ex as (i & Hi & Hbad).
    apply in_seq in Hi. apply negb_true_iff in Hbad.
    pose proof (proj2 (land_same_within _ _) (Hall i ltac:(lia))). congruence.
  - intros (i & Hi & Hbad).
    destruct (existsb _ (seq 0 (Z.to_nat size))) eqn:Ex; [reflexivity|].
    exfalso. apply Hbad. refine (proj1 (land_same_within _ _) _).
    rewrite <- not_true_iff_false, existsb_exists in Ex.
    destruct (rd drv (Z.of_nat i)
              =? Z.land (rd drv (Z.of_nat i)) (nth i (fit size bytes) 0)) eqn:Eb;
      [reflexivity|].
    exfalso. apply Ex. exists i. split; [apply in_seq; lia|].
    rewrite Eb. reflexivity.
Qed.

(** The driver expects interrupt bit 2; the controller enables none. *)
Lemma fwu_check_intr_en_within_witness :
  runs (fwu_check_intr_en quiet_controller (buf_of_list [4]) 1)
       {| fwu := fwu_zero; log := [] |} (fun r _ => r = 1).
Proof.
  eapply runs_weaken.
  - apply (fwu_check_intr_en_within quiet_controller (buf_of_list [4]) 1
             {| fwu := fwu_zero; log := [] |}).
  - cbn beta. intros r w' (_ & _ & H). cbn in H. apply H.
    exists 0%nat. split; [lia|]. intros Hin.
    specialize (Hin 2 ltac:(lia) eq_refl). discriminate Hin.
Defined.

(** ** Entering flash programming *)

(** A command that goes out as a transaction: on a bus without
    failures it returns 0, and only the command field of the handle
    changes. *)
Lemma fwu_write_f34_command_transaction hdr dev cmd w :
  cooperative dev -> transaction_command (fwu w) cmd = true ->
  runs (fwu_write_f34_command hdr dev cmd) w (fun r w' =>
    r = 0 /\ status_fields_only (fwu w) (fwu w') /\
    writes_of (log w') = writes_of (log w) ++ erase_events (fwu w) cmd).
Proof.
  intros Hc Ht. unfold transaction_command in Ht.
  unfold fwu_write_f34_command, erase_events. repeat mstep.
  destruct (bl_version (fwu w) >=? BL_V7).
  - unfold fwu_write_f34_v7_command. repeat mstep.
    destruct cmd; try discriminate Ht;
      cbn [v7_command v7_is_single_transaction]; repeat mstep;
      unfold fwu_write_f34_v7_command_single_transaction; repeat mstep;
      cbn [v7_single_transaction]; repeat mstep;
      rewrite coop_write by assumption; repeat mstep;
      cbn [Z.ltb Z.compare]; repeat mstep;
      (split; [reflexivity|]); (split; [sfo|]);
      rewrite writes_of_write; unfold v7_transaction;
      cbn [v7_single_transaction fst snd];
      generalize (fwu w); intros []; reflexivity.
  - unfold fwu_write_f34_v5v6_command. repeat mstep.
    destruct cmd; try discriminate Ht;
      cbn [v5v6_command v5v6_sends_bootloader_id]; repeat mstep;
      rewrite coop_write by assumption; repeat mstep;
      rewrite coop_write by assumption; repeat mstep;
      (split; [reflexivity|]); (split; [sfo|]);
      rewrite !writes_of_write, <- app_assoc; unfold v5v6_transaction;
      generalize (fwu w); intros []; reflexivity.
Qed.

Lemma runs_and {A} (c : M A) w (P Q : A -> world -> Prop) :
  runs c w P -> runs c w Q -> runs c w (fun a w' => P a w' /\ Q a w').
Proof. unfold runs. destruct (c w); auto. Qed.

Lemma runs_run {A} (c : M A) w (Q : A -> world -> Prop) a w' :
  runs c w Q -> c w = Ret a w' -> Q a w'.
Proof. unfold runs. intros H E. rewrite E in H. exact H. Qed.

(** The bootloader flag after a status read is bit 7 of the byte the
    flash status register delivered. *)
Lemma fwu_read_flash_status_bl_mode hdr dev w :
  runs (fwu_read_flash_status hdr dev) w (fun r w' =>
    0 <= r ->
    in_bl_mode (fwu w')
    = negb (Z.shiftr
              (nth 0 (fit 1 (snd (read_reply dev (log w)
                                    (data_base_addr (f34_fd (fwu w))
                                     + off_flash_status (off (fwu w))) 1))) 0)
              7 =? 0)).
Proof.
  unfold fwu_read_flash_status. mstep. mstep. mstep. mstep.
  rewrite H. cbn [snd].
  destruct (r <? 0) eqn:E; [mstep; lia|].
  mstep. mstep. mstep. mstep.
  destruct (bl_version (fwu w) <=? BL_V6).
  - mstep. mstep. destruct (r0 <? 0) eqn:E0.
    + mstep. lia.
    + mstep. mstep. mstep. intros _.
      generalize (fwu w); intros []; reflexivity.
  - mstep. mstep. destruct (r0 <? 0) eqn:E0.
    + mstep. lia.
    + mstep. mstep. mstep.
      cbn [flash_status set_flash_status set_in_bl_mode].
      destruct (_ =? BAD_PARTITION_TABLE); mstep; mstep; mstep; mstep;
        intros _; generalize (fwu w); intros []; reflexivity.
Qed.

Section Enter.

Variable hdr : dsx_header.
Variable dev : controller.

Hypothesis Hcoop : cooperative dev.

Lemma fwu_read_flash_status_no_bl w :
  never_in_bootloader dev
    (data_base_addr (f34_fd (fwu w)) + off_flash_status (off (fwu w))) ->
  runs (fwu_read_flash_status hdr dev) w (fun r w' =>
    r = 0 /\ in_bl_mode (fwu w') = false /\
    status_fields_only (fwu w) (fwu w') /\
    writes_of (log w') = writes_of (log w)).
Proof.
  intros Hn. eapply runs_weaken.
  - apply runs_and; [apply fwu_read_flash_status_effect
                    | apply fwu_read_flash_status_bl_mode].
  - cbn beta. intros r w' ((Hs & Hw & Hr) & Hb). specialize (Hr Hcoop).
    subst r. repeat split; auto. rewrite Hb by lia.
    specialize (Hn (log w)).
    pose proof (fit_1_byte (snd (read_reply dev (log w)
                                   (data_base_addr (f34_fd (fwu w))
                                    + off_flash_status (off (fwu w))) 1))) as Hb1.
    rewrite Z.shiftr_div_pow2 by lia. change (2 ^ 7) with 128.
    rewrite Z.div_small by lia.
    reflexivity.
Qed.

Lemma fwu_wait_for_idle_no_bl ms w :
  never_in_bootloader dev
    (data_base_addr (f34_fd (fwu w)) + off_flash_status (off (fwu w))) ->
  runs (fwu_wait_for_idle hdr dev ms) w (fun r w' =>
    0 <= r /\ in_bl_mode (fwu w') = false /\
    status_fields_only (fwu w) (fwu w') /\
    writes_of (log w') = writes_of (log w)).
Proof.
  intros Hn. unfold fwu_wait_for_idle. mstep. mstep. cbv zeta. mstep.
  eapply runs_weaken; [apply fwu_read_interrupt_status_effect|].
  cbn [fwu log]. intros r w1 (Hf1 & Hw1 & Hr1). mstep.
  eapply runs_weaken.
  { apply fwu_read_flash_status_no_bl. rewrite Hf1. exact Hn. }
  cbn beta. intros r2 w2 (Hr2 & Hb2 & Hs2 & Hw2). mstep. mstep.
  assert (Hs : status_fields_only (fwu w) (fwu w2)) by (rewrite <- Hf1; exact Hs2).
  assert (Hw : writes_of (log w2) = writes_of (log w))
    by (rewrite Hw2, Hw1; apply writes_of_down).
  specialize (Hr1 Hcoop).
  destruct (_ && _); mstep; repeat split; auto; lia.
Qed.

End Enter.

(** X12: [fwu_enter_flash_prog] and the bootloader mode.  If the first
    status read fails, the call returns its error; if it shows the
    controller in bootloader mode already, the call returns 0; in both
    cases nothing has been written to the bus.  On a bus without
    failures, with a controller whose status register never shows
    bootloader mode, the call sends the enable command, waits, and
    returns -EINVAL: the command is the only thing written, and the
    descriptor table is not scanned again. *)
Theorem fwu_enter_flash_prog_bootloader_mode :
  forall (hdr : dsx_header) (dev : controller)
         (fwu_read_f34_queries : M Z) (w : world),
    runs (fwu_read_flash_status hdr dev) w (fun r w1 =>
      writes_of (log w1) = writes_of (log w) /\
      (r < 0 \/ in_bl_mode (fwu w1) = true ->
       fwu_enter_flash_prog hdr dev fwu_read_f34_queries w
       = Ret (if r <? 0 then r else 0) w1)) /\
    (cooperative dev ->
     never_in_bootloader dev
       (data_base_addr (f34_fd (fwu w)) + off_flash_status (off (fwu w))) ->
     runs (fwu_enter_flash_prog hdr dev fwu_read_f34_queries) w
       (fun r w' =>
          r = - EINVAL hdr /\
          writes_of (log w') = writes_of (log w) ++ enable_events (fwu w) /\
          status_fields_only (fwu w) (fwu w'))).
Proof.
  intros hdr dev fwu_read_f34_queries w. split.
  - pose proof (fwu_read_flash_status_effect hdr dev w) as He.
    unfold runs in *. unfold fwu_enter_flash_prog, bind at 1.
    destruct (fwu_read_flash_status hdr dev w) as [r w1| |];
      [|contradiction..].
    destruct He as (_ & Hw & _). split; [exact Hw|].
    intros [Hr | Hb].
    + destruct (r <? 0) eqn:E; [reflexivity|lia].
    + destruct (r <? 0) eqn:E; [reflexivity|].
      unfold bind at 1, get_fwu. rewrite Hb. reflexivity.
  - intros Hcoop Hn. unfold fwu_enter_flash_prog. mstep.
    eapply runs_weaken; [apply (fwu_read_flash_status_no_bl hdr dev Hcoop w Hn)|].
    cbn beta. intros r w1 (-> & Hb1 & Hs1 & Hw1). cbn [Z.ltb Z.compare].
    repeat mstep. rewrite Hb1. mstep.
    destruct (status_fields_only_keeps _ _ Hs1)
      as (Ev & _ & Eoff & Efd & _ & _ & _ & Ebid & _).
    eapply runs_weaken.
    { apply fwu_write_f34_command_transaction; [exact Hcoop|].
      unfold transaction_command. destruct (_ >=? _); reflexivity. }
    cbn beta. intros r2 w2 (-> & Hs2 & Hw2). cbn [Z.ltb Z.compare]. mstep.
    assert (Hs02 : status_fields_only (fwu w) (fwu w2))
      by (eapply status_fields_only_trans; eassumption).
    destruct (status_fields_only_keeps _ _ Hs02) as (_ & _ & Eoff2 & Efd2 & _).
    eapply runs_weaken.
    { apply fwu_wait_for_idle_no_bl; [exact Hcoop|]. rewrite Eoff2, Efd2. exact Hn. }
    cbn beta. intros r3 w3 (Hr3 & Hb3 & Hs3 & Hw3).
    destruct (r3 <? 0) eqn:E3; [lia|]. repeat mstep. rewrite Hb3. cbn [negb].
    mstep. split; [reflexivity|]. split.
    + rewrite Hw3, Hw2, Hw1. f_equal. unfold enable_events, erase_events,
        v7_transaction, v5v6_transaction. now rewrite Ev, Eoff, Efd, Ebid.
    + eapply status_fields_only_trans; eassumption.
Qed.

(** On [legacy_example] with a controller whose registers all read 0:
    the enable command goes out, bootloader mode is not entered. *)
Lemma fwu_enter_flash_prog_bootloader_mode_witness :
  runs (fwu_enter_flash_prog rmi4_header quiet_controller (ret 0))
       {| fwu := legacy_example; log := [] |}
       (fun r w' =>
          r = - EINVAL rmi4_header /\
          writes_of (log w')
          = [] ++ enable_events legacy_example /\
          status_fields_only legacy_example (fwu w')).
Proof.
  apply (proj2 (fwu_enter_flash_prog_bootloader_mode rmi4_header
                  quiet_controller (ret 0)
                  {| fwu := legacy_example; log := [] |})).
  - apply register_file_cooperative.
  - intros l. vm_compute. reflexivity.
Defined.

(** ** The reflash and its size checks *)

Lemma runs_checked check r w (Q : Z -> world -> Prop) :
  check (fwu w) = Some r -> Q r w -> runs (checked check) w Q.
Proof.
  intros E H. unfold checked. mstep. mstep. rewrite E. mstep. exact H.
Qed.

Lemma check_size_result (EINVAL sz bs count : Z) :
  (bs =? 0) = false ->
  (if bs =? 0 then None
   else if negb (u16 (sz / bs) =? count) then Some (- EINVAL) else Some 0)
  = Some (if u16 (sz / bs) =? count then 0 else - EINVAL).
Proof. intros ->. destruct (_ =? count); reflexivity. Qed.

Lemma do_reflash_checks_result hdr w :
  0 < EINVAL hdr ->
  block_size (fwu w) <> 0 ->
  new_partition_table (fwu w) = false ->
  do_reflash_checks hdr w
  = Ret (if reflash_sizes_match (fwu w) then 0 else - EINVAL hdr) w.
Proof.
  intros He Hb Hn. apply Z.eqb_neq in Hb.
  assert (Hneg : (- EINVAL hdr <? 0) = true) by (apply Z.ltb_lt; lia).
  enough (H : runs (do_reflash_checks hdr) w (fun r w' =>
            w' = w /\
            r = if reflash_sizes_match (fwu w) then 0 else - EINVAL hdr)).
  { apply runs_ex in H. destruct H as (r & w' & E & -> & ->). exact E. }
  unfold do_reflash_checks, reflash_sizes_match. mstep. mstep.
  rewrite Hn. cbn [negb]. mstep.
  eapply runs_checked; [apply check_size_result, Hb|].
  destruct (_ =? blk_ui_firmware _); cbn [andb];
    [cbn [Z.ltb Z.compare] | rewrite Hneg; mstep; auto].
  mstep. eapply runs_checked; [apply check_size_result, Hb|].
  destruct (_ =? blk_ui_config _); cbn [andb];
    [cbn [Z.ltb Z.compare] | rewrite Hneg; mstep; auto].
  mstep. mstep. mstep.
  destruct (has_disp_config _ && contains_disp_config _); cbn [negb orb andb].
  - eapply runs_checked; [apply check_size_result, Hb|].
    destruct (_ =? blk_dp_config _); cbn [andb];
      [cbn [Z.ltb Z.compare] | rewrite Hneg; mstep; auto].
    mstep. mstep.
    destruct (has_guest_code _ && contains_guest_code _); cbn [negb orb].
    + eapply runs_checked; [apply check_size_result, Hb|]. auto.
    + mstep. auto.
  - mstep. cbn [Z.ltb Z.compare]. mstep. mstep.
    destruct (has_guest_code _ && contains_guest_code _); cbn [negb orb].
    + eapply runs_checked; [apply check_size_result, Hb|]. auto.
    + mstep. auto.
Qed.

(** X13: a reflash that keeps the partition table touches nothing before
    the sizes agree.  With a block size that is not zero, the size checks
    at the head of [fwu_do_reflash] pass exactly when the block counts of
    the image (its sizes divided by the block size, as 16-bit values)
    equal those of the device: firmware and configuration always, display
    configuration and guest code when both the device and the image have
    them.  If one of them differs, [fwu_do_reflash] returns -EINVAL with
    the handle and the bus trace unchanged: nothing is erased. *)
Theorem fwu_do_reflash_size_mismatch :
  forall (hdr : dsx_header) (dev : controller)
         (MASK_8BIT PAGE_SIZE payload_length : Z)
         (fwu_write_partition_table_v7 fwu_write_partition_table_v8 : M Z)
         (w : world),
    0 < EINVAL hdr ->
    block_size (fwu w) <> 0 ->
    new_partition_table (fwu w) = false ->
    do_reflash_checks hdr w
    = Ret (if reflash_sizes_match (fwu w) then 0 else - EINVAL hdr) w /\
    (reflash_sizes_match (fwu w) = false ->
     fwu_do_reflash hdr dev MASK_8BIT PAGE_SIZE payload_length
       fwu_write_partition_table_v7 fwu_write_partition_table_v8 w
     = Ret (- EINVAL hdr) w).
Proof.
  intros hdr dev m8 ps pl v7 v8 w He Hb Hn.
  pose proof (do_reflash_checks_result hdr w He Hb Hn) as Hc.
  split; [exact Hc|]. intros Hm. rewrite Hm in Hc.
  unfold fwu_do_reflash, bind at 1. rewrite Hc.
  replace (- EINVAL hdr <? 0) with true by (symmetry; apply Z.ltb_lt; lia).
  reflexivity.
Qed.

(** A device that counts three blocks of firmware and an image without
    firmware: the reflash stops before the first command. *)
Lemma fwu_do_reflash_size_mismatch_witness :
  fwu_do_reflash rmi4_header quiet_controller 255 4096 0 (ret 0) (ret 0)
    {| fwu := area_size_example 40 3; log := [] |}
  = Ret (- EINVAL rmi4_header) {| fwu := area_size_example 40 3; log := [] |}.
Proof.
  apply (proj2 (fwu_do_reflash_size_mismatch rmi4_header quiet_controller
                  255 4096 0 (ret 0) (ret 0)
                  {| fwu := area_size_example 40 3; log := [] |}
                  ltac:(vm_compute; reflexivity)
                  ltac:(vm_compute; discriminate)
                  ltac:(reflexivity))).
  vm_compute. reflexivity.
Defined.

(** ** The containers of the bootloader *)

Lemma bl_areas_only_refl i : bl_areas_only i i.
Proof. destruct i as [[] ? ? ? ? ? ?]. reflexivity. Qed.

Lemma bl_areas_only_trans i1 i2 i3 :
  bl_areas_only i1 i2 -> bl_areas_only i2 i3 -> bl_areas_only i1 i3.
Proof.
  unfold bl_areas_only. intros H12 H23. rewrite H23. rewrite H12.
  destruct i1 as [[] ? ? ? ? ? ?]. reflexivity.
Qed.

Lemma bl_container_entry_areas image bl ii i :
  bl_areas_only i (bl_container_entry image bl ii i).
Proof.
  unfold bl_container_entry, bl_areas_only.
  destruct (_ || _); [destruct i as [[] ? ? ? ? ? ?]; reflexivity|].
  destruct (_ || _); destruct i as [[] ? ? ? ? ? ?]; reflexivity.
Qed.

Lemma bl_container_entry_bootloader image bl ii i :
  bootloader (bl_container_entry image bl ii i) = bootloader i.
Proof.
  unfold bl_container_entry.
  destruct (_ || _); [reflexivity|]. destruct (_ || _); reflexivity.
Qed.

(** Below 255 containers the counter reaches the end. *)
Lemma bl_container_loop_ends image bl n : forall fuel ii i,
  0 <= ii <= n + 1 -> n < 255 ->
  (Z.to_nat (n + 1 - ii) < fuel)%nat ->
  exists i', bl_container_loop fuel image (Some bl) n ii i = Ret i' tt /\
             bl_areas_only i i'.
Proof.
  induction fuel as [|fuel IH]; intros ii i Hii Hn Hf; [lia|].
  cbn [bl_container_loop]. destruct (ii <=? n) eqn:E.
  - apply Z.leb_le in E.
    assert (Hu : u8 (ii + 1) = ii + 1) by (apply u8_small; lia).
    rewrite Hu.
    destruct (IH (ii + 1) (bl_container_entry image bl ii i))
      as (i' & Hi' & Ha); [lia|lia|lia|].
    exists i'. split; [exact Hi'|].
    eapply bl_areas_only_trans; [apply bl_container_entry_areas|exact Ha].
  - exists i. split; [reflexivity|apply bl_areas_only_refl].
Qed.

(** With 255 of them it never does: the counter is a byte. *)
Lemma bl_container_loop_spins image bl : forall fuel ii i,
  0 <= ii <= 255 ->
  bl_container_loop fuel image (Some bl) 255 ii i = Fuel.
Proof.
  induction fuel as [|fuel IH]; intros ii i Hii; [reflexivity|].
  cbn [bl_container_loop].
  replace (ii <=? 255) with true by (symmetry; apply Z.leb_le; lia).
  apply IH. unfold u8. pose proof (Z.mod_pos_bound (ii + 1) (2 ^ 8)). lia.
Qed.

(** X14: the loop over the containers of the bootloader.  Its count is
    the byte [(size - 4) / 4] of the bootloader container and its
    counter is a byte that runs while it is at most the count.  With a
    count below 255 the function returns, and changes nothing of the
    image information but the bootloader configuration and the lockdown
    area.  With a count of 255 the test never fails: the loop does not
    end, whatever the image holds. *)
Theorem fwu_parse_image_header_10_bl_container_ends :
  forall (image bl : buffer) (i : image_info),
    data (bootloader i) = Some bl ->
    (u8 (u32 (size (bootloader i) - 4) / 4) < 255 ->
     exists i', fwu_parse_image_header_10_bl_container image i = Ret i' tt /\
                bl_areas_only i i') /\
    (u8 (u32 (size (bootloader i) - 4) / 4) = 255 ->
     forall fuel,
       bl_container_loop fuel image (data (bootloader i))
         (u8 (u32 (size (bootloader i) - 4) / 4)) 1 i = Fuel).
Proof.
  intros image bl i Hd. unfold fwu_parse_image_header_10_bl_container.
  rewrite Hd. split.
  - intros Hn. apply bl_container_loop_ends; [|exact Hn|].
    + unfold u8 in *. pose proof (Z.mod_pos_bound (u32 (size (bootloader i) - 4) / 4) (2 ^ 8)). lia.
    + unfold u8 in *. pose proof (Z.mod_pos_bound (u32 (size (bootloader i) - 4) / 4) (2 ^ 8)). lia.
  - intros -> fuel. apply bl_container_loop_spins. lia.
Qed.

(** A bootloader container of twelve bytes has two entries after its
    first word, one of 1024 bytes has 255. *)
Lemma fwu_parse_image_header_10_bl_container_ends_witness :
  (exists i',
     fwu_parse_image_header_10_bl_container (buf_of_list [])
       (Build_image_info img_zero 0 0 0 [] []
          {| size := 12; data := Some (buf_of_list []) |})
     = Ret i' tt /\
     bl_areas_only
       (Build_image_info img_zero 0 0 0 [] []
          {| size := 12; data := Some (buf_of_list []) |}) i') /\
  bl_container_loop 1000 (buf_of_list []) (Some (buf_of_list [])) 255 1
    (Build_image_info img_zero 0 0 0 [] []
       {| size := 1024; data := Some (buf_of_list []) |})
  = Fuel.
Proof.
  split.
  - apply (proj1 (fwu_parse_image_header_10_bl_container_ends
                    (buf_of_list []) (buf_of_list [])
                    (Build_image_info img_zero 0 0 0 [] []
                       {| size := 12; data := Some (buf_of_list []) |})
                    eq_refl)).
    vm_compute. reflexivity.
  - exact (proj2 (fwu_parse_image_header_10_bl_container_ends
                    (buf_of_list []) (buf_of_list [])
                    (Build_image_info img_zero 0 0 0 [] []
                       {| size := 1024; data := Some (buf_of_list []) |})
                    eq_refl) eq_refl 1000%nat).
Defined.

(** ** The image headers *)

Lemma runs_lift {A} (r : pure A) a w (Q : A -> world -> Prop) :
  r = Ret a tt -> Q a w -> runs (lift r) w Q.
Proof. intros -> H. exact H. Qed.

Lemma set_img_twice m m' h : set_img m (set_img m' h) = set_img m h.
Proof. destruct h. reflexivity. Qed.

(** The parser of the old headers never finds a flash configuration. *)
Lemma fwu_parse_image_header_05_06_no_flash_config hdr PRODUCT_ID_SIZE im i0 :
  exists i,
    fwu_parse_image_header_05_06 hdr PRODUCT_ID_SIZE (Some im) i0 = Ret i tt /\
    contains_flash_config (meta i) = contains_flash_config (meta i0).
Proof.
  unfold fwu_parse_image_header_05_06. cbv zeta. eexists. split; [reflexivity|].
  destruct i0 as [[] ? ? ? ? ? ?].
  repeat match goal with
         | |- context [if ?c then _ else _] => destruct c
         end; reflexivity.
Qed.

(** X15: the images [fwu_parse_image_info] rejects by their header.  The
    header version is byte 7 of the image.  A version other than 0x10,
    0x05 and 0x06 is rejected on every device, and a header of version
    0x05 or 0x06 on every device with a partitioned bootloader (version
    7 and up), since the parser of these headers never finds a flash
    configuration.  The call returns -EINVAL; by then the image
    information of the handle has been overwritten (it is all zero for
    an unknown version); nothing else in the handle has changed and the
    bus has not been used. *)
Theorem fwu_parse_image_info_rejects :
  forall (hdr : dsx_header) (PRODUCT_ID_SIZE : Z) (w : world) (im : buffer),
    image (fwu w) = Some im ->
    rd im 7 <> IMAGE_HEADER_VERSION_10 ->
    (rd im 7 = IMAGE_HEADER_VERSION_05 \/ rd im 7 = IMAGE_HEADER_VERSION_06 ->
     BL_V7 <= bl_version (fwu w)) ->
    exists m,
      fwu_parse_image_info hdr PRODUCT_ID_SIZE w
      = Ret (- EINVAL hdr) {| fwu := set_img m (fwu w); log := log w |} /\
      (rd im 7 <> IMAGE_HEADER_VERSION_05 ->
       rd im 7 <> IMAGE_HEADER_VERSION_06 -> m = img_zero).
Proof.
  intros hdr pid w im Him H10 Hold.
  enough (H : runs (fwu_parse_image_info hdr pid) w (fun r w' =>
            r = - EINVAL hdr /\
            exists m, w' = {| fwu := set_img m (fwu w); log := log w |} /\
                      (rd im 7 <> IMAGE_HEADER_VERSION_05 ->
                       rd im 7 <> IMAGE_HEADER_VERSION_06 -> m = img_zero))).
  { apply runs_ex in H. destruct H as (r & w' & E & -> & m & -> & Hm).
    exists m. split; assumption. }
  unfold fwu_parse_image_info. mstep. mstep. rewrite Him.
  mstep. mstep. mstep. unfold parse_image_header.
  apply Z.eqb_neq in H10. rewrite H10.
  destruct ((rd im 7 =? IMAGE_HEADER_VERSION_05)
            || (rd im 7 =? IMAGE_HEADER_VERSION_06)) eqn:E.
  - destruct (fwu_parse_image_header_05_06_no_flash_config hdr pid im
                (image_info_zero pid)) as (i & Hi & Hf).
    rewrite Hi. eapply runs_lift; [reflexivity|]. cbv iota.
    mstep. mstep. mstep. mstep.
    assert (Hv : BL_V7 <= bl_version (fwu w)).
    { apply Hold. apply orb_true_iff in E.
      destruct E as [E | E]; apply Z.eqb_eq in E; auto. }
    replace (bl_version (set_img (meta i) (set_img img_zero (fwu w)))
             >=? BL_V7) with true
      by (symmetry; destruct (fwu w); cbn; apply Z.geb_le; exact Hv).
    replace (contains_flash_config
               (img (set_img (meta i) (set_img img_zero (fwu w)))))
      with false
      by (symmetry; transitivity (contains_flash_config (meta i));
          [destruct (fwu w); reflexivity | rewrite Hf; reflexivity]).
    cbn [negb]. mstep. split; [reflexivity|]. exists (meta i).
    split; [now rewrite set_img_twice|].
    intros N5 N6. apply orb_true_iff in E.
    destruct E as [E | E]; apply Z.eqb_eq in E; contradiction.
  - eapply runs_lift; [reflexivity|]. cbv iota. mstep.
    split; [reflexivity|]. exists img_zero. split; [reflexivity|auto].
Qed.

(** A version 6 header on a version 7 device, image otherwise empty. *)
Lemma fwu_parse_image_info_rejects_witness :
  exists m,
    fwu_parse_image_info rmi4_header 10
      {| fwu := fwu_zero |> set_bl_version BL_V7
                         |> set_image (Some (buf_of_list [0; 0; 0; 0; 0; 0; 0; 6]));
         log := [] |}
    = Ret (- EINVAL rmi4_header)
        {| fwu := set_img m
                    (fwu_zero |> set_bl_version BL_V7
                              |> set_image
                                   (Some (buf_of_list [0; 0; 0; 0; 0; 0; 0; 6])));
           log := [] |}.
Proof.
  destruct (fwu_parse_image_info_rejects rmi4_header 10
              {| fwu := fwu_zero |> set_bl_version BL_V7
                                 |> set_image
                                      (Some (buf_of_list [0; 0; 0; 0; 0; 0; 0; 6]));
                 log := [] |}
              (buf_of_list [0; 0; 0; 0; 0; 0; 0; 6]) eq_refl)
    as (m & Hm & _).
  - vm_compute. discriminate.
  - intros _. vm_compute. discriminate.
  - exists m. exact Hm.
Defined.

(** ** The scan of the descriptor table *)

Lemma fwu_recovery_check_status_effect hdr dev w :
  runs (fwu_recovery_check_status hdr dev) w (fun r w' =>
    fwu w' = fwu w /\ writes_of (log w') = writes_of (log w)).
Proof.
  unfold fwu_recovery_check_status. mstep. mstep. mstep. mstep.
  destruct (r <? 0); [mstep; split; [reflexivity|apply writes_of_read]|].
  destruct (negb _); mstep; (split; [reflexivity|apply writes_of_read]).
Qed.

Lemma scan_pdt_entry_effect hdr rmi_fd intr_count found w :
  0 < EINVAL hdr ->
  runs (scan_pdt_entry hdr rmi_fd intr_count found) w (fun r w' =>
    log w' = log w /\ forall e, r = inl e -> e < 0).
Proof.
  intros He. unfold scan_pdt_entry. destruct found as [[f01 f34] f35].
  destruct (_ =? SYNAPTICS_RMI4_F01 hdr).
  { mstep. mstep. mstep. split; [reflexivity|discriminate]. }
  destruct (_ =? SYNAPTICS_RMI4_F34 hdr).
  { mstep. mstep.
    destruct (_ =? F34_V0);
      [mstep; mstep; mstep; mstep; mstep; split; [reflexivity|discriminate]|].
    destruct (_ =? F34_V1);
      [mstep; mstep; mstep; mstep; mstep; split; [reflexivity|discriminate]|].
    destruct (_ =? F34_V2);
      [mstep; mstep; mstep; mstep; mstep; split; [reflexivity|discriminate]|].
    mstep. split; [reflexivity|]. intros e [= <-]. lia. }
  destruct (_ =? SYNAPTICS_RMI4_F35 hdr).
  { mstep. mstep. mstep. split; [reflexivity|discriminate]. }
  mstep. split; [reflexivity|discriminate].
Qed.

Lemma scan_pdt_loop_effect hdr dev :
  header_sane hdr ->
  forall fuel addr intr_count found w,
    0 <= addr < 2 ^ 16 -> (Z.to_nat addr < fuel)%nat ->
    runs (scan_pdt_loop hdr dev fuel addr intr_count found) w (fun r w' =>
      writes_of (log w') = writes_of (log w) /\ forall e, r = inl e -> e < 0).
Proof.
  intros (Hsize & Hend & Hstart & _ & _ & _ & HE).
  induction fuel as [|fuel IH]; intros addr ic found w Ha Hf; [lia|].
  cbn [scan_pdt_loop]. destruct (addr >? PDT_END hdr) eqn:Egt.
  - apply Z.gtb_lt in Egt. mstep. mstep.
    destruct (r <? 0) eqn:Er.
    { mstep. split; [apply writes_of_read|]. intros e [= <-].
      apply Z.ltb_lt in Er. exact Er. }
    destruct (negb _).
    + mstep. eapply runs_weaken; [apply scan_pdt_entry_effect; exact HE|].
      cbn beta. cbn [log]. intros [e | found'] w1 (Hl & Hr).
      * mstep. split; [now rewrite Hl, writes_of_read|].
        intros e' [= <-]. apply Hr. reflexivity.
      * assert (Hu : u16 (addr - PDT_ENTRY_SIZE hdr) = addr - PDT_ENTRY_SIZE hdr)
          by (apply u16_small; lia).
        rewrite Hu. eapply runs_weaken; [apply IH; lia|].
        cbn beta. intros r' w' (Hw & Hr'). split; [|exact Hr'].
        now rewrite Hw, Hl, writes_of_read.
    + mstep. split; [apply writes_of_read|discriminate].
  - mstep. split; [reflexivity|discriminate].
Qed.

(** X16: the scan of the descriptor table is a reader.  With a header
    whose table the 16-bit address walks downwards without wrapping,
    [fwu_scan_pdt] returns on every controller and from every state,
    its result is 0 or negative, and it never writes a register. *)
Theorem fwu_scan_pdt_reads_only :
  forall (hdr : dsx_header) (dev : controller) (w : world),
    header_sane hdr ->
    runs (fwu_scan_pdt hdr dev) w (fun r w' =>
      r <= 0 /\ writes_of (log w') = writes_of (log w)).
Proof.
  intros hdr dev w Hsane.
  pose proof Hsane as (Hsize & Hend & Hstart & _ & _ & _ & HE).
  unfold fwu_scan_pdt. mstep. mstep. mstep.
  eapply runs_weaken.
  { apply (scan_pdt_loop_effect hdr dev Hsane).
    - rewrite u16_small by lia. lia.
    - lia. }
  cbn beta. cbn [log]. intros [e | [[f01 f34] f35]] w1 (Hw & Hr).
  - mstep. split; [|exact Hw]. specialize (Hr e eq_refl). lia.
  - destruct (negb f01 || negb f34).
    + destruct (negb f35).
      * mstep. split; [lia|exact Hw].
      * mstep. mstep. mstep.
        eapply runs_weaken; [apply fwu_recovery_check_status_effect|].
        cbn beta. cbn [log]. intros r2 w2 (_ & Hw2). mstep.
        split; [lia|]. now rewrite Hw2.
    + mstep. split; [lia|exact Hw].
Qed.

(** On the table that holds the recovery function alone. *)
Lemma fwu_scan_pdt_reads_only_witness :
  runs (fwu_scan_pdt rmi4_header (register_file f35_only_table false))
       {| fwu := fwu_zero; log := [] |}
       (fun r w' => r <= 0 /\ writes_of (log w') = writes_of []).
Proof.
  apply (fwu_scan_pdt_reads_only rmi4_header
           (register_file f35_only_table false)
           {| fwu := fwu_zero; log := [] |}).
  unfold header_sane. cbn. lia.
Defined.

Lemma u8_testbit x n :
  0 <= n -> Z.testbit (u8 x) n = Z.testbit x n && (n <? 8).
Proof.
  intros Hn. unfold u8. rewrite Z.testbit_mod_pow2 by lia.
  apply andb_comm.
Qed.

Lemma one_bit_testbit i n :
  0 <= i -> 0 <= n -> Z.testbit (Z.shiftl 1 i) n = (n =? i).
Proof.
  intros Hi Hn. rewrite Z.shiftl_1_l. rewrite Z.pow2_bits_eqb by exact Hi.
  apply Z.eqb_sym.
Qed.

Lemma intr_mask_fold off : forall m s acc n,
  0 <= off -> 0 <= n ->
  (forall k, 8 <= k -> Z.testbit acc k = false) ->
  Z.testbit
    (fold_left (fun mask ii => u8 (Z.lor mask (Z.shiftl 1 ii)))
       (map (fun k => off + Z.of_nat k) (seq s m)) acc) n
  = Z.testbit acc n
    || ((off + Z.of_nat s <=? n) && (n <? off + Z.of_nat s + Z.of_nat m)
        && (n <? 8)).
Proof.
  induction m as [|m IH]; intros s acc n Hoff Hn Hacc.
  - cbn [seq map fold_left].
    replace (n <? off + Z.of_nat s + Z.of_nat 0) with (n <? off + Z.of_nat s)
      by (f_equal; lia).
    destruct (off + Z.of_nat s <=? n) eqn:E1, (n <? off + Z.of_nat s) eqn:E2;
      cbn [andb]; rewrite ?orb_false_r; try reflexivity.
    apply Z.leb_le in E1. apply Z.ltb_lt in E2. lia.
  - cbn [seq map fold_left]. rewrite IH; [|exact Hoff|exact Hn|].
    + rewrite u8_testbit by exact Hn. rewrite Z.lor_spec.
      rewrite one_bit_testbit by lia.
      destruct (Z.testbit acc n) eqn:Eacc.
      * cbn [orb andb].
        destruct (n <? 8) eqn:E8; [reflexivity|].
        apply Z.ltb_ge in E8. rewrite Hacc in Eacc by exact E8. discriminate.
      * cbn [orb].
        destruct (n =? off + Z.of_nat s) eqn:E0; cbn [andb orb].
        -- apply Z.eqb_eq in E0.
           replace (off + Z.of_nat s <=? n) with true
             by (symmetry; apply Z.leb_le; lia).
           replace (n <? off + Z.of_nat s + Z.of_nat (S m)) with true
             by (symmetry; apply Z.ltb_lt; lia).
           cbn [andb]. destruct (n <? 8); cbn [orb andb]; [reflexivity|].
           now rewrite andb_false_r.
        -- apply Z.eqb_neq in E0.
           replace (off + Z.of_nat (S s) <=? n) with (off + Z.of_nat s <=? n)
             by (destruct (off + Z.of_nat s <=? n) eqn:A; symmetry;
                 [apply Z.leb_le; apply Z.leb_le in A
                 |apply Z.leb_gt; apply Z.leb_gt in A]; lia).
           replace (off + Z.of_nat (S s) + Z.of_nat m)
             with (off + Z.of_nat s + Z.of_nat (S m)) by lia.
           reflexivity.
    + intros k Hk. rewrite u8_testbit by lia.
      replace (k <? 8) with false by (symmetry; apply Z.ltb_ge; lia).
      apply andb_false_r.
Qed.

Lemma f34_intr_mask_bits off src n :
  0 <= off -> 0 <= n ->
  Z.testbit (f34_intr_mask off src) n
  = (off <=? n) && (n <? off + src) && (n <? 8).
Proof.
  intros Hoff Hn. unfold f34_intr_mask.
  rewrite intr_mask_fold; [|exact Hoff|exact Hn|intros; apply Z.bits_0].
  rewrite Z.bits_0. cbn [orb]. rewrite Z.add_0_r.
  destruct (Z_le_gt_dec 0 src) as [Hs | Hs].
  - rewrite Z2Nat.id by exact Hs. reflexivity.
  - replace (Z.to_nat src) with 0%nat by lia. rewrite Z.add_0_r.
    destruct (off <=? n) eqn:E1; [|reflexivity]. apply Z.leb_le in E1.
    replace (n <? off) with false by (symmetry; apply Z.ltb_ge; lia).
    replace (n <? off + src) with false by (symmetry; apply Z.ltb_ge; lia).
    reflexivity.
Qed.

(** X17: what the scan takes from the descriptor of F34.  The function
    version selects the bootloader version (0, 1 and 2 give 5, 6 and 7);
    any other version ends the scan with -EINVAL.  The interrupt mask of
    the driver becomes the bits of the sources of F34: bit [n] is set
    exactly when [n] is one of the [intr_src_count] positions from
    [intr_count mod 8] on and below 8, so a source that would fall
    beyond the byte is lost. *)
Theorem fwu_scan_pdt_f34_entry :
  forall (hdr : dsx_header) (rmi_fd : synaptics_rmi4_fn_desc)
         (intr_count : Z) (found : bool * bool * bool) (w : world),
    fn_number rmi_fd = SYNAPTICS_RMI4_F34 hdr ->
    SYNAPTICS_RMI4_F34 hdr <> SYNAPTICS_RMI4_F01 hdr ->
    0 <= intr_count ->
    runs (scan_pdt_entry hdr rmi_fd intr_count found) w (fun r w' =>
      match r with
      | inl e =>
          e = - EINVAL hdr /\
          fn_version rmi_fd <> F34_V0 /\ fn_version rmi_fd <> F34_V1 /\
          fn_version rmi_fd <> F34_V2
      | inr _ =>
          (fn_version rmi_fd = F34_V0 /\ bl_version (fwu w') = BL_V5 \/
           fn_version rmi_fd = F34_V1 /\ bl_version (fwu w') = BL_V6 \/
           fn_version rmi_fd = F34_V2 /\ bl_version (fwu w') = BL_V7) /\
          forall n, 0 <= n ->
            Z.testbit (intr_mask (fwu w')) n
            = (intr_count mod 8 <=? n)
              && (n <? intr_count mod 8 + intr_src_count rmi_fd)
              && (n <? 8)
      end).
Proof.
  intros hdr rmi_fd ic found w Hfn Hne Hic.
  assert (Hoff : 0 <= ic mod 8) by (apply Z.mod_pos_bound; lia).
  unfold scan_pdt_entry. destruct found as [[f01 f34] f35].
  rewrite Hfn. apply Z.eqb_neq in Hne. rewrite Hne, Z.eqb_refl.
  mstep. mstep.
  destruct (fn_version rmi_fd =? F34_V0) eqn:E0.
  { apply Z.eqb_eq in E0. mstep. mstep. mstep. mstep. mstep. split.
    - left. split; [exact E0|]. destruct (fwu w); reflexivity.
    - intros n Hn. rewrite <- f34_intr_mask_bits by assumption.
      destruct (fwu w); reflexivity. }
  destruct (fn_version rmi_fd =? F34_V1) eqn:E1.
  { apply Z.eqb_eq in E1. mstep. mstep. mstep. mstep. mstep. split.
    - right; left. split; [exact E1|]. destruct (fwu w); reflexivity.
    - intros n Hn. rewrite <- f34_intr_mask_bits by assumption.
      destruct (fwu w); reflexivity. }
  destruct (fn_version rmi_fd =? F34_V2) eqn:E2.
  { apply Z.eqb_eq in E2. mstep. mstep. mstep. mstep. mstep. split.
    - right; right. split; [exact E2|]. destruct (fwu w); reflexivity.
    - intros n Hn. rewrite <- f34_intr_mask_bits by assumption.
      destruct (fwu w); reflexivity. }
  apply Z.eqb_neq in E0, E1, E2. mstep. auto.
Qed.

(** Two sources after six others: the bits of the mask are 6 and 7. *)
Lemma fwu_scan_pdt_f34_entry_witness :
  runs (scan_pdt_entry rmi4_header
          (Build_synaptics_rmi4_fn_desc 0 0 0 0 2 1 0x34) 6
          (false, false, false))
       {| fwu := fwu_zero; log := [] |}
       (fun r w' =>
          match r with
          | inl e => e = - EINVAL rmi4_header /\ 1 <> F34_V0 /\ 1 <> F34_V1 /\
                     1 <> F34_V2
          | inr _ =>
              (1 = F34_V0 /\ bl_version (fwu w') = BL_V5 \/
               1 = F34_V1 /\ bl_version (fwu w') = BL_V6 \/
               1 = F34_V2 /\ bl_version (fwu w') = BL_V7) /\
              forall n, 0 <= n ->
                Z.testbit (intr_mask (fwu w')) n
                = (6 mod 8 <=? n) && (n <? 6 mod 8 + 2) && (n <? 8)
          end).
Proof.
  apply (fwu_scan_pdt_f34_entry rmi4_header
           (Build_synaptics_rmi4_fn_desc 0 0 0 0 2 1 0x34) 6
           (false, false, false) {| fwu := fwu_zero; log := [] |});
    [reflexivity | discriminate | lia].
Defined.

(** ** The whole reflash on a legacy controller *)

Lemma area_and_status_only_refl h : area_and_status_only h h.
Proof. destruct h. reflexivity. Qed.

Lemma area_and_status_only_trans h1 h2 h3 :
  area_and_status_only h1 h2 -> area_and_status_only h2 h3 ->
  area_and_status_only h1 h3.
Proof.
  unfold area_and_status_only. intros H12 H23. rewrite H23 at 1.
  rewrite H12 at 1. destruct h1. reflexivity.
Qed.

Lemma area_and_status_only_status h h' :
  status_fields_only h h' -> area_and_status_only h h'.
Proof.
  intros H.
  destruct (status_fields_only_keeps _ _ H) as (_ & _ & _ & _ & _ & Ea & _).
  unfold area_and_status_only. rewrite Ea.
  replace (set_config_area (config_area_sel h) h) with h
    by (destruct h; reflexivity).
  exact H.
Qed.

Lemma area_and_status_only_area h a :
  area_and_status_only h (set_config_area a h).
Proof. destruct h. reflexivity. Qed.

Lemma area_and_status_only_keeps h h' :
  area_and_status_only h h' ->
  bl_version h' = bl_version h /\ block_size h' = block_size h /\
  off h' = off h /\ f34_fd h' = f34_fd h /\ rmi4_data h' = rmi4_data h /\
  img h' = img h /\ bootloader_id h' = bootloader_id h /\
  flash_properties h' = flash_properties h /\
  has_guest_code h' = has_guest_code h /\
  new_partition_table h' = new_partition_table h /\
  blkcount h' = blkcount h.
Proof.
  unfold area_and_status_only. intros ->. repeat split.
Qed.

Lemma area_and_status_only_setup h h' :
  area_and_status_only h h' -> same_setup h h'.
Proof.
  intros H. destruct (area_and_status_only_keeps _ _ H)
    as (A1 & A2 & A3 & A4 & A5 & A6 & A7 & A8 & A9 & A10 & A11).
  repeat split; assumption.
Qed.

Lemma v5v6_blocks_trace_same h h' p code n :
  area_and_status_only h h' ->
  v5v6_blocks_trace h' p code n
  = v5v6_blocks_trace (set_config_area (config_area_sel h') h) p code n.
Proof.
  intros H. destruct (area_and_status_only_keeps _ _ H)
    as (_ & A2 & A3 & A4 & _).
  unfold v5v6_blocks_trace, v5v6_block_writes. rewrite A2, A3, A4.
  destruct h; reflexivity.
Qed.

Lemma v5v6_blocks_trace_area h h' a p code n :
  area_and_status_only h h' ->
  v5v6_blocks_trace (set_config_area a h') p code n
  = v5v6_blocks_trace (set_config_area a h) p code n.
Proof.
  intros H.
  rewrite (v5v6_blocks_trace_same h (set_config_area a h') p code n
             (area_and_status_only_trans _ _ _ H
                (area_and_status_only_area h' a))).
  destruct h'; reflexivity.
Qed.

Lemma legacy_transaction h cmd :
  bl_version h < BL_V7 -> v5v6_sends_bootloader_id cmd = true ->
  transaction_command h cmd = true.
Proof.
  intros Hv Hc. unfold transaction_command.
  replace (bl_version h >=? BL_V7) with false
    by (symmetry; rewrite Z.geb_leb; apply Z.leb_gt; exact Hv).
  exact Hc.
Qed.

Section Reflash.

Variable hdr : dsx_header.
Variable dev : controller.
Variable MASK_8BIT : Z.
Variable PAGE_SIZE : Z.
Variable payload_length : Z.

Hypothesis Hcoop : cooperative dev.

(** The erase phase. *)
Lemma fwu_erase_all_legacy w :
  bl_version (fwu w) < BL_V7 -> new_partition_table (fwu w) = false ->
  runs (fwu_erase_all hdr dev) w (fun r w' =>
    r = 0 /\ area_and_status_only (fwu w) (fwu w') /\
    config_area_sel (fwu w') = area_after_erase (fwu w) /\
    writes_of (log w')
    = writes_of (log w)
      ++ erase_events (fwu w) CMD_ERASE_ALL
      ++ (if has_disp_config (flash_properties (fwu w))
          then erase_events (fwu w) CMD_ERASE_DISP_CONFIG else [])).
Proof.
  intros Hv Hn. unfold fwu_erase_all. mstep. mstep.
  replace (bl_version (fwu w) =? BL_V7) with false
    by (symmetry; apply Z.eqb_neq; lia).
  mstep.
  eapply runs_weaken;
    [apply fwu_write_f34_command_transaction;
       [exact Hcoop | apply legacy_transaction; [exact Hv|reflexivity]]|].
  cbn beta. intros r1 w1 (-> & Hs1 & Hw1). cbn [Z.ltb Z.compare]. mstep.
  eapply runs_weaken; [apply fwu_wait_for_idle_effect|].
  cbn beta. intros r2 w2 (Hs2 & Hw2 & Hr2). specialize (Hr2 Hcoop).
  mstep. mstep.
  assert (Hs02 : status_fields_only (fwu w) (fwu w2))
    by (eapply status_fields_only_trans; eassumption).
  destruct (status_fields_only_keeps _ _ Hs02)
    as (Ev & _ & _ & _ & _ & Earea & _ & _ & Efp & Egc & Enpt & _).
  replace (r2 <? 0) with false by (symmetry; apply Z.ltb_ge; lia).
  rewrite andb_false_r.
  replace (bl_version (fwu w2) =? BL_V8) with false
    by (symmetry; apply Z.eqb_neq; rewrite Ev; unfold BL_V8, BL_V7 in *; lia).
  unfold fwu_erase_all_tail. mstep. mstep. mstep.
  rewrite Efp. unfold area_after_erase.
  destruct (has_disp_config (flash_properties (fwu w))) eqn:Ed.
  - mstep. mstep. unfold fwu_erase_configuration. mstep. mstep.
    cbn [config_area_sel set_config_area]. mstep.
    assert (Hs3 : area_and_status_only (fwu w)
                    (set_config_area DP_CONFIG_AREA (fwu w2))).
    { eapply area_and_status_only_trans;
        [apply area_and_status_only_status; exact Hs02
        |apply area_and_status_only_area]. }
    pose proof (area_and_status_only_keeps _ _ Hs3) as (Ev3 & _).
    eapply runs_weaken;
      [apply fwu_write_f34_command_transaction;
         [exact Hcoop
         |apply legacy_transaction; [cbn [fwu]; rewrite Ev3; exact Hv
                                    |reflexivity]]|].
    cbn beta. cbn [fwu log]. intros r3 w3 (-> & Hs4 & Hw3).
    cbn [Z.ltb Z.compare]. mstep.
    eapply runs_weaken; [apply fwu_wait_for_idle_effect|].
    cbn beta. intros r4 w4 (Hs5 & Hw4 & Hr4). specialize (Hr4 Hcoop).
    replace (r4 <? 0) with false by (symmetry; apply Z.ltb_ge; lia).
    mstep. replace (r4 <? 0) with false by (symmetry; apply Z.ltb_ge; lia).
    mstep. mstep.
    assert (Hs34 : status_fields_only
                     (set_config_area DP_CONFIG_AREA (fwu w2)) (fwu w4))
      by (eapply status_fields_only_trans; eassumption).
    assert (Hs04 : area_and_status_only (fwu w) (fwu w4)).
    { eapply area_and_status_only_trans;
        [exact Hs3 | apply area_and_status_only_status; exact Hs34]. }
    destruct (area_and_status_only_keeps _ _ Hs04)
      as (_ & _ & _ & _ & _ & _ & _ & _ & _ & Enpt4 & _).
    rewrite Enpt4, Hn. cbn [andb]. mstep.
    split; [reflexivity|]. split; [exact Hs04|]. split.
    + destruct (status_fields_only_keeps _ _ Hs34)
        as (_ & _ & _ & _ & _ & Ea & _).
      rewrite Ea. destruct (fwu w2); reflexivity.
    + rewrite Hw4, Hw3, Hw2, Hw1, <- !app_assoc. f_equal. f_equal.
      apply erase_events_same, area_and_status_only_setup. exact Hs3.
  - mstep. cbn [Z.ltb Z.compare]. mstep. mstep.
    rewrite Enpt, Hn. cbn [andb]. mstep.
    split; [reflexivity|].
    split; [apply area_and_status_only_status; exact Hs02|].
    split; [exact Earea|].
    rewrite Hw2, Hw1, app_nil_r. reflexivity.
Qed.

(** A block write through [fwu_write_f34_blocks]. *)
Lemma fwu_write_f34_blocks_legacy w p cnt cmd code :
  bl_version (fwu w) < BL_V7 ->
  wire_command (fwu w) cmd = Some code ->
  runs (fwu_write_f34_blocks hdr dev MASK_8BIT PAGE_SIZE payload_length
          (Some p) cnt cmd) w
    (fun r w' =>
       r = 0 /\ status_fields_only (fwu w) (fwu w') /\
       writes_of (log w')
       = writes_of (log w)
         ++ v5v6_blocks_trace (fwu w) p code (Z.to_nat (u16 cnt))).
Proof.
  intros Hv Hcmd. unfold fwu_write_f34_blocks. mstep. mstep.
  replace (bl_version (fwu w) >=? BL_V7) with false
    by (symmetry; rewrite Z.geb_leb; apply Z.leb_gt; exact Hv).
  eapply runs_weaken;
    [apply (fwu_write_f34_v5v6_blocks_effect hdr dev w p cnt cmd code Hcmd)|].
  cbn beta. intros r w' (Hs & _ & Hr & (rest & Hw & Hrest)).
  specialize (Hr Hcoop). subst r. split; [reflexivity|]. split; [exact Hs|].
  rewrite (Hrest ltac:(lia)), app_nil_r in Hw. symmetry. exact Hw.
Qed.

Lemma u16_twice x : u16 (u16 x) = u16 x.
Proof. apply u16_small, u16_range. Qed.

Lemma legacy_wire_command h cmd code :
  bl_version h < BL_V7 -> v5v6_sends_bootloader_id cmd = false ->
  v5v6_command cmd = Some code -> wire_command h cmd = Some code.
Proof.
  intros Hv Hs Hc. unfold wire_command.
  replace (bl_version h >=? BL_V7) with false
    by (symmetry; rewrite Z.geb_leb; apply Z.leb_gt; exact Hv).
  rewrite Hs. exact Hc.
Qed.

(** The write phase. *)
Lemma do_reflash_writes_legacy w fw cfg dp :
  bl_version (fwu w) < BL_V7 ->
  block_size (fwu w) <> 0 ->
  new_partition_table (fwu w) = false ->
  data (ui_firmware (img (fwu w))) = Some fw ->
  data (ui_config (img (fwu w))) = Some cfg ->
  (has_disp_config (flash_properties (fwu w))
   && contains_disp_config (img (fwu w)) = true ->
   data (dp_config (img (fwu w))) = Some dp) ->
  runs (do_reflash_writes hdr dev MASK_8BIT PAGE_SIZE payload_length) w
    (fun r w' =>
       r = 0 /\ area_and_status_only (fwu w) (fwu w') /\
       writes_of (log w')
       = writes_of (log w)
         ++ v5v6_blocks_trace (fwu w) fw CMD_V5V6_WRITE_FW
              (Z.to_nat (u16 (size (ui_firmware (img (fwu w)))
                              / block_size (fwu w))))
         ++ v5v6_blocks_trace (set_config_area UI_CONFIG_AREA (fwu w)) cfg
              CMD_V5V6_WRITE_CONFIG
              (Z.to_nat (u16 (u16 (size (ui_config (img (fwu w))))
                              / block_size (fwu w))))
         ++ (if has_disp_config (flash_properties (fwu w))
                && contains_disp_config (img (fwu w))
             then v5v6_blocks_trace (set_config_area DP_CONFIG_AREA (fwu w))
                    dp CMD_V5V6_WRITE_CONFIG
                    (Z.to_nat (u16 (u16 (size (dp_config (img (fwu w))))
                                    / block_size (fwu w))))
             else [])).
Proof.
  intros Hv Hb Hn Hfw Hcfg Hdp. apply Z.eqb_neq in Hb.
  unfold do_reflash_writes. mstep.
  (* the firmware *)
  unfold fwu_write_firmware. mstep. mstep. rewrite Hb, Hfw.
  eapply runs_weaken;
    [apply fwu_write_f34_blocks_legacy;
       [exact Hv | apply legacy_wire_command; [exact Hv|reflexivity..]]|].
  cbn beta. intros r1 w1 (-> & Hs1 & Hw1). cbn [Z.ltb Z.compare].
  rewrite u16_twice in Hw1.
  pose proof (area_and_status_only_status _ _ Hs1) as Ha1.
  (* the configuration *)
  mstep. mstep. mstep. unfold fwu_write_ui_configuration. mstep. mstep.
  mstep. mstep.
  set (h2 := set_config_area UI_CONFIG_AREA
               (set_config_area UI_CONFIG_AREA (fwu w1))).
  assert (Ha2 : area_and_status_only (fwu w) h2).
  { eapply area_and_status_only_trans; [exact Ha1|].
    eapply area_and_status_only_trans; apply area_and_status_only_area. }
  destruct (area_and_status_only_keeps _ _ Ha2)
    as (Ev2 & Eb2 & _ & _ & _ & Ei2 & _ & Ef2 & _ & _ & _).
  rewrite Eb2, Hb, Ei2, Hcfg. unfold fwu_write_configuration.
  eapply runs_weaken;
    [apply fwu_write_f34_blocks_legacy;
       [cbn [fwu]; rewrite Ev2; exact Hv
       |apply legacy_wire_command;
          [cbn [fwu]; rewrite Ev2; exact Hv|reflexivity..]]|].
  cbn beta. cbn [fwu log]. intros r3 w3 (-> & Hs3 & Hw3).
  cbn [Z.ltb Z.compare]. rewrite u16_twice in Hw3.
  assert (Ha3 : area_and_status_only (fwu w) (fwu w3)).
  { eapply area_and_status_only_trans;
      [exact Ha2 | apply area_and_status_only_status; exact Hs3]. }
  destruct (area_and_status_only_keeps _ _ Ha3)
    as (Ev3 & Eb3 & _ & _ & _ & Ei3 & _ & Ef3 & Eg3 & En3 & _).
  rewrite (v5v6_blocks_trace_same _ _ _ _ _ Ha2) in Hw3.
  replace (config_area_sel h2) with UI_CONFIG_AREA in Hw3
    by (unfold h2; destruct (fwu w1); reflexivity).
  (* the display configuration *)
  mstep. mstep. mstep. rewrite Ef3, Ei3.
  destruct (has_disp_config (flash_properties (fwu w))
            && contains_disp_config (img (fwu w))) eqn:Ed.
  - unfold fwu_write_dp_configuration. mstep. mstep. mstep. mstep.
    set (h4 := set_config_area DP_CONFIG_AREA (fwu w3)).
    assert (Ha4 : area_and_status_only (fwu w) h4).
    { eapply area_and_status_only_trans;
        [exact Ha3 | apply area_and_status_only_area]. }
    destruct (area_and_status_only_keeps _ _ Ha4)
      as (Ev4 & Eb4 & _ & _ & _ & Ei4 & _ & _ & _ & _ & _).
    rewrite Eb4, Hb, Ei4, (Hdp eq_refl). unfold fwu_write_configuration.
    eapply runs_weaken;
      [apply fwu_write_f34_blocks_legacy;
         [cbn [fwu]; rewrite Ev4; exact Hv
         |apply legacy_wire_command;
            [cbn [fwu]; rewrite Ev4; exact Hv|reflexivity..]]|].
    cbn beta. cbn [fwu log]. intros r5 w5 (-> & Hs5 & Hw5).
    cbn [Z.ltb Z.compare]. rewrite u16_twice in Hw5.
    assert (Ha5 : area_and_status_only (fwu w) (fwu w5)).
    { eapply area_and_status_only_trans;
        [exact Ha4 | apply area_and_status_only_status; exact Hs5]. }
    destruct (area_and_status_only_keeps _ _ Ha5)
      as (_ & _ & _ & _ & _ & _ & _ & _ & _ & En5 & _).
    rewrite (v5v6_blocks_trace_same _ _ _ _ _ Ha4) in Hw5.
    replace (config_area_sel h4) with DP_CONFIG_AREA in Hw5
      by (unfold h4; destruct (fwu w3); reflexivity).
    mstep. mstep. rewrite En5, Hn. cbn [andb]. mstep.
    split; [reflexivity|]. split; [exact Ha5|].
    rewrite Hw5, Hw3. cbn [log]. rewrite Hw1, <- !app_assoc. reflexivity.
  - mstep. cbn [Z.ltb Z.compare]. mstep. mstep.
    rewrite En3, Hn. cbn [andb]. mstep.
    split; [reflexivity|]. split; [exact Ha3|].
    rewrite Hw3. cbn [log]. rewrite Hw1, <- !app_assoc, app_nil_r.
    reflexivity.
Qed.
End Reflash.

(** X18: a whole reflash on a legacy controller.  On a bus without
    failures, for a bootloader below version 7 that keeps its partition
    table, with a block size that is not zero, block counts that pass
    the size checks and image areas that are present, [fwu_do_reflash]
    returns 0 and its register writes are, in this order: the erase of
    everything; the erase of the display configuration when the
    controller has one; the firmware, block by block; the configuration;
    the display configuration when the controller and the image both
    have one.  The block number of the firmware carries the area the
    erase phase left selected, and the configurations are counted from
    their sizes cut to 16 bits.  In the handle only the selected area
    and the status fields change. *)
Theorem fwu_do_reflash_legacy :
  forall (hdr : dsx_header) (dev : controller)
         (MASK_8BIT PAGE_SIZE payload_length : Z)
         (fwu_write_partition_table_v7 fwu_write_partition_table_v8 : M Z)
         (w : world) (fw cfg dp : buffer),
    cooperative dev ->
    0 < EINVAL hdr ->
    bl_version (fwu w) < BL_V7 ->
    block_size (fwu w) <> 0 ->
    new_partition_table (fwu w) = false ->
    reflash_sizes_match (fwu w) = true ->
    data (ui_firmware (img (fwu w))) = Some fw ->
    data (ui_config (img (fwu w))) = Some cfg ->
    (has_disp_config (flash_properties (fwu w))
     && contains_disp_config (img (fwu w)) = true ->
     data (dp_config (img (fwu w))) = Some dp) ->
    runs (fwu_do_reflash hdr dev MASK_8BIT PAGE_SIZE payload_length
            fwu_write_partition_table_v7 fwu_write_partition_table_v8) w
      (fun r w' =>
         r = 0 /\
         writes_of (log w')
         = writes_of (log w) ++ legacy_reflash_trace (fwu w) fw cfg dp /\
         area_and_status_only (fwu w) (fwu w')).
Proof.
  intros hdr dev m8 ps pl v7 v8 w fw cfg dp Hcoop He Hv Hb Hn Hm Hfw Hcfg Hdp.
  unfold fwu_do_reflash. mstep.
  eapply runs_eq; [apply do_reflash_checks_result; assumption|].
  rewrite Hm. cbn [Z.ltb Z.compare]. mstep.
  eapply runs_weaken; [apply fwu_erase_all_legacy; assumption|].
  cbn beta. intros r1 w1 (-> & Ha1 & Earea & Hw1). cbn [Z.ltb Z.compare].
  destruct (area_and_status_only_keeps _ _ Ha1)
    as (Ev1 & Eb1 & _ & _ & _ & Ei1 & _ & Ef1 & _ & En1 & _).
  mstep. mstep. mstep.
  replace (bl_version (fwu w1) =? BL_V7) with false
    by (symmetry; apply Z.eqb_neq; lia).
  replace (bl_version (fwu w1) =? BL_V8) with false
    by (symmetry; apply Z.eqb_neq; unfold BL_V8, BL_V7 in *; lia).
  cbn [andb]. mstep. cbn [Z.ltb Z.compare].
  eapply runs_weaken.
  { apply (do_reflash_writes_legacy hdr dev m8 ps pl Hcoop w1 fw cfg dp).
    - lia.
    - now rewrite Eb1.
    - now rewrite En1.
    - now rewrite Ei1.
    - now rewrite Ei1.
    - rewrite Ef1, Ei1. exact Hdp. }
  cbn beta. intros r2 w2 (-> & Ha2 & Hw2). split; [reflexivity|]. split.
  - rewrite Hw2, Hw1. unfold legacy_reflash_trace.
    rewrite Ei1, Eb1, Ef1.
    rewrite (v5v6_blocks_trace_same _ _ fw _ _ Ha1), Earea.
    rewrite !(v5v6_blocks_trace_area _ _ _ _ _ _ Ha1).
    rewrite <- !app_assoc. reflexivity.
  - eapply area_and_status_only_trans; eassumption.
Qed.

(** The reflash of [reflash_example]: the erase of everything, two
    blocks of firmware and one block of configuration. *)
Lemma fwu_do_reflash_legacy_witness :
  runs (fwu_do_reflash rmi4_header quiet_controller 255 4096 0 (ret 0) (ret 0))
       {| fwu := reflash_example; log := [] |}
       (fun r w' =>
          r = 0 /\
          writes_of (log w')
          = [RegWrite 0x11 [0; 0]; RegWrite 0x12 [CMD_V5V6_ERASE_ALL];
             RegWrite 0x10 [0; 0];
             RegWrite 0x11 [1; 2]; RegWrite 0x12 [CMD_V5V6_WRITE_FW];
             RegWrite 0x11 [3; 4]; RegWrite 0x12 [CMD_V5V6_WRITE_FW];
             RegWrite 0x10 [0; 0];
             RegWrite 0x11 [5; 6]; RegWrite 0x12 [CMD_V5V6_WRITE_CONFIG]]).
Proof.
  eapply runs_weaken.
  - apply (fwu_do_reflash_legacy rmi4_header quiet_controller 255 4096 0
             (ret 0) (ret 0) {| fwu := reflash_example; log := [] |}
             (buf_of_list [1; 2; 3; 4]) (buf_of_list [5; 6])
             (buf_of_list [])).
    + apply register_file_cooperative.
    + vm_compute. reflexivity.
    + vm_compute. reflexivity.
    + vm_compute. discriminate.
    + reflexivity.
    + vm_compute. reflexivity.
    + reflexivity.
    + reflexivity.
    + vm_compute. discriminate.
  - cbn beta. intros r w' (-> & Hw & _). split; [reflexivity|].
    rewrite Hw. reflexivity.
Defined.

(** ** The configuration identifier of the device *)



(** ** The attention handler *)



(** ** The flash configuration of an image *)

Lemma last_index_shift (f : nat -> bool) : forall n,
  last_index f (S n)
  = match last_index (fun j => f (S j)) n with
    | Some k => Some (S k)
    | None => if f 0%nat then Some 0%nat else None
    end.
Proof.
  induction n as [|n IH]; [reflexivity|].
  change (last_index f (S (S n)))
    with (if f (S n) then Some (S n) else last_index f (S n)).
  cbn [last_index]. destruct (f (S n)); [reflexivity|]. exact IH.
Qed.

Lemma last_index_ext (f g : nat -> bool) n :
  (forall k, f k = g k) -> last_index f n = last_index g n.
Proof.
  intros H. induction n as [|n IH]; [reflexivity|].
  cbn [last_index]. rewrite H, IH. reflexivity.
Qed.

(** What one descriptor does to the flash configuration. *)
Lemma container_entry_flash_config image addr i i' :
  container_entry image addr i = Ret i' tt ->
  if container_id_at image addr =? FLASH_CONFIG_CONTAINER
  then contains_flash_config (meta i') = true /\
       fl_config (meta i') = container_block image addr
  else contains_flash_config (meta i') = contains_flash_config (meta i) /\
       fl_config (meta i') = fl_config (meta i).
Proof.
  unfold container_entry, container_block.
  destruct (container_id_at image addr =? FLASH_CONFIG_CONTAINER) eqn:Ef.
  - apply Z.eqb_eq in Ef. rewrite Ef. cbn.
    intros [= <-]. destruct i as [[] ? ? ? ? ? ?]. split; reflexivity.
  - destruct (_ || _).
    { intros [= <-]. destruct i as [[] ? ? ? ? ? ?]. split; reflexivity. }
    destruct (_ || _).
    { intros [= <-]. destruct i as [[] ? ? ? ? ? ?]. split; reflexivity. }
    destruct (_ =? BL_CONTAINER).
    { unfold fwu_parse_image_header_10_bl_container.
      set (i1 := set_bootloader _ _). intros H.
      assert (Ha : bl_areas_only i1 i').
      { destruct (data (bootloader i1)) as [bl|] eqn:Ebl.
        - destruct (Z_lt_ge_dec (u8 (u32 (size (bootloader i1) - 4) / 4)) 255)
            as [Hlt | Hge].
          + destruct (bl_container_loop_ends image bl
                        (u8 (u32 (size (bootloader i1) - 4) / 4)) 256 1 i1)
              as (i2 & Hi2 & Ha2).
            * unfold u8 in *.
              pose proof (Z.mod_pos_bound (u32 (size (bootloader i1) - 4) / 4)
                            (2 ^ 8)). lia.
            * exact Hlt.
            * unfold u8 in *.
              pose proof (Z.mod_pos_bound (u32 (size (bootloader i1) - 4) / 4)
                            (2 ^ 8)). lia.
            * rewrite Hi2 in H. injection H as <-. exact Ha2.
          + assert (E : u8 (u32 (size (bootloader i1) - 4) / 4) = 255).
            { unfold u8 in *.
              pose proof (Z.mod_pos_bound (u32 (size (bootloader i1) - 4) / 4)
                            (2 ^ 8)). lia. }
            rewrite E, bl_container_loop_spins in H by lia. discriminate.
        - cbn in H. discriminate. }
      unfold bl_areas_only in Ha. rewrite Ha. unfold i1.
      destruct i as [[] ? ? ? ? ? ?]. split; reflexivity. }
    destruct (_ =? GUEST_CODE_CONTAINER).
    { intros [= <-]. destruct i as [[] ? ? ? ? ? ?]. split; reflexivity. }
    destruct (_ =? DISPLAY_CONFIG_CONTAINER).
    { intros [= <-]. destruct i as [[] ? ? ? ? ? ?]. split; reflexivity. }
    destruct (_ =? GENERAL_INFORMATION_CONTAINER).
    { intros [= <-]. destruct i as [[] ? ? ? ? ? ?]. split; reflexivity. }
    intros [= <-]. split; reflexivity.
Qed.

Lemma u32_twice x : u32 (u32 x) = u32 x.
Proof. unfold u32. apply Z.mod_mod. lia. Qed.

Lemma container_entry_addr_shift image offset j :
  container_entry_addr image (u32 (offset + 4)) j
  = container_entry_addr image offset (S j).
Proof.
  unfold container_entry_addr. do 2 f_equal. unfold u32.
  rewrite Z.add_mod_idemp_l by lia. f_equal. lia.
Qed.

(** The loop over the descriptors: the last flash configuration wins. *)
Lemma container_loop_flash_config image : forall n offset i i',
  u32 offset = offset ->
  container_loop n image offset i = Ret i' tt ->
  match last_container image offset n FLASH_CONFIG_CONTAINER with
  | Some k =>
      contains_flash_config (meta i') = true /\
      fl_config (meta i')
      = container_block image (container_entry_addr image offset k)
  | None =>
      contains_flash_config (meta i') = contains_flash_config (meta i) /\
      fl_config (meta i') = fl_config (meta i)
  end.
Proof.
  induction n as [|n IH]; intros offset i i' Ho H.
  - cbn in H. injection H as <-. cbn. split; reflexivity.
  - cbn [container_loop] in H.
    destruct (container_entry image (le_to_uint (ptr_add image offset)) i)
      as [i1 []| |] eqn:E1; try discriminate.
    pose proof (container_entry_flash_config _ _ _ _ E1) as H1.
    specialize (IH (u32 (offset + 4)) i1 i' (u32_twice _) H).
    unfold last_container in *. rewrite last_index_shift.
    rewrite (last_index_ext _
               (fun k => container_id_at image
                           (container_entry_addr image (u32 (offset + 4)) k)
                         =? FLASH_CONFIG_CONTAINER))
      by (intros k; now rewrite container_entry_addr_shift).
    destruct (last_index _ n) as [k|].
    + rewrite <- container_entry_addr_shift. exact IH.
    + assert (E0 : container_entry_addr image offset 0
                   = le_to_uint (ptr_add image offset)).
      { unfold container_entry_addr. cbn [Z.of_nat].
        rewrite Z.mul_0_r, Z.add_0_r, Ho. reflexivity. }
      rewrite E0.
      destruct (container_id_at image (le_to_uint (ptr_add image offset))
                =? FLASH_CONFIG_CONTAINER).
      * rewrite E0. destruct IH as (-> & ->). exact H1.
      * destruct IH as (-> & ->). exact H1.
Qed.

Lemma compare_keeps_img h : img (fwu_compare_partition_tables h) = img h.
Proof.
  destruct (compare_sets_only_the_flag h) as [-> | ->];
    destruct h; reflexivity.
Qed.

Lemma tables_keep_flash_config blk phy m h :
  (contains_flash_config
     (img (set_img (set_img_phyaddr phy (set_img_blkcount blk m)) h))
   = contains_flash_config m) /\
  (fl_config (img (set_img (set_img_phyaddr phy (set_img_blkcount blk m)) h))
   = fl_config m).
Proof. destruct h, m. split; reflexivity. Qed.

(** X21: a version 0x10 image on a partitioned bootloader needs a flash
    configuration.  When the parser of the header returns,
    [fwu_parse_image_info] on a device of bootloader version 7 or above
    returns -EINVAL if none of the descriptors of the top-level
    container is a flash configuration container; otherwise it returns
    0 and the flash configuration of the image is the content of the
    last such descriptor.  The bus is not used. *)
Theorem fwu_parse_image_info_flash_config :
  forall (hdr : dsx_header) (PRODUCT_ID_SIZE : Z) (w : world) (im : buffer)
         (i : image_info),
    image (fwu w) = Some im ->
    rd im 7 = IMAGE_HEADER_VERSION_10 ->
    BL_V7 <= bl_version (fwu w) ->
    fwu_parse_image_header_10 (Some im) (image_info_zero PRODUCT_ID_SIZE)
    = Ret i tt ->
    runs (fwu_parse_image_info hdr PRODUCT_ID_SIZE) w (fun r w' =>
      log w' = log w /\
      let top := le_to_uint (ptr_add im 12) in
      let offset := content_address_at im top in
      match last_container im offset
              (Z.to_nat (u8 (content_length_at im top / 4)))
              FLASH_CONFIG_CONTAINER with
      | None => r = - EINVAL hdr
      | Some k =>
          r = 0 /\
          contains_flash_config (img (fwu w')) = true /\
          fl_config (img (fwu w'))
          = container_block im (container_entry_addr im offset k)
      end).
Proof.
  intros hdr pid w im i Him H10 Hv Hparse.
  pose proof Hparse as Hloop. unfold fwu_parse_image_header_10 in Hloop.
  apply container_loop_flash_config in Hloop;
    [|unfold content_address_at, le_to_uint; apply u32_twice].
  unfold fwu_parse_image_info. mstep. mstep. rewrite Him.
  mstep. mstep. mstep. unfold parse_image_header.
  rewrite H10, Z.eqb_refl, Hparse.
  eapply runs_lift; [reflexivity|]. cbv iota. mstep. mstep. mstep. mstep.
  set (h := set_img (meta i) (set_img img_zero (fwu w))).
  assert (Ehv : bl_version h = bl_version (fwu w))
    by (unfold h; destruct (fwu w); reflexivity).
  assert (Ehi : img h = meta i) by (unfold h; destruct (fwu w); reflexivity).
  replace (bl_version h >=? BL_V7) with true
    by (symmetry; rewrite Z.geb_leb, Ehv; apply Z.leb_le; exact Hv).
  rewrite Ehi. cbv zeta.
  destruct (last_container im _ _ FLASH_CONFIG_CONTAINER) as [k|].
  - destruct Hloop as (Hc & Hf). rewrite Hc, Hf. cbn [negb data container_block].
    destruct (fwu_parse_partition_table h _ _ _) as [blk phy].
    mstep. mstep. mstep. mstep. mstep.
    split; [reflexivity|]. split; [reflexivity|].
    rewrite compare_keeps_img.
    destruct (tables_keep_flash_config blk phy (img h) h) as (-> & ->).
    rewrite Ehi. split; assumption.
  - destruct Hloop as (Hc & _). rewrite Hc.
    replace (negb _) with true by reflexivity.
    mstep. split; reflexivity.
Qed.

(** [header_10_example] on a version 7 device. *)
Lemma fwu_parse_image_info_flash_config_witness :
  runs (fwu_parse_image_info rmi4_header 10)
       {| fwu := fwu_zero |> set_bl_version BL_V7
                          |> set_image (Some (buf_of_list header_10_example));
          log := [] |}
       (fun r w' =>
          log w' = [] /\
          let im := buf_of_list header_10_example in
          let top := le_to_uint (ptr_add im 12) in
          let offset := content_address_at im top in
          match last_container im offset
                  (Z.to_nat (u8 (content_length_at im top / 4)))
                  FLASH_CONFIG_CONTAINER with
          | None => r = - EINVAL rmi4_header
          | Some k =>
              r = 0 /\
              contains_flash_config (img (fwu w')) = true /\
              fl_config (img (fwu w'))
              = container_block im (container_entry_addr im offset k)
          end).
Proof.
  eapply (fwu_parse_image_info_flash_config rmi4_header 10
            {| fwu := fwu_zero |> set_bl_version BL_V7
                               |> set_image
                                    (Some (buf_of_list header_10_example));
               log := [] |}
            (buf_of_list header_10_example)).
  - reflexivity.
  - reflexivity.
  - vm_compute. discriminate.
  - vm_compute. reflexivity.
Defined.

(** ** The layout of the old image headers *)

(** X22: where the parser of the version 0x05 and 0x06 headers finds the
    areas of the image.  It always returns.  The lockdown area is the
    0x50 bytes before offset 0x100.  The sizes of the firmware and of
    the configuration are the words at 8 and 12.  A firmware of non-zero
    size starts at 0x100, or behind the bootloader (whose size is the
    word at 0x24) when the header has the bootloader option; on a
    version 6 header with the TDDI option it starts at 0x100 in any
    case.  A configuration of non-zero size starts where the firmware
    ends.  An area of size zero keeps the pointer it had.  The image
    counts as holding a display configuration when it has the
    bootloader or the TDDI option. *)
Theorem fwu_parse_image_header_05_06_layout :
  forall (hdr : dsx_header) (PRODUCT_ID_SIZE : Z) (im : buffer)
         (i0 : image_info),
  exists i,
    fwu_parse_image_header_05_06 hdr PRODUCT_ID_SIZE (Some im) i0 = Ret i tt /\
    let tddi := (rd im 7 =? BL_V6) && Z.testbit (rd im 6) 3 in
    let fw := ui_firmware (meta i) in
    let cfg := ui_config (meta i) in
    lockdown (meta i)
    = {| size := LOCKDOWN_SIZE;
         data := Some (ptr_add im (IMAGE_AREA_OFFSET - LOCKDOWN_SIZE)) |} /\
    size fw = le_to_uint (ptr_add im 8) /\
    size cfg = le_to_uint (ptr_add im 12) /\
    data fw
    = (if tddi then Some (ptr_add im IMAGE_AREA_OFFSET)
       else if size fw =? 0 then data (ui_firmware (meta i0))
       else if Z.testbit (rd im 6) 1
       then Some (ptr_add (ptr_add im IMAGE_AREA_OFFSET)
                    (le_to_uint (ptr_add im 0x24)))
       else Some (ptr_add im IMAGE_AREA_OFFSET)) /\
    data cfg
    = (if size cfg =? 0 then data (ui_config (meta i0))
       else ptr_advance (data fw) (size fw)) /\
    contains_disp_config (meta i)
    = Z.testbit (rd im 6) 1 || Z.testbit (rd im 6) 3.
Proof.
  intros hdr pid im i0.
  cbv beta iota delta [fwu_parse_image_header_05_06].
  generalize (le_to_uint (ptr_add im 8)) as fsz.
  generalize (le_to_uint (ptr_add im 12)) as csz.
  generalize (le_to_uint (ptr_add im 36)) as bsz.
  generalize (le_to_uint (ptr_add im 64)) as dsp.
  generalize (le_to_uint (ptr_add im 68)) as dsz.
  generalize (le_to_uint (ptr_add im 80)) as fid.
  generalize (le_to_uint im) as sum.
  generalize (rd im 7) as v.
  generalize (Z.testbit (rd im 6) 0) as o_id.
  generalize (Z.testbit (rd im 6) 1) as o_bl.
  generalize (Z.testbit (rd im 6) 3) as o_tddi.
  generalize (secure_memcpy hdr) as copy.
  intros copy o_tddi o_bl o_id v sum fid dsz dsp bsz csz fsz.
  destruct i0 as [[] ? ? ? ? ? ?].
  destruct o_tddi, fsz, csz, o_bl, o_id;
    destruct v as [|[[[?|?|]|[?|?|]|]|[[?|?|]|[?|?|]|]|]|?];
    (eexists; split;
     [cbv -[store Z.to_nat ptr_add Z.add]; reflexivity
     |cbv -[store Z.to_nat ptr_add Z.add]; repeat split]).
Qed.
